(** * Multilingual document summarizer: the browser-side intake and batch code

    A shallow embedding of [src/script.js] and [src/file-handler.js]:
    the upload validator, the two file registries, the per-item status
    updates, the two batch loops (process button, summarize button) with
    their grouping by three, and the statistics shown after a summary.

    The page is a record; synchronous JavaScript is written in a state and
    exception monad over it; an [async] function is cut at its [await] of a
    remote call into a segment that runs up to the call and a segment that
    runs from its settlement on.  What the network and the user do while a
    handler is suspended is an explicit argument ([env]). *)

From Stdlib Require Import ZArith QArith Qround Ascii Uint63.
From Stdlib Require Import Floats.PrimFloat Floats.FloatOps Floats.SpecFloat.
From stdpp Require Import gmap strings list pretty.

Open Scope string_scope.
Open Scope list_scope.
Open Scope Z_scope.

(** ** Data *)

(** A [.file-item] element is identified by its allocation number: two
    elements are the same key of a [WeakMap] exactly when they are the same
    object. *)
Abbreviation handle := nat (only parsing).

(** The browser's [File]: only what the code reads. *)
Module File.
Record t := mk { name : string; size : Z; type : string }.
End File.

(** JavaScript exceptions, by constructor; [message] is [e.message].  The text
    of a [TypeError] or [SyntaxError] is the engine's. *)
Inductive exn :=
| Error (msg : string)
| TypeError (msg : string)
| SyntaxError (msg : string).

Definition message (e : exn) : string :=
  match e with Error m | TypeError m | SyntaxError m => m end.

(** Reading, and writing, a property of [null].  The source does not fix
    the text of these errors: it is the engine's, given here as V8 words
    it. *)
Definition null_property (prop : string) : exn :=
  TypeError ("Cannot read properties of null (reading '" +:+ prop +:+ "')").
Definition null_property_set (prop : string) : exn :=
  TypeError ("Cannot set properties of null (setting '" +:+ prop +:+ "')").

(** A cloned [.file-item]: the three descendants the code looks up with
    [querySelector]; [None] is a missing descendant ([null]). *)
Record item_el := {
  file_select : option bool;     (* .file-select checkbox: its [checked] *)
  file_status : option string;   (* .file-status: its [textContent] *)
  progress_fill : option Z       (* .progress-fill: [style.width], percent *)
}.

(** The registries.  [fileHandler.fileMap] and [window.__fileMap] are one
    object once [displayFileInfo] has exposed it. *)
Record registries := {
  fileMap : gmap handle File.t;              (* script.js: const fileMap *)
  fileHandler_fileMap : gmap handle File.t;  (* file-handler.js: fileHandler.fileMap *)
  window_fileMap_set : bool                  (* window.__fileMap = this.fileMap ran *)
}.

Definition window_fileMap (r : registries) : option (gmap handle File.t) :=
  if window_fileMap_set r then Some (fileHandler_fileMap r) else None.

(** The document: the file list and the template it is cloned from. *)
Record document := {
  fileList : list handle;           (* .file-item:not(.template), document order *)
  file_items : gmap handle item_el; (* every element ever cloned, attached or not *)
  template : option item_el;        (* .file-item.template *)
  next_handle : handle              (* allocation counter of cloneNode *)
}.

(** The places where [showError] renders: [None] is a missing container, the
    list is the container's [.error-message] nodes in document order. *)
Record surfaces := {
  errorContainer : option (list string);     (* #errorContainer *)
  processing_options : option (list string)  (* .processing-options *)
}.

Record controls := {
  processBtn_disabled : bool;
  summarizeBtn_disabled : bool;
  loading_hidden : option bool     (* #loading: has class hidden; None: no element *)
}.

(** What [outputText.innerHTML] is set to, by template. *)
Inductive html :=
| Blank
| SummaryContent (summary : string)
| SummaryItems (items : list (option string * option string)). (* filename, summary; joined by <hr> *)

Record output_el := { innerHTML : html; revealed : bool }.

(** A call of [animateNumber(el, from, to, 600, fmt)]. *)
Inductive stat_el := WordCount | SummaryRatio.
Record animation := { anim_el : stat_el; anim_from : float; anim_to : float; anim_percent : bool }.

Record output := {
  outputText : option output_el;    (* #outputText *)
  wordCount : option float;         (* #wordCount: what parseInt reads of its text, or 0 *)
  summaryRatio : option float;      (* #summaryRatio: likewise, the % removed *)
  animations : list animation
}.

(** What the handlers read and never write. *)
Record inputs := {
  activeTab : option string;        (* .tab-btn.active: dataset.tab *)
  targetLanguage_value : string;
  inputText_value : string;
  preserveFormatting : option bool; (* #preserveFormatting?.checked *)
  processInBatch : option bool;     (* #processInBatch?.checked *)
  has_dropZone : bool               (* #dropZone is not null *)
}.

(** The remote calls, as an instrumented [fetch] would record them. *)
Inductive endpoint := UPLOAD (item : handle) | SUMMARIZE.

(** The fields of a request body; [None] is a field that is not sent. *)
Record form := {
  file : option File.t;
  text : option string;
  target_language : string;
  max_length : Z;
  min_length : Z;
  preserve_formatting : option bool
}.

Inductive event :=
| Dispatch (c : endpoint) (f : form)   (* fetch(...) is called *)
| Settle (c : endpoint).               (* its promise, and the body's, settled *)

Record page := {
  inp : inputs;
  reg : registries;
  doc : document;
  surf : surfaces;
  ctl : controls;
  out : output;
  network : list event
}.

#[global] Instance endpoint_eq_dec : EqDecision endpoint.
Proof. solve_decision. Defined.

(** Field updates. *)
Definition set_reg (r : registries) (p : page) : page :=
  {| inp := inp p; reg := r; doc := doc p; surf := surf p; ctl := ctl p; out := out p;
     network := network p |}.
Definition set_doc (d : document) (p : page) : page :=
  {| inp := inp p; reg := reg p; doc := d; surf := surf p; ctl := ctl p; out := out p;
     network := network p |}.
Definition set_surf (s : surfaces) (p : page) : page :=
  {| inp := inp p; reg := reg p; doc := doc p; surf := s; ctl := ctl p; out := out p;
     network := network p |}.
Definition set_ctl (c : controls) (p : page) : page :=
  {| inp := inp p; reg := reg p; doc := doc p; surf := surf p; ctl := c; out := out p;
     network := network p |}.
Definition set_out (o : output) (p : page) : page :=
  {| inp := inp p; reg := reg p; doc := doc p; surf := surf p; ctl := ctl p; out := o;
     network := network p |}.
Definition record_event (e : event) (p : page) : page :=
  {| inp := inp p; reg := reg p; doc := doc p; surf := surf p; ctl := ctl p; out := out p;
     network := network p ++ [e] |}.

(** ** Synchronous code: state and exceptions *)

Inductive completion (A : Type) :=
| Normal (a : A)
| Throw (e : exn).
Arguments Normal {A} a.
Arguments Throw {A} e.

Definition M (A : Type) : Type := page -> completion A * page.

Definition ret {A} (a : A) : M A := fun p => (Normal a, p).
Definition throw {A} (e : exn) : M A := fun p => (Throw e, p).
Definition bind {A B} (m : M A) (k : A -> M B) : M B :=
  fun p => match m p with
           | (Normal a, p') => k a p'
           | (Throw e, p') => (Throw e, p')
           end.
Definition get : M page := fun p => (Normal p, p).
Definition modify (f : page -> page) : M unit := fun p => (Normal tt, f p).

(** [try { m } catch (e) { h e }] *)
Definition try_catch {A} (m : M A) (h : exn -> M A) : M A :=
  fun p => match m p with
           | (Normal a, p') => (Normal a, p')
           | (Throw e, p') => h e p'
           end.

(** [try { m } finally { f }]: [f] runs on both completions, and its own
    exception replaces the body's. *)
Definition try_finally {A} (m : M A) (f : M unit) : M A :=
  fun p => match m p with
           | (c, p') => match f p' with
                        | (Normal _, p'') => (c, p'')
                        | (Throw e, p'') => (Throw e, p'')
                        end
           end.

Notation "'let!' x ':=' m 'in' k" := (bind m (fun x => k))
  (at level 10, x pattern, m at level 100, k at level 200).
Notation "m ';;;' k" := (bind m (fun _ => k))
  (at level 100, k at level 200, right associativity).

(** [items.forEach(f)] and a [for ... of] loop without [await]. *)
Fixpoint forEach {A} (f : A -> M unit) (l : list A) : M unit :=
  match l with
  | [] => ret tt
  | x :: l' => f x ;;; forEach f l'
  end.

(** ** Shared helpers of script.js *)

Definition no_children : item_el :=
  {| file_select := None; file_status := None; progress_fill := None |}.

(** The element behind a handle; a handle never cloned has no descendants. *)
Definition item_of (p : page) (fileItem : handle) : item_el :=
  default no_children (file_items (doc p) !! fileItem).

Definition set_item (fileItem : handle) (el : item_el) (p : page) : page :=
  set_doc {| fileList := fileList (doc p);
             file_items := <[fileItem := el]> (file_items (doc p));
             template := template (doc p);
             next_handle := next_handle (doc p) |} p.

(** [updateFileStatus(fileItem, status, progress = null)]: the text is
    written before the width, so a missing [.progress-fill] throws after the
    text has changed. *)
Definition updateFileStatus (fileItem : handle) (status : string) (progress : option Z)
  : M unit :=
  fun p =>
    let el := item_of p fileItem in
    match file_status el with
    | None => (Throw (null_property_set "textContent"), p)
    | Some _ =>
        let el1 := {| file_select := file_select el; file_status := Some status;
                      progress_fill := progress_fill el |} in
        match progress with
        | None => (Normal tt, set_item fileItem el1 p)
        | Some w =>
            match progress_fill el with
            | None => (Throw (null_property "style"), set_item fileItem el1 p)
            | Some _ =>
                (Normal tt,
                 set_item fileItem {| file_select := file_select el; file_status := Some status;
                                      progress_fill := Some w |} p)
            end
        end
    end.

Inductive container := ErrorContainer | ProcessingOptions.

Definition container_nodes (c : container) (s : surfaces) : option (list string) :=
  match c with
  | ErrorContainer => errorContainer s
  | ProcessingOptions => processing_options s
  end.

Definition set_container (c : container) (nodes : list string) (p : page) : page :=
  match c with
  | ErrorContainer =>
      set_surf {| errorContainer := Some nodes;
                  processing_options := processing_options (surf p) |} p
  | ProcessingOptions =>
      set_surf {| errorContainer := errorContainer (surf p);
                  processing_options := Some nodes |} p
  end.

(** [showError(message, container)], for a string message.  The first
    [.error-message] of the container is removed, then the new one is added
    (before the drop zone when the container is its parent, at the end
    otherwise: after the older messages either way).  The timers that fade
    the message out after five seconds are not part of the model. *)
Definition showError (msg : string) (c : container) : M unit :=
  fun p =>
    match container_nodes c (surf p) with
    | None => (Throw (null_property "querySelector"), p)
    | Some nodes =>
        if has_dropZone (inp p)
        then (Normal tt, set_container c (tail nodes ++ [msg]) p)
        else (Throw (null_property "parentElement"), set_container c (tail nodes) p)
    end.

(** script.js:40-51 *)
Definition maxFileSize : Z := 10 * 1024 * 1024.

Definition supported_types : list (string * bool) :=
  [ ("text/plain", true);
    ("application/pdf", true);
    ("application/msword", true);
    ("application/vnd.openxmlformats-officedocument.wordprocessingml.document", true);
    ("image/jpeg", true);
    ("image/png", true);
    ("image/gif", true);
    ("image/bmp", true);
    ("image/tiff", true) ].

(** The own properties of the object literal. *)
Definition acceptedTypes : gmap string bool := list_to_map supported_types.

(** The string-keyed properties that an object literal inherits from
    [Object.prototype]: eleven functions and the accessor [__proto__], which
    gives the prototype itself.  Every one of them is truthy. *)
Definition Object_prototype_keys : list string :=
  [ "constructor"; "__defineGetter__"; "__defineSetter__"; "hasOwnProperty";
    "__lookupGetter__"; "__lookupSetter__"; "isPrototypeOf"; "propertyIsEnumerable";
    "toString"; "valueOf"; "__proto__"; "toLocaleString" ].

(** [obj[t]] is truthy, for an object literal with the own properties [m]:
    an own property decides; for any other key the lookup goes on to
    [Object.prototype]. *)
Definition truthy_entry (m : gmap string bool) (t : string) : bool :=
  match m !! t with
  | Some b => b
  | None => bool_decide (t ∈ Object_prototype_keys)
  end.

(** script.js:188-200 *)
Definition validateFile (file : File.t) : M bool :=
  if maxFileSize <? File.size file then
    showError "File size must be less than 10MB" ErrorContainer ;;; ret false
  else if negb (truthy_entry acceptedTypes (File.type file)) then
    showError "File type not supported" ErrorContainer ;;; ret false
  else ret true.

(** script.js:245-255 *)
Definition getFileFromItem (fileItem : handle) (r : registries) : option File.t :=
  match fileMap r !! fileItem with
  | Some f => Some f
  | None =>
      match window_fileMap r with
      | Some m => m !! fileItem
      | None => None
      end
  end.

(** ** file-handler.js *)

Module fileHandler.

Definition MAX_FILE_SIZE : Z := 10 * 1024 * 1024.
  (** The own properties of the object literal; the lookup [truthy_entry]
      goes on to [Object.prototype] as for [acceptedTypes]. *)
Definition SUPPORTED_TYPES : gmap string bool := list_to_map supported_types.

  (** [formatFileSize(MAX_FILE_SIZE)]: the index is floor(log 10485760 / log 1024) = 2
      and 10485760 / 1024^2 = 10, printed as 10 and the unit MB. *)
Definition formatted_MAX_FILE_SIZE : string := "10 MB".

Definition too_large (file : File.t) : string :=
    "File " +:+ File.name file +:+ " is too large. Maximum size is " +:+ formatted_MAX_FILE_SIZE.
Definition not_supported (file : File.t) : string :=
    "File type " +:+ File.type file +:+ " is not supported for " +:+ File.name file.

  (** [fileHandler.showError]: always on #errorContainer, always appended. *)
Definition showError (msg : string) : M unit :=
    fun p =>
      match errorContainer (surf p) with
      | None => (Throw (null_property "querySelector"), p)
      | Some nodes => (Normal tt, set_container ErrorContainer (tail nodes ++ [msg]) p)
      end.

  (** [displayFileInfo(file)]: clone the template, register the file under
      the clone, expose the map on [window], tick the checkbox, append to the
      list.  The icon, name and size texts and the remove button are rendering
      and are taken to be present. *)
Definition displayFileInfo (file : File.t) : M unit :=
    fun p =>
      match template (doc p) with
      | None => (Throw (null_property "cloneNode"), p)
      | Some t =>
          let fileItem := next_handle (doc p) in
          let el := {| file_select := (fun _ => true) <$> file_select t;
                       file_status := file_status t;
                       progress_fill := progress_fill t |} in
          let r := {| fileMap := fileMap (reg p);
                      fileHandler_fileMap := <[fileItem := file]> (fileHandler_fileMap (reg p));
                      window_fileMap_set := true |} in
          let d := {| fileList := fileList (doc p) ++ [fileItem];
                      file_items := <[fileItem := el]> (file_items (doc p));
                      template := template (doc p);
                      next_handle := S fileItem |} in
          (Normal tt, set_doc d (set_reg r p))
      end.

  (** The two checks of the [forEach] callback of [handleFiles]: the message
      of the first check that fails, if one does. *)
Definition rejection (file : File.t) : option string :=
    if MAX_FILE_SIZE <? File.size file then Some (too_large file)
    else if negb (truthy_entry SUPPORTED_TYPES (File.type file)) then
      Some (not_supported file)
    else None.

  (** The callback: show the message and return, or display the file. *)
Definition handleFile (file : File.t) : M unit :=
    match rejection file with
    | Some msg => showError msg
    | None => displayFileInfo file
    end.

Definition handleFiles (files : list File.t) : M unit := forEach handleFile files.

End fileHandler.

(** ** The remote service and the user, while a handler is suspended *)

(** [detail] of an error body: absent, a string, or a list of objects with a
    [msg] each. *)
Inductive detail_value := NoDetail | DetailString (s : string) | DetailList (msgs : list string).

Record json := {
  detail : detail_value;
  filename : option string;
  summary : option string;
  original_length : option float;
  summary_length : option float
}.

Inductive fetch_result :=
| Rejects (e : exn)                           (* fetch() rejects *)
| Response (status : Z) (body : option json). (* body None: response.json() rejects *)

Definition ok (status : Z) : bool := (200 <=? status) && (status <=? 299).

(** What [response.json()] rejects with for a body that is not JSON.  The
    source does not fix the text: it is the engine's and depends on the
    body; given here as V8 words it for an empty body. *)
Definition not_json : exn := SyntaxError "Unexpected end of JSON input".

(** [new Error(d || fallback).message] *)
Definition detail_or (d : detail_value) (fallback : string) : string :=
  match d with
  | NoDetail => fallback
  | DetailString s => if decide (s = "") then fallback else s
  | DetailList msgs => String.concat "," (map (fun _ => "[object Object]") msgs)
  end.

(** Which script created an item decides which map its remove button clears. *)
Inductive intake := ScriptJs | FileHandlerJs.
Record removal := { removed : handle; created_by : intake }.

(** The timer callback of a remove button: [fileItem.remove()] and
    [fileMap.delete(fileItem)] on the creating script's map. *)
Definition remove_item (r : removal) (p : page) : page :=
  let h := removed r in
  let d := {| fileList := filter (fun x => x ≠ h) (fileList (doc p));
              file_items := file_items (doc p);
              template := template (doc p);
              next_handle := next_handle (doc p) |} in
  let rg := match created_by r with
            | ScriptJs =>
                {| fileMap := delete h (fileMap (reg p));
                   fileHandler_fileMap := fileHandler_fileMap (reg p);
                   window_fileMap_set := window_fileMap_set (reg p) |}
            | FileHandlerJs =>
                {| fileMap := fileMap (reg p);
                   fileHandler_fileMap := delete h (fileHandler_fileMap (reg p));
                   window_fileMap_set := window_fileMap_set (reg p) |}
            end in
  set_doc d (set_reg rg p).

(** Everything outside the handler's control during one run. *)
Record env := {
  reply : endpoint -> fetch_result;  (* how each remote call settles *)
  pick : list event -> nat;          (* which call in flight settles next, given the history *)
  removals : nat -> list removal     (* removals that fire while the loop waits at index i *)
}.

Definition fetch (c : endpoint) (f : form) : M unit := modify (record_event (Dispatch c f)).

(** ** Asynchronous functions, cut at the remote call *)

(** Where the first segment of an [async] function stops. *)
Inductive progress (A : Type) :=
| Suspended            (* at the await of fetch *)
| Finished (a : A).
Arguments Suspended {A}.
Arguments Finished {A} a.

Inductive promise (A : Type) :=
| Pending
| Fulfilled (a : A)
| Rejected (e : exn).
Arguments Pending {A}.
Arguments Fulfilled {A} a.
Arguments Rejected {A} e.

Definition launched {A} (c : completion (progress A)) : promise A :=
  match c with
  | Normal Suspended => Pending
  | Normal (Finished a) => Fulfilled a
  | Throw e => Rejected e
  end.

Definition settled {A} (c : completion A) : promise A :=
  match c with
  | Normal a => Fulfilled a
  | Throw e => Rejected e
  end.

Definition is_pending {A} (pr : promise A) : bool :=
  match pr with Pending => true | _ => false end.

Definition rejection {A} (pr : promise A) : option exn :=
  match pr with Rejected e => Some e | _ => None end.

Definition fulfilment {A} (pr : promise A) : option A :=
  match pr with Fulfilled a => Some a | _ => None end.

Definition lang_or_en (p : page) : string :=
  if decide (targetLanguage_value (inp p) = "") then "en" else targetLanguage_value (inp p).

(** *** [uploadFile(file, fileItem)], script.js:212-239 *)

Definition uploadFile_catch {A} (fileItem : handle) (error : exn) : M A :=
  updateFileStatus fileItem ("Error: " +:+ message error) (Some 0) ;;; throw error.

Definition uploadFile_start (file : File.t) (fileItem : handle) : M unit :=
  try_catch
    (let! p := get in
     let formData := {| file := Some file; text := None; target_language := lang_or_en p;
                        max_length := 150; min_length := 50; preserve_formatting := None |} in
     updateFileStatus fileItem "Uploading..." (Some 30) ;;;
     fetch (UPLOAD fileItem) formData)
    (uploadFile_catch fileItem).

Definition uploadFile_resume (fileItem : handle) (r : fetch_result) : M json :=
  try_catch
    (match r with
     | Rejects e => throw e
     | Response status None => throw not_json
     | Response status (Some data) =>
         if ok status then updateFileStatus fileItem "Completed" (Some 100) ;;; ret data
         else throw (Error (detail_or (detail data) "Upload failed"))
     end)
    (uploadFile_catch fileItem).

(** *** [handleApiResponse] and [processFile(file, fileItem)], script.js:124-130, 411-441 *)

Definition handleApiResponse (status : Z) (body : option json) : M json :=
  if ok status then
    match body with
    | Some data => ret data
    | None => throw not_json
    end
  else
    (* response.json().catch(() => ({})) *)
    let d := match body with Some error => detail error | None => NoDetail end in
    throw (Error (detail_or d ("API Error: " +:+ pretty status))).

Definition processFile_catch {A} (fileItem : handle) (error : exn) : M A :=
  updateFileStatus fileItem ("Error: " +:+ message error) (Some 0) ;;; throw error.

Definition processFile_start (file : File.t) (fileItem : handle) : M unit :=
  let! p := get in
  let formData := {| file := Some file; text := None; target_language := lang_or_en p;
                     max_length := 150; min_length := 50;
                     preserve_formatting :=
                       match preserveFormatting (inp p) with
                       | Some true => Some true
                       | _ => None
                       end |} in
  try_catch
    (updateFileStatus fileItem "Processing..." (Some 50) ;;;
     fetch (UPLOAD fileItem) formData)
    (processFile_catch fileItem).

Definition processFile_resume (fileItem : handle) (r : fetch_result) : M json :=
  try_catch
    (let! data := match r with
                  | Rejects e => throw e
                  | Response status body => handleApiResponse status body
                  end in
     updateFileStatus fileItem "Completed" (Some 100) ;;;
     ret data)
    (processFile_catch fileItem).

(** ** Groups of promises *)

(** [items.slice(i, j)] *)
Definition slice {T} (i j : nat) (l : list T) : list T := take (j - i) (drop i l).

(** [for (let i = 0; i < items.length; i += 3) { acc = await body(i, items.slice(i, i + 3)) }].
    The fuel bounds the number of iterations; [length items] is enough
    ([for_groups_fuel]). *)
Fixpoint for_groups {St} (fuel i : nat) (items : list handle) (acc : St)
    (body : nat -> list handle -> St -> M St) : M St :=
  match fuel with
  | O => ret acc
  | S fuel' =>
      if (i <? length items)%nat then
        let! acc' := body i (slice i (i + 3) items) acc in
        for_groups fuel' (i + 3) items acc' body
      else ret acc
  end.

Section Groups.
Context {A : Type}.
  (** The callback of the map, as its two segments. *)
Variable start : handle -> M (progress A).
Variable resume : handle -> fetch_result -> M A.
Variable ev : env.

  (** One entry of the promise array, with the item it belongs to. *)
Abbreviation slot := (handle * promise A)%type (only parsing).

  (** [batch.map(async item => ...)]: every callback runs, in order, up to
      its first suspension. *)
Fixpoint map_async (batch : list handle) (p : page) : list slot * page :=
    match batch with
    | [] => ([], p)
    | item :: rest =>
        let '(c, p1) := start item p in
        let '(slots, p2) := map_async rest p1 in
        ((item, launched c) :: slots, p2)
    end.

Fixpoint pending_from (i : nat) (slots : list slot) : list (nat * handle) :=
    match slots with
    | [] => []
    | (item, pr) :: rest =>
        if is_pending pr then (i, item) :: pending_from (S i) rest
        else pending_from (S i) rest
    end.

Definition first_rejected (slots : list slot) : option exn :=
    head (omap (fun s : slot => rejection (snd s)) slots).

  (** The combined promise is already decided: nothing is pending, or, for
      [Promise.all], one input has rejected. *)
Definition decided (fail_fast : bool) (slots : list slot) : bool :=
    (fail_fast && bool_decide (is_Some (first_rejected slots)))
    || bool_decide (pending_from 0 slots = []).

  (** The handler waits; one call in flight settles at a time, chosen by the
      environment, and its callback runs to its end. *)
Fixpoint settle_loop (fail_fast : bool) (fuel : nat) (slots : list slot) (p : page)
    : list slot * page :=
    match fuel with
    | O => (slots, p)
    | S fuel' =>
        if decided fail_fast slots then (slots, p)
        else
          match pending_from 0 slots with
          | [] => (slots, p)
          | first :: others =>
              let '(i, item) :=
                nth (pick ev (network p) `mod` length (first :: others)) (first :: others) first in
              let p1 := record_event (Settle (UPLOAD item)) p in
              let '(c, p2) := resume item (reply ev (UPLOAD item)) p1 in
              settle_loop fail_fast fuel' (<[i := (item, settled c)]> slots) p2
          end
    end.

  (** Timers fire only if the handler really yields to the event loop. *)
Definition while_suspended (fail_fast : bool) (i : nat) (slots : list slot) (p : page) : page :=
    if decided fail_fast slots then p
    else foldl (fun q r => remove_item r q) p (removals ev i).

Definition run_group (fail_fast : bool) (i : nat) (batch : list handle) (p : page)
    : list slot * page :=
    let '(slots, p1) := map_async batch p in
    settle_loop fail_fast (length batch) slots (while_suspended fail_fast i slots p1).

  (** [await Promise.all(batch.map(...))] *)
Definition Promise_all (i : nat) (batch : list handle) : M (list A) :=
    fun p =>
      let '(slots, p') := run_group true i batch p in
      match first_rejected slots with
      | Some err => (Throw err, p')
      | None => (Normal (omap (fun s : slot => fulfilment (snd s)) slots), p')
      end.

  (** [await Promise.allSettled(batch.map(...))] *)
Definition Promise_allSettled (i : nat) (batch : list handle) : M (list (promise A)) :=
    fun p =>
      let '(slots, p') := run_group false i batch p in
      (Normal (snd <$> slots), p').
End Groups.

(** ** The process button, script.js:316-363 *)

Definition set_processBtn_disabled (b : bool) : M unit :=
  modify (fun p => set_ctl {| processBtn_disabled := b;
                              summarizeBtn_disabled := summarizeBtn_disabled (ctl p);
                              loading_hidden := loading_hidden (ctl p) |} p).

Module processBtn.

  (** The filter of the click handler: ticked and not yet completed.  A
      missing checkbox is not ticked; a missing status is not 'Completed'. *)
Definition selected (el : item_el) : bool :=
    match file_select el with
    | Some true => bool_decide (file_status el ≠ Some "Completed")
    | _ => false
    end.

Definition selectedItems (p : page) : list handle :=
    List.filter (fun item => selected (item_of p item)) (fileList (doc p)).

  (** The inner [catch (err)]. *)
Definition on_error (item : handle) (err : exn) : M unit :=
    updateFileStatus item ("Error: " +:+ message err) (Some 0).

  (** The callback of [batch.map], up to the call of [fetch] inside
      [uploadFile].  Its value is what it adds to [successCount]. *)
Definition start (item : handle) : M (progress nat) :=
    try_catch
      (let! p := get in
       match getFileFromItem item (reg p) with
       | None => throw (Error "File not found")
       | Some file => uploadFile_start file item ;;; ret Suspended
       end)
      (fun err => on_error item err ;;; ret (Finished 0%nat)).

  (** The same callback from the settlement of its call on. *)
Definition resume (item : handle) (r : fetch_result) : M nat :=
    try_catch
      (uploadFile_resume item r ;;; ret 1%nat)
      (fun err => on_error item err ;;; ret 0%nat).

  (** The [for] loop of the handler; its value is [successCount]. *)
Definition batches (ev : env) (items : list handle) : M nat :=
    for_groups (length items) 0 items 0%nat
      (fun i batch successCount =>
         let! added := Promise_all start resume ev i batch in
         ret (successCount + sum_list added)%nat).

Definition success_message (successCount : nat) : string :=
    "Successfully processed " +:+ pretty successCount +:+ " file(s)".

Definition click (ev : env) : M unit :=
    let! p := get in
    let items := selectedItems p in
    if bool_decide (items = []) then
      showError "Please select files to process" ErrorContainer
    else
      set_processBtn_disabled true ;;;
      try_finally
        (try_catch
           (let! successCount := batches ev items in
            if (0 <? successCount)%nat
            then showError (success_message successCount) ProcessingOptions
            else ret tt)
           (fun error =>
              showError "Error during batch processing. Some files may not have been processed."
                ErrorContainer))
        (set_processBtn_disabled false).

End processBtn.

(** ** Strings and numbers of the statistics *)

(** Code units below 256 that [\s] and [trim] treat as white space. *)
Definition is_space (c : ascii) : bool :=
  bool_decide (Ascii.nat_of_ascii c ∈ [9; 10; 11; 12; 13; 32; 160]%nat).

Fixpoint trimStart (s : list ascii) : list ascii :=
  match s with
  | c :: s' => if is_space c then trimStart s' else s
  | [] => []
  end.

(** [s.trim()] *)
Definition trim (s : string) : string :=
  String.string_of_list_ascii (rev (trimStart (rev (trimStart (String.list_ascii_of_string s))))).

(** [s.split(/\s+/)], on code units: [cur] is the piece being read, reversed;
    [in_gap] says the previous unit was white space. *)
Fixpoint split_spaces (s : list ascii) (cur : list ascii) (in_gap : bool) : list string :=
  match s with
  | [] => [String.string_of_list_ascii (rev cur)]
  | c :: s' =>
      if is_space c then
        if in_gap then split_spaces s' [] true
        else String.string_of_list_ascii (rev cur) :: split_spaces s' [] true
      else split_spaces s' (c :: cur) false
  end.

Definition split_ws (s : string) : list string := split_spaces (String.list_ascii_of_string s) [] false.

(** A length or a count as a JavaScript number. *)
Definition number (n : nat) : float := of_uint63 (Uint63.of_Z (Z.of_nat n)).

(** [Math.round]: the nearest integer, ties upwards; computed exactly from
    the mantissa [m] and exponent [e] of [x] = [±m·2^e]. *)
Definition Math_round (x : float) : float :=
  match Prim2SF x with
  | S754_finite sg m e =>
      if 0 <=? e then x
      else
        let n := if sg then Z.neg m else Z.pos m in
        let r := (2 * n + 2 ^ (- e)) / 2 ^ (1 - e) in
        let a := of_uint63 (Uint63.of_Z (Z.abs r)) in
        if sg then (- a)%float else a
  | _ => x
  end.

(** A value that is a string or a number ([typeof]). *)
Inductive jsvalue := Str (s : string) | Num (x : float).

(** [v.trim().split(/\s+/).length] for a string, [v] itself for a number. *)
Definition as_length (v : jsvalue) : float :=
  match v with
  | Str s => number (length (split_ws (trim s)))
  | Num x => x
  end.

Definition truthy_number (x : float) : bool := negb (x =? 0)%float && negb (is_nan x).

(** [animateNumber(el, from, to, 600, fmt)] only starts an animation. *)
Definition animateNumber (el : stat_el) (from to : float) (percent : bool) : M unit :=
  modify (fun p =>
    set_out {| outputText := outputText (out p);
               wordCount := wordCount (out p);
               summaryRatio := summaryRatio (out p);
               animations := animations (out p) ++
                 [{| anim_el := el; anim_from := from; anim_to := to; anim_percent := percent |}]
            |} p).

(** The number written by the last frame of an animation, where t = 1 and
    the easing is 1 - (1 - 1)^3 = 1. *)
Definition last_frame (a : animation) : float :=
  Math_round (anim_from a + (anim_to a - anim_from a) * 1)%float.

(** script.js:443-466 *)
Definition updateStats (originalLength summaryLength : jsvalue) : M unit :=
  let originalLength := as_length originalLength in
  let summaryLength := as_length summaryLength in
  let! p := get in
  match wordCount (out p) with
  | Some start => animateNumber WordCount start originalLength false
  | None => ret tt
  end ;;;
  match summaryRatio (out p) with
  | Some startR =>
      if (0 <? originalLength)%float then
        let ratio := Math_round ((1 - summaryLength / originalLength) * 100)%float in
        animateNumber SummaryRatio startR ratio true
      else ret tt
  | None => ret tt
  end.

(** ** The summarize button, script.js:102-121 and 503-663 *)

Definition set_loading_hidden (b : bool) : M unit :=
  fun p =>
    match loading_hidden (ctl p) with
    | None => (Throw (null_property "classList"), p)
    | Some _ =>
        (Normal tt, set_ctl {| processBtn_disabled := processBtn_disabled (ctl p);
                               summarizeBtn_disabled := summarizeBtn_disabled (ctl p);
                               loading_hidden := Some b |} p)
    end.

Definition set_summarizeBtn_disabled (b : bool) : M unit :=
  modify (fun p => set_ctl {| processBtn_disabled := processBtn_disabled (ctl p);
                              summarizeBtn_disabled := b;
                              loading_hidden := loading_hidden (ctl p) |} p).

Definition set_outputText (f : output_el -> output_el) : M unit :=
  fun p =>
    match outputText (out p) with
    | None => (Throw (null_property_set "innerHTML"), p)
    | Some el =>
        (Normal tt, set_out {| outputText := Some (f el);
                               wordCount := wordCount (out p);
                               summaryRatio := summaryRatio (out p);
                               animations := animations (out p) |} p)
    end.

Definition set_innerHTML (h : html) : M unit :=
  set_outputText (fun el => {| innerHTML := h; revealed := revealed el |}).

(** [outputText.classList.add('revealed')] *)
Definition reveal : M unit :=
  set_outputText (fun el => {| innerHTML := innerHTML el; revealed := true |}).

(** An [await] of one remote call outside a group: timers may fire, then
    the call settles. *)
Definition await_call (ev : env) (c : endpoint) (i : nat) : M fetch_result :=
  modify (fun p => record_event (Settle c) (foldl (fun q r => remove_item r q) p (removals ev i))) ;;;
  ret (reply ev c).

Definition validateInput (text : string) : M string :=
  if bool_decide (text = "") then throw (Error "No text provided for summarization")
  else
    let trimmedText := trim text in
    if bool_decide (String.length trimmedText = 0%nat) then
      throw (Error "Please enter some text to summarize")
    else if Z.of_nat (String.length trimmedText) <? 50 then
      throw (Error "Text is too short. Please enter at least 50 characters")
    else if 50000 <? Z.of_nat (String.length trimmedText) then
      throw (Error "Text is too long. Please enter less than 50,000 characters")
    else ret trimmedText.

Module summarizeBtn.

  (** The message thrown for a response that is not ok, text tab. *)
Definition errorMessage (status : Z) (data : json) : string :=
    if bool_decide (status = 422) then
      match detail data with
      | NoDetail => "Invalid input data. Please check your input and try again."
      | DetailString s =>
          if decide (s = "") then "Invalid input data. Please check your input and try again."
          else s
      | DetailList msgs => String.concat ", " msgs
      end
    else detail_or (detail data) ("Server error! Status: " +:+ pretty status).

Definition text_branch (ev : env) (selectedLanguage : string) : M unit :=
    let! p := get in
    let! text := validateInput (inputText_value (inp p)) in
    (if bool_decide (text = "") || bool_decide (String.length (trim text) = 0%nat)
     then throw (Error "Please enter valid text to summarize") else ret tt) ;;;
    let requestData :=
      {| file := None; text := Some text;
         target_language := if decide (selectedLanguage = "") then "en" else selectedLanguage;
         max_length := 150; min_length := 50;
         preserve_formatting := Some (match preserveFormatting (inp p) with
                                      | Some true => true
                                      | _ => false
                                      end) |} in
    fetch SUMMARIZE requestData ;;;
    let! r := await_call ev SUMMARIZE 0 in
    match r with
    | Rejects e => throw e
    | Response status None => throw not_json
    | Response status (Some data) =>
        (if ok status then ret tt else throw (Error (errorMessage status data))) ;;;
        match summary data with
        | None => throw (Error "No summary was generated. Please try again.")
        | Some s =>
            if decide (s = "") then throw (Error "No summary was generated. Please try again.")
            else
              set_innerHTML (SummaryContent s) ;;;
              reveal ;;;
              let by_characters :=
                updateStats (Num (number (String.length (inputText_value (inp p)))))
                            (Num (number (String.length s))) in
              match original_length data, summary_length data with
              | Some o, Some l =>
                  if truthy_number o && truthy_number l then updateStats (Num o) (Num l)
                  else by_characters
              | _, _ => by_characters
              end
        end
    end.

  (** The callback of [batch.map] in the 'process in batch' branch, up to
      the call of [fetch] inside [processFile]. *)
Definition start (fileItem : handle) : M (progress json) :=
    let! p := get in
    match fileMap (reg p) !! fileItem with
    | None =>
        updateFileStatus fileItem "Error: No file found" (Some 0) ;;;
        throw (Error "No file found")
    | Some file => processFile_start file fileItem ;;; ret Suspended
    end.

Definition resume (fileItem : handle) (r : fetch_result) : M json :=
    processFile_resume fileItem r.

  (** The [for] loop of the batch branch; its value is [results]. *)
Definition batches (ev : env) (fileItems : list handle) : M (list (promise json)) :=
    for_groups (length fileItems) 0 fileItems []
      (fun i batch results =>
         let! batchResults := Promise_allSettled start resume ev i batch in
         ret (results ++ batchResults)).

Definition in_batch (ev : env) (fileItems : list handle) : M unit :=
    let! results := batches ev fileItems in
    let successfulResults := omap fulfilment results in
    if bool_decide (successfulResults = []) then
      throw (Error "No files were successfully processed")
    else
      set_innerHTML (SummaryItems ((fun result => (filename result, summary result))
                                     <$> successfulResults)).

  (** The [for ... of] loop of the other branch; its value is [summaries]. *)
Fixpoint each_in_turn (ev : env) (i : nat) (fileItems : list handle)
      (summaries : list (option string * option string))
    : M (list (option string * option string)) :=
    match fileItems with
    | [] => ret summaries
    | fileItem :: rest =>
        let! p := get in
        match getFileFromItem fileItem (reg p) with
        | None =>
            updateFileStatus fileItem "Error: No file found" (Some 0) ;;;
            each_in_turn ev (S i) rest summaries
        | Some file =>
            let! pushed :=
              try_catch
                (processFile_start file fileItem ;;;
                 let! r := await_call ev (UPLOAD fileItem) i in
                 let! result := processFile_resume fileItem r in
                 ret [(Some (File.name file), summary result)])
                (fun error => ret []) in
            each_in_turn ev (S i) rest (summaries ++ pushed)
        end
    end.

Definition one_by_one (ev : env) (fileItems : list handle) : M unit :=
    let! summaries := each_in_turn ev 0 fileItems [] in
    if bool_decide (summaries = []) then
      throw (Error "No files were successfully processed")
    else set_innerHTML (SummaryItems summaries).

Definition file_branch (ev : env) : M unit :=
    let! p := get in
    let fileItems := fileList (doc p) in
    if bool_decide (fileItems = []) then
      showError "Please upload at least one file to summarize" ErrorContainer
    else
      match processInBatch (inp p) with
      | Some true => in_batch ev fileItems
      | _ => one_by_one ev fileItems
      end.

  (** The [try] block. *)
Definition body (ev : env) (activeTab selectedLanguage : string) : M unit :=
    set_loading_hidden false ;;;
    set_summarizeBtn_disabled true ;;;
    set_innerHTML Blank ;;;
    if bool_decide (activeTab = "text") then text_branch ev selectedLanguage
    else file_branch ev.

  (** The [catch (error)] block. *)
Definition on_error (error : exn) : M unit :=
    showError (if decide (message error = "")
               then "An error occurred while processing your request"
               else message error) ErrorContainer.

  (** The [finally] block. *)
Definition at_last : M unit :=
    set_loading_hidden true ;;; set_summarizeBtn_disabled false.

Definition click (ev : env) : M unit :=
    let! p := get in
    match activeTab (inp p) with
    | None => throw (null_property "dataset")
    | Some activeTab =>
        let selectedLanguage := targetLanguage_value (inp p) in
        if bool_decide (selectedLanguage = "") then
          showError "Please select a target language" ErrorContainer
        else if bool_decide (activeTab = "text")
                && bool_decide (trim (inputText_value (inp p)) = "") then
          showError "Please enter some text to summarize" ErrorContainer
        else
          try_finally (try_catch (body ev activeTab selectedLanguage) on_error) at_last
    end.

End summarizeBtn.

(** ** The intake of script.js, script.js:257-311 *)

(** [template.cloneNode(true)]: a new element with the descendants of the
    template, not yet in the document. *)
Definition cloneNode (t : item_el) : M handle :=
  fun p =>
    let fileItem := next_handle (doc p) in
    (Normal fileItem,
     set_doc {| fileList := fileList (doc p);
                file_items := <[fileItem := t]> (file_items (doc p));
                template := template (doc p);
                next_handle := S fileItem |} p).

(** [fileMap.set(fileItem, file)] *)
Definition fileMap_set (fileItem : handle) (file : File.t) : M unit :=
  modify (fun p => set_reg {| fileMap := <[fileItem := file]> (fileMap (reg p));
                              fileHandler_fileMap := fileHandler_fileMap (reg p);
                              window_fileMap_set := window_fileMap_set (reg p) |} p).

(** [fileList.appendChild(fileItem)] *)
Definition appendChild (fileItem : handle) : M unit :=
  modify (fun p => set_doc {| fileList := fileList (doc p) ++ [fileItem];
                              file_items := file_items (doc p);
                              template := template (doc p);
                              next_handle := next_handle (doc p) |} p).

(** [if (checkbox) checkbox.checked = true] *)
Definition tick (fileItem : handle) : M unit :=
  modify (fun p =>
    let el := item_of p fileItem in
    set_item fileItem {| file_select := (fun _ => true) <$> file_select el;
                         file_status := file_status el;
                         progress_fill := progress_fill el |} p).

(** The callback of the [forEach] of [handleFiles].  As in
    [fileHandler.displayFileInfo], the name, size and icon texts are
    rendering and are taken to be present in the template; the remove
    button is wired when it exists. *)
Definition takeIn (file : File.t) : M unit :=
  let! valid := validateFile file in
  if valid then
    let! p := get in
    match template (doc p) with
    | None => ret tt        (* console.error('File item template not found') *)
    | Some t =>
        let! fileItem := cloneNode t in
        fileMap_set fileItem file ;;;
        updateFileStatus fileItem "Ready to process" (Some 0) ;;;
        appendChild fileItem ;;;
        tick fileItem
    end
  else ret tt.

(** [handleFiles(files)]; [has_fileList] says that [#fileList] exists. *)
Definition handleFiles (has_fileList : bool) (files : list File.t) : M unit :=
  if has_fileList then forEach takeIn files
  else ret tt.              (* console.error('File list container not found') *)

(** ** Notions the properties are stated with *)

(** The MIME types of the upload policy: plain text, PDF, Word (legacy and
    OOXML), and the five image types. *)
Definition allowedMimeTypes : list string :=
  [ "text/plain"; "application/pdf"; "application/msword";
    "application/vnd.openxmlformats-officedocument.wordprocessingml.document";
    "image/jpeg"; "image/png"; "image/gif"; "image/bmp"; "image/tiff" ].

(** Both descendants that [updateFileStatus] writes exist. *)
Definition has_status (el : item_el) : Prop :=
  is_Some (file_status el) ∧ is_Some (progress_fill el).

(** The element of an item with a status text and a progress width, the rest kept. *)
Definition with_status (status : string) (progress : Z) (el : item_el) : item_el :=
  {| file_select := file_select el; file_status := Some status; progress_fill := Some progress |}.

(** The spec's [Failed(reason)], as the status text renders it. *)
Definition Failed (reason : string) : string := "Error: " +:+ reason.

(** ** Concrete pages and environments *)

Module Demo.

Definition ready : item_el :=
    {| file_select := Some true; file_status := Some "Ready to process";
       progress_fill := Some 0 |}.

Definition report (n : nat) : File.t :=
    File.mk ("report" +:+ pretty n +:+ ".txt") 2048 "text/plain".

Definition scan : File.t := File.mk "scan.tiff" 20000000 "image/tiff".
Definition archive : File.t := File.mk "notes.zip" 4096 "application/zip".

  (** A page at rest: [local] items were taken in by script.js, [global]
      ones by file-handler.js; the file tab is active. *)
Definition page_of (tab : string) (in_batch : bool) (local global : list handle) : page :=
    {| inp := {| activeTab := Some tab; targetLanguage_value := "hi"; inputText_value := "";
                 preserveFormatting := Some false; processInBatch := Some in_batch;
                 has_dropZone := true |};
       reg := {| fileMap := list_to_map ((fun h => (h, report h)) <$> local);
                 fileHandler_fileMap := list_to_map ((fun h => (h, report h)) <$> global);
                 window_fileMap_set := bool_decide (global ≠ []) |};
       doc := {| fileList := local ++ global;
                 file_items := list_to_map ((fun h => (h, ready)) <$> (local ++ global));
                 template := Some ready;
                 next_handle := S (foldr Nat.max 0%nat (local ++ global)) |};
       surf := {| errorContainer := Some []; processing_options := Some [] |};
       ctl := {| processBtn_disabled := false; summarizeBtn_disabled := false;
                 loading_hidden := Some true |};
       out := {| outputText := Some {| innerHTML := Blank; revealed := false |};
                 wordCount := Some 0%float; summaryRatio := Some 0%float;
                 animations := [] |};
       network := [] |}.

Definition summary_of (h : handle) : json :=
    {| detail := NoDetail; filename := Some (File.name (report h));
       summary := Some ("summary of " +:+ File.name (report h));
       original_length := None; summary_length := None |}.

Definition failure : json :=
    {| detail := DetailString "Unsupported language"; filename := None; summary := None;
       original_length := None; summary_length := None |}.

  (** The service answers 200 to every item but those in [failing], which get
      a 500; calls settle in dispatch order; nobody removes anything. *)
Definition service (failing : list handle) : env :=
    {| reply := fun c =>
         match c with
         | UPLOAD h => if bool_decide (h ∈ failing) then Response 500 (Some failure)
                       else Response 200 (Some (summary_of h))
         | SUMMARIZE => Response 200 (Some (summary_of 0))
         end;
       pick := fun _ => 0%nat;
       removals := fun _ => [] |}.

  (** The same service, with calls settling last-dispatched first and the
      remove button of item [h] firing while the first group is awaited. *)
Definition service_with_removal (h : handle) : env :=
    {| reply := reply (service []);
       pick := fun history => length history;
       removals := fun i => if bool_decide (i = 0%nat)
                            then [{| removed := h; created_by := ScriptJs |}] else [] |}.

(** The same page with the [.file-status] of item [h] missing. *)
Definition without_status (h : handle) (p : page) : page :=
  set_item h {| file_select := Some true; file_status := None; progress_fill := Some 0 |} p.

End Demo.

(** [q] differs from [p] at most in what the error surfaces show. *)
Definition same_but_surfaces (p q : page) : Prop :=
  inp q = inp p /\ reg q = reg p /\ doc q = doc p /\ ctl q = ctl p /\ out q = out p
  /\ network q = network p.

(** What a failed call throws inside [uploadFile]; [None] for a response that
    is ok and carries JSON. *)
Definition uploadFile_error (r : fetch_result) : option exn :=
  match r with
  | Rejects e => Some e
  | Response status None => Some not_json
  | Response status (Some data) =>
      if ok status then None else Some (Error (detail_or (detail data) "Upload failed"))
  end.

(** Likewise inside [processFile], through [handleApiResponse]. *)
Definition processFile_error (r : fetch_result) : option exn :=
  match r with
  | Rejects e => Some e
  | Response status body =>
      if ok status then match body with Some _ => None | None => Some not_json end
      else Some (Error (detail_or (match body with Some d => detail d | None => NoDetail end)
                                  ("API Error: " +:+ pretty status)))
  end.

(** The body of a response that is ok. *)
Definition payload (r : fetch_result) : option json :=
  match r with
  | Response status (Some data) => if ok status then Some data else None
  | _ => None
  end.

(** Which optional parts of the page exist.  The click handlers write into
    elements and never create or delete one. *)
Definition present {A} (o : option A) : bool :=
  match o with Some _ => true | None => false end.

Definition item_structure (el : item_el) : bool * bool * bool :=
  (present (file_select el), present (file_status el), present (progress_fill el)).

Definition structure (p : page) : inputs * (bool * bool * bool * bool) :=
  (inp p, (present (loading_hidden (ctl p)), present (outputText (out p)),
           present (errorContainer (surf p)), present (processing_options (surf p)))).

Definition same_structure (p q : page) : Prop :=
  structure q = structure p
  /\ forall h, item_structure (item_of q h) = item_structure (item_of p h).

(** [q] is [p] but for the elements of the file items, the registries, the
    file list and the network log: what a batch loop may touch. *)
Definition batch_footprint (p q : page) : Prop :=
  surf q = surf p /\ ctl q = ctl p /\ out q = out p.

(** [q] is [p] but for the element of item [h] and the network log: what
    the callback of one item may touch. *)
Definition item_footprint (h : handle) (p q : page) : Prop :=
  inp q = inp p /\ reg q = reg p /\ surf q = surf p /\ ctl q = ctl p /\ out q = out p
  /\ fileList (doc q) = fileList (doc p)
  /\ forall h', h' <> h -> item_of q h' = item_of p h'.

(** A computation keeps a relation between the page before and after. *)
Definition preserves {A} (R : relation page) (m : M A) : Prop :=
  forall p, R p (m p).2.

(** *** Calls in flight, read off the network log *)

Definition call_of (e : event) : endpoint :=
  match e with Dispatch c _ | Settle c => c end.

Definition is_dispatch (e : event) : bool :=
  match e with Dispatch _ _ => true | Settle _ => false end.

Fixpoint remove_first (c : endpoint) (l : list endpoint) : list endpoint :=
  match l with
  | [] => []
  | x :: l' => if decide (x = c) then l' else x :: remove_first c l'
  end.

Definition in_flight_step (calls : list endpoint) (e : event) : list endpoint :=
  match e with
  | Dispatch c _ => calls ++ [c]
  | Settle c => remove_first c calls
  end.

(** The calls dispatched and not yet settled after a history. *)
Definition in_flight (history : list event) : list endpoint :=
  foldl in_flight_step [] history.

(** The calls a history dispatches, in order. *)
Definition dispatched (history : list event) : list endpoint :=
  omap (fun e => match e with Dispatch c _ => Some c | Settle _ => None end) history.

(** What a run from page [p] to page [q] appended to the log. *)
Definition history_since (p q : page) : list event :=
  drop (length (network p)) (network q).

(** The k-th group of three. *)
Definition group (k : nat) (items : list handle) : list handle :=
  slice (3 * k) (3 * k + 3) items.

(** All groups, in order. *)
Definition groups (items : list handle) : list (list handle) :=
  (fun k => group k items) <$> seq 0 ((length items + 2) / 3).

(** At every instant of the history, the calls in flight all belong to one
    group. *)
Definition bounded_by_groups (items : list handle) (history : list event) : Prop :=
  forall before after, history = before ++ after ->
    exists k, in_flight before ⊆+ UPLOAD <$> group k items.

(** A round: dispatches, then settlements of calls of the round. *)
Definition round (batch : list handle) (r : list event) : Prop :=
  exists ds ss,
    r = ds ++ ss
    /\ Forall (fun e => is_dispatch e = true) ds
    /\ Forall (fun e => is_dispatch e = false) ss
    /\ call_of <$> ds ⊆+ UPLOAD <$> batch
    /\ call_of <$> ss ⊆+ call_of <$> ds.

(** The log from page [p] to page [q] is one round per group, in the order
    of the groups; every round but the last has settled every call it
    dispatched; at every instant the calls in flight belong to one group and
    are at most three. *)
Definition in_groups_of_three (items : list handle) (p q : page) : Prop :=
  network q = network p ++ history_since p q
  /\ bounded_by_groups items (history_since p q)
  /\ (forall before after, history_since p q = before ++ after ->
        (length (in_flight before) <= 3)%nat)
  /\ exists rounds,
       history_since p q = concat rounds
       /\ (forall k r, rounds !! k = Some r ->
             round (group k items) r /\ (3 * k < length items)%nat)
       /\ (forall k r, rounds !! k = Some r -> (S k < length rounds)%nat -> in_flight r = []).

Fixpoint pending_handles {A} (slots : list (handle * promise A)) : list handle :=
  match slots with
  | [] => []
  | (h, pr) :: rest => if is_pending pr then h :: pending_handles rest else pending_handles rest
  end.

Definition settled_slots {A} (slots : list (handle * promise A)) : Prop :=
  pending_handles slots = [].

(** *** Both loops in one shape *)

(** The loop over the groups with the promise arrays appended; a
    [Promise.all] loop ([fail_fast]) stops at the first group with a
    rejection. *)
Fixpoint run_groups {A} (start : handle -> M (progress A))
    (resume : handle -> fetch_result -> M A) (ev : env) (fail_fast : bool)
    (fuel i : nat) (items : list handle) (p : page) : list (handle * promise A) * page :=
  match fuel with
  | O => ([], p)
  | S fuel' =>
      if (i <? length items)%nat then
        let '(slots, q) := run_group start resume ev fail_fast i (slice i (i + 3) items) p in
        if fail_fast && bool_decide (is_Some (first_rejected slots)) then (slots, q)
        else
          let '(rest, q') := run_groups start resume ev fail_fast fuel' (i + 3) items q in
          (slots ++ rest, q')
      else ([], p)
  end.

(** *** What the loops need of a callback *)

(** Two pages show a callback of item [h] the same inputs and the same element. *)
Definition agree (h : handle) (p1 p2 : page) : Prop :=
  inp p1 = inp p2 /\ item_of p1 h = item_of p2 h.

(** Two computations that, from pages that agree on [h], complete alike and
    leave pages that agree on [h]. *)
Definition alike {A} (h : handle) (m1 m2 : M A) : Prop :=
  forall p1 p2, agree h p1 p2 ->
    (m1 p1).1 = (m2 p2).1 /\ agree h (m1 p1).2 (m2 p2).2.

(** The callback of a batch loop, as its two segments, and the registry
    lookup [source] it performs when it starts.  Each segment touches the
    element of its own item and the log; the first logs one dispatch exactly
    when it suspends; both depend on the page only through the inputs, the
    looked-up payload and the element of the item. *)
Class Callback {A} (source : handle -> registries -> option File.t)
    (start : handle -> M (progress A)) (resume : handle -> fetch_result -> M A) : Prop := {
  start_item : forall h, preserves (item_footprint h) (start h);
  resume_item : forall h r, preserves (item_footprint h) (resume h r);
  start_net : forall h p,
    if is_pending (launched (start h p).1)
    then exists f, network (start h p).2 = network p ++ [Dispatch (UPLOAD h) f]
    else network (start h p).2 = network p;
  resume_net : forall h r p, network (resume h r p).2 = network p;
  start_local : forall h p1 p2,
    agree h p1 p2 -> source h (reg p1) = source h (reg p2) ->
    (start h p1).1 = (start h p2).1 /\ agree h (start h p1).2 (start h p2).2;
  resume_local : forall h r, alike h (resume h r) (resume h r);
  source_remove_other : forall h r p,
    removed r <> h -> source h (reg (remove_item r p)) = source h (reg p);
  source_remove_none : forall h r p,
    source h (reg p) = None -> source h (reg (remove_item r p)) = None
}.

(** The outcome of item [h] processed on its own from page [p]: its promise
    and its element. *)
Definition alone {A} (start : handle -> M (progress A))
    (resume : handle -> fetch_result -> M A) (ev : env) (h : handle) (p : page)
  : promise A * item_el :=
  let '(c, p1) := start h p in
  match launched c with
  | Pending =>
      let '(c', p2) := resume h (reply ev (UPLOAD h)) p1 in
      (settled c', item_of p2 h)
  | pr => (pr, item_of p1 h)
  end.

(** The first segment of the callback of [h] suspends, on page [p]. *)
Definition suspends {A} (start : handle -> M (progress A)) (h : handle) (p : page) : bool :=
  is_pending (launched (start h p).1).

(** Nothing the user does during the run changes what the lookup for [h]
    finds: [h] is never removed, or it is missing from the start. *)
Definition steady (source : handle -> registries -> option File.t) (ev : env) (p : page)
    (h : handle) : Prop :=
  (forall i r, r ∈ removals ev i -> removed r <> h) \/ source h (reg p) = None.

(** A slot of the promise array of a group dispatched from page [p0], seen
    on page [cur]: still pending with the element as the first segment left
    it, or settled with the promise and the element of the item processed
    alone. *)
Definition slot_as_alone {A} (start : handle -> M (progress A))
    (resume : handle -> fetch_result -> M A) (ev : env) (p0 cur : page)
    (s : handle * promise A) : Prop :=
  if is_pending s.2
  then suspends start s.1 p0 = true /\ item_of cur s.1 = item_of (start s.1 p0).2 s.1
  else (s.2, item_of cur s.1) = alone start resume ev s.1 p0.

(** ** Notions for the intake *)

(** What both intakes let through: a file within the size limit whose type
    is one of the nine of the policy or, the tables being object literals,
    the name of a property inherited from [Object.prototype]. *)
Definition accepted (file : File.t) : bool :=
  bool_decide (File.size file <= maxFileSize)
  && bool_decide (File.type file ∈ allowedMimeTypes ++ Object_prototype_keys).

(** The message [validateFile] shows for a file it rejects. *)
Definition validateFile_reason (file : File.t) : string :=
  if maxFileSize <? File.size file then "File size must be less than 10MB"
  else "File type not supported".

(** No handle from the allocation counter on is in use. *)
Definition allocated (p : page) : Prop :=
  forall h, (next_handle (doc p) <= h)%nat ->
    file_items (doc p) !! h = None /\ fileMap (reg p) !! h = None
    /\ fileHandler_fileMap (reg p) !! h = None /\ h ∉ fileList (doc p).

(** The element of a file taken in by script.js from template [t]. *)
Definition ready_item (t : item_el) : item_el :=
  {| file_select := (fun _ => true) <$> file_select t;
     file_status := Some "Ready to process";
     progress_fill := Some 0 |}.

(** The element of a file taken in by file-handler.js from template [t]. *)
Definition displayed_item (t : item_el) : item_el :=
  {| file_select := (fun _ => true) <$> file_select t;
     file_status := file_status t;
     progress_fill := progress_fill t |}.

(** ** Notions for the text tab *)

(** The code units of [s.trim()]. *)
Definition trimmed (l : list ascii) : list ascii := rev (trimStart (rev (trimStart l))).

(** The request of the text tab for an input and a language. *)
Definition text_request (p : page) : form :=
  {| file := None; text := Some (trim (inputText_value (inp p)));
     target_language := targetLanguage_value (inp p);
     max_length := 150; min_length := 50;
     preserve_formatting := Some (match preserveFormatting (inp p) with
                                  | Some true => true
                                  | _ => false
                                  end) |}.

(** The page elements the summarize handler writes to exist. *)
Definition summarize_ready (p : page) : Prop :=
  is_Some (loading_hidden (ctl p)) /\ is_Some (outputText (out p))
  /\ is_Some (errorContainer (surf p)) /\ has_dropZone (inp p) = true.

(** The page when the [try] block of the summarize handler has shown the
    loading indicator, disabled the button and cleared the output. *)
Definition started (p : page) : page :=
  set_out {| outputText := (fun el => {| innerHTML := Blank; revealed := revealed el |})
                             <$> outputText (out p);
             wordCount := wordCount (out p);
             summaryRatio := summaryRatio (out p);
             animations := animations (out p) |}
    (set_ctl {| processBtn_disabled := processBtn_disabled (ctl p);
                summarizeBtn_disabled := true;
                loading_hidden := Some false |} p).

(** The page when a call dispatched with [f] has settled: the removals that
    fired meanwhile, then the settlement. *)
Definition awaited (ev : env) (c : endpoint) (f : form) (i : nat) (p : page) : page :=
  record_event (Settle c)
    (foldl (fun q r => remove_item r q) (record_event (Dispatch c f) p) (removals ev i)).

(** The page when the [finally] block has run. *)
Definition finished (p : page) : page :=
  set_ctl {| processBtn_disabled := processBtn_disabled (ctl p);
             summarizeBtn_disabled := false;
             loading_hidden := Some true |} p.

(** The page with one more message in the error container. *)
Definition with_error (msg : string) (p : page) : page :=
  match errorContainer (surf p) with
  | Some nodes => set_container ErrorContainer (tail nodes ++ [msg]) p
  | None => p
  end.

(** The page with the summary shown in the output, revealed. *)
Definition show_summary (s : string) (p : page) : page :=
  set_out {| outputText := (fun _ => {| innerHTML := SummaryContent s; revealed := true |})
                             <$> outputText (out p);
             wordCount := wordCount (out p);
             summaryRatio := summaryRatio (out p);
             animations := animations (out p) |} p.

(** What the text branch throws for a settled call; [None] when the call
    gave a summary. *)
Definition text_error (r : fetch_result) : option exn :=
  match r with
  | Rejects e => Some e
  | Response status None => Some not_json
  | Response status (Some data) =>
      if ok status then
        match summary data with
        | Some s => if decide (s = "")
                    then Some (Error "No summary was generated. Please try again.")
                    else None
        | None => Some (Error "No summary was generated. Please try again.")
        end
      else Some (Error (summarizeBtn.errorMessage status data))
  end.

(** The text the [catch] block of the summarize handler shows for an error. *)
Definition shown_message (e : exn) : string :=
  if decide (message e = "") then "An error occurred while processing your request"
  else message e.

(** The two numbers the text branch passes to [updateStats]: the lengths
    the service reports when both are there and truthy, and otherwise the
    numbers of characters of the input as typed and of the summary. *)
Definition text_stats (input : string) (data : json) (s : string) : float * float :=
  match original_length data, summary_length data with
  | Some o, Some l =>
      if truthy_number o && truthy_number l then (o, l)
      else (number (String.length input), number (String.length s))
  | _, _ => (number (String.length input), number (String.length s))
  end.

(** The page with a text typed into the input. *)
Definition with_input (text : string) (p : page) : page :=
  {| inp := {| activeTab := activeTab (inp p);
               targetLanguage_value := targetLanguage_value (inp p);
               inputText_value := text;
               preserveFormatting := preserveFormatting (inp p);
               processInBatch := processInBatch (inp p);
               has_dropZone := has_dropZone (inp p) |};
     reg := reg p; doc := doc p; surf := surf p; ctl := ctl p; out := out p;
     network := network p |}.

(** A text of sample_text characters between blanks, and a reply of the service
    with validation messages. *)
Definition sample_text : string :=
  "  The quick brown fox jumps over the lazy dog, twice a day.   ".

Definition unprocessable : json :=
  {| detail := DetailList ["text too short"; "language unknown"]; filename := None;
     summary := None; original_length := None; summary_length := None |}.

(** A service that answers the text tab with [r]. *)
Definition answering (r : fetch_result) : env :=
  {| reply := fun _ => r; pick := fun _ => 0%nat; removals := fun _ => [] |}.

(** ** Notions for the loop over the files one by one *)

(** The request [processFile] sends for a file from page [p]. *)
Definition processFile_form (file : File.t) (p : page) : form :=
  {| file := Some file; text := None; target_language := lang_or_en p;
     max_length := 150; min_length := 50;
     preserve_formatting := match preserveFormatting (inp p) with
                            | Some true => Some true
                            | _ => None
                            end |}.

(** The request [uploadFile] sends for a file from page [p]. *)
Definition uploadFile_form (file : File.t) (p : page) : form :=
  {| file := Some file; text := None; target_language := lang_or_en p;
     max_length := 150; min_length := 50; preserve_formatting := None |}.

(** What the turn of an item leaves on its element: [found] is what the
    lookup gave, [r] how its call settles. *)
Definition turn_status (found : option File.t) (r : fetch_result) (el : item_el) : item_el :=
  match found with
  | None => with_status (Failed "No file found") 0 el
  | Some _ =>
      match processFile_error r with
      | Some e => with_status (Failed (message e)) 0 el
      | None => with_status "Completed" 100 el
      end
  end.

(** What the turn adds to the summaries: the name of the file as registered
    and the summary of the answer. *)
Definition turn_summary (found : option File.t) (r : fetch_result)
  : option (option string * option string) :=
  match found, payload r with
  | Some file, Some data => Some (Some (File.name file), summary data)
  | _, _ => None
  end.

(** A call and its settlement, with nothing in between. *)
Definition call_and_settlement (events : list event) : Prop :=
  exists h f, events = [Dispatch (UPLOAD h) f; Settle (UPLOAD h)].

(** What the summaries of the files one by one are, read off the page
    before the click and the answers of the service. *)
Definition summaries_of (ev : env) (p : page) : list (option string * option string) :=
  omap (fun h => turn_summary (getFileFromItem h (reg p)) (reply ev (UPLOAD h)))
    (fileList (doc p)).

(** The message of the file tab, if one is shown. *)
Definition file_tab_message (fileItems : list handle)
    (summaries : list (option string * option string)) : option string :=
  if bool_decide (fileItems = []) then Some "Please upload at least one file to summarize"
  else if bool_decide (summaries = []) then Some "No files were successfully processed"
  else None.

(** The requests of the files one by one, each with its settlement. *)
Definition turns_of (p : page) (fileItems : list handle) : list event :=
  fileItems ≫= fun h =>
    match getFileFromItem h (reg p) with
    | Some file => [Dispatch (UPLOAD h) (processFile_form file p); Settle (UPLOAD h)]
    | None => []
    end.

(** ** Notions for the process button *)

(** What the upload of an item leaves on its element: [found] is what the
    lookup gave, [r] how its call settles. *)
Definition upload_status (found : option File.t) (r : fetch_result) (el : item_el) : item_el :=
  match found with
  | None => with_status (Failed "File not found") 0 el
  | Some _ =>
      match uploadFile_error r with
      | Some e => with_status (Failed (message e)) 0 el
      | None => with_status "Completed" 100 el
      end
  end.

(** The upload of an item succeeds. *)
Definition uploaded (found : option File.t) (r : fetch_result) : bool :=
  match found, uploadFile_error r with
  | Some _, None => true
  | _, _ => false
  end.

(** The selected items of page [p] whose upload succeeds with [ev]. *)
Definition successes (ev : env) (p : page) : list handle :=
  List.filter (fun h => uploaded (getFileFromItem h (reg p)) (reply ev (UPLOAD h)))
    (processBtn.selectedItems p).

(** The page while the process button is disabled. *)
Definition processing (p : page) : page :=
  set_ctl {| processBtn_disabled := true;
             summarizeBtn_disabled := summarizeBtn_disabled (ctl p);
             loading_hidden := loading_hidden (ctl p) |} p.

(** ** Notions for the requests of the batch loops *)

(** No remove button takes item [h] away during the run. *)
Definition never_removed (ev : env) (h : handle) : Prop :=
  forall i r, r ∈ removals ev i -> removed r <> h.

(** An event of the log is as page [p] wants it: a request is the upload of
    an item and, unless the item is removed at some time, carries the form
    built from the file that [source] finds for it on [p]. *)
Definition as_wanted (source : handle -> registries -> option File.t)
    (form_of : File.t -> page -> form) (ev : env) (p : page) (e : event) : Prop :=
  match e with
  | Dispatch c f =>
      exists h, c = UPLOAD h
        /\ (never_removed ev h ->
            exists file, source h (reg p) = Some file /\ f = form_of file p)
  | Settle _ => True
  end.

(** Page [q] has the inputs of [p] and finds what [p] finds for the items
    that are never removed. *)
Definition same_sources (source : handle -> registries -> option File.t) (ev : env)
    (p q : page) : Prop :=
  inp q = inp p /\ forall h, never_removed ev h -> source h (reg q) = source h (reg p).

(** ** Notions for the summaries in batch *)

(** What an item adds to the summaries of the batch branch: the file name
    and the summary of the answer. *)
Definition batch_summary (found : option File.t) (r : fetch_result)
  : option (option string * option string) :=
  match found, payload r with
  | Some _, Some data => Some (filename data, summary data)
  | _, _ => None
  end.

(** The summaries of the batch branch, read off the page before the click
    and the answers of the service. *)
Definition batch_summaries_of (ev : env) (p : page) : list (option string * option string) :=
  omap (fun h => batch_summary (fileMap (reg p) !! h) (reply ev (UPLOAD h))) (fileList (doc p)).

(** ** Notions for the statistics *)











(** * Properties *)

(** ** The monad *)

Ltac unfold_M :=
  unfold bind, ret, throw, try_catch, try_finally, get, modify in *.

Lemma bind_normal {A B} (m : M A) (k : A -> M B) p a p' :
  m p = (Normal a, p') -> bind m k p = k a p'.
Proof. unfold bind. by intros ->. Qed.

Lemma bind_throw {A B} (m : M A) (k : A -> M B) p e p' :
  m p = (Throw e, p') -> bind m k p = (Throw e, p').
Proof. unfold bind. by intros ->. Qed.

(** ** The validator *)

Lemma supported_keys : supported_types.*1 = allowedMimeTypes.
Proof. reflexivity. Qed.

Lemma allowedMimeTypes_NoDup : NoDup allowedMimeTypes.
Proof. apply (bool_decide_unpack _). vm_compute. reflexivity. Qed.

Lemma truthy_supported (t : string) :
  truthy_entry (list_to_map supported_types) t = true
  <-> t ∈ allowedMimeTypes \/ t ∈ Object_prototype_keys.
Proof.
  unfold truthy_entry.
  destruct (list_to_map supported_types !! t) as [b|] eqn:E.
  - apply elem_of_list_to_map_2 in E.
    assert (Hb : b = true).
    { revert E. unfold supported_types. rewrite !elem_of_cons, elem_of_nil.
      intros H. repeat destruct H as [H|H]; try congruence. done. }
    subst b. split; [|done]. intros _. left.
    rewrite <- supported_keys. apply list_elem_of_fmap. by exists (t, true).
  - rewrite bool_decide_eq_true. split; [by right|]. intros [Hin|Hin]; [|done].
    apply (not_elem_of_list_to_map_2 (M := gmap string)) in E.
    by rewrite supported_keys in E.
Qed.

Lemma validateFile_oversized file p :
  maxFileSize < File.size file ->
  validateFile file p = (showError "File size must be less than 10MB" ErrorContainer ;;; ret false) p.
Proof. intros H. unfold validateFile. apply Z.ltb_lt in H. by rewrite H. Qed.

Lemma validateFile_other_type file p :
  File.size file <= maxFileSize ->
  File.type file ∉ allowedMimeTypes -> File.type file ∉ Object_prototype_keys ->
  validateFile file p = (showError "File type not supported" ErrorContainer ;;; ret false) p.
Proof.
  intros Hs Ht Hk. unfold validateFile, acceptedTypes.
  apply Z.ltb_ge in Hs. rewrite Hs.
  destruct (truthy_entry _ _) eqn:E; [|done].
  apply truthy_supported in E. tauto.
Qed.

Lemma validateFile_accepted file p :
  File.size file <= maxFileSize ->
  File.type file ∈ allowedMimeTypes \/ File.type file ∈ Object_prototype_keys ->
  validateFile file p = (Normal true, p).
Proof.
  intros Hs Ht. unfold validateFile, acceptedTypes.
  apply Z.ltb_ge in Hs. rewrite Hs.
  apply truthy_supported in Ht. by rewrite Ht.
Qed.

Lemma shown_then_false msg c p : ((showError msg c ;;; ret false) p).1 <> Normal true.
Proof. unfold_M. by destruct (showError msg c p) as [[[]|] ?]. Qed.

Lemma rejection_spec file :
  (fileHandler.MAX_FILE_SIZE < File.size file ->
     fileHandler.rejection file = Some (fileHandler.too_large file)) /\
  (File.size file <= fileHandler.MAX_FILE_SIZE ->
   File.type file ∉ allowedMimeTypes -> File.type file ∉ Object_prototype_keys ->
     fileHandler.rejection file = Some (fileHandler.not_supported file)) /\
  (File.size file <= fileHandler.MAX_FILE_SIZE ->
   File.type file ∈ allowedMimeTypes \/ File.type file ∈ Object_prototype_keys ->
     fileHandler.rejection file = None).
Proof.
  unfold fileHandler.rejection, fileHandler.SUPPORTED_TYPES.
  pose proof (truthy_supported (File.type file)) as Ht.
  destruct (Z.ltb_spec fileHandler.MAX_FILE_SIZE (File.size file));
    destruct (truthy_entry _ _); simpl; repeat split; intros; try done; try lia.
  - exfalso. tauto.
  - exfalso. assert (false = true) by tauto. discriminate.
Qed.

(** C5 (the code departs from the claim).  Both intakes test the type with
    a lookup in an object literal, which also finds what every object
    inherits: a file of ten bytes whose type is "constructor", which is none
    of the nine allowed types, passes [validateFile] of script.js and the
    checks of [fileHandler.handleFiles], which goes on to display it.  For
    every file the intakes accept exactly when the size is at most
    10,485,760 bytes and the type is one of the nine allowed or the name of
    an inherited property; an oversized file is rejected with the size
    message whatever its type, a file of allowed size and any other type
    with the type message. *)
Theorem validation_accepts_inherited_key (file : File.t) (p : page) :
  (("constructor" ∉ allowedMimeTypes)
   /\ validateFile (File.mk "c.bin" 10 "constructor") p = (Normal true, p)
   /\ fileHandler.handleFile (File.mk "c.bin" 10 "constructor") p
      = fileHandler.displayFileInfo (File.mk "c.bin" 10 "constructor") p) /\
  maxFileSize = 10485760 /\ fileHandler.MAX_FILE_SIZE = 10485760 /\
  ((validateFile file p).1 = Normal true <->
     File.size file <= maxFileSize
     /\ (File.type file ∈ allowedMimeTypes \/ File.type file ∈ Object_prototype_keys)) /\
  (maxFileSize < File.size file ->
     validateFile file p
     = (showError "File size must be less than 10MB" ErrorContainer ;;; ret false) p) /\
  (File.size file <= maxFileSize ->
   File.type file ∉ allowedMimeTypes -> File.type file ∉ Object_prototype_keys ->
     validateFile file p = (showError "File type not supported" ErrorContainer ;;; ret false) p) /\
  (File.size file <= fileHandler.MAX_FILE_SIZE ->
   File.type file ∈ allowedMimeTypes \/ File.type file ∈ Object_prototype_keys ->
     fileHandler.handleFile file p = fileHandler.displayFileInfo file p) /\
  (fileHandler.MAX_FILE_SIZE < File.size file ->
     fileHandler.handleFile file p = fileHandler.showError (fileHandler.too_large file) p) /\
  (File.size file <= fileHandler.MAX_FILE_SIZE ->
   File.type file ∉ allowedMimeTypes -> File.type file ∉ Object_prototype_keys ->
     fileHandler.handleFile file p = fileHandler.showError (fileHandler.not_supported file) p).
Proof.
  destruct (rejection_spec file) as (Hr1 & Hr2 & Hr3).
  split.
  { split; [|split].
    - intros Hin. apply (bool_decide_pack _) in Hin. vm_compute in Hin. exact Hin.
    - apply validateFile_accepted; [vm_compute; discriminate|].
      right. apply (bool_decide_unpack _). vm_compute. exact I.
    - reflexivity. }
  split; [reflexivity|]. split; [reflexivity|].
  split; [|split; [apply validateFile_oversized|split; [apply validateFile_other_type|]]].
  - split.
    + intros Hv. destruct (Z.le_gt_cases (File.size file) maxFileSize) as [Hs|Hs].
      * split; [done|]. destruct (decide (File.type file ∈ allowedMimeTypes)); [by left|].
        destruct (decide (File.type file ∈ Object_prototype_keys)); [by right|].
        rewrite validateFile_other_type in Hv by done. by apply shown_then_false in Hv.
      * rewrite validateFile_oversized in Hv by done. by apply shown_then_false in Hv.
    + intros [Hs Ht]. by rewrite validateFile_accepted.
  - unfold fileHandler.handleFile. split; [|split].
    + intros Hs Ht. by rewrite Hr3.
    + intros Hs. by rewrite Hr1.
    + intros Hs Ht Hk. by rewrite Hr2.
Qed.

Lemma validation_accepts_inherited_key_witness :
  (validateFile Demo.scan (Demo.page_of "file" true [] [])).1 = Normal false
  /\ fileHandler.handleFile Demo.archive (Demo.page_of "file" true [] [])
     = fileHandler.showError "File type application/zip is not supported for notes.zip"
         (Demo.page_of "file" true [] []).
Proof.
  destruct (validation_accepts_inherited_key Demo.scan (Demo.page_of "file" true [] []))
    as (_ & _ & _ & _ & Hbig & _).
  destruct (validation_accepts_inherited_key Demo.archive (Demo.page_of "file" true [] []))
    as (_ & _ & _ & _ & _ & _ & _ & _ & Hzip).
  split.
  - rewrite Hbig by (vm_compute; reflexivity). vm_compute. reflexivity.
  - rewrite Hzip; [reflexivity | vm_compute; discriminate | |].
    + intros Hin. apply (bool_decide_pack _) in Hin. vm_compute in Hin. exact Hin.
    + intros Hin. apply (bool_decide_pack _) in Hin. vm_compute in Hin. exact Hin.
Defined.

(** ** The registries *)

Lemma getFileFromItem_None (fileItem : handle) (r : registries) :
  getFileFromItem fileItem r = None <->
  fileMap r !! fileItem = None /\
  (window_fileMap_set r = true -> fileHandler_fileMap r !! fileItem = None).
Proof.
  unfold getFileFromItem, window_fileMap.
  destruct (fileMap r !! fileItem); destruct (window_fileMap_set r); intuition congruence.
Qed.

(** C6 (the code departs from the claim): an item taken in by file-handler.js
    is found by [getFileFromItem] through [window.__fileMap], and the
    one-by-one branch of the summarize handler uploads it; the batch branch
    reads [fileMap] alone, marks the item 'Error: No file found', dispatches
    nothing and ends with 'No files were successfully processed'. *)
Theorem batch_branch_misses_window_map :
  let p := Demo.page_of "file" true [] [1%nat] in
  let q := (summarizeBtn.click (Demo.service []) p).2 in
  let q' := (summarizeBtn.click (Demo.service []) (Demo.page_of "file" false [] [1%nat])).2 in
  getFileFromItem 1 (reg p) = Some (Demo.report 1)
  /\ file_status (item_of q 1) = Some "Error: No file found"
  /\ network q = []
  /\ errorContainer (surf q) = Some ["No files were successfully processed"]
  /\ file_status (item_of q' 1) = Some "Completed".
Proof. vm_compute. repeat split. Qed.

(** ** The statistics *)


(** *** Counting words *)










(** *** The ratio, count by count *)






(** ** What validation changes *)

Lemma showError_surfaces msg c p : same_but_surfaces p (showError msg c p).2.
Proof.
  unfold showError, same_but_surfaces.
  destruct (container_nodes c (surf p)); [|done].
  destruct (has_dropZone (inp p)); destruct c; done.
Qed.

Lemma fileHandler_showError_surfaces msg p : same_but_surfaces p (fileHandler.showError msg p).2.
Proof.
  unfold fileHandler.showError, same_but_surfaces.
  by destruct (errorContainer (surf p)).
Qed.

Lemma showError_shown msg c p nodes :
  container_nodes c (surf p) = Some nodes -> has_dropZone (inp p) = true ->
  showError msg c p = (Normal tt, set_container c (tail nodes ++ [msg]) p).
Proof. unfold showError. by intros -> ->. Qed.

(** C9, as a counterexample: validating an oversized file changes the page. *)
Lemma validateFile_not_pure :
  (validateFile Demo.scan (Demo.page_of "file" true [] [])).2 <> Demo.page_of "file" true [] [].
Proof.
  intros H. apply (f_equal (fun p => errorContainer (surf p))) in H.
  vm_compute in H. discriminate.
Qed.

(** C9, amended: validation returns a verdict and leaves the page as it was
    when it accepts; when it rejects, it shows the reason through [showError]
    and changes nothing but the error surface, where the reason replaces the
    oldest message.  The checks of [fileHandler.handleFiles] do the same on
    rejection. *)
Theorem validation_effects (file : File.t) (p : page) :
  same_but_surfaces p (validateFile file p).2
  /\ processing_options (surf (validateFile file p).2) = processing_options (surf p)
  /\ ((validateFile file p).1 = Normal true -> (validateFile file p).2 = p)
  /\ ((validateFile file p).1 <> Normal true ->
      exists msg, validateFile file p = (showError msg ErrorContainer ;;; ret false) p
        /\ forall nodes, errorContainer (surf p) = Some nodes -> has_dropZone (inp p) = true ->
             validateFile file p
             = (Normal false, set_container ErrorContainer (tail nodes ++ [msg]) p))
  /\ (forall msg, fileHandler.rejection file = Some msg ->
        fileHandler.handleFile file p = fileHandler.showError msg p
        /\ same_but_surfaces p (fileHandler.handleFile file p).2).
Proof.
  assert (Hshow : forall msg, validateFile file p = (showError msg ErrorContainer ;;; ret false) p ->
     same_but_surfaces p (validateFile file p).2
     /\ processing_options (surf (validateFile file p).2) = processing_options (surf p)
     /\ forall nodes, errorContainer (surf p) = Some nodes -> has_dropZone (inp p) = true ->
             validateFile file p
             = (Normal false, set_container ErrorContainer (tail nodes ++ [msg]) p)).
  { intros msg ->. pose proof (showError_surfaces msg ErrorContainer p) as Hs.
    unfold_M. split; [|split].
    - by destruct (showError msg ErrorContainer p) as [[[]|] ?].
    - unfold showError. cbn. destruct (errorContainer (surf p)); [|done].
      by destruct (has_dropZone (inp p)).
    - intros nodes Hn Hd. by rewrite (showError_shown _ _ _ nodes). }
  assert (Hcases : validateFile file p = (Normal true, p) \/
    exists msg, validateFile file p = (showError msg ErrorContainer ;;; ret false) p).
  { destruct (Z.le_gt_cases (File.size file) maxFileSize) as [Hs|Hs].
    - destruct (decide (File.type file ∈ allowedMimeTypes)).
      + left. apply validateFile_accepted; [done|by left].
      + destruct (decide (File.type file ∈ Object_prototype_keys)).
        * left. apply validateFile_accepted; [done|by right].
        * right. eexists. by apply validateFile_other_type.
    - right. eexists. by apply validateFile_oversized. }
  split; [|split; [|split; [|split]]].
  - destruct Hcases as [->|[msg Hm]]; [done|]. by apply (Hshow msg).
  - destruct Hcases as [->|[msg Hm]]; [done|]. by apply (Hshow msg).
  - destruct Hcases as [->|[msg Hm]]; [done|].
    rewrite Hm. intros H. by apply shown_then_false in H.
  - intros Hn. destruct Hcases as [Hacc|[msg Hm]]; [by rewrite Hacc in Hn|].
    exists msg. split; [done|]. by apply (Hshow msg).
  - intros msg Hr. unfold fileHandler.handleFile. rewrite Hr. split; [done|].
    apply fileHandler_showError_surfaces.
Qed.

Lemma validation_effects_witness :
  validateFile Demo.scan (Demo.page_of "file" true [] [])
  = (Normal false,
     set_container ErrorContainer ["File size must be less than 10MB"]
       (Demo.page_of "file" true [] [])).
Proof.
  destruct (validation_effects Demo.scan (Demo.page_of "file" true [] []))
    as (_ & _ & _ & Hrej & _).
  destruct Hrej as (msg & Hmsg & Hshown); [vm_compute; discriminate|].
  rewrite (Hshown []) by reflexivity.
  rewrite validateFile_oversized in Hmsg by (vm_compute; reflexivity).
  vm_compute in Hmsg. vm_compute. by injection Hmsg as <-.
Defined.


(** ** Elements of file items *)

Lemma item_of_set_item (h h' : handle) (el : item_el) (p : page) :
  item_of (set_item h el p) h' = if decide (h = h') then el else item_of p h'.
Proof.
  unfold item_of, set_item. cbn. rewrite lookup_insert.
  by destruct (decide (h = h')).
Qed.

Lemma item_of_set_item_eq (h : handle) (el : item_el) (p : page) :
  item_of (set_item h el p) h = el.
Proof. rewrite item_of_set_item. by rewrite decide_True. Qed.

Lemma item_of_set_item_ne (h h' : handle) (el : item_el) (p : page) :
  h <> h' -> item_of (set_item h el p) h' = item_of p h'.
Proof. intros. rewrite item_of_set_item. by rewrite decide_False. Qed.

Lemma item_of_record_event e p h : item_of (record_event e p) h = item_of p h.
Proof. reflexivity. Qed.

Lemma item_of_remove_item r p h : item_of (remove_item r p) h = item_of p h.
Proof. by destruct r as [? []]. Qed.

(** With both descendants present the update succeeds and writes both. *)
Lemma updateFileStatus_ok (h : handle) (status : string) (w : Z) (p : page) :
  has_status (item_of p h) ->
  updateFileStatus h status (Some w) p
  = (Normal tt, set_item h (with_status status w (item_of p h)) p).
Proof.
  intros [[s Hs] [w' Hw]]. unfold updateFileStatus. by rewrite Hs, Hw.
Qed.

Lemma has_status_with_status status w el : has_status (with_status status w el).
Proof. split; eexists; reflexivity. Qed.

(** Whatever it finds, the update touches the element of its item alone and
    removes no descendant. *)
Lemma updateFileStatus_footprint (h : handle) (status : string) (progress : option Z) (p : page) :
  item_footprint h p (updateFileStatus h status progress p).2
  /\ network (updateFileStatus h status progress p).2 = network p
  /\ item_structure (item_of (updateFileStatus h status progress p).2 h)
     = item_structure (item_of p h).
Proof.
  unfold updateFileStatus, item_footprint.
  destruct (file_status (item_of p h)) as [s|] eqn:Es; [|done].
  destruct progress as [w|]; [destruct (progress_fill (item_of p h)) as [w'|] eqn:Ew|]; cbn.
  all: rewrite item_of_set_item_eq.
  all: repeat split; try (intros; by apply item_of_set_item_ne).
  all: unfold item_structure; cbn; by rewrite ?Es, ?Ew.
Qed.

Lemma item_footprint_structure h p q :
  item_footprint h p q ->
  item_structure (item_of q h) = item_structure (item_of p h) ->
  same_structure p q.
Proof.
  intros (Hi & Hr & Hs & Hc & Ho & Hl & Hother) Hh. split.
  - unfold structure. by rewrite Hi, Hs, Hc, Ho.
  - intros h'. destruct (decide (h' = h)) as [->|Hne]; [done|]. by rewrite Hother.
Qed.

(** ** Relations kept by computations *)

#[global] Instance same_structure_preorder : PreOrder same_structure.
Proof.
  split.
  - by intros p.
  - intros p q r [H1 H1'] [H2 H2']. split; [congruence|]. intros h. by rewrite H2', H1'.
Qed.

#[global] Instance batch_footprint_preorder : PreOrder batch_footprint.
Proof.
  split.
  - by intros p.
  - intros p q r (?&?&?) (?&?&?). repeat split; congruence.
Qed.

Section Preserves.
Context (R : relation page) `{!PreOrder R}.

Lemma preserves_ret {A} (a : A) : preserves R (ret a).
Proof. intros p. reflexivity. Qed.

Lemma preserves_throw {A} (e : exn) : preserves R (@throw A e).
Proof. intros p. reflexivity. Qed.

Lemma preserves_get : preserves R get.
Proof. intros p. reflexivity. Qed.

Lemma preserves_modify (f : page -> page) : (forall p, R p (f p)) -> preserves R (modify f).
Proof. intros H p. apply H. Qed.

Lemma preserves_bind {A B} (m : M A) (k : A -> M B) :
  preserves R m -> (forall a, preserves R (k a)) -> preserves R (bind m k).
Proof.
  intros Hm Hk p. unfold bind. specialize (Hm p).
  destruct (m p) as [[a|e] p']; [|done].
  etrans; [exact Hm|]. apply Hk.
Qed.

Lemma preserves_try_catch {A} (m : M A) (h : exn -> M A) :
  preserves R m -> (forall e, preserves R (h e)) -> preserves R (try_catch m h).
Proof.
  intros Hm Hh p. unfold try_catch. specialize (Hm p).
  destruct (m p) as [[a|e] p']; [done|].
  etrans; [exact Hm|]. apply Hh.
Qed.

Lemma preserves_try_finally {A} (m : M A) (f : M unit) :
  preserves R m -> preserves R f -> preserves R (try_finally m f).
Proof.
  intros Hm Hf p. unfold try_finally. specialize (Hm p).
  destruct (m p) as [c p']. specialize (Hf p').
  destruct (f p') as [[[]|e] p'']; by etrans.
Qed.

Lemma preserves_for_groups {St} fuel i items (acc : St) body :
  (forall i batch acc, preserves R (body i batch acc)) ->
  preserves R (for_groups fuel i items acc body).
Proof.
  intros Hb. revert i acc. induction fuel as [|fuel IH]; intros i acc; cbn [for_groups].
  - apply preserves_ret.
  - destruct (i <? length items)%nat; [|apply preserves_ret].
    apply preserves_bind; [apply Hb|]. intros acc'. apply IH.
Qed.

(** The promise groups keep what both segments of the callback keep for the
    items of the group, if the log and the remove buttons that fire keep it. *)
Section Groups.
Context {A : Type} (start : handle -> M (progress A)) (resume : handle -> fetch_result -> M A).
Context (ev : env) (P : handle -> Prop).
Hypothesis start_keeps : forall h, P h -> preserves R (start h).
Hypothesis resume_keeps : forall h r, P h -> preserves R (resume h r).
Hypothesis record_keeps : forall e p, R p (record_event e p).
Hypothesis remove_keeps : forall i r p, r ∈ removals ev i -> R p (remove_item r p).

Lemma map_async_keeps batch p : Forall P batch -> R p (map_async start batch p).2.
Proof.
  revert p. induction batch as [|h batch IH]; intros p HP; cbn; [reflexivity|].
  apply Forall_cons in HP as [Hh HP].
  pose proof (start_keeps h Hh p) as Hs. destruct (start h p) as [c p1].
  specialize (IH p1 HP). destruct (map_async start batch p1) as [slots p2].
  by etrans.
Qed.

Lemma map_async_handles batch p : (map_async start batch p).1.*1 = batch.
Proof.
  revert p. induction batch as [|h batch IH]; intros p; cbn; [done|].
  destruct (start h p) as [c p1]. specialize (IH p1).
  destruct (map_async start batch p1) as [slots p2]. cbn in *. by rewrite IH.
Qed.

Lemma pending_from_elem i (slots : list (handle * promise A)) j h :
  (j, h) ∈ pending_from i slots -> h ∈ slots.*1.
Proof.
  revert i. induction slots as [|[h' pr] slots IH]; intros i; cbn; [by intros ?%elem_of_nil|].
  destruct (is_pending pr).
  - intros [[= -> ->]|Hin]%elem_of_cons; [left|right; by eapply IH].
  - intros Hin. right. by eapply IH.
Qed.

Lemma settle_loop_keeps fail_fast fuel slots p :
  Forall P slots.*1 -> R p (settle_loop resume ev fail_fast fuel slots p).2.
Proof.
  revert slots p. induction fuel as [|fuel IH]; intros slots p HP; cbn [settle_loop];
    [reflexivity|].
  destruct (decided fail_fast slots); [reflexivity|].
  destruct (pending_from 0 slots) as [|first others] eqn:Ep; [reflexivity|].
  set (k := (pick ev (network p) `mod` length (first :: others))%nat).
  assert (Hin : nth k (first :: others) first ∈ pending_from 0 slots).
  { rewrite Ep. apply list_elem_of_In, nth_In. by apply Nat.mod_upper_bound. }
  destruct (nth k (first :: others) first) as [i item].
  assert (Hitem : P item).
  { apply pending_from_elem in Hin. by eapply (proj1 (Forall_forall _ _) HP). }
  pose proof (resume_keeps item (reply ev (UPLOAD item)) Hitem
                (record_event (Settle (UPLOAD item)) p)) as Hr.
  destruct (resume item _ _) as [c p2].
  etrans; [apply (record_keeps (Settle (UPLOAD item)))|].
  etrans; [exact Hr|]. apply IH.
  apply Forall_forall. intros h Hh. apply list_elem_of_fmap in Hh as [[h' pr] [-> Hh]].
  apply list_elem_of_lookup in Hh as [j Hj].
  destruct (decide (j = i)) as [->|Hne].
  - destruct (decide (i < length slots)%nat) as [Hlt|Hge].
    + rewrite list_lookup_insert_eq in Hj by done. by injection Hj as <- _.
    + rewrite list_insert_ge in Hj by lia. apply lookup_lt_Some in Hj. lia.
  - rewrite list_lookup_insert_ne in Hj by done.
    apply (proj1 (Forall_forall _ _) HP). apply list_elem_of_fmap. exists (h', pr).
    split; [done|]. by eapply list_elem_of_lookup_2.
Qed.

Lemma removals_keep i (rs : list removal) p :
  rs ⊆ removals ev i -> R p (foldl (fun q r => remove_item r q) p rs).
Proof.
  revert p. induction rs as [|r rs IH]; intros p Hsub; cbn; [reflexivity|].
  etrans; [apply (remove_keeps i r); apply Hsub; left|]. apply IH.
  intros x Hx. apply Hsub. by right.
Qed.

Lemma run_group_keeps fail_fast i batch p :
  Forall P batch -> R p (run_group start resume ev fail_fast i batch p).2.
Proof.
  intros HP. unfold run_group. pose proof (map_async_keeps batch p HP) as Hm.
  pose proof (map_async_handles batch p) as Hh.
  destruct (map_async start batch p) as [slots p1]. cbn in Hh.
  etrans; [exact Hm|]. etrans; [|apply settle_loop_keeps; by rewrite Hh].
  unfold while_suspended. destruct (decided fail_fast slots); [reflexivity|].
  by apply (removals_keep i).
Qed.
End Groups.

Section GroupsAll.
Context {A : Type} (start : handle -> M (progress A)) (resume : handle -> fetch_result -> M A).
Context (ev : env).
Hypothesis start_keeps : forall h, preserves R (start h).
Hypothesis resume_keeps : forall h r, preserves R (resume h r).
Hypothesis record_keeps : forall e p, R p (record_event e p).
Hypothesis remove_keeps : forall r p, R p (remove_item r p).

Lemma run_group_keeps_all fail_fast i batch p :
  R p (run_group start resume ev fail_fast i batch p).2.
Proof.
  apply (run_group_keeps start resume ev (fun _ => True)); auto.
  by apply Forall_forall.
Qed.

Lemma Promise_all_keeps i batch : preserves R (Promise_all start resume ev i batch).
Proof.
  intros p. unfold Promise_all. pose proof (run_group_keeps_all true i batch p) as H.
  destruct (run_group start resume ev true i batch p) as [slots p'].
  by destruct (first_rejected slots).
Qed.

Lemma Promise_allSettled_keeps i batch : preserves R (Promise_allSettled start resume ev i batch).
Proof.
  intros p. unfold Promise_allSettled. pose proof (run_group_keeps_all false i batch p) as H.
  by destruct (run_group start resume ev false i batch p) as [slots p'].
Qed.
End GroupsAll.

(** Timers alone. *)
Lemma removals_keep_all (rs : list removal) p :
  (forall r p, R p (remove_item r p)) -> R p (foldl (fun q r => remove_item r q) p rs).
Proof.
  intros H. revert p. induction rs as [|r rs IH]; intros p; cbn; [reflexivity|].
  etrans; [apply H|]. apply IH.
Qed.
End Preserves.


Lemma preserves_weaken {A} (R R' : relation page) (m : M A) :
  (forall p q, R p q -> R' p q) -> preserves R m -> preserves R' m.
Proof. intros H Hm p. apply H, Hm. Qed.

#[global] Instance item_footprint_preorder h : PreOrder (item_footprint h).
Proof.
  split.
  - by intros p.
  - intros p q r (?&?&?&?&?&?&Hpq) (?&?&?&?&?&?&Hqr).
    repeat split; try congruence. intros h' Hne. by rewrite Hqr, Hpq.
Qed.

Lemma item_footprint_batch h p q : item_footprint h p q -> batch_footprint p q.
Proof. intros (?&?&?&?&?&?&?). by repeat split. Qed.

(** *** What each primitive keeps *)

Lemma updateFileStatus_keeps_item h status progress :
  preserves (item_footprint h) (updateFileStatus h status progress).
Proof. intros p. apply updateFileStatus_footprint. Qed.

Lemma updateFileStatus_keeps_structure h status progress :
  preserves same_structure (updateFileStatus h status progress).
Proof.
  intros p. destruct (updateFileStatus_footprint h status progress p) as (Hf & _ & Hs).
  by eapply item_footprint_structure.
Qed.

Lemma record_event_item h e p : item_footprint h p (record_event e p).
Proof. by repeat split. Qed.

Lemma record_event_structure e p : same_structure p (record_event e p).
Proof. by split. Qed.

Lemma record_event_batch e p : batch_footprint p (record_event e p).
Proof. by repeat split. Qed.

Lemma remove_item_structure r p : same_structure p (remove_item r p).
Proof. split; [done|]. intros h. by rewrite item_of_remove_item. Qed.

Lemma remove_item_batch r p : batch_footprint p (remove_item r p).
Proof. by repeat split. Qed.

Lemma fetch_keeps_item h c f : preserves (item_footprint h) (fetch c f).
Proof. intros p. apply record_event_item. Qed.

Lemma fetch_keeps_structure c f : preserves same_structure (fetch c f).
Proof. intros p. apply record_event_structure. Qed.

Lemma showError_keeps_structure msg c : preserves same_structure (showError msg c).
Proof.
  intros p. unfold showError. destruct (container_nodes c (surf p)) as [nodes|] eqn:E; [|done].
  destruct (has_dropZone (inp p)); destruct c; cbn in E; split; try done.
  all: unfold structure; cbn; by rewrite E.
Qed.

Lemma set_processBtn_disabled_structure b : preserves same_structure (set_processBtn_disabled b).
Proof. by intros p. Qed.

Lemma set_summarizeBtn_disabled_structure b :
  preserves same_structure (set_summarizeBtn_disabled b).
Proof. by intros p. Qed.

Lemma set_loading_hidden_structure b : preserves same_structure (set_loading_hidden b).
Proof.
  intros p. unfold set_loading_hidden.
  destruct (loading_hidden (ctl p)) eqn:E; [|done].
  split; [|done]. unfold structure. cbn. by rewrite E.
Qed.

Lemma set_outputText_structure f : preserves same_structure (set_outputText f).
Proof.
  intros p. unfold set_outputText.
  destruct (outputText (out p)) eqn:E; [|done].
  split; [|done]. unfold structure. cbn. by rewrite E.
Qed.

Lemma animateNumber_structure el from to percent :
  preserves same_structure (animateNumber el from to percent).
Proof. by intros p. Qed.

Lemma await_call_structure ev c i : preserves same_structure (await_call ev c i).
Proof.
  intros p. unfold await_call. unfold_M. cbn.
  etrans; [|apply record_event_structure].
  apply (removals_keep_all same_structure). apply remove_item_structure.
Qed.

Create HintDb keeps discriminated.
#[global] Hint Resolve updateFileStatus_keeps_item updateFileStatus_keeps_structure
  fetch_keeps_item fetch_keeps_structure showError_keeps_structure
  set_processBtn_disabled_structure set_summarizeBtn_disabled_structure
  set_loading_hidden_structure set_outputText_structure animateNumber_structure
  await_call_structure : keeps.

(** Decompose a computation along its binds, handlers and case analyses. *)
Ltac keeps :=
  repeat first
    [ solve [eauto with keeps]
    | apply preserves_ret; typeclasses eauto
    | apply preserves_throw; typeclasses eauto
    | apply preserves_get; typeclasses eauto
    | apply preserves_bind; [typeclasses eauto | | intros ?]
    | apply preserves_try_catch; [typeclasses eauto | | intros ?]
    | apply preserves_try_finally; [typeclasses eauto | | ]
    | match goal with
      | |- preserves _ (match ?x with _ => _ end) => destruct x
      | |- preserves _ (let _ := _ in _) => cbv zeta
      end ].

(** *** What each segment of a callback keeps *)

Lemma handleApiResponse_pure (R : relation page) `{!PreOrder R} status body :
  preserves R (handleApiResponse status body).
Proof. unfold handleApiResponse. keeps. Qed.

Section Segments.
Context (R : relation page) `{!PreOrder R} (h : handle).
Hypothesis update_keeps : forall status progress, preserves R (updateFileStatus h status progress).
Hypothesis fetch_keeps : forall f, preserves R (fetch (UPLOAD h) f).

Lemma uploadFile_start_keeps file : preserves R (uploadFile_start file h).
Proof. unfold uploadFile_start, uploadFile_catch. keeps. Qed.

Lemma uploadFile_resume_keeps r : preserves R (uploadFile_resume h r).
Proof. unfold uploadFile_resume, uploadFile_catch. keeps. Qed.

Lemma processFile_start_keeps file : preserves R (processFile_start file h).
Proof. unfold processFile_start, processFile_catch. keeps. Qed.

Lemma processFile_resume_keeps r : preserves R (processFile_resume h r).
Proof.
  unfold processFile_resume, processFile_catch. keeps.
  by apply handleApiResponse_pure.
Qed.

Lemma processBtn_start_keeps : preserves R (processBtn.start h).
Proof.
  unfold processBtn.start, processBtn.on_error. keeps.
Qed.

Lemma processBtn_resume_keeps r : preserves R (processBtn.resume h r).
Proof.
  unfold processBtn.resume, processBtn.on_error. keeps.
Qed.

Lemma summarizeBtn_start_keeps : preserves R (summarizeBtn.start h).
Proof.
  unfold summarizeBtn.start. keeps.
Qed.

Lemma summarizeBtn_resume_keeps r : preserves R (summarizeBtn.resume h r).
Proof. apply processFile_resume_keeps. Qed.
End Segments.

(** Each segment touches the element of its own item and the log, and keeps
    the structure of the page. *)
Lemma processBtn_start_item h : preserves (item_footprint h) (processBtn.start h).
Proof. apply processBtn_start_keeps; [typeclasses eauto|..]; eauto with keeps. Qed.

Lemma processBtn_resume_item h r : preserves (item_footprint h) (processBtn.resume h r).
Proof. apply processBtn_resume_keeps; [typeclasses eauto|..]; eauto with keeps. Qed.

Lemma summarizeBtn_start_item h : preserves (item_footprint h) (summarizeBtn.start h).
Proof. apply summarizeBtn_start_keeps; [typeclasses eauto|..]; eauto with keeps. Qed.

Lemma summarizeBtn_resume_item h r : preserves (item_footprint h) (summarizeBtn.resume h r).
Proof. apply summarizeBtn_resume_keeps; [typeclasses eauto|..]; eauto with keeps. Qed.

Lemma processBtn_start_structure h : preserves same_structure (processBtn.start h).
Proof. apply processBtn_start_keeps; [typeclasses eauto|..]; eauto with keeps. Qed.

Lemma processBtn_resume_structure h r : preserves same_structure (processBtn.resume h r).
Proof. apply processBtn_resume_keeps; [typeclasses eauto|..]; eauto with keeps. Qed.

Lemma summarizeBtn_start_structure h : preserves same_structure (summarizeBtn.start h).
Proof. apply summarizeBtn_start_keeps; [typeclasses eauto|..]; eauto with keeps. Qed.

Lemma summarizeBtn_resume_structure h r : preserves same_structure (summarizeBtn.resume h r).
Proof. apply summarizeBtn_resume_keeps; [typeclasses eauto|..]; eauto with keeps. Qed.

#[global] Hint Resolve processBtn_start_item processBtn_resume_item summarizeBtn_start_item
  summarizeBtn_resume_item processBtn_start_structure processBtn_resume_structure
  summarizeBtn_start_structure summarizeBtn_resume_structure
  record_event_structure remove_item_structure record_event_batch remove_item_batch : keeps.

(** *** What the loops and the handlers keep *)

Lemma processBtn_batches_structure ev items : preserves same_structure (processBtn.batches ev items).
Proof.
  unfold processBtn.batches. apply preserves_for_groups; [typeclasses eauto|].
  intros i batch acc. keeps.
  apply Promise_all_keeps; [typeclasses eauto|..]; eauto with keeps.
Qed.

Lemma processBtn_batches_footprint ev items : preserves batch_footprint (processBtn.batches ev items).
Proof.
  unfold processBtn.batches. apply preserves_for_groups; [typeclasses eauto|].
  intros i batch acc. keeps.
  apply Promise_all_keeps; [typeclasses eauto|..]; eauto with keeps.
  - intros h. eapply preserves_weaken; [apply (item_footprint_batch h)|]. eauto with keeps.
  - intros h r. eapply preserves_weaken; [apply (item_footprint_batch h)|]. eauto with keeps.
Qed.

Lemma summarizeBtn_batches_structure ev items :
  preserves same_structure (summarizeBtn.batches ev items).
Proof.
  unfold summarizeBtn.batches. apply preserves_for_groups; [typeclasses eauto|].
  intros i batch acc. keeps.
  apply Promise_allSettled_keeps; [typeclasses eauto|..]; eauto with keeps.
Qed.

Lemma summarizeBtn_batches_footprint ev items :
  preserves batch_footprint (summarizeBtn.batches ev items).
Proof.
  unfold summarizeBtn.batches. apply preserves_for_groups; [typeclasses eauto|].
  intros i batch acc. keeps.
  apply Promise_allSettled_keeps; [typeclasses eauto|..]; eauto with keeps.
  - intros h. eapply preserves_weaken; [apply (item_footprint_batch h)|]. eauto with keeps.
  - intros h r. eapply preserves_weaken; [apply (item_footprint_batch h)|]. eauto with keeps.
Qed.

Lemma each_in_turn_structure ev i fileItems summaries :
  preserves same_structure (summarizeBtn.each_in_turn ev i fileItems summaries).
Proof.
  revert i summaries. induction fileItems as [|fileItem rest IH]; intros i summaries;
    cbn [summarizeBtn.each_in_turn]; keeps.
  all: try (apply processFile_start_keeps; [typeclasses eauto|..]; eauto with keeps).
  all: try (apply processFile_resume_keeps; [typeclasses eauto|..]; eauto with keeps).
Qed.

Lemma updateStats_structure o s : preserves same_structure (updateStats o s).
Proof. unfold updateStats. keeps. Qed.

Lemma validateInput_structure text : preserves same_structure (validateInput text).
Proof. unfold validateInput. keeps. Qed.

#[global] Hint Resolve processBtn_batches_structure summarizeBtn_batches_structure
  each_in_turn_structure updateStats_structure validateInput_structure : keeps.

Lemma summarizeBtn_body_structure ev tab lang :
  preserves same_structure (summarizeBtn.body ev tab lang).
Proof.
  unfold summarizeBtn.body, summarizeBtn.text_branch, summarizeBtn.file_branch,
    summarizeBtn.in_batch, summarizeBtn.one_by_one, set_innerHTML, reveal.
  keeps.
Qed.

Lemma summarizeBtn_on_error_structure e : preserves same_structure (summarizeBtn.on_error e).
Proof. unfold summarizeBtn.on_error. keeps. Qed.


(** ** Status transitions of one item *)

Lemma uploadFile_start_ok file h p :
  has_status (item_of p h) ->
  exists f,
    uploadFile_start file h p
    = (Normal tt, record_event (Dispatch (UPLOAD h) f)
                    (set_item h (with_status "Uploading..." 30 (item_of p h)) p)).
Proof.
  intros Hs. unfold uploadFile_start. unfold_M.
  rewrite (updateFileStatus_ok _ _ _ _ Hs). eexists. reflexivity.
Qed.

Lemma uploadFile_resume_ok h r p :
  has_status (item_of p h) ->
  uploadFile_resume h r p
  = match uploadFile_error r, payload r with
    | None, Some data =>
        (Normal data, set_item h (with_status "Completed" 100 (item_of p h)) p)
    | Some e, _ =>
        (Throw e, set_item h (with_status (Failed (message e)) 0 (item_of p h)) p)
    | None, None => (Throw not_json, p)
    end.
Proof.
  intros Hs. unfold uploadFile_resume, uploadFile_catch, uploadFile_error, payload, Failed.
  unfold_M.
  destruct r as [e|status [data|]]; [|destruct (ok status)|];
    by rewrite (updateFileStatus_ok _ _ _ _ Hs).
Qed.

Lemma processFile_start_ok file h p :
  has_status (item_of p h) ->
  exists f,
    processFile_start file h p
    = (Normal tt, record_event (Dispatch (UPLOAD h) f)
                    (set_item h (with_status "Processing..." 50 (item_of p h)) p)).
Proof.
  intros Hs. unfold processFile_start. unfold_M.
  rewrite (updateFileStatus_ok _ _ _ _ Hs). eexists. reflexivity.
Qed.

Lemma processFile_resume_ok h r p :
  has_status (item_of p h) ->
  processFile_resume h r p
  = match processFile_error r, payload r with
    | None, Some data =>
        (Normal data, set_item h (with_status "Completed" 100 (item_of p h)) p)
    | Some e, _ =>
        (Throw e, set_item h (with_status (Failed (message e)) 0 (item_of p h)) p)
    | None, None => (Throw not_json, p)
    end.
Proof.
  intros Hs.
  unfold processFile_resume, processFile_catch, handleApiResponse, processFile_error, payload,
    Failed.
  unfold_M.
  destruct r as [e|status [data|]]; [|destruct (ok status)..];
    by rewrite (updateFileStatus_ok _ _ _ _ Hs).
Qed.

Lemma error_or_payload r :
  (uploadFile_error r = None <-> is_Some (payload r))
  /\ (processFile_error r = None <-> is_Some (payload r)).
Proof.
  destruct r as [e|status [data|]]; cbn; [|destruct (ok status)..];
    split; split; intros H; try done; try (by destruct H).
Qed.

(** C7, as a counterexample: on the summarize path the status shown when the
    call is dispatched is 'Processing...', not 'Uploading...'. *)
Lemma processFile_shows_Processing :
  let q := (processFile_start (Demo.report 1) 1 (Demo.page_of "file" true [1%nat] [])).2 in
  file_status (item_of q 1) = Some "Processing..."
  /\ file_status (item_of q 1) <> Some "Uploading..."
  /\ exists f, network q = [Dispatch (UPLOAD 1) f].
Proof.
  vm_compute. split; [reflexivity|]. split; [discriminate|]. eexists. reflexivity.
Qed.

(** C7, amended: for an item whose status and progress elements exist,
    [uploadFile] shows 'Uploading...' at 30 and then dispatches the call,
    [processFile] shows 'Processing...' at 50 and then dispatches it; when the
    call settles, both show 'Completed' at 100 for an ok response with a JSON
    body, and otherwise 'Error: ' followed by the error's message, at 0, and
    rethrow the error. *)
Theorem status_transitions (file : File.t) (h : handle) (r : fetch_result) (p : page) :
  has_status (item_of p h) ->
  (exists f,
     uploadFile_start file h p
     = (Normal tt, record_event (Dispatch (UPLOAD h) f)
                     (set_item h (with_status "Uploading..." 30 (item_of p h)) p)))
  /\ (exists f,
     processFile_start file h p
     = (Normal tt, record_event (Dispatch (UPLOAD h) f)
                     (set_item h (with_status "Processing..." 50 (item_of p h)) p)))
  /\ (forall data, payload r = Some data ->
       uploadFile_resume h r p
       = (Normal data, set_item h (with_status "Completed" 100 (item_of p h)) p)
       /\ processFile_resume h r p
          = (Normal data, set_item h (with_status "Completed" 100 (item_of p h)) p))
  /\ (forall e, uploadFile_error r = Some e ->
       uploadFile_resume h r p
       = (Throw e, set_item h (with_status (Failed (message e)) 0 (item_of p h)) p))
  /\ (forall e, processFile_error r = Some e ->
       processFile_resume h r p
       = (Throw e, set_item h (with_status (Failed (message e)) 0 (item_of p h)) p)).
Proof.
  intros Hs.
  destruct (uploadFile_start_ok file h p Hs) as (f1 & H1).
  destruct (processFile_start_ok file h p Hs) as (f2 & H2).
  destruct (error_or_payload r) as [Hu Hp].
  split; [by exists f1|]. split; [by exists f2|]. split; [|split].
  - intros data Hd. rewrite uploadFile_resume_ok, processFile_resume_ok by done.
    rewrite Hd. destruct (uploadFile_error r) eqn:E1.
    + assert (is_Some (payload r)) as Hsome by (by rewrite Hd). apply Hu in Hsome. congruence.
    + destruct (processFile_error r) eqn:E2; [|done].
      assert (is_Some (payload r)) as Hsome by (by rewrite Hd). apply Hp in Hsome. congruence.
  - intros e He. rewrite uploadFile_resume_ok by done. by rewrite He.
  - intros e He. rewrite processFile_resume_ok by done. by rewrite He.
Qed.

Lemma status_transitions_witness :
  file_status
    (item_of (uploadFile_resume 1 (Response 500 (Some Demo.failure))
                (Demo.page_of "file" true [1%nat] [])).2 1)
  = Some "Error: Unsupported language".
Proof.
  destruct (status_transitions (Demo.report 1) 1 (Response 500 (Some Demo.failure))
              (Demo.page_of "file" true [1%nat] [])) as (_ & _ & _ & Hfail & _).
  { split; eexists; vm_compute; reflexivity. }
  rewrite (Hfail (Error "Unsupported language")) by reflexivity.
  cbn [snd]. rewrite item_of_set_item_eq. reflexivity.
Defined.


(** ** The controls after a handler *)

Lemma try_finally_after {A} (m : M A) (f : M unit) (Q : page -> Prop) p :
  (forall q, Q (f q).2) -> Q (try_finally m f p).2.
Proof.
  intros H. unfold try_finally. destruct (m p) as [c p']. specialize (H p').
  by destruct (f p') as [[[]|e] p''].
Qed.

Lemma processBtn_click_enabled ev p :
  processBtn.selectedItems p <> [] ->
  processBtn_disabled (ctl (processBtn.click ev p).2) = false.
Proof.
  intros Hsel. unfold processBtn.click. unfold bind at 1, get.
  rewrite bool_decide_eq_false_2 by done.
  unfold bind at 1, set_processBtn_disabled at 1, modify.
  by apply try_finally_after.
Qed.

Lemma at_last_restores q :
  is_Some (loading_hidden (ctl q)) ->
  loading_hidden (ctl (summarizeBtn.at_last q).2) = Some true
  /\ summarizeBtn_disabled (ctl (summarizeBtn.at_last q).2) = false.
Proof.
  intros [b Hb]. unfold summarizeBtn.at_last, set_loading_hidden, set_summarizeBtn_disabled.
  unfold_M. by rewrite Hb.
Qed.

Lemma same_structure_loading p q :
  same_structure p q -> is_Some (loading_hidden (ctl p)) -> is_Some (loading_hidden (ctl q)).
Proof.
  intros [Hs _] [b Hb]. unfold structure in Hs. rewrite Hb in Hs.
  destruct (loading_hidden (ctl q)); [done|]. cbn in Hs. congruence.
Qed.

Lemma summarizeBtn_try_restores ev tab lang p :
  is_Some (loading_hidden (ctl p)) ->
  let q := (try_finally (try_catch (summarizeBtn.body ev tab lang) summarizeBtn.on_error)
                        summarizeBtn.at_last p).2 in
  loading_hidden (ctl q) = Some true /\ summarizeBtn_disabled (ctl q) = false.
Proof.
  intros Hl q. subst q.
  assert (Hk : preserves same_structure
                 (try_catch (summarizeBtn.body ev tab lang) summarizeBtn.on_error)).
  { apply preserves_try_catch; [typeclasses eauto|apply summarizeBtn_body_structure|].
    apply summarizeBtn_on_error_structure. }
  specialize (Hk p). unfold try_finally.
  destruct (try_catch _ _ p) as [c p']. cbn [snd] in Hk.
  apply (same_structure_loading _ _ Hk) in Hl.
  pose proof (at_last_restores p' Hl) as Hr.
  by destruct (summarizeBtn.at_last p') as [[[]|e] p''].
Qed.

Lemma summarizeBtn_click_try ev p tab :
  activeTab (inp p) = Some tab ->
  targetLanguage_value (inp p) <> "" ->
  (tab = "text" -> trim (inputText_value (inp p)) <> "") ->
  summarizeBtn.click ev p
  = try_finally (try_catch (summarizeBtn.body ev tab (targetLanguage_value (inp p)))
                           summarizeBtn.on_error) summarizeBtn.at_last p.
Proof.
  intros Htab Hlang Htext. unfold summarizeBtn.click. unfold bind at 1, get.
  rewrite Htab. rewrite (bool_decide_eq_false_2 _ Hlang).
  destruct (bool_decide (tab = "text")) eqn:Et; [|done].
  apply bool_decide_eq_true in Et. by rewrite (bool_decide_eq_false_2 _ (Htext Et)).
Qed.

Lemma summarizeBtn_click_early ev p :
  (activeTab (inp p) = None
   \/ targetLanguage_value (inp p) = ""
   \/ activeTab (inp p) = Some "text" /\ trim (inputText_value (inp p)) = "") ->
  ctl (summarizeBtn.click ev p).2 = ctl p.
Proof.
  intros Hcase. unfold summarizeBtn.click. unfold bind at 1, get.
  destruct (activeTab (inp p)) as [tab|]; [|done].
  destruct (bool_decide (targetLanguage_value (inp p) = "")) eqn:El.
  { by destruct (showError_surfaces "Please select a target language" ErrorContainer p)
      as (_ & _ & _ & Hc & _). }
  apply bool_decide_eq_false in El.
  destruct Hcase as [?|[?|[[= ->] Hb]]]; [done..|].
  rewrite !bool_decide_eq_true_2 by done. cbn [andb].
  by destruct (showError_surfaces "Please enter some text to summarize" ErrorContainer p)
      as (_ & _ & _ & Hc & _).
Qed.

Lemma processBtn_click_none ev p :
  processBtn.selectedItems p = [] ->
  processBtn.click ev p = showError "Please select files to process" ErrorContainer p.
Proof.
  intros Hnil. unfold processBtn.click. unfold bind at 1, get.
  by rewrite bool_decide_eq_true_2.
Qed.

(** C10: when the process handler gets past its selection check, the
    process button is enabled at its end, whatever the items did and even if
    the loop threw; a handler that returns at the check leaves the button as
    it was, so a click on an enabled button always ends with it enabled.
    When the summarize handler reaches its [try] and the loading indicator
    exists, at its end the indicator is hidden and the button enabled, on
    every path through the [try]; a run that returns before the [try] leaves
    both untouched, so from a page at rest every run ends at rest. *)
Theorem controls_restored (ev : env) (p : page) :
  (processBtn.selectedItems p <> [] ->
     processBtn_disabled (ctl (processBtn.click ev p).2) = false)
  /\ (processBtn_disabled (ctl p) = false ->
     processBtn_disabled (ctl (processBtn.click ev p).2) = false)
  /\ (forall tab, activeTab (inp p) = Some tab ->
       targetLanguage_value (inp p) <> "" ->
       (tab = "text" -> trim (inputText_value (inp p)) <> "") ->
       is_Some (loading_hidden (ctl p)) ->
       loading_hidden (ctl (summarizeBtn.click ev p).2) = Some true
       /\ summarizeBtn_disabled (ctl (summarizeBtn.click ev p).2) = false)
  /\ (loading_hidden (ctl p) = Some true -> summarizeBtn_disabled (ctl p) = false ->
     loading_hidden (ctl (summarizeBtn.click ev p).2) = Some true
     /\ summarizeBtn_disabled (ctl (summarizeBtn.click ev p).2) = false).
Proof.
  assert (Htry : forall tab, activeTab (inp p) = Some tab ->
       targetLanguage_value (inp p) <> "" ->
       (tab = "text" -> trim (inputText_value (inp p)) <> "") ->
       is_Some (loading_hidden (ctl p)) ->
       loading_hidden (ctl (summarizeBtn.click ev p).2) = Some true
       /\ summarizeBtn_disabled (ctl (summarizeBtn.click ev p).2) = false).
  { intros tab Htab Hlang Htext Hl. rewrite (summarizeBtn_click_try ev p tab) by done.
    by apply summarizeBtn_try_restores. }
  split; [apply processBtn_click_enabled|]. split; [|split; [exact Htry|]].
  - intros Hd. destruct (decide (processBtn.selectedItems p = [])) as [Hnil|Hsel].
    + rewrite processBtn_click_none by done.
      destruct (showError_surfaces "Please select files to process" ErrorContainer p)
        as (_ & _ & _ & Hc & _). by rewrite Hc.
    + by apply processBtn_click_enabled.
  - intros Hl Hd.
    destruct (activeTab (inp p)) as [tab|] eqn:Htab;
      [|rewrite summarizeBtn_click_early by (rewrite Htab; by left); by rewrite Hl, Hd].
    destruct (decide (targetLanguage_value (inp p) = "")) as [Hlang|Hlang];
      [rewrite summarizeBtn_click_early by (by right; left); by rewrite Hl, Hd|].
    destruct (decide (tab = "text" /\ trim (inputText_value (inp p)) = "")) as [[-> Hb]|Hn];
      [rewrite summarizeBtn_click_early by (by right; right); by rewrite Hl, Hd|].
    apply (Htry tab); [done|done| |by rewrite Hl].
    intros Ht Hb. by apply Hn.
Qed.

Lemma controls_restored_witness :
  (* every upload fails *)
  processBtn_disabled
    (ctl (processBtn.click (Demo.service [1; 2]%nat) (Demo.page_of "file" true [1; 2]%nat [])).2)
  = false
  (* the loop throws: the status element of item 2 is missing *)
  /\ processBtn_disabled
      (ctl (processBtn.click (Demo.service [2]%nat)
              (Demo.without_status 2 (Demo.page_of "file" true [1; 2]%nat []))).2)
    = false
  /\ errorContainer
      (surf (processBtn.click (Demo.service [2]%nat)
               (Demo.without_status 2 (Demo.page_of "file" true [1; 2]%nat []))).2)
    = Some ["Error during batch processing. Some files may not have been processed."]
  (* the summarize handler ends on its error path *)
  /\ ctl (summarizeBtn.click (Demo.service [1; 2]%nat)
            (Demo.page_of "file" true [1; 2]%nat [])).2
    = ctl (Demo.page_of "file" true [1; 2]%nat []).
Proof.
  split; [|split; [|split]].
  - apply (proj1 (controls_restored (Demo.service [1; 2]%nat)
                      (Demo.page_of "file" true [1; 2]%nat []))).
    vm_compute. discriminate.
  - apply (proj1 (controls_restored (Demo.service [2]%nat)
                    (Demo.without_status 2 (Demo.page_of "file" true [1; 2]%nat [])))).
    vm_compute. discriminate.
  - vm_compute. reflexivity.
  - vm_compute. reflexivity.
Defined.


(** ** Calls in flight *)

Lemma remove_first_submseteq c l : remove_first c l ⊆+ l.
Proof.
  induction l as [|x l IH]; cbn; [done|].
  destruct (decide (x = c)).
  - by apply submseteq_cons.
  - by apply submseteq_skip.
Qed.

Lemma remove_first_perm c l : c ∈ l -> l ≡ₚ c :: remove_first c l.
Proof.
  induction l as [|x l IH]; cbn; [by intros ?%elem_of_nil|].
  intros Hin. destruct (decide (x = c)) as [->|Hne]; [done|].
  apply elem_of_cons in Hin as [->|Hin]; [done|].
  rewrite (IH Hin) at 1. apply Permutation_swap.
Qed.

Lemma in_flight_snoc history e : in_flight (history ++ [e]) = in_flight_step (in_flight history) e.
Proof. unfold in_flight. by rewrite foldl_app. Qed.

Lemma in_flight_app history more :
  in_flight (history ++ more) = foldl in_flight_step (in_flight history) more.
Proof. unfold in_flight. by rewrite foldl_app. Qed.

Lemma foldl_dispatches calls ds :
  Forall (fun e => is_dispatch e = true) ds ->
  foldl in_flight_step calls ds = calls ++ (call_of <$> ds).
Proof.
  revert calls. induction ds as [|e ds IH]; intros calls Hd; cbn.
  - by rewrite app_nil_r.
  - apply Forall_cons in Hd as [He Hd]. destruct e as [c f|c]; [|done].
    rewrite IH by done. cbn. by rewrite <- app_assoc.
Qed.

Lemma foldl_settles_submseteq calls ss :
  Forall (fun e => is_dispatch e = false) ss ->
  foldl in_flight_step calls ss ⊆+ calls.
Proof.
  revert calls. induction ss as [|e ss IH]; intros calls Hs; cbn; [done|].
  apply Forall_cons in Hs as [He Hs]. destruct e as [c f|c]; [done|].
  etrans; [by apply IH|]. apply remove_first_submseteq.
Qed.

Lemma foldl_settles_all calls ss :
  Forall (fun e => is_dispatch e = false) ss ->
  call_of <$> ss ≡ₚ calls ->
  foldl in_flight_step calls ss = [].
Proof.
  revert calls. induction ss as [|e ss IH]; intros calls Hs Hp; cbn.
  - cbn in Hp. symmetry in Hp. by apply Permutation_nil_r in Hp.
  - apply Forall_cons in Hs as [He Hs]. destruct e as [c f|c]; [done|]. cbn in Hp.
    apply IH; [done|].
    assert (c ∈ calls) as Hin by (rewrite <- Hp; left).
    rewrite (remove_first_perm c calls Hin) in Hp. by apply (inj (cons c)) in Hp.
Qed.

(** Within a round that starts with nothing in flight, what is in flight
    is a part of what the round dispatched. *)
Lemma round_prefix_in_flight batch r before after :
  round batch r -> r = before ++ after ->
  foldl in_flight_step [] before ⊆+ UPLOAD <$> batch.
Proof.
  intros (ds & ss & -> & Hd & Hs & Hsub & _) Heq.
  destruct (decide (length before <= length ds)%nat) as [Hle|Hgt].
  - assert (Hpre : before = take (length before) ds).
    { apply (f_equal (take (length before))) in Heq.
      rewrite take_app_le in Heq by done. rewrite take_app_length in Heq. by symmetry. }
    rewrite Hpre. rewrite foldl_dispatches by (by apply Forall_take).
    cbn. etrans; [|exact Hsub]. rewrite fmap_take.
    apply sublist_submseteq, sublist_take.
  - assert (Hpre : before = ds ++ take (length before - length ds) ss).
    { apply (f_equal (take (length before))) in Heq.
      rewrite take_app_length in Heq. rewrite take_app_ge in Heq by lia. by symmetry. }
    rewrite Hpre, foldl_app. rewrite (foldl_dispatches [] ds) by done. cbn.
    etrans; [apply foldl_settles_submseteq; by apply Forall_take|]. done.
Qed.

Lemma complete_round_in_flight ds ss :
  Forall (fun e => is_dispatch e = true) ds ->
  Forall (fun e => is_dispatch e = false) ss ->
  call_of <$> ss ≡ₚ call_of <$> ds ->
  foldl in_flight_step [] (ds ++ ss) = [].
Proof.
  intros Hd Hs Hp. rewrite foldl_app, (foldl_dispatches [] ds) by done. cbn.
  by apply foldl_settles_all.
Qed.


(** ** The log of a group *)

Lemma pending_from_handles {A} i (slots : list (handle * promise A)) :
  (pending_from i slots).*2 = pending_handles slots.
Proof.
  revert i. induction slots as [|[h pr] slots IH]; intros i; cbn; [done|].
  destruct (is_pending pr); cbn; by rewrite IH.
Qed.

Lemma pending_from_nil {A} i (slots : list (handle * promise A)) :
  pending_from i slots = [] <-> pending_handles slots = [].
Proof.
  rewrite <- (pending_from_handles i). split; [by intros ->|].
  by destruct (pending_from i slots).
Qed.

Lemma pending_from_lookup {A} i (slots : list (handle * promise A)) j h :
  (j, h) ∈ pending_from i slots ->
  (i <= j)%nat /\ slots !! (j - i)%nat = Some (h, Pending).
Proof.
  revert i. induction slots as [|[h' pr] slots IH]; intros i; cbn; [by intros ?%elem_of_nil|].
  destruct pr; cbn.
  - intros [[= -> ->]|Hin]%elem_of_cons.
    + split; [lia|]. by rewrite Nat.sub_diag.
    + apply IH in Hin as [Hle Hl]. split; [lia|].
      by replace (j - i)%nat with (S (j - S i)) by lia.
  - intros Hin. apply IH in Hin as [Hle Hl]. split; [lia|].
    by replace (j - i)%nat with (S (j - S i)) by lia.
  - intros Hin. apply IH in Hin as [Hle Hl]. split; [lia|].
    by replace (j - i)%nat with (S (j - S i)) by lia.
Qed.

Lemma pending_handles_app {A} (l1 l2 : list (handle * promise A)) :
  pending_handles (l1 ++ l2) = pending_handles l1 ++ pending_handles l2.
Proof.
  induction l1 as [|[h pr] l1 IH]; cbn; [done|].
  destruct (is_pending pr); cbn; by rewrite IH.
Qed.

Lemma pending_handles_sublist {A} (slots : list (handle * promise A)) :
  pending_handles slots `sublist_of` slots.*1.
Proof.
  induction slots as [|[h pr] slots IH]; cbn; [done|].
  destruct (is_pending pr); by constructor.
Qed.

(** Settling the slot at [j]: one pending handle fewer. *)
Lemma pending_handles_settle {A} (slots : list (handle * promise A)) j h pr :
  slots !! j = Some (h, Pending) -> is_pending pr = false ->
  pending_handles slots ≡ₚ h :: pending_handles (<[j := (h, pr)]> slots)
  /\ (<[j := (h, pr)]> slots).*1 = slots.*1.
Proof.
  intros Hj Hpr.
  pose proof (take_drop_middle slots j (h, Pending) Hj) as Hsplit.
  assert (Hlen : length (take j slots) = j).
  { apply length_take_le. apply lookup_lt_Some in Hj. lia. }
  revert Hsplit Hlen. generalize (take j slots) (drop (S j) slots). intros l1 l2 <- <-.
  rewrite insert_app_r_alt by done. rewrite Nat.sub_diag. cbn.
  rewrite !pending_handles_app, !fmap_app. cbn. rewrite Hpr. split; [|done].
  by rewrite Permutation_middle.
Qed.

Lemma removals_network rs p :
  network (foldl (fun q r => remove_item r q) p rs) = network p.
Proof. revert p. induction rs as [|r rs IH]; intros p; cbn; [done|]. by rewrite IH. Qed.

Section Trace.
Context {A : Type} {source : handle -> registries -> option File.t}.
Context {start : handle -> M (progress A)} {resume : handle -> fetch_result -> M A}.
Context `{!Callback source start resume}.
Context (ev : env).

Lemma map_async_trace batch p :
  exists ds,
    network (map_async start batch p).2 = network p ++ ds
    /\ Forall (fun e => is_dispatch e = true) ds
    /\ call_of <$> ds = UPLOAD <$> pending_handles (map_async start batch p).1
    /\ (map_async start batch p).1.*1 = batch.
Proof.
  revert p. induction batch as [|h batch IH]; intros p; cbn.
  - exists []. by rewrite app_nil_r.
  - pose proof (start_net h p) as Hn. destruct (start h p) as [c p1]. cbn in Hn.
    destruct (IH p1) as (ds & Hnet & Hd & Hc & Hb).
    destruct (map_async start batch p1) as [slots p2]. cbn in *.
    destruct (is_pending (launched c)) eqn:Ep.
    + destruct Hn as [f Hn]. exists (Dispatch (UPLOAD h) f :: ds).
      rewrite Hnet, Hn, <- app_assoc. cbn. repeat split; [by constructor|by rewrite Hc|by rewrite Hb].
    + exists ds. rewrite Hnet, Hn. by rewrite Hb.
Qed.

Lemma settle_loop_trace fail_fast fuel slots p :
  exists ss,
    network (settle_loop resume ev fail_fast fuel slots p).2 = network p ++ ss
    /\ Forall (fun e => is_dispatch e = false) ss
    /\ (call_of <$> ss)
         ++ (UPLOAD <$> pending_handles (settle_loop resume ev fail_fast fuel slots p).1)
       ≡ₚ UPLOAD <$> pending_handles slots
    /\ (settle_loop resume ev fail_fast fuel slots p).1.*1 = slots.*1.
Proof.
  revert slots p. induction fuel as [|fuel IH]; intros slots p; cbn [settle_loop].
  { exists []. by rewrite app_nil_r. }
  destruct (decided fail_fast slots); [exists []; by rewrite app_nil_r|].
  destruct (pending_from 0 slots) as [|first others] eqn:Ep; [exists []; by rewrite app_nil_r|].
  set (k := (pick ev (network p) `mod` length (first :: others))%nat).
  assert (Hin : nth k (first :: others) first ∈ pending_from 0 slots).
  { rewrite Ep. apply list_elem_of_In, nth_In. apply Nat.mod_upper_bound. done. }
  destruct (nth k (first :: others) first) as [j item].
  apply pending_from_lookup in Hin as [_ Hj]. rewrite Nat.sub_0_r in Hj.
  pose proof (resume_net item (reply ev (UPLOAD item))
                (record_event (Settle (UPLOAD item)) p)) as Hr.
  destruct (resume item _ _) as [c p2]. cbn in Hr.
  destruct (IH (<[j := (item, settled c)]> slots) p2) as (ss & Hnet & Hs & Hperm & Hfst).
  destruct (pending_handles_settle slots j item (settled c) Hj) as [Hp1 Hp2];
    [by destruct c|].
  exists (Settle (UPLOAD item) :: ss). rewrite Hnet, Hr. cbn. rewrite <- app_assoc.
  repeat split; [by constructor| |by rewrite Hfst].
  rewrite Hperm, Hp1. done.
Qed.

Lemma settle_loop_decided fail_fast fuel slots p :
  (length (pending_handles slots) <= fuel)%nat ->
  decided fail_fast (settle_loop resume ev fail_fast fuel slots p).1 = true.
Proof.
  revert slots p. induction fuel as [|fuel IH]; intros slots p Hlen; cbn [settle_loop].
  { cbn. unfold decided. apply orb_true_iff. right. apply bool_decide_eq_true.
    apply pending_from_nil. destruct (pending_handles slots); [done|cbn in Hlen; lia]. }
  destruct (decided fail_fast slots) eqn:Ed; [done|].
  destruct (pending_from 0 slots) as [|first others] eqn:Ep.
  { unfold decided in Ed. rewrite Ep in Ed. apply orb_false_iff in Ed as [_ Ed].
    by apply bool_decide_eq_false in Ed. }
  set (k := (pick ev (network p) `mod` length (first :: others))%nat).
  assert (Hin : nth k (first :: others) first ∈ pending_from 0 slots).
  { rewrite Ep. apply list_elem_of_In, nth_In. apply Nat.mod_upper_bound. done. }
  destruct (nth k (first :: others) first) as [j item].
  apply pending_from_lookup in Hin as [_ Hj]. rewrite Nat.sub_0_r in Hj.
  destruct (resume item _ _) as [c p2].
  apply IH.
  destruct (pending_handles_settle slots j item (settled c) Hj) as [Hp1 _]; [by destruct c|].
  apply Permutation_length in Hp1. rewrite length_cons in Hp1.
  rewrite Hp1 in Hlen. by apply le_S_n.
Qed.

(** One group is a round, complete unless [Promise.all] rejected. *)
Lemma run_group_trace fail_fast i batch p :
  exists ds ss,
    network (run_group start resume ev fail_fast i batch p).2 = network p ++ ds ++ ss
    /\ Forall (fun e => is_dispatch e = true) ds
    /\ Forall (fun e => is_dispatch e = false) ss
    /\ call_of <$> ds ⊆+ UPLOAD <$> batch
    /\ call_of <$> ss ⊆+ call_of <$> ds
    /\ (run_group start resume ev fail_fast i batch p).1.*1 = batch
    /\ decided fail_fast (run_group start resume ev fail_fast i batch p).1 = true
    /\ (pending_handles (run_group start resume ev fail_fast i batch p).1 = [] ->
        call_of <$> ss ≡ₚ call_of <$> ds).
Proof.
  unfold run_group.
  destruct (map_async_trace batch p) as (ds & Hnet & Hd & Hc & Hb).
  destruct (map_async start batch p) as [slots p1]. cbn in Hnet, Hc, Hb.
  set (p1' := while_suspended ev fail_fast i slots p1).
  assert (Hn1 : network p1' = network p1).
  { unfold p1', while_suspended. destruct (decided fail_fast slots); [done|].
    apply removals_network. }
  destruct (settle_loop_trace fail_fast (length batch) slots p1') as (ss & Hnet2 & Hs & Hperm & Hfst).
  pose proof (settle_loop_decided fail_fast (length batch) slots p1') as Hdec.
  destruct (settle_loop resume ev fail_fast (length batch) slots p1') as [slots' q].
  cbn in *. exists ds, ss. rewrite Hnet2, Hn1, Hnet, <- app_assoc.
  repeat split; try done.
  - rewrite Hc. apply fmap_submseteq, sublist_submseteq. rewrite <- Hb.
    apply pending_handles_sublist.
  - rewrite Hc, <- Hperm. by apply submseteq_inserts_r.
  - by rewrite Hfst.
  - apply Hdec. replace (length batch) with (length slots.*1) by (by rewrite Hb).
    apply sublist_length, pending_handles_sublist.
  - intros Hnil. rewrite Hnil in Hperm. cbn in Hperm. rewrite app_nil_r in Hperm.
    by rewrite Hc.
Qed.

(** All groups: at every instant the calls in flight belong to one group. *)
Lemma run_groups_trace fail_fast fuel k items p :
  exists history,
    network (run_groups start resume ev fail_fast fuel (3 * k) items p).2 = network p ++ history
    /\ bounded_by_groups items history.
Proof.
  revert k p. induction fuel as [|fuel IH]; intros k p; cbn [run_groups].
  { exists []. rewrite app_nil_r. split; [done|]. intros before after Heq.
    symmetry in Heq. apply app_eq_nil in Heq as [-> _]. exists 0%nat. apply submseteq_nil_l. }
  destruct (3 * k <? length items)%nat.
  2:{ exists []. rewrite app_nil_r. split; [done|]. intros before after Heq.
      symmetry in Heq. apply app_eq_nil in Heq as [-> _]. exists 0%nat. apply submseteq_nil_l. }
  destruct (run_group_trace fail_fast (3 * k) (slice (3 * k) (3 * k + 3) items) p)
    as (ds & ss & Hnet & Hd & Hs & Hsub & Hsub' & Hfst & Hdec & Hdone).
  destruct (run_group start resume ev fail_fast (3 * k) (slice (3 * k) (3 * k + 3) items) p)
    as [slots q]. cbn [fst snd] in *.
  assert (Hround : round (group k items) (ds ++ ss)).
  { exists ds, ss. by repeat split. }
  destruct (fail_fast && bool_decide (is_Some (first_rejected slots))) eqn:Estop.
  { exists (ds ++ ss). split; [done|]. intros before after Heq. exists k.
    by eapply round_prefix_in_flight. }
  assert (Hnil : pending_handles slots = []).
  { unfold decided in Hdec. rewrite Estop in Hdec. cbn in Hdec.
    apply bool_decide_eq_true in Hdec. by apply pending_from_nil in Hdec. }
  replace (3 * k + 3)%nat with (3 * S k)%nat by lia.
  destruct (IH (S k) q) as (rest & Hnet' & Hrest).
  destruct (run_groups start resume ev fail_fast fuel (3 * S k) items q) as [slots' q'].
  cbn [fst snd] in *.
  assert (Hzero : foldl in_flight_step [] (ds ++ ss) = [])
    by (apply complete_round_in_flight; auto).
  revert Hround Hzero Hnet. generalize (ds ++ ss). intros r Hround Hzero Hnet.
  exists (r ++ rest). rewrite Hnet', Hnet, <- !app_assoc. split; [done|].
  intros before after Heq.
  apply app_eq_inv in Heq as [(mid & Hr & Ha)|(mid & Hb & Hr)].
  - exists k. by eapply round_prefix_in_flight.
  - subst before. unfold in_flight. rewrite foldl_app, Hzero. by apply (Hrest mid after).
Qed.
End Trace.


(** ** The two callbacks *)

Lemma agree_refl h p : agree h p p.
Proof. by split. Qed.

Lemma alike_ret {A} h (a : A) : alike h (ret a) (ret a).
Proof. by intros p1 p2 H. Qed.

Lemma alike_throw {A} h e : alike h (@throw A e) (throw e).
Proof. by intros p1 p2 H. Qed.

Lemma alike_bind {A B} h (m1 m2 : M A) (k1 k2 : A -> M B) :
  alike h m1 m2 -> (forall a, alike h (k1 a) (k2 a)) -> alike h (bind m1 k1) (bind m2 k2).
Proof.
  intros Hm Hk p1 p2 Hag. unfold bind. destruct (Hm p1 p2 Hag) as [Hc Hag'].
  destruct (m1 p1) as [[a|e] q1], (m2 p2) as [[a'|e'] q2]; cbn in *; try done.
  - injection Hc as ->. by apply Hk.
  - by injection Hc as ->.
Qed.

Lemma alike_try_catch {A} h (m1 m2 : M A) (h1 h2 : exn -> M A) :
  alike h m1 m2 -> (forall e, alike h (h1 e) (h2 e)) ->
  alike h (try_catch m1 h1) (try_catch m2 h2).
Proof.
  intros Hm Hh p1 p2 Hag. unfold try_catch. destruct (Hm p1 p2 Hag) as [Hc Hag'].
  destruct (m1 p1) as [[a|e] q1], (m2 p2) as [[a'|e'] q2]; cbn in *; try done.
  injection Hc as ->. by apply Hh.
Qed.

Lemma alike_updateFileStatus h status progress :
  alike h (updateFileStatus h status progress) (updateFileStatus h status progress).
Proof.
  intros p1 p2 [Hi He]. unfold updateFileStatus, agree. rewrite He.
  destruct (file_status (item_of p2 h)); [|done].
  destruct progress; [destruct (progress_fill (item_of p2 h))|]; cbn;
    by rewrite !item_of_set_item_eq.
Qed.

Lemma alike_fetch h c f : alike h (fetch c f) (fetch c f).
Proof. by intros p1 p2 H. Qed.

Lemma alike_handleApiResponse h status body :
  alike h (handleApiResponse status body) (handleApiResponse status body).
Proof.
  unfold handleApiResponse. destruct (ok status); [destruct body|];
    auto using alike_ret, alike_throw.
Qed.

Create HintDb alike discriminated.
#[global] Hint Resolve alike_ret alike_throw alike_updateFileStatus alike_fetch
  alike_handleApiResponse : alike.

Ltac alike :=
  repeat first
    [ solve [eauto with alike]
    | apply alike_bind; [|intros ?]
    | apply alike_try_catch; [|intros ?]
    | match goal with
      | |- alike _ (match ?x with _ => _ end) (match ?x with _ => _ end) => destruct x
      end ].

Lemma alike_uploadFile_resume h r : alike h (uploadFile_resume h r) (uploadFile_resume h r).
Proof. unfold uploadFile_resume, uploadFile_catch. alike. Qed.

Lemma alike_processFile_resume h r : alike h (processFile_resume h r) (processFile_resume h r).
Proof. unfold processFile_resume, processFile_catch. alike. Qed.

Lemma alike_bind_get {A} h (k1 k2 : page -> M A) :
  (forall p1 p2, agree h p1 p2 -> alike h (k1 p1) (k2 p2)) ->
  alike h (bind get k1) (bind get k2).
Proof. intros H p1 p2 Hag. unfold bind, get. by apply (H p1 p2 Hag). Qed.

Lemma agree_lang h p1 p2 : agree h p1 p2 -> lang_or_en p1 = lang_or_en p2.
Proof. intros [Hi _]. unfold lang_or_en. by rewrite Hi. Qed.

Lemma alike_uploadFile_start h file : alike h (uploadFile_start file h) (uploadFile_start file h).
Proof.
  unfold uploadFile_start, uploadFile_catch. apply alike_try_catch; [|intros e; alike].
  apply alike_bind_get. intros p1 p2 Hag. rewrite (agree_lang h p1 p2 Hag). alike.
Qed.

Lemma alike_processFile_start h file :
  alike h (processFile_start file h) (processFile_start file h).
Proof.
  unfold processFile_start, processFile_catch.
  apply alike_bind_get. intros p1 p2 Hag. rewrite (agree_lang h p1 p2 Hag).
  destruct Hag as [-> _]. alike.
Qed.

#[global] Hint Resolve alike_uploadFile_start alike_uploadFile_resume alike_processFile_start
  alike_processFile_resume : alike.

(** The log of the first segments: one dispatch when it suspends, nothing
    otherwise. *)
Lemma updateFileStatus_network h status progress p :
  network (updateFileStatus h status progress p).2 = network p.
Proof. apply updateFileStatus_footprint. Qed.

Lemma uploadFile_start_net file h p :
  match (uploadFile_start file h p).1 with
  | Normal _ => exists f, network (uploadFile_start file h p).2 = network p ++ [Dispatch (UPLOAD h) f]
  | Throw _ => network (uploadFile_start file h p).2 = network p
  end.
Proof.
  unfold uploadFile_start, uploadFile_catch. unfold_M.
  pose proof (updateFileStatus_network h "Uploading..." (Some 30) p) as H1.
  destruct (updateFileStatus h "Uploading..." (Some 30) p) as [[[]|e] p1]; cbn in *.
  - eexists. by rewrite H1.
  - pose proof (updateFileStatus_network h ("Error: " +:+ message e) (Some 0) p1) as H2.
    destruct (updateFileStatus h _ (Some 0) p1) as [[[]|e'] p2]; cbn in *; congruence.
Qed.

Lemma processFile_start_net file h p :
  match (processFile_start file h p).1 with
  | Normal _ => exists f, network (processFile_start file h p).2 = network p ++ [Dispatch (UPLOAD h) f]
  | Throw _ => network (processFile_start file h p).2 = network p
  end.
Proof.
  unfold processFile_start, processFile_catch. unfold_M.
  pose proof (updateFileStatus_network h "Processing..." (Some 50) p) as H1.
  destruct (updateFileStatus h "Processing..." (Some 50) p) as [[[]|e] p1]; cbn in *.
  - eexists. by rewrite H1.
  - pose proof (updateFileStatus_network h ("Error: " +:+ message e) (Some 0) p1) as H2.
    destruct (updateFileStatus h _ (Some 0) p1) as [[[]|e'] p2]; cbn in *; congruence.
Qed.

#[global] Instance network_kept_preorder : PreOrder (fun p q : page => network q = network p).
Proof. split; [done|]. intros p q r Hpq Hqr. congruence. Qed.

Lemma getFileFromItem_remove_other h r p :
  removed r <> h ->
  getFileFromItem h (reg (remove_item r p)) = getFileFromItem h (reg p).
Proof.
  intros Hne. unfold getFileFromItem, window_fileMap. destruct r as [h' []]; cbn in *.
  - by rewrite lookup_delete_ne.
  - destruct (fileMap (reg p) !! h); [done|].
    destruct (window_fileMap_set (reg p)); [|done]. by rewrite lookup_delete_ne.
Qed.

Lemma getFileFromItem_remove_none h r p :
  getFileFromItem h (reg p) = None -> getFileFromItem h (reg (remove_item r p)) = None.
Proof.
  intros [H1 H2]%getFileFromItem_None. apply getFileFromItem_None.
  destruct r as [h' []]; cbn in *.
  - split; [|done]. rewrite lookup_delete. by destruct (decide (h' = h)).
  - split; [done|]. intros Hw. rewrite lookup_delete. destruct (decide (h' = h)); [done|auto].
Qed.

Lemma fileMap_remove_other h r p :
  removed r <> h -> fileMap (reg (remove_item r p)) !! h = fileMap (reg p) !! h.
Proof. intros Hne. destruct r as [h' []]; cbn in *; [by rewrite lookup_delete_ne|done]. Qed.

Lemma fileMap_remove_none h r p :
  fileMap (reg p) !! h = None -> fileMap (reg (remove_item r p)) !! h = None.
Proof.
  intros Hn. destruct r as [h' []]; cbn in *; [|done].
  rewrite lookup_delete. by destruct (decide (h' = h)).
Qed.

Lemma try_catch_get {A} (k : page -> M A) (hd : exn -> M A) p :
  try_catch (bind get k) hd p = try_catch (k p) hd p.
Proof. reflexivity. Qed.

#[global] Instance processBtn_callback :
  Callback getFileFromItem processBtn.start processBtn.resume.
Proof.
  split.
  - apply processBtn_start_item.
  - apply processBtn_resume_item.
  - intros h p. destruct (processBtn.start h p) as [c q] eqn:E. cbn [fst snd].
    unfold processBtn.start, processBtn.on_error, try_catch in E.
    unfold bind at 1, get in E.
    destruct (getFileFromItem h (reg p)) as [file|].
    + unfold bind in E. pose proof (uploadFile_start_net file h p) as Hn.
      destruct (uploadFile_start file h p) as [[[]|e] p1]; cbn in *.
      { by injection E as <- <-. }
      pose proof (updateFileStatus_network h ("Error: " +:+ message e) (Some 0) p1) as H2.
      unfold ret in E.
      destruct (updateFileStatus h _ (Some 0) p1) as [[[]|e'] p2]; cbn in *;
        injection E as <- <-; cbn; congruence.
    + unfold throw, bind, ret in E.
      pose proof (updateFileStatus_network h ("Error: " +:+ message (Error "File not found"))
                    (Some 0) p) as H2.
      destruct (updateFileStatus h _ (Some 0) p) as [[[]|e'] p2]; cbn in *;
        injection E as <- <-; cbn; congruence.
  - intros h r p.
    apply (processBtn_resume_keeps (fun p q => network q = network p) h).
    intros status progress p'. apply updateFileStatus_network.
  - intros h p1 p2 Hag Hsrc. unfold processBtn.start, processBtn.on_error.
    rewrite !try_catch_get, Hsrc.
    destruct (getFileFromItem h (reg p2)) as [file|];
      apply alike_try_catch; try done; try (intros; alike).
  - intros h r. unfold processBtn.resume, processBtn.on_error. alike.
  - apply getFileFromItem_remove_other.
  - apply getFileFromItem_remove_none.
Qed.

Lemma bind_get {A} (k : page -> M A) p : bind get k p = k p p.
Proof. reflexivity. Qed.

#[global] Instance summarizeBtn_callback :
  Callback (fun h r => fileMap r !! h) summarizeBtn.start summarizeBtn.resume.
Proof.
  split.
  - apply summarizeBtn_start_item.
  - apply summarizeBtn_resume_item.
  - intros h p. destruct (summarizeBtn.start h p) as [c q] eqn:E. cbn [fst snd].
    unfold summarizeBtn.start in E. rewrite bind_get in E.
    destruct (fileMap (reg p) !! h) as [file|].
    + unfold bind in E. pose proof (processFile_start_net file h p) as Hn.
      destruct (processFile_start file h p) as [[[]|e] p1]; cbn in *;
        injection E as <- <-; cbn; congruence.
    + unfold throw, bind in E.
      pose proof (updateFileStatus_network h "Error: No file found" (Some 0) p) as H2.
      destruct (updateFileStatus h _ (Some 0) p) as [[[]|e'] p2]; cbn in *;
        injection E as <- <-; cbn; congruence.
  - intros h r p.
    apply (summarizeBtn_resume_keeps (fun p q => network q = network p) h).
    intros status progress p'. apply updateFileStatus_network.
  - intros h p1 p2 Hag Hsrc. unfold summarizeBtn.start.
    rewrite !bind_get, Hsrc.
    destruct (fileMap (reg p2) !! h) as [file|].
    + assert (Hk : alike h (processFile_start file h;;; ret (@Suspended json))
                           (processFile_start file h;;; ret Suspended)) by alike.
      by apply Hk.
    + assert (Hk : alike h
        (updateFileStatus h "Error: No file found" (Some 0);;;
         @throw (progress json) (Error "No file found"))
        (updateFileStatus h "Error: No file found" (Some 0);;; throw (Error "No file found")))
        by alike.
      by apply Hk.
  - intros h r. unfold summarizeBtn.resume. alike.
  - intros h r p. apply fileMap_remove_other.
  - intros h r p. apply fileMap_remove_none.
Qed.


(** ** Each item of a group fares as it would alone *)

Lemma same_image_preorder {X} (f : page -> X) : PreOrder (fun p q => f q = f p).
Proof. split; [by intros p|]. intros p q r Hpq Hqr. congruence. Qed.

Lemma kept_property_preorder (P : page -> Prop) : PreOrder (fun p q => P p -> P q).
Proof. split; [by intros p|]. intros p q r Hpq Hqr. auto. Qed.

Section Isolation.
Context {A : Type} {source : handle -> registries -> option File.t}.
Context {start : handle -> M (progress A)} {resume : handle -> fetch_result -> M A}.
Context `{!Callback source start resume}.
Context (ev : env).

Lemma start_frame h p :
  inp (start h p).2 = inp p /\ reg (start h p).2 = reg p
  /\ forall h', h' <> h -> item_of (start h p).2 h' = item_of p h'.
Proof. destruct (start_item h p) as (?&?&?&?&?&?&?). auto. Qed.

Lemma resume_frame h r p :
  inp (resume h r p).2 = inp p /\ reg (resume h r p).2 = reg p
  /\ forall h', h' <> h -> item_of (resume h r p).2 h' = item_of p h'.
Proof. destruct (resume_item h r p) as (?&?&?&?&?&?&?). auto. Qed.

Lemma alone_local h p1 p2 :
  agree h p1 p2 -> source h (reg p1) = source h (reg p2) ->
  alone start resume ev h p1 = alone start resume ev h p2.
Proof.
  intros Hag Hsrc. unfold alone.
  destruct (start_local h p1 p2 Hag Hsrc) as [Hc Hag'].
  destruct (start h p1) as [c1 q1], (start h p2) as [c2 q2]. cbn in Hc, Hag'. subst c2.
  destruct (launched c1).
  - destruct (resume_local h (reply ev (UPLOAD h)) q1 q2 Hag') as [Hc' [_ Hi]].
    destruct (resume h _ q1) as [c1' r1], (resume h _ q2) as [c2' r2]. cbn in *. congruence.
  - by destruct Hag' as [_ ->].
  - by destruct Hag' as [_ ->].
Qed.

Lemma map_async_slots batch p :
  NoDup batch ->
  (map_async start batch p).1 = (fun h => (h, launched (start h p).1)) <$> batch
  /\ (forall h, h ∈ batch -> item_of (map_async start batch p).2 h = item_of (start h p).2 h)
  /\ (forall h, h ∉ batch -> item_of (map_async start batch p).2 h = item_of p h)
  /\ inp (map_async start batch p).2 = inp p
  /\ reg (map_async start batch p).2 = reg p.
Proof.
  revert p. induction batch as [|h batch IH]; intros p Hnd; cbn.
  { repeat split; try done. by intros h ?%elem_of_nil. }
  apply NoDup_cons in Hnd as [Hh Hnd].
  destruct (start_frame h p) as (Hi & Hr & Ho).
  destruct (start h p) as [c p1] eqn:Es. cbn in Hi, Hr, Ho.
  destruct (IH p1 Hnd) as (Hs & Hin & Hout & Hi' & Hr').
  destruct (map_async start batch p1) as [slots p2]. cbn in *.
  assert (Hsame : forall h', h' ∈ batch ->
            (start h' p1).1 = (start h' p).1
            /\ item_of (start h' p1).2 h' = item_of (start h' p).2 h').
  { intros h' Hh'. assert (h' <> h) by (by intros ->).
    destruct (start_local h' p1 p) as [Hc [_ Hit]]; [split; auto|by rewrite Hr|done]. }
  repeat split.
  - rewrite Hs. f_equal. apply list_fmap_ext. intros j h' Hj.
    destruct (Hsame h') as [-> _]; [by eapply list_elem_of_lookup_2|done].
  - intros h' [->|Hh']%elem_of_cons.
    + rewrite Hout by done. by rewrite Es.
    + rewrite Hin by done. by apply Hsame.
  - intros h' Hh'. apply not_elem_of_cons in Hh' as [Hne Hh']. rewrite Hout by done. auto.
  - congruence.
  - congruence.
Qed.

Lemma slot_as_alone_item p0 cur cur' (s : handle * promise A) :
  item_of cur' s.1 = item_of cur s.1 ->
  slot_as_alone start resume ev p0 cur s -> slot_as_alone start resume ev p0 cur' s.
Proof. unfold slot_as_alone. intros ->. done. Qed.

Lemma settle_loop_slots fail_fast fuel slots cur p0 :
  NoDup slots.*1 -> inp cur = inp p0 ->
  Forall (slot_as_alone start resume ev p0 cur) slots ->
  Forall (slot_as_alone start resume ev p0 (settle_loop resume ev fail_fast fuel slots cur).2)
         (settle_loop resume ev fail_fast fuel slots cur).1
  /\ inp (settle_loop resume ev fail_fast fuel slots cur).2 = inp p0.
Proof.
  revert slots cur. induction fuel as [|fuel IH]; intros slots cur Hnd Hinp Hall;
    cbn [settle_loop]; [done|].
  destruct (decided fail_fast slots); [done|].
  destruct (pending_from 0 slots) as [|first others] eqn:Ep; [done|].
  set (k := (pick ev (network cur) `mod` length (first :: others))%nat).
  assert (Hin : nth k (first :: others) first ∈ pending_from 0 slots).
  { rewrite Ep. apply list_elem_of_In, nth_In. by apply Nat.mod_upper_bound. }
  destruct (nth k (first :: others) first) as [j item].
  apply pending_from_lookup in Hin as [_ Hj]. rewrite Nat.sub_0_r in Hj.
  set (p1 := record_event (Settle (UPLOAD item)) cur).
  destruct (resume_frame item (reply ev (UPLOAD item)) p1) as (Hi2 & _ & Ho2).
  (* the slot of [item] was pending: its element is as its first segment left it *)
  pose proof (proj1 (Forall_forall _ _) Hall (item, Pending)
                (list_elem_of_lookup_2 _ _ _ Hj)) as [Hsus Hitem].
  cbn [fst snd] in Hitem, Hsus.
  (* the second segment behaves as after the first segment alone *)
  assert (Hag : agree item p1 (start item p0).2).
  { split; [|done]. cbn. rewrite Hinp. symmetry. apply start_frame. }
  destruct (resume_local item (reply ev (UPLOAD item)) _ _ Hag) as [Hc [_ Hel]].
  assert (Halone : alone start resume ev item p0
                   = (settled (resume item (reply ev (UPLOAD item)) p1).1,
                      item_of (resume item (reply ev (UPLOAD item)) p1).2 item)).
  { unfold alone. unfold suspends in Hsus.
    destruct (start item p0) as [c0 q0]. cbn in *.
    destruct (launched c0); try done.
    destruct (resume item (reply ev (UPLOAD item)) q0) as [c1 q1]. cbn in *.
    by rewrite Hc, Hel. }
  destruct (resume item (reply ev (UPLOAD item)) p1) as [c p2]. cbn [fst snd] in *.
  assert (Hlt : (j < length slots)%nat) by (by eapply lookup_lt_Some).
  apply IH.
  - destruct (pending_handles_settle slots j item (settled c) Hj) as [_ Heq]; [by destruct c|].
    by rewrite Heq.
  - by rewrite Hi2.
  - apply Forall_forall. intros s Hs. apply list_elem_of_lookup in Hs as [j' Hj'].
    destruct (decide (j' = j)) as [->|Hne].
    + rewrite list_lookup_insert_eq in Hj' by done. injection Hj' as <-.
      unfold slot_as_alone. cbn. destruct c; cbn; by rewrite Halone.
    + rewrite list_lookup_insert_ne in Hj' by done.
      assert (s.1 <> item).
      { intros Heq. apply Hne. eapply NoDup_lookup; [exact Hnd| |].
        - by rewrite list_lookup_fmap, Hj'.
        - rewrite list_lookup_fmap, Hj. cbn. by rewrite Heq. }
      eapply slot_as_alone_item; [|by eapply (proj1 (Forall_forall _ _) Hall),
                                       list_elem_of_lookup_2].
      by rewrite Ho2.
Qed.

Lemma removals_frame rs p h :
  inp (foldl (fun q r => remove_item r q) p rs) = inp p
  /\ item_of (foldl (fun q r => remove_item r q) p rs) h = item_of p h.
Proof.
  revert p. induction rs as [|r rs IH]; intros p; cbn; [done|].
  destruct (IH (remove_item r p)) as [-> ->]. by rewrite item_of_remove_item.
Qed.

(** After a group, every slot holds what its item yields alone from the
    page the group was dispatched on. *)
Lemma run_group_slots fail_fast i batch p :
  NoDup batch ->
  (run_group start resume ev fail_fast i batch p).1.*1 = batch
  /\ Forall (slot_as_alone start resume ev p (run_group start resume ev fail_fast i batch p).2)
            (run_group start resume ev fail_fast i batch p).1
  /\ inp (run_group start resume ev fail_fast i batch p).2 = inp p.
Proof.
  intros Hnd. unfold run_group.
  destruct (map_async_slots batch p Hnd) as (Hs & Hin & Hout & Hi & Hr).
  pose proof (map_async_handles start batch p) as Hh.
  destruct (map_async start batch p) as [slots p1]. cbn [fst snd] in *.
  set (p1' := while_suspended ev fail_fast i slots p1).
  assert (Hp1' : inp p1' = inp p1 /\ forall h, item_of p1' h = item_of p1 h).
  { unfold p1', while_suspended. destruct (decided fail_fast slots); [done|].
    split; [|intros h].
    - by destruct (removals_frame (removals ev i) p1 0%nat).
    - by destruct (removals_frame (removals ev i) p1 h). }
  destruct Hp1' as [Hi1 Hit1].
  assert (Hnd' : NoDup slots.*1) by (by rewrite Hh).
  assert (Hinp1 : inp p1' = inp p) by congruence.
  assert (Hstart : Forall (slot_as_alone start resume ev p p1') slots).
  { apply Forall_forall. intros s Hel. rewrite Hs in Hel.
    apply list_elem_of_fmap in Hel as [h [-> Hh']].
    unfold slot_as_alone, suspends. cbn [fst snd]. rewrite Hit1, (Hin h) by done.
    unfold alone. destruct (start h p) as [c q]. cbn. by destruct (launched c). }
  destruct (settle_loop_slots fail_fast (length batch) slots p1' p Hnd' Hinp1 Hstart)
    as [Hall Hinp].
  destruct (settle_loop_trace ev fail_fast (length batch) slots p1') as (_ & _ & _ & _ & Hf).
  split; [by rewrite Hf|]. done.
Qed.

(** What a group keeps of an item that is not in it, and of the lookups. *)
Lemma run_group_other fail_fast i batch p h :
  h ∉ batch -> item_of (run_group start resume ev fail_fast i batch p).2 h = item_of p h.
Proof.
  intros Hh.
  pose proof (same_image_preorder (fun p => item_of p h)) as Hpre.
  apply (run_group_keeps (fun p q => item_of q h = item_of p h) start resume ev (fun x => x <> h)).
  - intros x Hx q. by apply start_frame.
  - intros x r Hx q. by apply resume_frame.
  - done.
  - intros j r q _. apply item_of_remove_item.
  - apply Forall_forall. intros x Hx ->. done.
Qed.

Lemma run_group_source_none fail_fast i batch p h :
  source h (reg p) = None ->
  source h (reg (run_group start resume ev fail_fast i batch p).2) = None.
Proof.
  pose proof (kept_property_preorder (fun p => source h (reg p) = None)) as Hpre.
  apply (run_group_keeps (fun p q => source h (reg p) = None -> source h (reg q) = None)
           start resume ev (fun _ => True)).
  - intros x _ q. destruct (start_frame x q) as (_ & -> & _). done.
  - intros x r _ q. destruct (resume_frame x r q) as (_ & -> & _). done.
  - done.
  - intros j r q _. apply source_remove_none.
  - by apply Forall_forall.
Qed.

Lemma run_group_source_same fail_fast i batch p h :
  (forall j r, r ∈ removals ev j -> removed r <> h) ->
  source h (reg (run_group start resume ev fail_fast i batch p).2) = source h (reg p).
Proof.
  intros Hnever.
  pose proof (same_image_preorder (fun p => source h (reg p))) as Hpre.
  apply (run_group_keeps (fun p q => source h (reg q) = source h (reg p))
           start resume ev (fun _ => True)).
  - intros x _ q. destruct (start_frame x q) as (_ & -> & _). done.
  - intros x r _ q. destruct (resume_frame x r q) as (_ & -> & _). done.
  - done.
  - intros j r q Hr. apply source_remove_other. by eapply Hnever.
  - by apply Forall_forall.
Qed.

Lemma run_group_steady fail_fast i batch p h :
  steady source ev p h ->
  steady source ev (run_group start resume ev fail_fast i batch p).2 h
  /\ source h (reg (run_group start resume ev fail_fast i batch p).2) = source h (reg p).
Proof.
  intros [Hnever|Hnone].
  - split; [by left|]. by apply run_group_source_same.
  - pose proof (run_group_source_none fail_fast i batch p h Hnone) as H.
    split; [by right|]. congruence.
Qed.

Lemma run_groups_handles fail_fast fuel k items p x :
  x ∈ (run_groups start resume ev fail_fast fuel (3 * k) items p).1.*1 ->
  x ∈ drop (3 * k) items.
Proof.
  revert k p. induction fuel as [|fuel IH]; intros k p; cbn [run_groups].
  { by intros ?%elem_of_nil. }
  destruct (3 * k <? length items)%nat; [|by intros ?%elem_of_nil].
  pose proof (run_group_trace ev fail_fast (3 * k) (slice (3 * k) (3 * k + 3) items) p)
    as (_ & _ & _ & _ & _ & _ & _ & Hfst & _).
  destruct (run_group start resume ev fail_fast (3 * k) (slice (3 * k) (3 * k + 3) items) p)
    as [slots q]. cbn [fst snd] in *.
  assert (Hbatch : forall y, y ∈ slots.*1 -> y ∈ drop (3 * k) items).
  { intros y Hy. rewrite Hfst in Hy. unfold slice in Hy.
    eapply elem_of_sublist; [exact Hy|apply sublist_take]. }
  destruct (fail_fast && bool_decide (is_Some (first_rejected slots))); [apply Hbatch|].
  replace (3 * k + 3)%nat with (3 * S k)%nat by lia.
  specialize (IH (S k) q).
  destruct (run_groups start resume ev fail_fast fuel (3 * S k) items q) as [rest q'].
  cbn [fst snd] in *. rewrite fmap_app. intros [Hx|Hx]%elem_of_app; [by apply Hbatch|].
  apply IH in Hx. replace (3 * S k)%nat with (3 * k + 3)%nat in Hx by lia.
  rewrite <- drop_drop in Hx. eapply elem_of_sublist; [exact Hx|apply sublist_drop].
Qed.

Lemma run_groups_inp fail_fast fuel i items p :
  inp (run_groups start resume ev fail_fast fuel i items p).2 = inp p.
Proof.
  revert i p. induction fuel as [|fuel IH]; intros i p; cbn [run_groups]; [done|].
  destruct (i <? length items)%nat; [|done].
  pose proof (same_image_preorder inp) as Hpre.
  assert (Hg : inp (run_group start resume ev fail_fast i (slice i (i + 3) items) p).2 = inp p).
  { apply (run_group_keeps (fun p q => inp q = inp p) start resume ev (fun _ => True)).
    - intros x _ q. apply start_frame.
    - intros x r _ q. apply resume_frame.
    - done.
    - done.
    - by apply Forall_forall. }
  destruct (run_group start resume ev fail_fast i (slice i (i + 3) items) p) as [slots q].
  destruct (fail_fast && bool_decide (is_Some (first_rejected slots))); [done|].
  specialize (IH (i + 3)%nat q).
  destruct (run_groups start resume ev fail_fast fuel (i + 3) items q) as [rest q'].
  cbn in *. congruence.
Qed.

(** After all groups, the slot of an item holds what the item yields alone
    from the page [q] its group was dispatched on, and its element is the
    element it is left with alone.  That page shows the item what the first
    page showed it, up to the removals that fired in between. *)
Lemma run_groups_slots fail_fast fuel k items c h :
  NoDup (drop (3 * k) items) ->
  (forall j pr, (run_groups start resume ev fail_fast fuel (3 * k) items c).1 !! j = Some (h, pr) ->
     is_pending pr = false ->
     exists q, agree h q c
       /\ (steady source ev c h -> source h (reg q) = source h (reg c))
       /\ (pr, item_of (run_groups start resume ev fail_fast fuel (3 * k) items c).2 h)
          = alone start resume ev h q)
  /\ (h ∉ (run_groups start resume ev fail_fast fuel (3 * k) items c).1.*1 ->
      item_of (run_groups start resume ev fail_fast fuel (3 * k) items c).2 h = item_of c h).
Proof.
  revert k c. induction fuel as [|fuel IH]; intros k c Hnd; cbn [run_groups].
  { split; [by intros j pr ?|done]. }
  destruct (3 * k <? length items)%nat; [|split; [by intros j pr ?|done]].
  set (batch := slice (3 * k) (3 * k + 3) items).
  assert (Hsplit : drop (3 * k) items = batch ++ drop (3 * S k) items).
  { unfold batch, slice. replace (3 * k + 3 - 3 * k)%nat with 3%nat by lia.
    replace (3 * S k)%nat with (3 * k + 3)%nat by lia.
    rewrite <- drop_drop. by rewrite take_drop. }
  rewrite Hsplit in Hnd. apply NoDup_app in Hnd as (Hndb & Hdisj & Hndr).
  destruct (run_group_slots fail_fast (3 * k) batch c Hndb) as (Hfst & Hall & Hinp).
  pose proof (run_group_other fail_fast (3 * k) batch c h) as Hother.
  pose proof (run_group_steady fail_fast (3 * k) batch c h) as Hsteady.
  destruct (run_group start resume ev fail_fast (3 * k) batch c) as [slots q1].
  cbn [fst snd] in *.
  assert (Hhere : forall j pr, slots !! j = Some (h, pr) -> is_pending pr = false ->
            (pr, item_of q1 h) = alone start resume ev h c).
  { intros j pr Hj Hp.
    pose proof (proj1 (Forall_forall _ _) Hall (h, pr) (list_elem_of_lookup_2 _ _ _ Hj)) as Hs.
    unfold slot_as_alone in Hs. cbn in Hs. by rewrite Hp in Hs. }
  destruct (fail_fast && bool_decide (is_Some (first_rejected slots))).
  { split.
    - intros j pr Hj Hp. exists c. split; [apply agree_refl|]. split; [done|]. by eapply Hhere.
    - cbn. intros Hn. apply Hother. by rewrite <- Hfst. }
  replace (3 * k + 3)%nat with (3 * S k)%nat by lia.
  destruct (IH (S k) q1 Hndr) as [IH1 IH2].
  pose proof (run_groups_handles fail_fast fuel (S k) items q1) as Hrest.
  destruct (run_groups start resume ev fail_fast fuel (3 * S k) items q1) as [rest q'].
  cbn [fst snd] in *. split.
  - intros j pr Hj Hp. apply lookup_app_Some in Hj as [Hj|[Hlen Hj]].
    + assert (h ∈ batch).
      { rewrite <- Hfst. apply list_elem_of_fmap. exists (h, pr).
        split; [done|]. by eapply list_elem_of_lookup_2. }
      exists c. split; [apply agree_refl|]. split; [done|].
      rewrite IH2; [by eapply Hhere|]. intros Hin. apply Hrest in Hin. by eapply Hdisj.
    + destruct (IH1 _ _ Hj Hp) as (q & Hag & Hsrc & Heq).
      assert (Hnot : h ∉ batch).
      { intros Hin. eapply Hdisj; [exact Hin|].
        apply Hrest. apply list_elem_of_fmap. exists (h, pr).
        split; [done|]. by eapply list_elem_of_lookup_2. }
      exists q. split; [|split; [|done]].
      * destruct Hag as [Hi He]. split; [congruence|]. rewrite He. by apply Hother.
      * intros Hst. destruct (Hsteady Hst) as [Hst' Hsame]. rewrite Hsrc by done. done.
  - rewrite fmap_app. intros Hn. apply not_elem_of_app in Hn as [Hn1 Hn2].
    rewrite IH2 by done. apply Hother. by rewrite <- Hfst.
Qed.

Lemma first_rejected_app (l1 l2 : list (handle * promise A)) :
  first_rejected (l1 ++ l2)
  = match first_rejected l1 with Some e => Some e | None => first_rejected l2 end.
Proof.
  unfold first_rejected. rewrite omap_app.
  by destruct (omap (fun s : handle * promise A => rejection s.2) l1).
Qed.

(** A loop that was not cut short has settled a slot for every item. *)
Lemma run_groups_complete fail_fast fuel k items p :
  (length items <= 3 * k + 3 * fuel)%nat ->
  (fail_fast = true ->
   first_rejected (run_groups start resume ev fail_fast fuel (3 * k) items p).1 = None) ->
  (run_groups start resume ev fail_fast fuel (3 * k) items p).1.*1 = drop (3 * k) items
  /\ pending_handles (run_groups start resume ev fail_fast fuel (3 * k) items p).1 = [].
Proof.
  revert k p. induction fuel as [|fuel IH]; intros k p Hlen Hrej; cbn [run_groups] in *.
  { rewrite drop_ge by lia. done. }
  destruct (Nat.ltb_spec (3 * k) (length items)) as [Hlt|Hge];
    [|rewrite drop_ge by lia; done].
  set (batch := slice (3 * k) (3 * k + 3) items) in *.
  assert (Hsplit : drop (3 * k) items = batch ++ drop (3 * S k) items).
  { unfold batch, slice. replace (3 * k + 3 - 3 * k)%nat with 3%nat by lia.
    replace (3 * S k)%nat with (3 * k + 3)%nat by lia.
    rewrite <- drop_drop. by rewrite take_drop. }
  pose proof (run_group_trace ev fail_fast (3 * k) batch p)
    as (_ & _ & _ & _ & _ & _ & _ & Hfst & Hdec & _).
  destruct (run_group start resume ev fail_fast (3 * k) batch p) as [slots q].
  cbn [fst snd] in *.
  destruct (fail_fast && bool_decide (is_Some (first_rejected slots))) eqn:Estop.
  { apply andb_true_iff in Estop as [-> Hsome]. apply bool_decide_eq_true in Hsome.
    cbn in Hrej. rewrite Hrej in Hsome by done. by destruct Hsome. }
  assert (Hnil : pending_handles slots = []).
  { unfold decided in Hdec. rewrite Estop in Hdec. cbn in Hdec.
    apply bool_decide_eq_true in Hdec. by apply pending_from_nil in Hdec. }
  replace (3 * k + 3)%nat with (3 * S k)%nat in * by lia.
  specialize (IH (S k) q).
  destruct (run_groups start resume ev fail_fast fuel (3 * S k) items q) as [rest q'].
  cbn [fst snd] in *.
  destruct IH as [IH1 IH2]; [lia| |].
  { intros Hff. specialize (Hrej Hff). rewrite first_rejected_app in Hrej.
    by destruct (first_rejected slots). }
  rewrite fmap_app, pending_handles_app, Hfst, IH1, IH2, Hnil, Hsplit. done.
Qed.
End Isolation.


(** ** What one item yields alone *)

Lemma with_status_twice s w s' w' el :
  with_status s w (with_status s' w' el) = with_status s w el.
Proof. reflexivity. Qed.

Lemma set_item_twice h el el' p : set_item h el (set_item h el' p) = set_item h el p.
Proof. unfold set_item. cbn. by rewrite insert_insert_eq. Qed.

Lemma processBtn_start_missing h q :
  has_status (item_of q h) -> getFileFromItem h (reg q) = None ->
  processBtn.start h q
  = (Normal (Finished 0%nat),
     set_item h (with_status (Failed "File not found") 0 (item_of q h)) q).
Proof.
  intros Hs Hl. unfold processBtn.start, processBtn.on_error.
  rewrite try_catch_get, Hl. unfold try_catch, throw, bind, ret.
  by rewrite (updateFileStatus_ok _ _ _ _ Hs).
Qed.

Lemma processBtn_start_found h q file :
  has_status (item_of q h) -> getFileFromItem h (reg q) = Some file ->
  exists f,
    processBtn.start h q
    = (Normal Suspended,
       record_event (Dispatch (UPLOAD h) f)
         (set_item h (with_status "Uploading..." 30 (item_of q h)) q)).
Proof.
  intros Hs Hl. unfold processBtn.start.
  rewrite try_catch_get, Hl. unfold try_catch, bind, ret.
  destruct (uploadFile_start_ok file h q Hs) as [f ->]. by exists f.
Qed.

Lemma processBtn_resume_outcome h r q :
  has_status (item_of q h) ->
  processBtn.resume h r q
  = match uploadFile_error r, payload r with
    | None, Some data =>
        (Normal 1%nat, set_item h (with_status "Completed" 100 (item_of q h)) q)
    | Some e, _ =>
        (Normal 0%nat, set_item h (with_status (Failed (message e)) 0 (item_of q h)) q)
    | None, None =>
        (Normal 0%nat, set_item h (with_status (Failed (message not_json)) 0 (item_of q h)) q)
    end.
Proof.
  intros Hs. unfold processBtn.resume, processBtn.on_error, try_catch, bind, ret.
  rewrite (uploadFile_resume_ok _ _ _ Hs).
  destruct (uploadFile_error r) as [e|], (payload r) as [data|]; try done.
  all: try (rewrite updateFileStatus_ok
              by (rewrite item_of_set_item_eq; apply has_status_with_status);
            by rewrite ?item_of_set_item_eq, ?set_item_twice).
  by rewrite updateFileStatus_ok.
Qed.

(** The process button: a missing payload, a successful upload, a failed one. *)
Lemma processBtn_alone ev h q :
  has_status (item_of q h) ->
  alone processBtn.start processBtn.resume ev h q
  = match getFileFromItem h (reg q) with
    | None => (Fulfilled 0%nat, with_status (Failed "File not found") 0 (item_of q h))
    | Some _ =>
        match uploadFile_error (reply ev (UPLOAD h)), payload (reply ev (UPLOAD h)) with
        | None, Some _ => (Fulfilled 1%nat, with_status "Completed" 100 (item_of q h))
        | Some e, _ => (Fulfilled 0%nat, with_status (Failed (message e)) 0 (item_of q h))
        | None, None =>
            (Fulfilled 0%nat, with_status (Failed (message not_json)) 0 (item_of q h))
        end
    end.
Proof.
  intros Hs. unfold alone.
  destruct (getFileFromItem h (reg q)) as [file|] eqn:El.
  - destruct (processBtn_start_found h q file Hs El) as [f ->]. cbn [launched].
    rewrite processBtn_resume_outcome
      by (rewrite item_of_record_event, item_of_set_item_eq; apply has_status_with_status).
    rewrite item_of_record_event, item_of_set_item_eq.
    destruct (uploadFile_error (reply ev (UPLOAD h))), (payload (reply ev (UPLOAD h))); cbn;
      by rewrite item_of_set_item_eq.
  - rewrite (processBtn_start_missing h q Hs El). cbn. by rewrite item_of_set_item_eq.
Qed.

Lemma summarizeBtn_start_missing h q :
  has_status (item_of q h) -> fileMap (reg q) !! h = None ->
  summarizeBtn.start h q
  = (Throw (Error "No file found"),
     set_item h (with_status (Failed "No file found") 0 (item_of q h)) q).
Proof.
  intros Hs Hl. unfold summarizeBtn.start. rewrite bind_get, Hl. unfold throw, bind.
  by rewrite (updateFileStatus_ok _ _ _ _ Hs).
Qed.

Lemma summarizeBtn_start_found h q file :
  has_status (item_of q h) -> fileMap (reg q) !! h = Some file ->
  exists f,
    summarizeBtn.start h q
    = (Normal Suspended,
       record_event (Dispatch (UPLOAD h) f)
         (set_item h (with_status "Processing..." 50 (item_of q h)) q)).
Proof.
  intros Hs Hl. unfold summarizeBtn.start. rewrite bind_get, Hl. unfold bind, ret.
  destruct (processFile_start_ok file h q Hs) as [f ->]. by exists f.
Qed.

(** The summarize button, batch branch: likewise, with rejections. *)
Lemma summarizeBtn_alone ev h q :
  has_status (item_of q h) ->
  alone summarizeBtn.start summarizeBtn.resume ev h q
  = match fileMap (reg q) !! h with
    | None =>
        (Rejected (Error "No file found"),
         with_status (Failed "No file found") 0 (item_of q h))
    | Some _ =>
        match processFile_error (reply ev (UPLOAD h)), payload (reply ev (UPLOAD h)) with
        | None, Some data => (Fulfilled data, with_status "Completed" 100 (item_of q h))
        | Some e, _ => (Rejected e, with_status (Failed (message e)) 0 (item_of q h))
        | None, None => (Rejected not_json, with_status "Processing..." 50 (item_of q h))
        end
    end.
Proof.
  intros Hs. unfold alone.
  destruct (fileMap (reg q) !! h) as [file|] eqn:El.
  - destruct (summarizeBtn_start_found h q file Hs El) as [f ->]. cbn [launched].
    unfold summarizeBtn.resume.
    rewrite processFile_resume_ok
      by (rewrite item_of_record_event, item_of_set_item_eq; apply has_status_with_status).
    rewrite item_of_record_event, item_of_set_item_eq.
    destruct (processFile_error (reply ev (UPLOAD h))), (payload (reply ev (UPLOAD h)));
      cbn [fst snd settled];
      by rewrite ?item_of_record_event, ?item_of_set_item_eq.
  - rewrite (summarizeBtn_start_missing h q Hs El). cbn. by rewrite item_of_set_item_eq.
Qed.

(** ** Both loops are [run_groups] *)

Lemma processBtn_loop_run ev fuel i items acc p :
  for_groups fuel i items acc
    (fun i batch successCount =>
       let! added := Promise_all processBtn.start processBtn.resume ev i batch in
       ret (successCount + sum_list added)%nat) p
  = (match first_rejected
             (run_groups processBtn.start processBtn.resume ev true fuel i items p).1 with
     | Some e => Throw e
     | None =>
         Normal (acc + sum_list (omap (fun s : handle * promise nat => fulfilment s.2)
                   (run_groups processBtn.start processBtn.resume ev true fuel i items p).1))%nat
     end,
     (run_groups processBtn.start processBtn.resume ev true fuel i items p).2).
Proof.
  revert i acc p. induction fuel as [|fuel IH]; intros i acc p; cbn [for_groups run_groups].
  { cbn. by rewrite Nat.add_0_r. }
  destruct (i <? length items)%nat; [|cbn; by rewrite Nat.add_0_r].
  unfold bind at 1. unfold Promise_all at 1. unfold bind at 1.
  destruct (run_group processBtn.start processBtn.resume ev true i (slice i (i + 3) items) p)
    as [slots q].
  destruct (first_rejected slots) as [e|] eqn:Er; cbn [andb].
  - rewrite bool_decide_eq_true_2 by done. cbn. by rewrite Er.
  - rewrite bool_decide_eq_false_2 by (intros [? ?]; done). unfold ret at 1.
    rewrite IH.
    destruct (run_groups processBtn.start processBtn.resume ev true fuel (i + 3) items q)
      as [rest q']. cbn [fst snd].
    rewrite first_rejected_app, Er, omap_app, sum_list_with_app.
    destruct (first_rejected rest); [done|]. by rewrite Nat.add_assoc.
Qed.

Lemma processBtn_batches_run ev items p :
  processBtn.batches ev items p
  = (match first_rejected
             (run_groups processBtn.start processBtn.resume ev true (length items) 0 items p).1
     with
     | Some e => Throw e
     | None =>
         Normal (sum_list (omap (fun s : handle * promise nat => fulfilment s.2)
           (run_groups processBtn.start processBtn.resume ev true (length items) 0 items p).1))
     end,
     (run_groups processBtn.start processBtn.resume ev true (length items) 0 items p).2).
Proof. unfold processBtn.batches. by rewrite processBtn_loop_run. Qed.

Lemma summarizeBtn_loop_run ev fuel i items acc p :
  for_groups fuel i items acc
    (fun i batch results =>
       let! batchResults := Promise_allSettled summarizeBtn.start summarizeBtn.resume ev i batch in
       ret (results ++ batchResults)) p
  = (Normal (acc ++ (run_groups summarizeBtn.start summarizeBtn.resume ev false fuel i items p).1.*2),
     (run_groups summarizeBtn.start summarizeBtn.resume ev false fuel i items p).2).
Proof.
  revert i acc p. induction fuel as [|fuel IH]; intros i acc p; cbn [for_groups run_groups].
  { cbn. by rewrite app_nil_r. }
  destruct (i <? length items)%nat; [|cbn; by rewrite app_nil_r].
  unfold bind at 1. unfold bind at 1. unfold Promise_allSettled at 1.
  destruct (run_group summarizeBtn.start summarizeBtn.resume ev false i (slice i (i + 3) items) p)
    as [slots q]. cbn [andb]. unfold ret at 1. rewrite IH.
  destruct (run_groups summarizeBtn.start summarizeBtn.resume ev false fuel (i + 3) items q)
    as [rest q']. cbn [fst snd]. by rewrite fmap_app, app_assoc.
Qed.

Lemma summarizeBtn_batches_run ev items p :
  summarizeBtn.batches ev items p
  = (Normal (run_groups summarizeBtn.start summarizeBtn.resume ev false (length items) 0 items p).1.*2,
     (run_groups summarizeBtn.start summarizeBtn.resume ev false (length items) 0 items p).2).
Proof. unfold summarizeBtn.batches. by rewrite summarizeBtn_loop_run. Qed.


(** ** The loop over the groups ends *)

(** With fuel for every group the loop stops at its own test: more fuel
    changes nothing.  The handlers give it [length items]. *)
Lemma for_groups_fuel {St} fuel more i (items : list handle) (acc : St)
    (body : nat -> list handle -> St -> M St) p :
  (length items <= i + 3 * fuel)%nat ->
  for_groups (fuel + more) i items acc body p = for_groups fuel i items acc body p.
Proof.
  revert i acc p. induction fuel as [|fuel IH]; intros i acc p Hlen.
  - destruct more as [|more]; [done|]. cbn [Nat.add for_groups].
    by destruct (Nat.ltb_spec i (length items)); [lia|].
  - cbn [Nat.add for_groups]. destruct (i <? length items)%nat; [|done].
    unfold bind. destruct (body i (slice i (i + 3) items) acc p) as [[acc'|e] q]; [|done].
    apply IH. lia.
Qed.

Lemma run_groups_fuel {A} (start : handle -> M (progress A)) resume ev fail_fast fuel more i
    (items : list handle) p :
  (length items <= i + 3 * fuel)%nat ->
  run_groups start resume ev fail_fast (fuel + more) i items p
  = run_groups start resume ev fail_fast fuel i items p.
Proof.
  revert i p. induction fuel as [|fuel IH]; intros i p Hlen.
  - destruct more as [|more]; [done|]. cbn [Nat.add run_groups].
    by destruct (Nat.ltb_spec i (length items)); [lia|].
  - cbn [Nat.add run_groups]. destruct (i <? length items)%nat; [|done].
    destruct (run_group start resume ev fail_fast i (slice i (i + 3) items) p) as [slots q].
    destruct (fail_fast && bool_decide (is_Some (first_rejected slots))); [done|].
    rewrite IH by lia. done.
Qed.


(** ** The groups partition the items *)

Lemma group_length k (items : list handle) : (length (group k items) <= 3)%nat.
Proof. unfold group, slice. rewrite length_take. lia. Qed.

Lemma group_full k (items : list handle) :
  (3 * k + 3 <= length items)%nat -> length (group k items) = 3%nat.
Proof. intros H. unfold group, slice. rewrite length_take, length_drop. lia. Qed.

Lemma group_last k (items : list handle) :
  (3 * k <= length items)%nat -> (length items <= 3 * k + 3)%nat ->
  length (group k items) = (length items - 3 * k)%nat.
Proof. intros H1 H2. unfold group, slice. rewrite length_take, length_drop. lia. Qed.

Lemma group_nonempty k (items : list handle) h : h ∈ group k items -> (3 * k < length items)%nat.
Proof.
  intros Hin. destruct (Nat.ltb_spec (3 * k) (length items)) as [|Hge]; [done|].
  unfold group, slice in Hin. rewrite drop_ge in Hin by done.
  rewrite take_nil in Hin. by apply elem_of_nil in Hin.
Qed.

Lemma drop_groups k (items : list handle) :
  drop (3 * k) items = group k items ++ drop (3 * S k) items.
Proof.
  unfold group, slice. replace (3 * k + 3 - 3 * k)%nat with 3%nat by lia.
  replace (3 * S k)%nat with (3 * k + 3)%nat by lia.
  rewrite <- drop_drop. by rewrite take_drop.
Qed.

Lemma concat_groups_from n k (items : list handle) :
  (length items <= 3 * (k + n))%nat ->
  concat ((fun k => group k items) <$> seq k n) = drop (3 * k) items.
Proof.
  revert k. induction n as [|n IH]; intros k Hlen.
  - cbn. rewrite drop_ge by lia. done.
  - rewrite (drop_groups k). cbn [seq]. rewrite fmap_cons. cbn [concat].
    rewrite IH by lia. done.
Qed.

Lemma groups_partition (items : list handle) : concat (groups items) = items.
Proof.
  unfold groups. rewrite concat_groups_from; [done|].
  pose proof (Nat.div_mod_eq (length items + 2) 3) as Hd.
  pose proof (Nat.mod_upper_bound (length items + 2) 3). lia.
Qed.

Lemma groups_sizes (items : list handle) :
  Forall (fun g => (0 < length g <= 3)%nat) (groups items).
Proof.
  apply Forall_forall. intros g Hg. unfold groups in Hg.
  apply list_elem_of_fmap in Hg as (k & -> & Hk). apply elem_of_seq in Hk.
  pose proof (Nat.div_mod_eq (length items + 2) 3) as Hd.
  pose proof (Nat.mod_upper_bound (length items + 2) 3).
  split; [|apply group_length].
  unfold group, slice. rewrite length_take, length_drop. lia.
Qed.

Lemma elem_of_group (items : list handle) h :
  h ∈ items <-> (exists k, h ∈ group k items).
Proof.
  split.
  - intros Hin. apply list_elem_of_lookup in Hin as [i Hi]. exists (i / 3)%nat.
    pose proof (Nat.div_mod_eq i 3) as Hd. pose proof (Nat.mod_upper_bound i 3).
    apply list_elem_of_lookup. exists (i `mod` 3)%nat. unfold group, slice.
    rewrite lookup_take_lt by lia. rewrite lookup_drop.
    by replace (3 * (i / 3) + i `mod` 3)%nat with i by lia.
  - intros [k Hk]. unfold group, slice in Hk.
    eapply elem_of_sublist; [exact Hk|]. etrans; [apply sublist_take|apply sublist_drop].
Qed.

Lemma group_sublist k (items : list handle) : group k items `sublist_of` items.
Proof. unfold group, slice. etrans; [apply sublist_take|apply sublist_drop]. Qed.

(** An item of the k-th group is in no group before and in no group after. *)
Lemma group_apart k (items : list handle) h :
  NoDup items -> h ∈ group k items ->
  (h ∉ take (3 * k) items) /\ (h ∉ drop (3 * S k) items).
Proof.
  intros Hnd Hin. rewrite <- (take_drop (3 * k) items) in Hnd.
  apply NoDup_app in Hnd as (_ & Hdisj & Hnd). rewrite drop_groups in Hnd.
  apply NoDup_app in Hnd as (_ & Hdisj' & _). split.
  - intros Hpre. apply (Hdisj h Hpre). rewrite drop_groups. apply elem_of_app. by left.
  - by apply Hdisj'.
Qed.

(** ** Reading the log *)

Lemma dispatched_app h1 h2 : dispatched (h1 ++ h2) = dispatched h1 ++ dispatched h2.
Proof. apply omap_app. Qed.

Lemma dispatched_dispatches ds :
  Forall (fun e => is_dispatch e = true) ds -> dispatched ds = call_of <$> ds.
Proof.
  induction 1 as [|e ds He _ IH]; [done|]. destruct e; [|done]. cbn. by rewrite <- IH.
Qed.

Lemma dispatched_settles ss :
  Forall (fun e => is_dispatch e = false) ss -> dispatched ss = [].
Proof. induction 1 as [|e ss He _ IH]; [done|]. destruct e; [done|]. exact IH. Qed.

Lemma history_since_app p q history :
  network q = network p ++ history -> history_since p q = history.
Proof. intros Hq. unfold history_since. rewrite Hq. by rewrite drop_app_length. Qed.

Lemma history_since_trans p q r :
  network q = network p ++ history_since p q ->
  network r = network q ++ history_since q r ->
  network r = network p ++ history_since p r
  /\ history_since p r = history_since p q ++ history_since q r.
Proof.
  intros Hq Hr. rewrite Hq, <- app_assoc in Hr.
  rewrite (history_since_app p r _ Hr). done.
Qed.

Lemma elem_of_pending_handles {A} (slots : list (handle * promise A)) h :
  h ∈ pending_handles slots <-> (h, Pending) ∈ slots.
Proof.
  induction slots as [|[h' pr] slots IH]; cbn.
  - split; by intros ?%elem_of_nil.
  - destruct pr; cbn; rewrite ?elem_of_cons, IH.
    + split; (intros [Heq|?]; [left|by right]); congruence.
    + split; [by right|]. by intros [[=]|?].
    + split; [by right|]. by intros [[=]|?].
Qed.

Lemma is_pending_true {A} (pr : promise A) : is_pending pr = true <-> pr = Pending.
Proof. by destruct pr. Qed.

(** ** What a group dispatches *)

Section Loops.
Context {A : Type} {source : handle -> registries -> option File.t}.
Context {start : handle -> M (progress A)} {resume : handle -> fetch_result -> M A}.
Context `{!Callback source start resume}.
Context (ev : env).

Lemma run_group_grows fail_fast i batch p :
  network (run_group start resume ev fail_fast i batch p).2
  = network p ++ history_since p (run_group start resume ev fail_fast i batch p).2.
Proof.
  destruct (run_group_trace ev fail_fast i batch p) as (ds & ss & Hnet & _).
  by rewrite (history_since_app _ _ _ Hnet).
Qed.

(** The calls a group dispatches are those of its items whose callback
    reaches the call. *)
Lemma run_group_dispatched fail_fast i batch p h :
  NoDup batch ->
  UPLOAD h ∈ dispatched (history_since p (run_group start resume ev fail_fast i batch p).2)
  <-> h ∈ batch /\ suspends start h p = true.
Proof.
  intros Hnd. unfold run_group.
  destruct (map_async_trace batch p) as (ds & Hnet & Hd & Hc & Hb).
  destruct (map_async_slots batch p Hnd) as (Hs & _).
  destruct (map_async start batch p) as [slots p1]. cbn [fst snd] in *.
  set (p1' := while_suspended ev fail_fast i slots p1).
  assert (Hn1 : network p1' = network p1).
  { unfold p1', while_suspended. destruct (decided fail_fast slots); [done|].
    apply removals_network. }
  destruct (settle_loop_trace ev fail_fast (length batch) slots p1') as (ss & Hnet2 & Hss & _).
  rewrite Hn1, Hnet, <- app_assoc in Hnet2.
  rewrite (history_since_app _ _ _ Hnet2), dispatched_app.
  rewrite (dispatched_settles ss Hss), app_nil_r, (dispatched_dispatches ds Hd), Hc.
  unfold suspends. rewrite is_pending_true. split.
  - intros (h' & [= <-] & Hin)%list_elem_of_fmap.
    apply elem_of_pending_handles in Hin. rewrite Hs in Hin.
    apply list_elem_of_fmap in Hin as (h' & [= <- Hp] & Hin). done.
  - intros [Hin Hp]. apply list_elem_of_fmap. exists h. split; [done|].
    apply elem_of_pending_handles. rewrite Hs. apply list_elem_of_fmap. exists h.
    by rewrite Hp.
Qed.

(** ** What the loop over the groups does to one item *)

Lemma run_groups_grows fail_fast fuel k items p :
  network (run_groups start resume ev fail_fast fuel (3 * k) items p).2
  = network p ++ history_since p (run_groups start resume ev fail_fast fuel (3 * k) items p).2.
Proof.
  destruct (run_groups_trace ev fail_fast fuel k items p) as (history & Hnet & _).
  by rewrite (history_since_app _ _ _ Hnet).
Qed.

Lemma run_groups_beyond fail_fast fuel i items p :
  (length items <= i)%nat -> run_groups start resume ev fail_fast fuel i items p = ([], p).
Proof.
  intros Hlen. destruct fuel; cbn [run_groups]; [done|].
  by destruct (Nat.ltb_spec i (length items)); [lia|].
Qed.

(** The loop leaves alone the items it has passed or that are not in the list. *)
Lemma run_groups_other fail_fast fuel k items p h :
  h ∉ drop (3 * k) items ->
  item_of (run_groups start resume ev fail_fast fuel (3 * k) items p).2 h = item_of p h.
Proof.
  revert k p. induction fuel as [|fuel IH]; intros k p Hh; cbn [run_groups]; [done|].
  destruct (3 * k <? length items)%nat; [|done].
  rewrite drop_groups in Hh. apply not_elem_of_app in Hh as [Hh1 Hh2].
  pose proof (run_group_other ev fail_fast (3 * k) (group k items) p h Hh1) as Hg.
  unfold group in Hg.
  destruct (run_group start resume ev fail_fast (3 * k) (slice (3 * k) (3 * k + 3) items) p)
    as [slots q]. cbn [fst snd] in *.
  destruct (fail_fast && bool_decide (is_Some (first_rejected slots))); [done|].
  replace (3 * k + 3)%nat with (3 * S k)%nat by lia.
  specialize (IH (S k) q Hh2).
  destruct (run_groups start resume ev fail_fast fuel (3 * S k) items q) as [rest q'].
  cbn [fst snd] in *. congruence.
Qed.

(** No call is dispatched for them either. *)
Lemma run_groups_dispatched_in fail_fast fuel k items p h :
  NoDup (drop (3 * k) items) ->
  UPLOAD h ∈ dispatched (history_since p (run_groups start resume ev fail_fast fuel (3 * k) items p).2)
  -> h ∈ drop (3 * k) items.
Proof.
  revert k p. induction fuel as [|fuel IH]; intros k p Hnd; cbn [run_groups].
  { unfold history_since. rewrite drop_all. by intros ?%elem_of_nil. }
  destruct (3 * k <? length items)%nat.
  2:{ unfold history_since. rewrite drop_all. by intros ?%elem_of_nil. }
  rewrite drop_groups in Hnd |- *. apply NoDup_app in Hnd as (Hndg & _ & Hndr).
  pose proof (run_group_dispatched fail_fast (3 * k) (group k items) p h Hndg) as Hg.
  pose proof (run_group_grows fail_fast (3 * k) (group k items) p) as Hgrow.
  unfold group in Hg, Hgrow at 1 2.
  destruct (run_group start resume ev fail_fast (3 * k) (slice (3 * k) (3 * k + 3) items) p)
    as [slots q]. cbn [fst snd] in *.
  destruct (fail_fast && bool_decide (is_Some (first_rejected slots))).
  { cbn. intros Hin. apply elem_of_app. left. by apply Hg. }
  replace (3 * k + 3)%nat with (3 * S k)%nat by lia.
  specialize (IH (S k) q Hndr).
  pose proof (run_groups_grows fail_fast fuel (S k) items q) as Hgrow'.
  destruct (run_groups start resume ev fail_fast fuel (3 * S k) items q) as [rest q'].
  cbn [fst snd] in *.
  destruct (history_since_trans p q q' Hgrow Hgrow') as [_ ->].
  rewrite dispatched_app. intros [Hin|Hin]%elem_of_app; apply elem_of_app.
  - left. by apply Hg.
  - right. by apply IH.
Qed.

(** What the lookup for an item finds stays the same while the item is not
    removed. *)
Lemma run_groups_steady fail_fast fuel i items p h :
  steady source ev p h ->
  source h (reg (run_groups start resume ev fail_fast fuel i items p).2) = source h (reg p).
Proof.
  revert i p. induction fuel as [|fuel IH]; intros i p Hst; cbn [run_groups]; [done|].
  destruct (i <? length items)%nat; [|done].
  destruct (run_group_steady ev fail_fast i (slice i (i + 3) items) p h Hst) as [Hst' Hsrc].
  destruct (run_group start resume ev fail_fast i (slice i (i + 3) items) p) as [slots q].
  cbn [fst snd] in *.
  destruct (fail_fast && bool_decide (is_Some (first_rejected slots))); [done|].
  specialize (IH (i + 3)%nat q Hst').
  destruct (run_groups start resume ev fail_fast fuel (i + 3) items q) as [rest q'].
  cbn [fst snd] in *. congruence.
Qed.

(** The loop over all items passes through the page that the loop over the
    items before the k-th group leaves, and goes on from there. *)
Lemma run_groups_reach fail_fast d j k fuel1 fuel3 items p :
  k = (j + d)%nat -> (d <= fuel1)%nat -> (3 * k <= length items)%nat ->
  run_groups start resume ev fail_fast (d + fuel3) (3 * j) items p
  = let '(s1, q1) := run_groups start resume ev fail_fast fuel1 (3 * j) (take (3 * k) items) p in
    if fail_fast && bool_decide (is_Some (first_rejected s1)) then (s1, q1)
    else let '(s2, q2) := run_groups start resume ev fail_fast fuel3 (3 * k) items q1 in
         (s1 ++ s2, q2).
Proof.
  revert j fuel1 p. induction d as [|d IH]; intros j fuel1 p Hk Hfuel Hlen.
  - replace j with k by lia. rewrite (run_groups_beyond _ fuel1).
    2:{ rewrite length_take. lia. }
    cbn. rewrite andb_false_r.
    by destruct (run_groups start resume ev fail_fast fuel3 _ items p).
  - destruct fuel1 as [|fuel1]; [lia|]. cbn [Nat.add run_groups].
    rewrite length_take.
    destruct (Nat.ltb_spec (3 * j) (length items)) as [Hlt|Hge]; [|lia].
    destruct (Nat.ltb_spec (3 * j) ((3 * k) `min` length items)) as [Hlt'|Hge']; [|lia].
    assert (Hslice : slice (3 * j) (3 * j + 3) (take (3 * k) items)
                     = slice (3 * j) (3 * j + 3) items).
    { unfold slice. rewrite !take_drop_commute, take_take. do 2 f_equal. lia. }
    rewrite Hslice.
    destruct (run_group start resume ev fail_fast (3 * j) (slice (3 * j) (3 * j + 3) items) p)
      as [slots q].
    destruct (fail_fast && bool_decide (is_Some (first_rejected slots))) eqn:Estop.
    { cbv beta iota. by rewrite Estop. }
    replace (3 * j + 3)%nat with (3 * S j)%nat by lia.
    rewrite (IH (S j) fuel1 q) by lia.
    destruct (run_groups start resume ev fail_fast fuel1 (3 * S j) (take (3 * k) items) q)
      as [s1 q1].
    assert (Hcut : fail_fast && bool_decide (is_Some (first_rejected (slots ++ s1)))
                   = fail_fast && bool_decide (is_Some (first_rejected s1))).
    { destruct fail_fast; [|done]. cbn in *. apply bool_decide_eq_false in Estop.
      rewrite first_rejected_app. destruct (first_rejected slots); [|done].
      exfalso. by apply Estop. }
    rewrite Hcut. destruct (fail_fast && bool_decide (is_Some (first_rejected s1))); [done|].
    destruct (run_groups start resume ev fail_fast fuel3 (3 * k) items q1) as [s2 q2].
    by rewrite app_assoc.
Qed.

(** One item of the k-th group, in a loop that is not cut short.  The group
    is dispatched on the page that the loop over the items before it leaves;
    the item ends as it would alone from that page, and a call is dispatched
    for it exactly when its callback reaches the call on that page. *)
Lemma run_groups_item fail_fast k items p h :
  NoDup items -> h ∈ group k items ->
  (fail_fast = true ->
   first_rejected (run_groups start resume ev fail_fast (length items) 0 items p).1 = None) ->
  agree h (run_groups start resume ev fail_fast (length (take (3 * k) items)) 0
             (take (3 * k) items) p).2 p
  /\ (steady source ev p h ->
      source h (reg (run_groups start resume ev fail_fast (length (take (3 * k) items)) 0
                       (take (3 * k) items) p).2)
      = source h (reg p))
  /\ (forall pr, (h, pr) ∈ (run_groups start resume ev fail_fast (length items) 0 items p).1 ->
        (pr, item_of (run_groups start resume ev fail_fast (length items) 0 items p).2 h)
        = alone start resume ev h
            (run_groups start resume ev fail_fast (length (take (3 * k) items)) 0
               (take (3 * k) items) p).2)
  /\ (UPLOAD h ∈ dispatched
        (history_since p (run_groups start resume ev fail_fast (length items) 0 items p).2)
      <-> suspends start h
            (run_groups start resume ev fail_fast (length (take (3 * k) items)) 0
               (take (3 * k) items) p).2 = true).
Proof.
  intros Hnd Hin Hrej.
  pose proof (group_nonempty _ _ _ Hin) as Hk.
  destruct (group_apart k items h Hnd Hin) as [Hpre Hpost].
  assert (Hndg : NoDup (group k items)) by (apply (sublist_NoDup _ items Hnd), group_sublist).
  assert (Hndt : NoDup (take (3 * k) items)) by (apply (sublist_NoDup _ items Hnd), sublist_take).
  assert (Hndr : NoDup (drop (3 * S k) items))
    by (apply (sublist_NoDup _ items Hnd), sublist_drop).
  (* no slot of the whole run is pending *)
  destruct (run_groups_complete ev fail_fast (length items) 0 items p) as [_ Hnone];
    [lia|exact Hrej|].
  change (3 * 0)%nat with 0%nat in Hnone.
  (* the run, cut at the k-th group *)
  assert (Hfuel1 : (k <= length (take (3 * k) items))%nat) by (rewrite length_take; lia).
  pose proof (run_groups_reach fail_fast k 0 k (length (take (3 * k) items))
                (length items - k) items p eq_refl Hfuel1 (Nat.lt_le_incl _ _ Hk)) as Hreach.
  change (3 * 0)%nat with 0%nat in Hreach.
  replace (k + (length items - k))%nat with (length items) in Hreach by lia.
  rewrite Hreach in Hrej, Hnone |- *. clear Hreach Hfuel1.
  (* the groups before *)
  pose proof (run_groups_inp ev fail_fast (length (take (3 * k) items)) 0 (take (3 * k) items) p)
    as Hinp1.
  pose proof (run_groups_other fail_fast (length (take (3 * k) items)) 0 (take (3 * k) items) p h)
    as Hitem1.
  pose proof (run_groups_steady fail_fast (length (take (3 * k) items)) 0 (take (3 * k) items) p h)
    as Hsteady1.
  pose proof (run_groups_grows fail_fast (length (take (3 * k) items)) 0 (take (3 * k) items) p)
    as Hgrow1.
  pose proof (run_groups_dispatched_in fail_fast (length (take (3 * k) items)) 0
                (take (3 * k) items) p h) as Hdisp1.
  pose proof (fun x => run_groups_handles ev fail_fast (length (take (3 * k) items)) 0
                (take (3 * k) items) p x) as Hhandles1.
  change (3 * 0)%nat with 0%nat in Hitem1, Hgrow1, Hdisp1, Hhandles1.
  rewrite drop_0 in Hitem1, Hdisp1, Hhandles1.
  destruct (run_groups start resume ev fail_fast (length (take (3 * k) items)) 0
              (take (3 * k) items) p) as [s1 q1]. cbn [fst snd] in *.
  destruct (fail_fast && bool_decide (is_Some (first_rejected s1))) eqn:Ecut1.
  { apply andb_true_iff in Ecut1 as [-> Hsome]. apply bool_decide_eq_true in Hsome.
    cbn in Hrej. rewrite Hrej in Hsome by done. by destruct Hsome. }
  (* the group *)
  destruct (length items - k)%nat as [|fuel] eqn:Efuel; [lia|]. cbn [run_groups] in *.
  destruct (Nat.ltb_spec (3 * k) (length items)) as [_|?]; [|lia].
  destruct (run_group_slots ev fail_fast (3 * k) (group k items) q1 Hndg) as (Hfst & Hall & _).
  pose proof (run_group_dispatched fail_fast (3 * k) (group k items) q1 h Hndg) as Hdisp.
  pose proof (run_group_grows fail_fast (3 * k) (group k items) q1) as Hgrow.
  unfold group in Hfst, Hall, Hdisp, Hgrow at 1 2.
  destruct (run_group start resume ev fail_fast (3 * k) (slice (3 * k) (3 * k + 3) items) q1)
    as [slots q]. cbn [fst snd] in *.
  destruct (fail_fast && bool_decide (is_Some (first_rejected slots))) eqn:Ecut.
  { apply andb_true_iff in Ecut as [-> Hsome]. apply bool_decide_eq_true in Hsome.
    cbn in Hrej. specialize (Hrej eq_refl). rewrite first_rejected_app in Hrej.
    destruct (first_rejected s1); [done|]. rewrite Hrej in Hsome. by destruct Hsome. }
  (* the groups after *)
  unfold group in Hin. replace (3 * k + 3)%nat with (3 * S k)%nat in * by lia.
  pose proof (run_groups_other fail_fast fuel (S k) items q h Hpost) as Hitem2.
  pose proof (run_groups_grows fail_fast fuel (S k) items q) as Hgrow2.
  pose proof (run_groups_dispatched_in fail_fast fuel (S k) items q h Hndr) as Hdisp2.
  pose proof (fun x => run_groups_handles ev fail_fast fuel (S k) items q x) as Hhandles2.
  destruct (run_groups start resume ev fail_fast fuel (3 * S k) items q) as [rest q'].
  cbn [fst snd] in *.
  split; [split; [done|by apply Hitem1]|]. split; [exact Hsteady1|]. split.
  - intros pr Hel.
    assert (Hpending : is_pending pr = false).
    { destruct pr; try done. apply elem_of_pending_handles in Hel.
      rewrite Hnone in Hel. by apply elem_of_nil in Hel. }
    apply elem_of_app in Hel as [Hel|Hel].
    { exfalso. apply Hpre, Hhandles1. apply list_elem_of_fmap. by exists (h, pr). }
    apply elem_of_app in Hel as [Hel|Hel].
    2:{ exfalso. apply Hpost, Hhandles2. apply list_elem_of_fmap. by exists (h, pr). }
    pose proof (proj1 (Forall_forall _ _) Hall (h, pr) Hel) as Hs.
    unfold slot_as_alone in Hs. cbn [fst snd] in Hs. rewrite Hpending in Hs.
    rewrite Hitem2. exact Hs.
  - destruct (history_since_trans q1 q q' Hgrow Hgrow2) as [Hgrow3 Heq3].
    destruct (history_since_trans p q1 q' (Hgrow1) Hgrow3) as [_ ->].
    rewrite Heq3, !dispatched_app, !elem_of_app, Hdisp. split.
    + intros [Hd|[[_ Hd]|Hd]]; [|done|].
      * exfalso. by apply Hpre, Hdisp1.
      * exfalso. by apply Hpost, Hdisp2.
    + intros Hs. right. left. split; [exact Hin|exact Hs].
Qed.

(** The log of the loop is one round per group, in order, and every round
    but the last has settled all it dispatched. *)
Lemma run_groups_rounds fail_fast fuel k items p :
  exists rs,
    history_since p (run_groups start resume ev fail_fast fuel (3 * k) items p).2 = concat rs
    /\ (forall j r, rs !! j = Some r ->
          round (group (k + j) items) r /\ (3 * (k + j) < length items)%nat)
    /\ (forall j r, rs !! j = Some r -> (S j < length rs)%nat -> in_flight r = []).
Proof.
  revert k p. induction fuel as [|fuel IH]; intros k p; cbn [run_groups].
  { exists []. unfold history_since. rewrite drop_all. by split. }
  destruct (Nat.ltb_spec (3 * k) (length items)) as [Hlt|_].
  2:{ exists []. unfold history_since. rewrite drop_all. by split. }
  destruct (run_group_trace ev fail_fast (3 * k) (slice (3 * k) (3 * k + 3) items) p)
    as (ds & ss & Hnet & Hd & Hs & Hsub & Hsub' & Hfst & Hdec & Hdone).
  destruct (run_group start resume ev fail_fast (3 * k) (slice (3 * k) (3 * k + 3) items) p)
    as [slots q]. cbn [fst snd] in *.
  assert (Hround : round (group k items) (ds ++ ss)).
  { exists ds, ss. by repeat split. }
  destruct (fail_fast && bool_decide (is_Some (first_rejected slots))) eqn:Estop.
  { exists [ds ++ ss]. cbn [fst snd concat]. rewrite app_nil_r.
    split; [by apply history_since_app|]. split.
    - intros [|j] r; [|done]. intros [= <-]. by rewrite Nat.add_0_r.
    - intros [|j] r; [|done]. cbn. lia. }
  assert (Hnil : pending_handles slots = []).
  { unfold decided in Hdec. rewrite Estop in Hdec. cbn in Hdec.
    apply bool_decide_eq_true in Hdec. by apply pending_from_nil in Hdec. }
  replace (3 * k + 3)%nat with (3 * S k)%nat by lia.
  destruct (IH (S k) q) as (rs & Hrs & Hrounds & Hfull).
  pose proof (run_groups_grows fail_fast fuel (S k) items q) as Hgrow.
  destruct (run_groups start resume ev fail_fast fuel (3 * S k) items q) as [rest q'].
  cbn [fst snd] in *.
  exists ((ds ++ ss) :: rs). cbn [concat]. split; [|split].
  - apply history_since_app. rewrite Hgrow, Hnet, Hrs. by rewrite <- !app_assoc.
  - intros [|j] r.
    + intros [= <-]. by rewrite Nat.add_0_r.
    + cbn. intros Hj. replace (k + S j)%nat with (S k + j)%nat by lia. by apply Hrounds.
  - intros [|j] r.
    + intros [= <-] _. apply complete_round_in_flight; auto.
    + cbn. intros Hj Hlen. apply (Hfull j r Hj). lia.
Qed.

Lemma bounded_three items history before after :
  bounded_by_groups items history -> history = before ++ after ->
  (length (in_flight before) <= 3)%nat.
Proof.
  intros Hb Heq. destruct (Hb before after Heq) as [k Hk].
  apply submseteq_length in Hk. rewrite length_fmap in Hk.
  pose proof (group_length k items). lia.
Qed.

(** The log of the whole loop. *)
Lemma run_groups_log fail_fast items p :
  in_groups_of_three items p
    (run_groups start resume ev fail_fast (length items) 0 items p).2.
Proof.
  unfold in_groups_of_three.
  destruct (run_groups_trace ev fail_fast (length items) 0 items p) as (history & Hnet & Hb).
  destruct (run_groups_rounds fail_fast (length items) 0 items p) as (rs & Hrs & Hrounds & Hfull).
  change (3 * 0)%nat with 0%nat in *.
  rewrite (history_since_app _ _ _ Hnet) in *.
  split; [done|]. split; [done|]. split; [intros before after; by apply (bounded_three items history)|].
  exists rs. split; [done|]. split; [|done].
  intros k r Hk. by apply (Hrounds k r).
Qed.

(** In a loop that is not cut short every item has its slot, at its own
    place, settled as the item settles alone. *)
Lemma run_groups_outcome fail_fast k items p h :
  NoDup items -> h ∈ group k items ->
  (fail_fast = true ->
   first_rejected (run_groups start resume ev fail_fast (length items) 0 items p).1 = None) ->
  exists j pr,
    items !! j = Some h
    /\ (run_groups start resume ev fail_fast (length items) 0 items p).1 !! j = Some (h, pr)
    /\ (pr, item_of (run_groups start resume ev fail_fast (length items) 0 items p).2 h)
       = alone start resume ev h
           (run_groups start resume ev fail_fast (length (take (3 * k) items)) 0
              (take (3 * k) items) p).2.
Proof.
  intros Hnd Hin Hrej.
  destruct (run_groups_item fail_fast k items p h Hnd Hin Hrej) as (_ & _ & Hslot & _).
  destruct (run_groups_complete ev fail_fast (length items) 0 items p) as [Hfst _];
    [lia|exact Hrej|].
  change (3 * 0)%nat with 0%nat in Hfst. rewrite drop_0 in Hfst.
  assert (Hh : h ∈ items) by (apply elem_of_group; by exists k).
  apply list_elem_of_lookup in Hh as [j Hj]. exists j.
  pose proof Hj as Hj'. rewrite <- Hfst, list_lookup_fmap in Hj'.
  destruct ((run_groups start resume ev fail_fast (length items) 0 items p).1 !! j)
    as [[h' pr]|] eqn:Es; [|done].
  cbn in Hj'. injection Hj' as ->. exists pr. split; [done|]. split; [done|].
  apply Hslot. by eapply list_elem_of_lookup_2.
Qed.

End Loops.


(** ** The two handlers, item by item *)

Lemma first_rejected_None {A} (slots : list (handle * promise A)) :
  (forall s, s ∈ slots -> rejection s.2 = None) -> first_rejected slots = None.
Proof.
  intros Hall. unfold first_rejected.
  induction slots as [|s slots IH]; [done|]. cbn.
  rewrite (Hall s) by (by left). apply IH. intros s' Hs'. apply Hall. by right.
Qed.

Lemma processBtn_suspends h q :
  has_status (item_of q h) ->
  suspends processBtn.start h q = true <-> is_Some (getFileFromItem h (reg q)).
Proof.
  intros Hs. unfold suspends. destruct (getFileFromItem h (reg q)) as [file|] eqn:El.
  - destruct (processBtn_start_found h q file Hs El) as [f ->]. cbn. by split.
  - rewrite (processBtn_start_missing h q Hs El). cbn. split; [done|]. by intros [? ?].
Qed.

Lemma summarizeBtn_suspends h q :
  has_status (item_of q h) ->
  suspends summarizeBtn.start h q = true <-> is_Some (fileMap (reg q) !! h).
Proof.
  intros Hs. unfold suspends. destruct (fileMap (reg q) !! h) as [file|] eqn:El.
  - destruct (summarizeBtn_start_found h q file Hs El) as [f ->]. cbn. by split.
  - rewrite (summarizeBtn_start_missing h q Hs El). cbn. split; [done|]. by intros [? ?].
Qed.

(** With its status elements in place no callback of the process button
    rejects: the inner [catch] takes every error. *)
Lemma processBtn_never_rejects ev items p :
  NoDup items -> (forall x, x ∈ items -> has_status (item_of p x)) ->
  first_rejected (run_groups processBtn.start processBtn.resume ev true (length items) 0 items p).1
  = None.
Proof.
  intros Hnd Hst. apply first_rejected_None. intros [h pr] Hel.
  destruct pr as [|a|e]; try done. exfalso.
  apply list_elem_of_lookup in Hel as [j Hj].
  assert (Hh : h ∈ items).
  { pose proof (run_groups_handles (start := processBtn.start) (resume := processBtn.resume)
                  ev true (length items) 0 items p h) as Hh.
    change (3 * 0)%nat with 0%nat in Hh. rewrite drop_0 in Hh. apply Hh.
    apply list_elem_of_fmap. exists (h, Rejected e). split; [done|].
    exact (list_elem_of_lookup_2 _ _ _ Hj). }
  destruct (run_groups_slots (start := processBtn.start) (resume := processBtn.resume)
              ev true (length items) 0 items p h) as [Hslot _].
  { by rewrite drop_0. }
  destruct (Hslot j (Rejected e) Hj eq_refl) as (q & [_ Hit] & _ & Heq).
  rewrite processBtn_alone in Heq by (rewrite Hit; by apply Hst).
  destruct (getFileFromItem h (reg q)); [|done].
  by destruct (uploadFile_error (reply ev (UPLOAD h))), (payload (reply ev (UPLOAD h))).
Qed.

Lemma processBtn_batches_normal ev items p :
  NoDup items -> (forall x, x ∈ items -> has_status (item_of p x)) ->
  exists successCount, (processBtn.batches ev items p).1 = Normal successCount.
Proof.
  intros Hnd Hst. rewrite processBtn_batches_run.
  rewrite (processBtn_never_rejects ev items p Hnd Hst). by eexists.
Qed.

(** One item of the k-th group under the process button. *)
Lemma processBtn_item ev items p k h :
  NoDup items -> (forall x, x ∈ items -> has_status (item_of p x)) -> h ∈ group k items ->
  item_of (processBtn.batches ev (take (3 * k) items) p).2 h = item_of p h
  /\ ((forall i r, r ∈ removals ev i -> removed r <> h) ->
      getFileFromItem h (reg (processBtn.batches ev (take (3 * k) items) p).2)
      = getFileFromItem h (reg p))
  /\ (exists pr,
        (pr, item_of (processBtn.batches ev items p).2 h)
        = alone processBtn.start processBtn.resume ev h
            (processBtn.batches ev (take (3 * k) items) p).2)
  /\ (UPLOAD h ∈ dispatched (history_since p (processBtn.batches ev items p).2)
      <-> is_Some (getFileFromItem h (reg (processBtn.batches ev (take (3 * k) items) p).2))).
Proof.
  intros Hnd Hst Hin.
  pose proof (processBtn_never_rejects ev items p Hnd Hst) as Hrej.
  destruct (run_groups_item (start := processBtn.start) (resume := processBtn.resume)
              ev true k items p h Hnd Hin (fun _ => Hrej))
    as ([_ Hit] & Hsrc & _ & Hdisp).
  destruct (run_groups_outcome (start := processBtn.start) (resume := processBtn.resume)
              ev true k items p h Hnd Hin (fun _ => Hrej))
    as (j & pr & _ & _ & Hout).
  rewrite !processBtn_batches_run. cbn [snd].
  split; [done|]. split; [intros Hnever; apply Hsrc; by left|]. split; [by exists pr|].
  rewrite Hdisp. apply processBtn_suspends. rewrite Hit. apply Hst.
  apply elem_of_group. by exists k.
Qed.

(** One item of the k-th group under the summarize button, batch branch. *)
Lemma summarizeBtn_item ev items p k h :
  NoDup items -> h ∈ group k items -> has_status (item_of p h) ->
  item_of (summarizeBtn.batches ev (take (3 * k) items) p).2 h = item_of p h
  /\ ((forall i r, r ∈ removals ev i -> removed r <> h) ->
      fileMap (reg (summarizeBtn.batches ev (take (3 * k) items) p).2) !! h
      = fileMap (reg p) !! h)
  /\ (exists j pr results,
        items !! j = Some h
        /\ (summarizeBtn.batches ev items p).1 = Normal results
        /\ results !! j = Some pr
        /\ (pr, item_of (summarizeBtn.batches ev items p).2 h)
           = alone summarizeBtn.start summarizeBtn.resume ev h
               (summarizeBtn.batches ev (take (3 * k) items) p).2)
  /\ (UPLOAD h ∈ dispatched (history_since p (summarizeBtn.batches ev items p).2)
      <-> is_Some (fileMap (reg (summarizeBtn.batches ev (take (3 * k) items) p).2) !! h)).
Proof.
  intros Hnd Hin Hst.
  assert (Hrej : false = true ->
            first_rejected (run_groups summarizeBtn.start summarizeBtn.resume ev false
                              (length items) 0 items p).1 = None) by done.
  destruct (run_groups_item (start := summarizeBtn.start) (resume := summarizeBtn.resume)
              ev false k items p h Hnd Hin Hrej) as ([_ Hit] & Hsrc & _ & Hdisp).
  destruct (run_groups_outcome (start := summarizeBtn.start) (resume := summarizeBtn.resume)
              ev false k items p h Hnd Hin Hrej)
    as (j & pr & Hj & Hslot & Hout).
  rewrite !summarizeBtn_batches_run. cbn [fst snd].
  split; [done|]. split; [intros Hnever; apply Hsrc; by left|]. split.
  - exists j, pr. eexists. split; [done|]. split; [done|]. split; [|done].
    by rewrite list_lookup_fmap, Hslot.
  - rewrite Hdisp. apply summarizeBtn_suspends. by rewrite Hit.
Qed.

(** ** What the process button counts *)

(** An upload alone, from what the lookup finds. *)
Lemma processBtn_alone_status ev h q :
  has_status (item_of q h) ->
  alone processBtn.start processBtn.resume ev h q
  = (Fulfilled (if uploaded (getFileFromItem h (reg q)) (reply ev (UPLOAD h)) then 1 else 0)%nat,
     upload_status (getFileFromItem h (reg q)) (reply ev (UPLOAD h)) (item_of q h)).
Proof.
  intros Hs. rewrite (processBtn_alone ev h q Hs).
  unfold uploaded, upload_status. destruct (getFileFromItem h (reg q)); [|done].
  pose proof (proj1 (error_or_payload (reply ev (UPLOAD h)))) as Hep.
  destruct (uploadFile_error (reply ev (UPLOAD h))); [done|].
  destruct (payload (reply ev (UPLOAD h))); [done|].
  destruct Hep as [Hep _]. by destruct (Hep eq_refl).
Qed.

Lemma upload_status_completed found r el :
  file_status (upload_status found r el) = Some "Completed" <-> uploaded found r = true.
Proof.
  unfold upload_status, uploaded, Failed.
  destruct found; [destruct (uploadFile_error r)|]; cbn; split; intros H; try done;
    by injection H.
Qed.

(** The slot and the element of an item of the k-th group, from what the
    lookup finds on the page on which the group is dispatched. *)
Lemma processBtn_slot_at ev items p k j h :
  NoDup items -> (forall x, x ∈ items -> has_status (item_of p x)) ->
  h ∈ group k items -> items !! j = Some h ->
  (run_groups processBtn.start processBtn.resume ev true (length items) 0 items p).1 !! j
  = Some (h, Fulfilled
               (if uploaded (getFileFromItem h
                               (reg (processBtn.batches ev (take (3 * k) items) p).2))
                            (reply ev (UPLOAD h))
                then 1 else 0)%nat)
  /\ item_of (processBtn.batches ev items p).2 h
     = upload_status (getFileFromItem h (reg (processBtn.batches ev (take (3 * k) items) p).2))
         (reply ev (UPLOAD h)) (item_of p h).
Proof.
  intros Hnd Hst Hk Hj.
  pose proof (processBtn_never_rejects ev items p Hnd Hst) as Hrej.
  destruct (run_groups_item (start := processBtn.start) (resume := processBtn.resume)
              ev true k items p h Hnd Hk (fun _ => Hrej)) as ([_ Hit] & _ & _ & _).
  destruct (run_groups_outcome (start := processBtn.start) (resume := processBtn.resume)
              ev true k items p h Hnd Hk (fun _ => Hrej)) as (j' & pr & Hj' & Hslot & Hout).
  assert (j' = j) as -> by exact (NoDup_lookup _ _ _ _ Hnd Hj' Hj).
  rewrite !processBtn_batches_run. cbn [snd].
  rewrite processBtn_alone_status, Hit in Hout
    by (rewrite Hit; apply Hst; exact (list_elem_of_lookup_2 _ _ _ Hj)).
  injection Hout as -> ->. by rewrite Hslot.
Qed.

(** The loop of the process button returns the sum of what its items add:
    1 for an item that ends 'Completed', 0 for any other. *)
Lemma processBtn_added ev items p :
  NoDup items -> (forall x, x ∈ items -> has_status (item_of p x)) ->
  exists added,
    (processBtn.batches ev items p).1 = Normal (sum_list added)
    /\ Forall2 (fun h a =>
                  a = if bool_decide (file_status (item_of (processBtn.batches ev items p).2 h)
                                      = Some "Completed")
                      then 1%nat else 0%nat) items added.
Proof.
  intros Hnd Hst.
  exists (omap (fun s : handle * promise nat => fulfilment s.2)
            (run_groups processBtn.start processBtn.resume ev true (length items) 0 items p).1).
  split.
  { rewrite processBtn_batches_run. cbn [fst].
    by rewrite (processBtn_never_rejects ev items p Hnd Hst). }
  destruct (run_groups_complete (start := processBtn.start) (resume := processBtn.resume)
              ev true (length items) 0 items p) as [Hfst _];
    [lia|intros _; by apply processBtn_never_rejects|].
  change (3 * 0)%nat with 0%nat in Hfst. rewrite drop_0 in Hfst.
  pose proof (fun k j h => processBtn_slot_at ev items p k j h Hnd Hst) as Hslot.
  revert Hfst Hslot.
  generalize (run_groups processBtn.start processBtn.resume ev true (length items) 0 items p).1.
  generalize (processBtn.batches ev items p).2.
  intros q slots Hfst Hslot.
  assert (Hall : Forall2 (fun h (s : handle * promise nat) =>
                            fulfilment s.2
                            = Some (if bool_decide (file_status (item_of q h) = Some "Completed")
                                    then 1%nat else 0%nat)) items slots).
  { apply Forall2_same_length_lookup. split.
    { by rewrite <- Hfst, length_fmap. }
    intros j h s Hj Hs.
    assert (Hh : h ∈ items) by exact (list_elem_of_lookup_2 _ _ _ Hj).
    destruct (proj1 (elem_of_group items h) Hh) as [k Hk].
    destruct (Hslot k j h Hk Hj) as [Hs' Hel]. rewrite Hs in Hs'. injection Hs' as ->.
    rewrite Hel. cbn [snd fulfilment]. f_equal.
    destruct (uploaded _ _) eqn:Eu.
    - rewrite bool_decide_eq_true_2; [done|]. by apply upload_status_completed.
    - rewrite bool_decide_eq_false_2; [done|]. intros Hu%upload_status_completed.
      change (3 * k)%nat with (k + (k + (k + 0)))%nat in Hu. congruence. }
  clear Hfst Hslot Hnd Hst. induction Hall as [|h s items slots Hhead Hall IH]; [done|].
  cbn. rewrite Hhead. by constructor.
Qed.

Lemma sum_list_zero (l : list nat) : sum_list l = 0%nat <-> Forall (fun a => a = 0%nat) l.
Proof.
  induction l as [|a l IH]; cbn; [done|]. rewrite Forall_cons, <- IH. lia.
Qed.

Lemma added_zero {A} (f : A -> bool) (items : list A) (added : list nat) :
  Forall2 (fun h a => a = if f h then 1%nat else 0%nat) items added ->
  (forall h, h ∈ items -> f h = false) ->
  sum_list added = 0%nat.
Proof.
  intros Hall Hno. apply sum_list_zero.
  induction Hall as [|h a items' added' Hhead Hall' IH]; [done|].
  constructor.
  - rewrite Hhead, Hno; [done|by left].
  - apply IH. intros h' Hh'. apply Hno. by right.
Qed.

(** The click on the process button with a selection of distinct items that
    have their status elements. *)
Lemma processBtn_click_outcome ev p :
  NoDup (processBtn.selectedItems p) ->
  (forall x, x ∈ processBtn.selectedItems p -> has_status (item_of p x)) ->
  processBtn.selectedItems p <> [] ->
  ((forall h, h ∈ processBtn.selectedItems p ->
      file_status (item_of (processBtn.click ev p).2 h) <> Some "Completed") ->
   (processBtn.click ev p).1 = Normal tt /\ surf (processBtn.click ev p).2 = surf p)
  /\ (forall h, h ∈ processBtn.selectedItems p ->
        item_of (processBtn.click ev p).2 h = with_status "Completed" 100 (item_of p h)
        \/ exists reason,
             item_of (processBtn.click ev p).2 h = with_status (Failed reason) 0 (item_of p h))
  /\ (forall nodes, processing_options (surf p) = Some nodes -> has_dropZone (inp p) = true ->
        (processBtn.click ev p).1 = Normal tt
        /\ errorContainer (surf (processBtn.click ev p).2) = errorContainer (surf p)
        /\ exists successCount,
             (processBtn.batches ev (processBtn.selectedItems p) (processing p)).1
             = Normal successCount
             /\ processing_options (surf (processBtn.click ev p).2)
                = Some (if (0 <? successCount)%nat
                        then tail nodes ++ [processBtn.success_message successCount]
                        else nodes)).
Proof.
  intros Hnd Hst Hsel. set (items := processBtn.selectedItems p) in *.
  destruct (processBtn_added ev items (processing p) Hnd Hst) as (added & Hres & Hall).
  pose proof (processBtn_batches_footprint ev items (processing p)) as (Hsurf & Hctl & Hout).
  assert (Hinp : inp (processBtn.batches ev items (processing p)).2 = inp p).
  { rewrite processBtn_batches_run. cbn [snd]. change (inp p) with (inp (processing p)).
    apply (run_groups_inp (start := processBtn.start) (resume := processBtn.resume)). }
  assert (Hitems : forall h, h ∈ items ->
            item_of (processBtn.batches ev items (processing p)).2 h
            = with_status "Completed" 100 (item_of p h)
            \/ exists reason,
                 item_of (processBtn.batches ev items (processing p)).2 h
                 = with_status (Failed reason) 0 (item_of p h)).
  { intros h Hh. pose proof Hh as [j Hj]%list_elem_of_lookup.
    destruct (proj1 (elem_of_group items h) Hh) as [k Hk].
    destruct (processBtn_slot_at ev items (processing p) k j h Hnd Hst Hk Hj) as [_ ->].
    change (item_of (processing p) h) with (item_of p h).
    unfold upload_status. destruct (getFileFromItem h _); [|right; by eexists].
    destruct (uploadFile_error _); [right; by eexists|by left]. }
  assert (Hclick : processBtn.click ev p
            = match processBtn.batches ev items (processing p) with
              | (c, qb) =>
                  let '(c', q') :=
                    match c with
                    | Normal successCount =>
                        if (0 <? successCount)%nat
                        then match showError (processBtn.success_message successCount)
                                     ProcessingOptions qb with
                             | (Normal a, q1) => (Normal a, q1)
                             | (Throw e, q1) =>
                                 showError
                                   "Error during batch processing. Some files may not have been processed."
                                   ErrorContainer q1
                             end
                        else (Normal tt, qb)
                    | Throw e =>
                        showError
                          "Error during batch processing. Some files may not have been processed."
                          ErrorContainer qb
                    end in
                  (c', set_ctl {| processBtn_disabled := false;
                                  summarizeBtn_disabled := summarizeBtn_disabled (ctl q');
                                  loading_hidden := loading_hidden (ctl q') |} q')
              end).
  { unfold processBtn.click. unfold bind at 1, get. fold items.
    rewrite bool_decide_eq_false_2 by done.
    unfold bind at 1, set_processBtn_disabled at 1, modify. fold (processing p).
    unfold try_finally, try_catch. unfold bind at 1.
    destruct (processBtn.batches ev items (processing p)) as [[n|e] qb].
    - destruct (0 <? n)%nat.
      + destruct (showError _ ProcessingOptions qb) as [[[]|e] q1].
        * by unfold set_processBtn_disabled, modify.
        * destruct (showError _ ErrorContainer q1) as [[[]|e'] q2];
            by unfold set_processBtn_disabled, modify.
      + by unfold ret, set_processBtn_disabled, modify.
    - destruct (showError _ ErrorContainer qb) as [[[]|e'] q2];
        by unfold set_processBtn_disabled, modify. }
  rewrite Hclick. clear Hclick.
  destruct (processBtn.batches ev items (processing p)) as [c qb]. cbn [fst snd] in *.
  subst c.
  assert (Hfinal : forall q', (forall h, item_of q' h = item_of qb h) ->
            forall h, h ∈ items ->
              item_of q' h = with_status "Completed" 100 (item_of p h)
              \/ exists reason, item_of q' h = with_status (Failed reason) 0 (item_of p h)).
  { intros q' Hsame h Hh. rewrite Hsame. by apply Hitems. }
  split; [|split].
  - intros Hnone.
    assert (Hzero : sum_list added = 0%nat).
    { assert (Hno : forall h, h ∈ items -> file_status (item_of qb h) <> Some "Completed").
      { intros h Hh. specialize (Hnone h Hh). revert Hnone.
        destruct (0 <? sum_list added)%nat; [|done].
        unfold showError.
        destruct (container_nodes ProcessingOptions (surf qb)) as [nodes|]; cbn.
        - destruct (has_dropZone (inp qb)); [done|]. cbn.
          by destruct (errorContainer (surf qb)), (has_dropZone (inp qb)).
        - by destruct (errorContainer (surf qb)), (has_dropZone (inp qb)). }
      apply (added_zero
               (fun h => bool_decide (file_status (item_of qb h) = Some "Completed"))
               items added Hall).
      intros h Hh. apply bool_decide_eq_false_2. by apply Hno. }
    rewrite Hzero. cbn. by rewrite Hsurf.
  - destruct (0 <? sum_list added)%nat.
    + unfold showError.
      destruct (container_nodes ProcessingOptions (surf qb)) as [nodes|]; cbn.
      * destruct (has_dropZone (inp qb)); [by apply Hfinal|]. cbn.
        destruct (errorContainer (surf qb)), (has_dropZone (inp qb)); by apply Hfinal.
      * destruct (errorContainer (surf qb)), (has_dropZone (inp qb)); by apply Hfinal.
    + by apply Hfinal.
  - intros nodes Hopt Hdrop.
    destruct (0 <? sum_list added)%nat eqn:Epos.
    + rewrite (showError_shown _ ProcessingOptions qb nodes)
        by (cbn; by rewrite ?Hsurf, ?Hinp).
      cbn. rewrite Hsurf. split; [done|]. split; [done|].
      exists (sum_list added). split; [done|].
      change (match sum_list added with 0%nat => false | S _ => true end)
        with (0 <? sum_list added)%nat. by rewrite Epos.
    + cbn. rewrite Hsurf. split; [done|]. split; [done|].
      exists (sum_list added). split; [done|].
      change (match sum_list added with 0%nat => false | S _ => true end)
        with (0 <? sum_list added)%nat. rewrite Epos. exact Hopt.
Qed.


(** ** Groups of three *)

(** C1.  Both batch loops take the items in contiguous groups of three, in
    the original order (for seven items: three, three, one).  The log of a
    run is one round per group, in the order of the groups: the calls of the
    items of the group are all dispatched, then calls of the round settle;
    a round is followed by the next only when every call it dispatched has
    settled.  Hence at every instant the calls in flight belong to one
    group, and there are at most three.  On a page whose items are distinct
    and have their status elements, a call is dispatched for every item of a
    group whose payload the handler finds when the group is dispatched, and
    for no other. *)
Theorem dispatch_in_groups_of_three (ev : env) (items : list handle) (p : page) :
  concat (groups items) = items
  /\ Forall (fun g => (0 < length g <= 3)%nat) (groups items)
  /\ (forall a b c d e f g : handle,
        groups [a; b; c; d; e; f; g] = [[a; b; c]; [d; e; f]; [g]])
  /\ in_groups_of_three items p (processBtn.batches ev items p).2
  /\ in_groups_of_three items p (summarizeBtn.batches ev items p).2
  /\ (NoDup items -> (forall x, x ∈ items -> has_status (item_of p x)) ->
      forall k h, h ∈ group k items ->
        (UPLOAD h ∈ dispatched (history_since p (processBtn.batches ev items p).2)
         <-> is_Some (getFileFromItem h
                        (reg (processBtn.batches ev (take (3 * k) items) p).2)))
        /\ (UPLOAD h ∈ dispatched (history_since p (summarizeBtn.batches ev items p).2)
            <-> is_Some (fileMap (reg (summarizeBtn.batches ev (take (3 * k) items) p).2)
                           !! h))).
Proof.
  split; [apply groups_partition|]. split; [apply groups_sizes|]. split; [done|].
  split; [|split].
  - rewrite processBtn_batches_run. apply run_groups_log.
  - rewrite summarizeBtn_batches_run. apply run_groups_log.
  - intros Hnd Hst k h Hk.
    assert (Hh : h ∈ items) by (apply elem_of_group; by exists k).
    split.
    + by destruct (processBtn_item ev items p k h Hnd Hst Hk) as (_ & _ & _ & Hdisp).
    + by destruct (summarizeBtn_item ev items p k h Hnd Hk (Hst h Hh)) as (_ & _ & _ & Hdisp).
Qed.

Lemma dispatch_in_groups_of_three_witness :
  (fun e => (is_dispatch e, call_of e))
    <$> network (processBtn.batches (Demo.service [2]%nat) (seq 1 7)
                   (Demo.page_of "file" true (seq 1 7) [])).2
  = [ (true, UPLOAD 1); (true, UPLOAD 2); (true, UPLOAD 3);
      (false, UPLOAD 1); (false, UPLOAD 2); (false, UPLOAD 3);
      (true, UPLOAD 4); (true, UPLOAD 5); (true, UPLOAD 6);
      (false, UPLOAD 4); (false, UPLOAD 5); (false, UPLOAD 6);
      (true, UPLOAD 7); (false, UPLOAD 7) ]%nat
  /\ in_groups_of_three (seq 1 7) (Demo.page_of "file" true (seq 1 7) [])
       (processBtn.batches (Demo.service [2]%nat) (seq 1 7)
          (Demo.page_of "file" true (seq 1 7) [])).2.
Proof.
  split; [vm_compute; reflexivity|].
  apply (proj1 (proj2 (proj2 (proj2
    (dispatch_in_groups_of_three (Demo.service [2]%nat) (seq 1 7)
       (Demo.page_of "file" true (seq 1 7) [])))))).
Defined.

(** ** One item does not bring down the others *)

(** C2.  Take any item of a batch that nobody removes during the run and
    whose payload is in the registry; the other items may fail in any way.
    In both loops its call is dispatched; if its response is successful it
    ends 'Completed' at 100, and if its call fails it ends 'Error: ...' with
    the message of its own error at 0.  The loop of the process button
    returns its count and throws nothing; the loop of the batch branch
    returns one result per item, the one of this item fulfilled with its
    payload or rejected with its error. *)
Theorem failures_are_isolated (ev : env) (items : list handle) (p : page) (h : handle) :
  NoDup items ->
  (forall x, x ∈ items -> has_status (item_of p x)) ->
  h ∈ items ->
  (forall i r, r ∈ removals ev i -> removed r <> h) ->
  (is_Some (getFileFromItem h (reg p)) ->
     (exists successCount, (processBtn.batches ev items p).1 = Normal successCount)
     /\ UPLOAD h ∈ dispatched (history_since p (processBtn.batches ev items p).2)
     /\ (is_Some (payload (reply ev (UPLOAD h))) ->
         item_of (processBtn.batches ev items p).2 h
         = with_status "Completed" 100 (item_of p h))
     /\ (forall e, uploadFile_error (reply ev (UPLOAD h)) = Some e ->
         item_of (processBtn.batches ev items p).2 h
         = with_status (Failed (message e)) 0 (item_of p h)))
  /\ (is_Some (fileMap (reg p) !! h) ->
     UPLOAD h ∈ dispatched (history_since p (summarizeBtn.batches ev items p).2)
     /\ (forall data, payload (reply ev (UPLOAD h)) = Some data ->
         item_of (summarizeBtn.batches ev items p).2 h
         = with_status "Completed" 100 (item_of p h)
         /\ exists j results,
              items !! j = Some h
              /\ (summarizeBtn.batches ev items p).1 = Normal results
              /\ results !! j = Some (Fulfilled data))
     /\ (forall e, processFile_error (reply ev (UPLOAD h)) = Some e ->
         item_of (summarizeBtn.batches ev items p).2 h
         = with_status (Failed (message e)) 0 (item_of p h)
         /\ exists j results,
              items !! j = Some h
              /\ (summarizeBtn.batches ev items p).1 = Normal results
              /\ results !! j = Some (Rejected e))).
Proof.
  intros Hnd Hst Hh Hnever. apply elem_of_group in Hh as [k Hk].
  assert (Hh : h ∈ items) by (apply elem_of_group; by exists k).
  split.
  - intros Hfile.
    destruct (processBtn_item ev items p k h Hnd Hst Hk) as (Hit & Hsrc & [pr Hout] & Hdisp).
    rewrite (Hsrc Hnever) in Hdisp.
    rewrite processBtn_alone, (Hsrc Hnever), Hit in Hout by (rewrite Hit; by apply Hst).
    destruct Hfile as [file Hfile]. rewrite Hfile in Hout.
    split; [by apply processBtn_batches_normal|]. split; [by apply Hdisp|].
    assert (Hcases : uploadFile_error (reply ev (UPLOAD h)) = None
                     <-> is_Some (payload (reply ev (UPLOAD h)))).
    { destruct (reply ev (UPLOAD h)) as [e|status [data|]]; cbn.
      - split; [done|by intros [? ?]].
      - destruct (ok status); split; try done; by intros [? ?].
      - split; [done|by intros [? ?]]. }
    split.
    + intros Hok. pose proof Hok as [data Hdata]. apply Hcases in Hok.
      rewrite Hok, Hdata in Hout. by injection Hout.
    + intros e He. rewrite He in Hout. by injection Hout.
  - intros Hfile.
    destruct (summarizeBtn_item ev items p k h Hnd Hk (Hst h Hh))
      as (Hit & Hsrc & (j & pr & results & Hj & Hres & Hpr & Hout) & Hdisp).
    rewrite (Hsrc Hnever) in Hdisp.
    rewrite summarizeBtn_alone, (Hsrc Hnever), Hit in Hout by (rewrite Hit; by apply Hst).
    destruct Hfile as [file Hfile]. rewrite Hfile in Hout.
    split; [by apply Hdisp|]. split.
    + intros data Hdata.
      assert (Hok : processFile_error (reply ev (UPLOAD h)) = None).
      { destruct (reply ev (UPLOAD h)) as [e|status [d|]]; cbn in *; try done.
        by destruct (ok status). }
      rewrite Hok, Hdata in Hout. injection Hout as -> ->. split; [done|].
      by exists j, results.
    + intros e He. rewrite He in Hout. injection Hout as -> ->. split; [done|].
      by exists j, results.
Qed.

Lemma failures_are_isolated_witness :
  (* item 2 fails; item 1 is its sibling, item 4 is in the next group *)
  (item_of (processBtn.batches (Demo.service [2]%nat) [1; 2; 3; 4]%nat
              (Demo.page_of "file" true [1; 2; 3; 4]%nat [])).2 1
   = with_status "Completed" 100 Demo.ready
   /\ item_of (processBtn.batches (Demo.service [2]%nat) [1; 2; 3; 4]%nat
                 (Demo.page_of "file" true [1; 2; 3; 4]%nat [])).2 2
     = with_status "Error: Unsupported language" 0 Demo.ready)
  /\ item_of (summarizeBtn.batches (Demo.service [2]%nat) [1; 2; 3; 4]%nat
                (Demo.page_of "file" true [1; 2; 3; 4]%nat [])).2 4
     = with_status "Completed" 100 Demo.ready.
Proof.
  assert (Hnd : NoDup [1; 2; 3; 4]%nat) by (apply (bool_decide_unpack _); vm_compute; exact I).
  assert (Hst : forall x, x ∈ [1; 2; 3; 4]%nat ->
            has_status (item_of (Demo.page_of "file" true [1; 2; 3; 4]%nat []) x)).
  { intros x Hx. apply list_elem_of_In in Hx.
    repeat (destruct Hx as [<-|Hx]; [split; eexists; vm_compute; reflexivity|]).
    destruct Hx. }
  assert (Hnever : forall h (i : nat) r, r ∈ removals (Demo.service [2]%nat) i -> removed r <> h).
  { intros h i r Hr. by apply elem_of_nil in Hr. }
  split; [split|].
  - destruct (failures_are_isolated (Demo.service [2]%nat) [1; 2; 3; 4]%nat
                (Demo.page_of "file" true [1; 2; 3; 4]%nat []) 1%nat Hnd Hst)
      as [(_ & _ & Hok & _) _];
      [apply list_elem_of_In; cbn; tauto|apply Hnever|eexists; vm_compute; reflexivity|].
    apply Hok. eexists. vm_compute. reflexivity.
  - destruct (failures_are_isolated (Demo.service [2]%nat) [1; 2; 3; 4]%nat
                (Demo.page_of "file" true [1; 2; 3; 4]%nat []) 2%nat Hnd Hst)
      as [(_ & _ & _ & Hfail) _];
      [apply list_elem_of_In; cbn; tauto|apply Hnever|eexists; vm_compute; reflexivity|].
    apply (Hfail (Error "Unsupported language")). vm_compute. reflexivity.
  - destruct (failures_are_isolated (Demo.service [2]%nat) [1; 2; 3; 4]%nat
                (Demo.page_of "file" true [1; 2; 3; 4]%nat []) 4%nat Hnd Hst)
      as [_ (_ & Hok & _)];
      [apply list_elem_of_In; cbn; tauto|apply Hnever|eexists; vm_compute; reflexivity|].
    apply (Hok (Demo.summary_of 4)). vm_compute. reflexivity.
Defined.

(** ** An item without a payload *)

(** Item 4 is removed while the first group is awaited.  When its own group
    is dispatched the batch branch of the summarize handler finds no payload
    for it, and the status it writes is 'Error: No file found'. *)
Lemma batch_branch_says_No_file_found :
  fileMap (reg (summarizeBtn.batches (Demo.service_with_removal 4) (take 3 [1; 2; 3; 4]%nat)
                  (Demo.page_of "file" true [1; 2; 3; 4]%nat [])).2) !! 4%nat = None
  /\ file_status
       (item_of (summarizeBtn.batches (Demo.service_with_removal 4) [1; 2; 3; 4]%nat
                   (Demo.page_of "file" true [1; 2; 3; 4]%nat [])).2 4)
     = Some "Error: No file found"
  /\ file_status
       (item_of (summarizeBtn.batches (Demo.service_with_removal 4) [1; 2; 3; 4]%nat
                   (Demo.page_of "file" true [1; 2; 3; 4]%nat [])).2 4)
     <> Some (Failed "File not found").
Proof. split; [|split]; vm_compute; [reflexivity|reflexivity|discriminate]. Qed.

(** C3, amended.  Take an item of the k-th group whose payload lookup fails
    on the page on which its group is dispatched, the page that the loop
    over the groups before leaves: the payload was never there, or the item
    was removed while an earlier group was awaited.  No call is dispatched
    for it.  Under the process button it ends 'Error: File not found' at
    0; the loop returns the success count, which is the sum of what the
    items add, 1 for an item that ends 'Completed' and 0 for any other, and
    this item adds 0.  In the batch branch of the summarize handler it ends
    'Error: No file found' at 0, its promise is rejected with the error 'No
    file found', and the loop returns its results. *)
Theorem missing_file_outcome (ev : env) (items : list handle) (p : page) (k : nat) (h : handle) :
  NoDup items ->
  (forall x, x ∈ items -> has_status (item_of p x)) ->
  h ∈ group k items ->
  (getFileFromItem h (reg (processBtn.batches ev (take (3 * k) items) p).2) = None ->
     (exists added,
        (processBtn.batches ev items p).1 = Normal (sum_list added)
        /\ Forall2 (fun x a =>
                      a = if bool_decide
                             (file_status (item_of (processBtn.batches ev items p).2 x)
                              = Some "Completed")
                          then 1%nat else 0%nat) items added
        /\ forall j, items !! j = Some h -> added !! j = Some 0%nat)
     /\ item_of (processBtn.batches ev items p).2 h
        = with_status (Failed "File not found") 0 (item_of p h)
     /\ UPLOAD h ∉ dispatched (history_since p (processBtn.batches ev items p).2))
  /\ (fileMap (reg (summarizeBtn.batches ev (take (3 * k) items) p).2) !! h = None ->
     (exists j results,
        items !! j = Some h
        /\ (summarizeBtn.batches ev items p).1 = Normal results
        /\ results !! j = Some (Rejected (Error "No file found")))
     /\ item_of (summarizeBtn.batches ev items p).2 h
        = with_status (Failed "No file found") 0 (item_of p h)
     /\ UPLOAD h ∉ dispatched (history_since p (summarizeBtn.batches ev items p).2)).
Proof.
  intros Hnd Hst Hk.
  assert (Hh : h ∈ items) by (apply elem_of_group; by exists k).
  split.
  - intros Hmiss.
    destruct (processBtn_item ev items p k h Hnd Hst Hk) as (Hit & _ & [pr Hout] & Hdisp).
    rewrite processBtn_alone, Hmiss, Hit in Hout by (rewrite Hit; by apply Hst).
    rewrite Hmiss in Hdisp. injection Hout as _ Hel.
    split; [|split; [done|rewrite Hdisp; by intros [? ?]]].
    destruct (processBtn_added ev items p Hnd Hst) as (added & Hres & Hall).
    exists added. split; [done|]. split; [done|].
    intros j Hj. destruct (Forall2_lookup_l _ _ _ _ _ Hall Hj) as (a & Ha & Hcount).
    rewrite Ha, Hcount, Hel. by rewrite bool_decide_eq_false_2.
  - intros Hmiss.
    destruct (summarizeBtn_item ev items p k h Hnd Hk (Hst h Hh))
      as (Hit & _ & (j & pr & results & Hj & Hres & Hpr & Hout) & Hdisp).
    rewrite summarizeBtn_alone, Hmiss, Hit in Hout by (rewrite Hit; by apply Hst).
    rewrite Hmiss in Hdisp. injection Hout as -> ->.
    split; [by exists j, results|]. split; [done|].
    rewrite Hdisp. by intros [? ?].
Qed.

Lemma missing_file_outcome_witness :
  (* item 4 is removed while the first group is awaited *)
  item_of (processBtn.batches (Demo.service_with_removal 4) [1; 2; 3; 4]%nat
             (Demo.page_of "file" true [1; 2; 3; 4]%nat [])).2 4
  = with_status "Error: File not found" 0 Demo.ready
  /\ (exists added,
        (processBtn.batches (Demo.service_with_removal 4) [1; 2; 3; 4]%nat
           (Demo.page_of "file" true [1; 2; 3; 4]%nat [])).1 = Normal (sum_list added)
        /\ added !! 3%nat = Some 0%nat)
  /\ item_of (summarizeBtn.batches (Demo.service_with_removal 4) [1; 2; 3; 4]%nat
                (Demo.page_of "file" true [1; 2; 3; 4]%nat [])).2 4
     = with_status "Error: No file found" 0 Demo.ready.
Proof.
  assert (Hnd : NoDup [1; 2; 3; 4]%nat) by (apply (bool_decide_unpack _); vm_compute; exact I).
  assert (Hst : forall x, x ∈ [1; 2; 3; 4]%nat ->
            has_status (item_of (Demo.page_of "file" true [1; 2; 3; 4]%nat []) x)).
  { intros x Hx. apply list_elem_of_In in Hx.
    repeat (destruct Hx as [<-|Hx]; [split; eexists; vm_compute; reflexivity|]).
    destruct Hx. }
  destruct (missing_file_outcome (Demo.service_with_removal 4) [1; 2; 3; 4]%nat
              (Demo.page_of "file" true [1; 2; 3; 4]%nat []) 1 4%nat Hnd Hst)
    as [Hprocess Hsummarize]; [apply list_elem_of_In; cbn; tauto|].
  destruct Hprocess as ((added & Hcount & _ & Hzero) & Hel & _); [vm_compute; reflexivity|].
  split; [exact Hel|]. split.
  - exists added. split; [exact Hcount|]. apply Hzero. reflexivity.
  - apply Hsummarize. vm_compute. reflexivity.
Defined.

(** ** No item succeeded *)

(** Both uploads fail under the process button: the handler returns, and
    neither throws nor shows an error. *)
Lemma process_button_raises_nothing :
  (processBtn.batches (Demo.service [1; 2]%nat) [1; 2]%nat
     (Demo.page_of "file" true [1; 2]%nat [])).1 = Normal 0%nat
  /\ (processBtn.click (Demo.service [1; 2]%nat) (Demo.page_of "file" true [1; 2]%nat [])).1
     = Normal tt
  /\ surf (processBtn.click (Demo.service [1; 2]%nat)
             (Demo.page_of "file" true [1; 2]%nat [])).2
     = surf (Demo.page_of "file" true [1; 2]%nat [])
  /\ file_status
       <$> [item_of (processBtn.click (Demo.service [1; 2]%nat)
                       (Demo.page_of "file" true [1; 2]%nat [])).2 1;
            item_of (processBtn.click (Demo.service [1; 2]%nat)
                       (Demo.page_of "file" true [1; 2]%nat [])).2 2]
     = [Some "Error: Unsupported language"; Some "Error: Unsupported language"].
Proof. repeat split; vm_compute; reflexivity. Qed.

Lemma omap_nil_iff {X Y} (f : X -> option Y) (l : list X) :
  omap f l = [] <-> forall x, x ∈ l -> f x = None.
Proof.
  induction l as [|x l IH]; cbn.
  - split; [|done]. by intros _ x ?%elem_of_nil.
  - destruct (f x) as [y|] eqn:E.
    + split; [done|]. intros Hall. specialize (Hall x (list_elem_of_here _ _)). congruence.
    + rewrite IH. split.
      * intros Hall x' [->|Hx']%elem_of_cons; auto.
      * intros Hall x' Hx'. apply Hall. by right.
Qed.

(** The results of the batch branch, item by item: a result is fulfilled
    exactly when its item ends 'Completed', and then with the payload of the
    response to that item. *)
Lemma summarizeBtn_results ev items p :
  NoDup items -> (forall x, x ∈ items -> has_status (item_of p x)) ->
  exists results,
    (summarizeBtn.batches ev items p).1 = Normal results
    /\ Forall2 (fun h pr =>
                  match pr with
                  | Fulfilled data =>
                      payload (reply ev (UPLOAD h)) = Some data
                      /\ file_status (item_of (summarizeBtn.batches ev items p).2 h)
                         = Some "Completed"
                  | _ => file_status (item_of (summarizeBtn.batches ev items p).2 h)
                         <> Some "Completed"
                  end) items results.
Proof.
  intros Hnd Hst.
  destruct (run_groups_complete (start := summarizeBtn.start) (resume := summarizeBtn.resume)
              ev false (length items) 0 items p) as [Hfst _]; [lia|done|].
  change (3 * 0)%nat with 0%nat in Hfst. rewrite drop_0 in Hfst.
  exists (run_groups summarizeBtn.start summarizeBtn.resume ev false (length items) 0 items p).1.*2.
  split; [by rewrite summarizeBtn_batches_run|].
  apply Forall2_same_length_lookup. split.
  { rewrite length_fmap, <- Hfst at 1. by rewrite length_fmap. }
  intros i h pr Hi Hpr.
  assert (Hh : h ∈ items) by (by eapply list_elem_of_lookup_2).
  pose proof Hh as [k Hk]%elem_of_group.
  destruct (summarizeBtn_item ev items p k h Hnd Hk (Hst h Hh))
    as (Hit & _ & (j & pr' & results & Hj & Hres & Hpr' & Hout) & _).
  assert (j = i) as -> by (by eapply NoDup_lookup).
  rewrite summarizeBtn_batches_run in Hres. cbn in Hres. injection Hres as <-.
  assert (pr' = pr) as -> by congruence.
  rewrite summarizeBtn_alone in Hout by (rewrite Hit; by apply Hst).
  destruct (fileMap (reg (summarizeBtn.batches ev (take (3 * k) items) p).2) !! h).
  2:{ injection Hout as -> ->. cbn. discriminate. }
  destruct (processFile_error (reply ev (UPLOAD h))) as [e|],
           (payload (reply ev (UPLOAD h))) as [data|];
    injection Hout as -> ->; cbn; try discriminate. done.
Qed.

(** C4, amended.  The batch branch of the summarize handler, on items that
    have their status elements: once every group has settled it throws 'No
    files were successfully processed' exactly when no item has ended
    'Completed'; when an item has, it goes on to show the summaries of the
    completed items, that of this item among them, and throws no such
    error.  The process button raises no error for the batch.  Its loop
    returns the success count whatever it is: the sum of what the items
    add, 1 for an item that ends 'Completed' and 0 for any other.  When the
    items are the selection of the page and none of them ends 'Completed',
    the click handler ends normally and leaves every message container as
    it was: the failures are shown on the items only, each selected item
    ending 'Error: ' followed by a reason, at 0. *)
Theorem aggregate_failure (ev : env) (fileItems : list handle) (p : page) :
  NoDup fileItems ->
  (forall x, x ∈ fileItems -> has_status (item_of p x)) ->
  (summarizeBtn.in_batch ev fileItems p
   = (Throw (Error "No files were successfully processed"),
      (summarizeBtn.batches ev fileItems p).2)
   <-> forall h, h ∈ fileItems ->
         file_status (item_of (summarizeBtn.batches ev fileItems p).2 h) <> Some "Completed")
  /\ (forall h, h ∈ fileItems ->
        file_status (item_of (summarizeBtn.batches ev fileItems p).2 h) = Some "Completed" ->
        exists data shown,
          payload (reply ev (UPLOAD h)) = Some data
          /\ (filename data, summary data) ∈ shown
          /\ summarizeBtn.in_batch ev fileItems p
             = set_innerHTML (SummaryItems shown) (summarizeBtn.batches ev fileItems p).2)
  /\ (exists added,
        (processBtn.batches ev fileItems p).1 = Normal (sum_list added)
        /\ Forall2 (fun x a =>
                      a = if bool_decide
                             (file_status (item_of (processBtn.batches ev fileItems p).2 x)
                              = Some "Completed")
                          then 1%nat else 0%nat) fileItems added)
  /\ (fileItems = processBtn.selectedItems p -> fileItems <> [] ->
      (forall h, h ∈ fileItems ->
         file_status (item_of (processBtn.click ev p).2 h) <> Some "Completed") ->
      (processBtn.click ev p).1 = Normal tt
      /\ surf (processBtn.click ev p).2 = surf p
      /\ forall h, h ∈ fileItems ->
           exists reason,
             item_of (processBtn.click ev p).2 h
             = with_status (Failed reason) 0 (item_of p h)).
Proof.
  intros Hnd Hst.
  destruct (summarizeBtn_results ev fileItems p Hnd Hst) as (results & Hres & Hall).
  assert (Hrun : summarizeBtn.in_batch ev fileItems p
                 = if bool_decide (omap fulfilment results = [])
                   then (Throw (Error "No files were successfully processed"),
                         (summarizeBtn.batches ev fileItems p).2)
                   else set_innerHTML
                          (SummaryItems ((fun result => (filename result, summary result))
                                           <$> omap fulfilment results))
                          (summarizeBtn.batches ev fileItems p).2).
  { unfold summarizeBtn.in_batch, bind.
    destruct (summarizeBtn.batches ev fileItems p) as [c q]. cbn in Hres. subst c. cbn [snd].
    by destruct (bool_decide (omap fulfilment results = [])). }
  assert (Hnone : omap fulfilment results = []
                  <-> forall h, h ∈ fileItems ->
                        file_status (item_of (summarizeBtn.batches ev fileItems p).2 h)
                        <> Some "Completed").
  { rewrite omap_nil_iff. split.
    - intros Hno h Hh. apply list_elem_of_lookup in Hh as [j Hj].
      destruct (Forall2_lookup_l _ _ _ _ _ Hall Hj) as (pr & Hpr & Hcase).
      specialize (Hno pr (list_elem_of_lookup_2 _ _ _ Hpr)).
      by destruct pr.
    - intros Hno pr Hpr. apply list_elem_of_lookup in Hpr as [j Hj].
      destruct (Forall2_lookup_r _ _ _ _ _ Hall Hj) as (h & Hh & Hcase).
      destruct pr as [|data|e]; try done.
      destruct Hcase as [_ Hdone]. by apply Hno in Hdone; [|by eapply list_elem_of_lookup_2]. }
  split; [|split; [|split]].
  - rewrite Hrun, <- Hnone.
    destruct (bool_decide_reflect (omap fulfilment results = [])) as [He|Hne].
    + done.
    + split; [|done]. unfold set_innerHTML, set_outputText, null_property_set.
      intros Heq. exfalso.
      destruct (outputText (out (summarizeBtn.batches ev fileItems p).2)); discriminate.
  - intros h Hh Hdone. apply list_elem_of_lookup in Hh as [j Hj].
    destruct (Forall2_lookup_l _ _ _ _ _ Hall Hj) as (pr & Hpr & Hcase).
    destruct pr as [|data|e]; try done. destruct Hcase as [Hdata _].
    assert (Hin : data ∈ omap fulfilment results).
    { apply list_elem_of_omap. exists (Fulfilled data). split; [|done].
      by eapply list_elem_of_lookup_2. }
    exists data. eexists. split; [done|]. split; [|rewrite Hrun].
    2:{ rewrite bool_decide_eq_false_2; [reflexivity|].
        intros He. rewrite He in Hin. by apply elem_of_nil in Hin. }
    apply list_elem_of_fmap. by exists data.
  - by apply processBtn_added.
  - intros -> Hsel Hfail.
    destruct (processBtn_click_outcome ev p Hnd Hst Hsel) as (Hsilent & Hitems & _).
    destruct (Hsilent Hfail) as [Hret Hsurf]. split; [done|]. split; [done|].
    intros h Hh. destruct (Hitems h Hh) as [Hdone|Hfailed]; [|done].
    destruct (Hfail h Hh). by rewrite Hdone.
Qed.

Lemma aggregate_failure_witness :
  (* every item fails *)
  (summarizeBtn.in_batch (Demo.service [1; 2]%nat) [1; 2]%nat
     (Demo.page_of "file" true [1; 2]%nat [])).1
  = Throw (Error "No files were successfully processed")
  (* item 2 succeeds *)
  /\ (exists shown,
       (Some "report2.txt", Some "summary of report2.txt") ∈ shown
       /\ summarizeBtn.in_batch (Demo.service [1]%nat) [1; 2]%nat
            (Demo.page_of "file" true [1; 2]%nat [])
          = set_innerHTML (SummaryItems shown)
              (summarizeBtn.batches (Demo.service [1]%nat) [1; 2]%nat
                 (Demo.page_of "file" true [1; 2]%nat [])).2)
  (* every item fails under the process button *)
  /\ (processBtn.click (Demo.service [1; 2]%nat) (Demo.page_of "file" true [1; 2]%nat [])).1
     = Normal tt
  /\ surf (processBtn.click (Demo.service [1; 2]%nat)
             (Demo.page_of "file" true [1; 2]%nat [])).2
     = surf (Demo.page_of "file" true [1; 2]%nat []).
Proof.
  assert (Hnd : NoDup [1; 2]%nat) by (apply (bool_decide_unpack _); vm_compute; exact I).
  assert (Hst : forall x, x ∈ [1; 2]%nat ->
            has_status (item_of (Demo.page_of "file" true [1; 2]%nat []) x)).
  { intros x Hx. apply list_elem_of_In in Hx.
    repeat (destruct Hx as [<-|Hx]; [split; eexists; vm_compute; reflexivity|]).
    destruct Hx. }
  split; [|split].
  - destruct (aggregate_failure (Demo.service [1; 2]%nat) [1; 2]%nat
                (Demo.page_of "file" true [1; 2]%nat []) Hnd Hst) as [[_ Hthrow] _].
    rewrite Hthrow; [reflexivity|].
    intros h Hh. apply list_elem_of_In in Hh.
    repeat (destruct Hh as [<-|Hh]; [vm_compute; discriminate|]). destruct Hh.
  - destruct (aggregate_failure (Demo.service [1]%nat) [1; 2]%nat
                (Demo.page_of "file" true [1; 2]%nat []) Hnd Hst) as (_ & Hshown & _).
    destruct (Hshown 2%nat) as (data & shown & Hdata & Hin & Hrun);
      [apply list_elem_of_In; cbn; tauto|vm_compute; reflexivity|].
    exists shown. split; [|exact Hrun].
    vm_compute in Hdata. injection Hdata as <-. exact Hin.
  - destruct (aggregate_failure (Demo.service [1; 2]%nat) [1; 2]%nat
                (Demo.page_of "file" true [1; 2]%nat []) Hnd Hst) as (_ & _ & _ & Hsilent).
    destruct Hsilent as (Hret & Hsurf & _); [vm_compute; reflexivity|discriminate| |by split].
    intros h Hh. apply list_elem_of_In in Hh.
    repeat (destruct Hh as [<-|Hh]; [vm_compute; discriminate|]). destruct Hh.
Defined.



(** * More of the code *)

(** ** Taking files in *)

Lemma accepted_true file :
  accepted file = true
  <-> File.size file <= maxFileSize
      /\ (File.type file ∈ allowedMimeTypes \/ File.type file ∈ Object_prototype_keys).
Proof.
  unfold accepted. rewrite andb_true_iff, !bool_decide_eq_true, elem_of_app. done.
Qed.

Lemma validateFile_accepts file p :
  accepted file = true -> validateFile file p = (Normal true, p).
Proof. intros [Hs Ht]%accepted_true. by apply validateFile_accepted. Qed.

Lemma validateFile_rejects file p :
  accepted file = false ->
  validateFile file p
  = (showError (validateFile_reason file) ErrorContainer ;;; ret false) p.
Proof.
  intros Hno. unfold validateFile_reason.
  destruct (Z.ltb_spec maxFileSize (File.size file)) as [Hbig|Hsmall].
  - by apply validateFile_oversized.
  - apply validateFile_other_type; [done|..]; intros Ht;
      assert (accepted file = true) by (apply accepted_true; tauto); congruence.
Qed.

(** One accepted file: a new element, registered, ready, at the end of the
    list, ticked. *)
Lemma takeIn_accepted file t p :
  accepted file = true -> template (doc p) = Some t -> has_status t ->
  takeIn file p
  = (Normal tt,
     {| inp := inp p;
        reg := {| fileMap := <[next_handle (doc p) := file]> (fileMap (reg p));
                  fileHandler_fileMap := fileHandler_fileMap (reg p);
                  window_fileMap_set := window_fileMap_set (reg p) |};
        doc := {| fileList := fileList (doc p) ++ [next_handle (doc p)];
                  file_items := <[next_handle (doc p) := ready_item t]> (file_items (doc p));
                  template := template (doc p);
                  next_handle := S (next_handle (doc p)) |};
        surf := surf p; ctl := ctl p; out := out p; network := network p |}).
Proof.
  intros Hok Ht [[s Hs] [w Hw]]. unfold takeIn, bind.
  rewrite (validateFile_accepts file p Hok). unfold get. rewrite Ht.
  unfold cloneNode, fileMap_set, updateFileStatus, appendChild, tick, item_of,
    set_item, set_doc, set_reg, modify. cbn.
  rewrite !lookup_insert_eq. cbn. rewrite Hs, Hw. cbn.
  rewrite !lookup_insert_eq. cbn. rewrite !insert_insert_eq, Ht. done.
Qed.

(** One rejected file: its reason is shown, nothing else happens. *)
Lemma takeIn_rejected file nodes p :
  accepted file = false -> errorContainer (surf p) = Some nodes -> has_dropZone (inp p) = true ->
  takeIn file p
  = (Normal tt, set_container ErrorContainer (tail nodes ++ [validateFile_reason file]) p).
Proof.
  intros Hno Hc Hd. unfold takeIn, bind. rewrite (validateFile_rejects file p Hno).
  unfold bind, ret. by rewrite (showError_shown _ _ _ nodes).
Qed.

(** All files of one intake, on a page with the template and the error
    container.  The accepted files get the handles from the allocation
    counter on, in their order. *)
Lemma forEach_takeIn files t nodes p :
  template (doc p) = Some t -> has_status t ->
  errorContainer (surf p) = Some nodes -> has_dropZone (inp p) = true ->
  exists q,
    forEach takeIn files p = (Normal tt, q)
    /\ inp q = inp p /\ ctl q = ctl p /\ out q = out p /\ network q = network p
    /\ template (doc q) = template (doc p)
    /\ fileHandler_fileMap (reg q) = fileHandler_fileMap (reg p)
    /\ window_fileMap_set (reg q) = window_fileMap_set (reg p)
    /\ processing_options (surf q) = processing_options (surf p)
    /\ errorContainer (surf q)
       = Some (foldl (fun ns r => tail ns ++ [validateFile_reason r]) nodes
                 (List.filter (fun f => negb (accepted f)) files))
    /\ next_handle (doc q)
       = (next_handle (doc p) + length (List.filter accepted files))%nat
    /\ fileList (doc q)
       = fileList (doc p) ++ seq (next_handle (doc p)) (length (List.filter accepted files))
    /\ (forall h,
          fileMap (reg q) !! h
          = if bool_decide (next_handle (doc p) <= h < next_handle (doc q))%nat
            then List.filter accepted files !! (h - next_handle (doc p))%nat
            else fileMap (reg p) !! h)
    /\ (forall h,
          file_items (doc q) !! h
          = if bool_decide (next_handle (doc p) <= h < next_handle (doc q))%nat
            then Some (ready_item t)
            else file_items (doc p) !! h).
Proof.
  revert nodes p. induction files as [|file files IH]; intros nodes p Ht Hst Hc Hd.
  { exists p. cbn. rewrite Nat.add_0_r, app_nil_r. repeat split; try done.
    all: intros h; by rewrite bool_decide_eq_false_2 by lia. }
  cbn [forEach]. unfold bind at 1. destruct (accepted file) eqn:Hok.
  - rewrite (takeIn_accepted file t p Hok Ht Hst).
    set (p1 := {| inp := inp p |}).
    destruct (IH nodes p1) as (q & Hrun & Hi & Hctl & Hout & Hnet & Htem & Hfh & Hw & Hpo & Hec
                               & Hnext & Hlist & Hmap & Hitems); try done.
    exists q. cbn [List.filter negb]. rewrite Hok. cbn [negb length].
    cbn in Hnext, Hlist, Hmap, Hitems |- *.
    repeat split; try done.
    + rewrite Hnext. lia.
    + rewrite Hlist, <- app_assoc. done.
    + intros h. rewrite Hmap, Hnext.
      destruct (decide (h = next_handle (doc p))) as [->|Hne].
      * rewrite bool_decide_eq_false_2 by lia. rewrite bool_decide_eq_true_2 by lia.
        by rewrite lookup_insert_eq, Nat.sub_diag.
      * rewrite lookup_insert_ne by done.
        destruct (decide (S (next_handle (doc p)) <= h
                          < next_handle (doc p) + S (length (List.filter accepted files)))%nat).
        -- rewrite !bool_decide_eq_true_2 by lia.
           by replace (h - next_handle (doc p))%nat with (S (h - S (next_handle (doc p)))) by lia.
        -- by rewrite !bool_decide_eq_false_2 by lia.
    + intros h. rewrite Hitems, Hnext.
      destruct (decide (h = next_handle (doc p))) as [->|Hne].
      * rewrite bool_decide_eq_false_2 by lia. rewrite bool_decide_eq_true_2 by lia.
        by rewrite lookup_insert_eq.
      * rewrite lookup_insert_ne by done.
        destruct (decide (S (next_handle (doc p)) <= h
                          < next_handle (doc p) + S (length (List.filter accepted files)))%nat).
        -- by rewrite !bool_decide_eq_true_2 by lia.
        -- by rewrite !bool_decide_eq_false_2 by lia.
  - rewrite (takeIn_rejected file nodes p Hok Hc Hd).
    destruct (IH (tail nodes ++ [validateFile_reason file])
                (set_container ErrorContainer (tail nodes ++ [validateFile_reason file]) p))
      as (q & Hrun & Hi & Hctl & Hout & Hnet & Htem & Hfh & Hw & Hpo & Hec
          & Hnext & Hlist & Hmap & Hitems); try done.
    exists q. cbn [List.filter negb]. rewrite Hok. cbn [negb foldl].
    cbn in Hnext, Hlist, Hmap, Hitems |- *. repeat split; done.
Qed.

(** X1.  The intake of script.js, on a page with the list, the template
    and the error container: it returns normally; the files that
    [validateFile] accepts (those within the size limit whose type is one of
    the nine allowed or the name of a property inherited from
    [Object.prototype]) get, in their order, new items at the end of the
    list; each new item is ready ('Ready to process', 0, ticked) and
    [getFileFromItem] gives back the file it was made for.  The other files
    add no item. *)
Theorem handleFiles_registers (files : list File.t) (t : item_el) (nodes : list string)
    (p : page) :
  template (doc p) = Some t -> has_status t ->
  errorContainer (surf p) = Some nodes -> has_dropZone (inp p) = true ->
  (handleFiles true files p).1 = Normal tt
  /\ fileList (doc (handleFiles true files p).2)
     = fileList (doc p) ++ seq (next_handle (doc p)) (length (List.filter accepted files))
  /\ forall k file, List.filter accepted files !! k = Some file ->
       getFileFromItem (next_handle (doc p) + k) (reg (handleFiles true files p).2) = Some file
       /\ item_of (handleFiles true files p).2 (next_handle (doc p) + k) = ready_item t.
Proof.
  intros Ht Hst Hc Hd. unfold handleFiles.
  destruct (forEach_takeIn files t nodes p Ht Hst Hc Hd)
    as (q & -> & _ & _ & _ & _ & _ & _ & _ & _ & _ & Hnext & Hlist & Hmap & Hitems).
  cbn [fst snd]. split; [done|]. split; [done|].
  intros k file Hk. pose proof (lookup_lt_Some _ _ _ Hk) as Hlt.
  unfold getFileFromItem, item_of. rewrite Hmap, Hitems, Hnext.
  rewrite !bool_decide_eq_true_2 by lia.
  replace (next_handle (doc p) + k - next_handle (doc p))%nat with k by lia.
  by rewrite Hk.
Qed.

Lemma handleFiles_registers_witness :
  (* the second file is too large; the type of the third is an inherited name *)
  fileList (doc (handleFiles true [Demo.report 1; Demo.scan; File.mk "c.bin" 10 "constructor"]
                   (Demo.page_of "file" true [] [])).2) = [1; 2]%nat
  /\ getFileFromItem 2
       (reg (handleFiles true [Demo.report 1; Demo.scan; File.mk "c.bin" 10 "constructor"]
               (Demo.page_of "file" true [] [])).2)
     = Some (File.mk "c.bin" 10 "constructor").
Proof.
  destruct (handleFiles_registers [Demo.report 1; Demo.scan; File.mk "c.bin" 10 "constructor"]
              Demo.ready [] (Demo.page_of "file" true [] []))
    as (_ & Hlist & Hfound); [reflexivity|split; eexists; reflexivity|reflexivity|reflexivity|].
  split; [exact Hlist|].
  exact (proj1 (Hfound 1%nat (File.mk "c.bin" 10 "constructor") eq_refl)).
Defined.

(** X2.  The same intake disturbs nothing that was there: the items and
    the registrations of the handles allocated before, the registry of
    file-handler.js, the inputs, the controls, the output and the network
    log are as they were; and the handles from the new allocation counter on
    are still unused. *)
Theorem handleFiles_keeps_older (files : list File.t) (t : item_el) (nodes : list string)
    (p : page) :
  template (doc p) = Some t -> has_status t ->
  errorContainer (surf p) = Some nodes -> has_dropZone (inp p) = true ->
  (forall h, (h < next_handle (doc p))%nat ->
     item_of (handleFiles true files p).2 h = item_of p h
     /\ getFileFromItem h (reg (handleFiles true files p).2) = getFileFromItem h (reg p))
  /\ fileHandler_fileMap (reg (handleFiles true files p).2) = fileHandler_fileMap (reg p)
  /\ inp (handleFiles true files p).2 = inp p
  /\ ctl (handleFiles true files p).2 = ctl p
  /\ out (handleFiles true files p).2 = out p
  /\ network (handleFiles true files p).2 = network p
  /\ (allocated p -> allocated (handleFiles true files p).2).
Proof.
  intros Ht Hst Hc Hd. unfold handleFiles.
  destruct (forEach_takeIn files t nodes p Ht Hst Hc Hd)
    as (q & -> & Hi & Hctl & Hout & Hnet & _ & Hfh & Hw & _ & _ & Hnext & Hlist & Hmap & Hitems).
  cbn [fst snd]. repeat split; try done.
  - unfold item_of. rewrite Hitems. by rewrite bool_decide_eq_false_2 by lia.
  - unfold getFileFromItem, window_fileMap. rewrite Hmap, Hfh, Hw.
    by rewrite bool_decide_eq_false_2 by lia.
  - rewrite Hitems. rewrite bool_decide_eq_false_2 by lia. apply H. lia.
  - rewrite Hmap. rewrite bool_decide_eq_false_2 by lia. apply H. lia.
  - rewrite Hfh. apply H. lia.
  - rewrite Hlist. intros [Hin|Hin]%elem_of_app.
    + revert Hin. apply H. lia.
    + apply elem_of_seq in Hin. lia.
Qed.

Lemma handleFiles_keeps_older_witness :
  item_of (handleFiles true [Demo.report 7] (Demo.page_of "file" true [1; 2]%nat [])).2 1
  = Demo.ready.
Proof.
  destruct (handleFiles_keeps_older [Demo.report 7] Demo.ready []
              (Demo.page_of "file" true [1; 2]%nat []))
    as (Hold & _); [reflexivity|split; eexists; reflexivity|reflexivity|reflexivity|].
  rewrite (proj1 (Hold 1%nat ltac:(vm_compute; lia))). reflexivity.
Defined.

Lemma one_message_at_a_time (reasons : list string) (nodes : list string) :
  (length nodes <= 1)%nat ->
  foldl (fun ns r => tail ns ++ [r]) nodes reasons
  = match last reasons with Some r => [r] | None => nodes end.
Proof.
  revert nodes. induction reasons as [|r reasons IH]; intros nodes Hlen; [done|].
  cbn [foldl]. rewrite IH.
  2:{ destruct nodes as [|n [|n' nodes]]; cbn in *; lia. }
  destruct reasons as [|r' reasons].
  - destruct nodes as [|n [|n' nodes]]; cbn in *; [done|done|lia].
  - change (last (r :: r' :: reasons)) with (last (r' :: reasons)).
    destruct (last (r' :: reasons)) eqn:E; [done|]. by apply last_None in E.
Qed.

Lemma foldl_reasons {X} (f : X -> string) (nodes : list string) (l : list X) :
  foldl (fun ns r => tail ns ++ [f r]) nodes l
  = foldl (fun ns r => tail ns ++ [r]) nodes (f <$> l).
Proof. revert nodes. induction l as [|x l IH]; intros nodes; cbn; [done|]. by rewrite IH. Qed.

(** X3.  When several files of one intake are rejected, only the reason of
    the last rejected file is left on show: on a page whose error container
    holds at most one message, the container ends with exactly that reason,
    and is as it was when no file was rejected.  A file is rejected when it
    is over the size limit or its type is neither one of the nine allowed
    nor the name of a property inherited from [Object.prototype]. *)
Theorem handleFiles_shows_last_rejection (files : list File.t) (t : item_el)
    (nodes : list string) (p : page) :
  template (doc p) = Some t -> has_status t ->
  errorContainer (surf p) = Some nodes -> has_dropZone (inp p) = true ->
  (length nodes <= 1)%nat ->
  errorContainer (surf (handleFiles true files p).2)
  = Some (match last (List.filter (fun f => negb (accepted f)) files) with
          | Some rejected => [validateFile_reason rejected]
          | None => nodes
          end).
Proof.
  intros Ht Hst Hc Hd Hlen. unfold handleFiles.
  destruct (forEach_takeIn files t nodes p Ht Hst Hc Hd)
    as (q & -> & _ & _ & _ & _ & _ & _ & _ & _ & Hec & _).
  cbn [snd]. rewrite Hec, foldl_reasons, one_message_at_a_time by done.
  rewrite fmap_last. by destruct (last _).
Qed.

Lemma handleFiles_shows_last_rejection_witness :
  errorContainer
    (surf (handleFiles true [Demo.scan; Demo.report 1; Demo.archive]
             (Demo.page_of "file" true [] [])).2)
  = Some ["File type not supported"].
Proof.
  rewrite (handleFiles_shows_last_rejection [Demo.scan; Demo.report 1; Demo.archive]
             Demo.ready [] (Demo.page_of "file" true [] []));
    [reflexivity|reflexivity|split; eexists; reflexivity|reflexivity|reflexivity|cbn; lia].
Defined.

(** The pages of [Demo] have their handles below the allocation counter. *)
Lemma foldr_max_le (l : list nat) x : x ∈ l -> (x <= foldr Nat.max 0 l)%nat.
Proof.
  induction l as [|y l IH]; [by intros ?%elem_of_nil|].
  intros [->|Hin]%elem_of_cons; cbn; [lia|]. specialize (IH Hin). lia.
Qed.

Lemma Demo_allocated tab in_batch local global :
  allocated (Demo.page_of tab in_batch local global).
Proof.
  intros h Hh. cbn in Hh.
  assert (Hno : forall l : list nat, (forall x, x ∈ l -> x ∈ local ++ global) -> h ∉ l).
  { intros l Hl Hin. apply Hl, foldr_max_le in Hin. lia. }
  cbn. repeat split.
  - apply not_elem_of_list_to_map_1. rewrite <- list_fmap_compose, list_fmap_id. by apply Hno.
  - apply not_elem_of_list_to_map_1. rewrite <- list_fmap_compose, list_fmap_id.
    apply Hno. intros x Hx. apply elem_of_app. by left.
  - apply not_elem_of_list_to_map_1. rewrite <- list_fmap_compose, list_fmap_id.
    apply Hno. intros x Hx. apply elem_of_app. by right.
  - by apply Hno.
Qed.

(** *** The intake of file-handler.js *)

Lemma rejection_accepted file :
  fileHandler.rejection file = None <-> accepted file = true.
Proof.
  destruct (rejection_spec file) as (Hr1 & Hr2 & Hr3). rewrite accepted_true.
  change fileHandler.MAX_FILE_SIZE with maxFileSize in *.
  destruct (Z.le_gt_cases (File.size file) maxFileSize) as [Hs|Hs].
  - destruct (decide (File.type file ∈ allowedMimeTypes)) as [Ht|Ht].
    + split; [by intros _; split; [|left]|]. intros _. apply Hr3; [done|by left].
    + destruct (decide (File.type file ∈ Object_prototype_keys)) as [Hk|Hk].
      * split; [by intros _; split; [|right]|]. intros _. apply Hr3; [done|by right].
      * rewrite Hr2 by done. split; [done|]. intros [_ ?]. tauto.
  - rewrite Hr1 by lia. split; [done|]. intros [? _]. lia.
Qed.

Lemma handleFile_accepted file t p :
  accepted file = true -> template (doc p) = Some t ->
  fileHandler.handleFile file p
  = (Normal tt,
     {| inp := inp p;
        reg := {| fileMap := fileMap (reg p);
                  fileHandler_fileMap :=
                    <[next_handle (doc p) := file]> (fileHandler_fileMap (reg p));
                  window_fileMap_set := true |};
        doc := {| fileList := fileList (doc p) ++ [next_handle (doc p)];
                  file_items :=
                    <[next_handle (doc p) := displayed_item t]> (file_items (doc p));
                  template := template (doc p);
                  next_handle := S (next_handle (doc p)) |};
        surf := surf p; ctl := ctl p; out := out p; network := network p |}).
Proof.
  intros Hok Ht. apply rejection_accepted in Hok.
  unfold fileHandler.handleFile, fileHandler.displayFileInfo. by rewrite Hok, Ht.
Qed.

Lemma handleFile_rejected file nodes p :
  accepted file = false -> errorContainer (surf p) = Some nodes ->
  exists msg,
    fileHandler.rejection file = Some msg
    /\ fileHandler.handleFile file p
       = (Normal tt, set_container ErrorContainer (tail nodes ++ [msg]) p).
Proof.
  intros Hno Hc. unfold fileHandler.handleFile.
  destruct (fileHandler.rejection file) as [msg|] eqn:E.
  - exists msg. split; [done|]. unfold fileHandler.showError. by rewrite Hc.
  - apply rejection_accepted in E. congruence.
Qed.

Lemma forEach_handleFile files t nodes p :
  template (doc p) = Some t -> errorContainer (surf p) = Some nodes ->
  exists q,
    fileHandler.handleFiles files p = (Normal tt, q)
    /\ inp q = inp p /\ ctl q = ctl p /\ out q = out p /\ network q = network p
    /\ fileMap (reg q) = fileMap (reg p)
    /\ window_fileMap_set (reg q)
       = window_fileMap_set (reg p) || bool_decide (List.filter accepted files <> [])
    /\ next_handle (doc q)
       = (next_handle (doc p) + length (List.filter accepted files))%nat
    /\ fileList (doc q)
       = fileList (doc p) ++ seq (next_handle (doc p)) (length (List.filter accepted files))
    /\ (forall h,
          fileHandler_fileMap (reg q) !! h
          = if bool_decide (next_handle (doc p) <= h < next_handle (doc q))%nat
            then List.filter accepted files !! (h - next_handle (doc p))%nat
            else fileHandler_fileMap (reg p) !! h)
    /\ (forall h,
          file_items (doc q) !! h
          = if bool_decide (next_handle (doc p) <= h < next_handle (doc q))%nat
            then Some (displayed_item t)
            else file_items (doc p) !! h).
Proof.
  revert nodes p. induction files as [|file files IH]; intros nodes p Ht Hc.
  { exists p. cbn. rewrite Nat.add_0_r, app_nil_r, orb_false_r. repeat split; try done.
    all: intros h; by rewrite bool_decide_eq_false_2 by lia. }
  unfold fileHandler.handleFiles in *. cbn [forEach]. unfold bind at 1.
  destruct (accepted file) eqn:Hok.
  - rewrite (handleFile_accepted file t p Hok Ht).
    set (p1 := {| inp := inp p |}).
    destruct (IH nodes p1) as (q & Hrun & Hi & Hctl & Hout & Hnet & Hfm & Hw
                               & Hnext & Hlist & Hmap & Hitems); try done.
    exists q. cbn [List.filter]. rewrite Hok. cbn [length].
    cbn in Hnext, Hlist, Hmap, Hitems, Hw |- *.
    repeat split; try done.
    + rewrite Hw. by rewrite orb_true_r.
    + rewrite Hnext. lia.
    + rewrite Hlist, <- app_assoc. done.
    + intros h. rewrite Hmap, Hnext.
      destruct (decide (h = next_handle (doc p))) as [->|Hne].
      * rewrite bool_decide_eq_false_2 by lia. rewrite bool_decide_eq_true_2 by lia.
        by rewrite lookup_insert_eq, Nat.sub_diag.
      * rewrite lookup_insert_ne by done.
        destruct (decide (S (next_handle (doc p)) <= h
                          < next_handle (doc p) + S (length (List.filter accepted files)))%nat).
        -- rewrite !bool_decide_eq_true_2 by lia.
           by replace (h - next_handle (doc p))%nat with (S (h - S (next_handle (doc p)))) by lia.
        -- by rewrite !bool_decide_eq_false_2 by lia.
    + intros h. rewrite Hitems, Hnext.
      destruct (decide (h = next_handle (doc p))) as [->|Hne].
      * rewrite bool_decide_eq_false_2 by lia. rewrite bool_decide_eq_true_2 by lia.
        by rewrite lookup_insert_eq.
      * rewrite lookup_insert_ne by done.
        destruct (decide (S (next_handle (doc p)) <= h
                          < next_handle (doc p) + S (length (List.filter accepted files)))%nat).
        -- by rewrite !bool_decide_eq_true_2 by lia.
        -- by rewrite !bool_decide_eq_false_2 by lia.
  - destruct (handleFile_rejected file nodes p Hok Hc) as (msg & _ & ->).
    destruct (IH (tail nodes ++ [msg]) (set_container ErrorContainer (tail nodes ++ [msg]) p))
      as (q & Hrun & Hi & Hctl & Hout & Hnet & Hfm & Hw & Hnext & Hlist & Hmap & Hitems);
      try done.
    exists q. cbn [List.filter]. rewrite Hok.
    cbn in Hnext, Hlist, Hmap, Hitems, Hw |- *. repeat split; done.
Qed.

(** X4.  A file taken in by file-handler.js is found by script.js: on a
    page with the template and the error container and with unused handles
    from the allocation counter on, every file that passes the two checks
    (size within the limit; type one of the nine allowed or the name of a
    property inherited from [Object.prototype]) gets a new item at the end
    of the list, in order, and [getFileFromItem] gives back its file through
    [window.__fileMap].  The local map of script.js is not written, and the
    new items keep the status text of the template. *)
Theorem fileHandler_intake_found (files : list File.t) (t : item_el) (nodes : list string)
    (p : page) :
  template (doc p) = Some t -> errorContainer (surf p) = Some nodes -> allocated p ->
  (fileHandler.handleFiles files p).1 = Normal tt
  /\ fileList (doc (fileHandler.handleFiles files p).2)
     = fileList (doc p) ++ seq (next_handle (doc p)) (length (List.filter accepted files))
  /\ fileMap (reg (fileHandler.handleFiles files p).2) = fileMap (reg p)
  /\ forall k file, List.filter accepted files !! k = Some file ->
       getFileFromItem (next_handle (doc p) + k) (reg (fileHandler.handleFiles files p).2)
       = Some file
       /\ item_of (fileHandler.handleFiles files p).2 (next_handle (doc p) + k)
          = displayed_item t.
Proof.
  intros Ht Hc Halloc.
  destruct (forEach_handleFile files t nodes p Ht Hc)
    as (q & -> & _ & _ & _ & _ & Hfm & Hw & Hnext & Hlist & Hmap & Hitems).
  cbn [fst snd]. split; [done|]. split; [done|]. split; [done|].
  intros k file Hk. pose proof (lookup_lt_Some _ _ _ Hk) as Hlt.
  destruct (Halloc (next_handle (doc p) + k)%nat) as (_ & Hlocal & _); [lia|].
  unfold getFileFromItem, window_fileMap, item_of. rewrite Hfm, Hlocal, Hw, Hitems, Hnext.
  rewrite (bool_decide_eq_true_2 (List.filter accepted files <> [])).
  2:{ intros He. rewrite He in Hk. done. }
  rewrite orb_true_r, Hmap, Hnext, !bool_decide_eq_true_2 by lia.
  replace (next_handle (doc p) + k - next_handle (doc p))%nat with k by lia.
  by rewrite Hk.
Qed.

Lemma fileHandler_intake_found_witness :
  getFileFromItem 3
    (reg (fileHandler.handleFiles [Demo.scan; Demo.report 5]
            (Demo.page_of "file" true [1; 2]%nat [])).2) = Some (Demo.report 5)
  /\ file_status
       (item_of (fileHandler.handleFiles [Demo.scan; Demo.report 5]
                   (Demo.page_of "file" true [1; 2]%nat [])).2 3)
     = Some "Ready to process".
Proof.
  destruct (fileHandler_intake_found [Demo.scan; Demo.report 5] Demo.ready []
              (Demo.page_of "file" true [1; 2]%nat []))
    as (_ & _ & _ & Hfound); [reflexivity|reflexivity|apply Demo_allocated|].
  destruct (Hfound 0%nat (Demo.report 5) eq_refl) as [Hf Hi].
  split; [exact Hf|]. exact (f_equal file_status Hi).
Defined.

(** *** Without the template, and taking an item out again *)

Lemma forEach_takeIn_no_template files nodes p :
  template (doc p) = None ->
  errorContainer (surf p) = Some nodes -> has_dropZone (inp p) = true ->
  exists q, forEach takeIn files p = (Normal tt, q) /\ doc q = doc p /\ reg q = reg p.
Proof.
  revert nodes p. induction files as [|file files IH]; intros nodes p Ht Hc Hd.
  { by exists p. }
  cbn [forEach]. unfold bind at 1. destruct (accepted file) eqn:Hok.
  - unfold takeIn, bind. rewrite (validateFile_accepts file p Hok). unfold get. rewrite Ht.
    unfold ret. by apply (IH nodes).
  - rewrite (takeIn_rejected file nodes p Hok Hc Hd).
    destruct (IH (tail nodes ++ [validateFile_reason file])
                (set_container ErrorContainer (tail nodes ++ [validateFile_reason file]) p))
      as (q & -> & Hdoc & Hreg); try done.
    by exists q.
Qed.

(** X5.  Without the template the two intakes part ways.  That of
    script.js logs, adds no item, registers nothing and returns normally.
    That of file-handler.js throws a [TypeError] at the first file it
    accepts: the rejections before it have been shown, the files after it
    are not looked at, and nothing is added or registered. *)
Theorem intake_without_template (files pre post : list File.t) (file : File.t)
    (nodes : list string) (p : page) :
  template (doc p) = None ->
  errorContainer (surf p) = Some nodes -> has_dropZone (inp p) = true ->
  ((handleFiles true files p).1 = Normal tt
   /\ doc (handleFiles true files p).2 = doc p
   /\ reg (handleFiles true files p).2 = reg p)
  /\ (Forall (fun f => accepted f = false) pre -> accepted file = true ->
      fileHandler.handleFiles (pre ++ file :: post) p
      = (Throw (null_property "cloneNode"), (fileHandler.handleFiles pre p).2)
      /\ doc (fileHandler.handleFiles (pre ++ file :: post) p).2 = doc p
      /\ reg (fileHandler.handleFiles (pre ++ file :: post) p).2 = reg p).
Proof.
  intros Ht Hc Hd. split.
  - unfold handleFiles.
    by destruct (forEach_takeIn_no_template files nodes p Ht Hc Hd) as (q & -> & ? & ?).
  - intros Hpre Hok. unfold fileHandler.handleFiles.
    revert nodes p Ht Hc Hd. induction Hpre as [|f pre Hf Hpre IH]; intros nodes p Ht Hc Hd.
    + cbn. unfold bind. apply rejection_accepted in Hok.
      unfold fileHandler.handleFile, fileHandler.displayFileInfo. by rewrite Hok, Ht.
    + destruct (handleFile_rejected f nodes p Hf Hc) as (msg & _ & Hrun).
      cbn [app forEach]. rewrite !(bind_normal _ _ _ _ _ Hrun).
      destruct (IH (tail nodes ++ [msg])
                  (set_container ErrorContainer (tail nodes ++ [msg]) p))
        as (H1 & H2 & H3); try done.
Qed.

Lemma intake_without_template_witness :
  (fileHandler.handleFiles [Demo.scan; Demo.report 1; Demo.report 2]
     (set_doc {| fileList := []; file_items := ∅; template := None; next_handle := 1 |}
        (Demo.page_of "file" true [] []))).1
  = Throw (TypeError "Cannot read properties of null (reading 'cloneNode')").
Proof.
  destruct (intake_without_template [] [Demo.scan] [Demo.report 2] (Demo.report 1) []
              (set_doc {| fileList := []; file_items := ∅; template := None;
                          next_handle := 1 |}
                 (Demo.page_of "file" true [] [])))
    as [_ Hthrow]; [reflexivity|reflexivity|reflexivity|].
  destruct Hthrow as (Hrun & _ & _); [by repeat constructor|reflexivity|].
  cbn [app] in Hrun. rewrite Hrun. reflexivity.
Defined.

Lemma filter_other (l : list handle) (h : handle) :
  h ∉ l -> filter (fun x => x ≠ h) l = l.
Proof.
  induction l as [|x l IH]; [done|]. intros [Hne Hl]%not_elem_of_cons.
  rewrite filter_cons_True by done. by rewrite IH.
Qed.

(** X6.  Taking one file in and taking its item out again: after the timer
    of the remove button of the new item has run, the list and the
    registries are as they were before the intake, and the lookup for the
    item finds nothing. *)
Theorem intake_then_removal (file : File.t) (t : item_el) (p : page) :
  accepted file = true -> template (doc p) = Some t -> has_status t -> allocated p ->
  fileList (doc (remove_item {| removed := next_handle (doc p); created_by := ScriptJs |}
                   (handleFiles true [file] p).2)) = fileList (doc p)
  /\ reg (remove_item {| removed := next_handle (doc p); created_by := ScriptJs |}
            (handleFiles true [file] p).2) = reg p
  /\ getFileFromItem (next_handle (doc p))
       (reg (remove_item {| removed := next_handle (doc p); created_by := ScriptJs |}
               (handleFiles true [file] p).2)) = None.
Proof.
  intros Hok Ht Hst Halloc.
  destruct (Halloc (next_handle (doc p))) as (_ & Hlocal & Hglobal & Hlist); [lia|].
  assert (Hreg : reg (remove_item {| removed := next_handle (doc p); created_by := ScriptJs |}
                        (handleFiles true [file] p).2) = reg p).
  { unfold handleFiles. cbn [forEach]. unfold bind, ret.
    rewrite (takeIn_accepted file t p Hok Ht Hst). unfold remove_item. cbn.
    rewrite delete_insert_id by done. by destruct (reg p). }
  split; [|split; [done|]].
  - unfold handleFiles. cbn [forEach]. unfold bind, ret.
    rewrite (takeIn_accepted file t p Hok Ht Hst). unfold remove_item. cbn.
    rewrite filter_app, filter_cons_False, filter_nil, app_nil_r by (intros ?; done).
    by apply filter_other.
  - rewrite Hreg. unfold getFileFromItem, window_fileMap. rewrite Hlocal.
    by destruct (window_fileMap_set (reg p)).
Qed.

Lemma intake_then_removal_witness :
  fileList (doc (remove_item {| removed := 3; created_by := ScriptJs |}
                   (handleFiles true [Demo.report 9]
                      (Demo.page_of "file" true [1; 2]%nat [])).2)) = [1; 2]%nat.
Proof.
  exact (proj1 (intake_then_removal (Demo.report 9) Demo.ready
                  (Demo.page_of "file" true [1; 2]%nat []) eq_refl eq_refl
                  (conj (ex_intro _ _ eq_refl) (ex_intro _ _ eq_refl))
                  (Demo_allocated "file" true [1; 2]%nat []))).
Defined.



(** ** The text tab *)

(** *** Trimming *)

Lemma trimStart_split (l : list ascii) :
  exists blanks,
    l = blanks ++ trimStart l
    /\ Forall (fun c => is_space c = true) blanks
    /\ (trimStart l = [] \/ exists c rest, trimStart l = c :: rest /\ is_space c = false).
Proof.
  induction l as [|c l (blanks & Hl & Hb & Hhead)]; cbn.
  - exists []. by repeat split; [|left].
  - destruct (is_space c) eqn:Ec.
    + exists (c :: blanks). cbn. rewrite <- Hl. by repeat split; [constructor|].
    + exists []. repeat split; [done|]. right. by exists c, l.
Qed.

Lemma trimStart_fixed (l : list ascii) :
  (l = [] \/ exists c rest, l = c :: rest /\ is_space c = false) -> trimStart l = l.
Proof. intros [->|(c & rest & -> & Hc)]; cbn; [done|]. by rewrite Hc. Qed.

Lemma length_string_of_list_ascii (l : list ascii) :
  String.length (String.string_of_list_ascii l) = length l.
Proof. induction l as [|c l IH]; cbn; [done|]. by rewrite IH. Qed.

Lemma length_list_ascii_of_string (s : string) :
  length (String.list_ascii_of_string s) = String.length s.
Proof. induction s as [|c s IH]; cbn; [done|]. by rewrite IH. Qed.

Lemma trim_trimmed (s : string) :
  String.list_ascii_of_string (trim s) = trimmed (String.list_ascii_of_string s).
Proof. unfold trim, trimmed. by rewrite String.list_ascii_of_string_of_list_ascii. Qed.

Lemma trimmed_ends (l : list ascii) :
  trimStart (trimmed l) = trimmed l /\ trimStart (rev (trimmed l)) = rev (trimmed l).
Proof.
  unfold trimmed. set (u := trimStart l).
  destruct (trimStart_split l) as (_ & _ & _ & Hu). fold u in Hu.
  destruct (trimStart_split (rev u)) as (blanks & Hrev & _ & Hv).
  split.
  - apply trimStart_fixed. destruct (rev (trimStart (rev u))) as [|c rest] eqn:Et; [by left|].
    right. exists c, rest. split; [done|].
    apply (f_equal (@rev ascii)) in Hrev. rewrite rev_involutive, rev_app_distr, Et in Hrev.
    destruct Hu as [Hu|(c' & rest' & Hu & Hc')]; rewrite Hu in Hrev; [done|].
    by injection Hrev as <- _.
  - rewrite rev_involutive. by apply trimStart_fixed.
Qed.

Lemma trimmed_idem (l : list ascii) : trimmed (trimmed l) = trimmed l.
Proof.
  destruct (trimmed_ends l) as [H1 H2]. unfold trimmed at 1.
  by rewrite H1, H2, rev_involutive.
Qed.

(** Trimming a second time changes nothing. *)
Lemma trim_idem (s : string) : trim (trim s) = trim s.
Proof.
  unfold trim at 1. rewrite trim_trimmed. fold (trimmed (trimmed (String.list_ascii_of_string s))).
  rewrite trimmed_idem. unfold trim, trimmed. done.
Qed.

Lemma trim_empty : trim "" = "".
Proof. reflexivity. Qed.

Lemma length_zero_empty (s : string) : String.length s = 0%nat <-> s = "".
Proof. by destruct s. Qed.

(** *** The input check *)

Lemma validateInput_valid text p :
  50 <= Z.of_nat (String.length (trim text)) <= 50000 ->
  validateInput text p = (Normal (trim text), p).
Proof.
  intros Hn. unfold validateInput.
  rewrite bool_decide_eq_false_2 by (intros ->; cbn in Hn; lia).
  rewrite bool_decide_eq_false_2 by lia.
  destruct (Z.ltb_spec (Z.of_nat (String.length (trim text))) 50); [lia|].
  by destruct (Z.ltb_spec 50000 (Z.of_nat (String.length (trim text)))); [lia|].
Qed.

Lemma validateInput_short text p :
  0 < Z.of_nat (String.length (trim text)) < 50 ->
  validateInput text p
  = (Throw (Error "Text is too short. Please enter at least 50 characters"), p).
Proof.
  intros Hn. unfold validateInput.
  rewrite bool_decide_eq_false_2 by (intros ->; cbn in Hn; lia).
  rewrite bool_decide_eq_false_2 by lia.
  by destruct (Z.ltb_spec (Z.of_nat (String.length (trim text))) 50); [|lia].
Qed.

Lemma validateInput_long text p :
  50000 < Z.of_nat (String.length (trim text)) ->
  validateInput text p
  = (Throw (Error "Text is too long. Please enter less than 50,000 characters"), p).
Proof.
  intros Hn. unfold validateInput.
  rewrite bool_decide_eq_false_2 by (intros ->; cbn in Hn; lia).
  rewrite bool_decide_eq_false_2 by lia.
  destruct (Z.ltb_spec (Z.of_nat (String.length (trim text))) 50); [lia|].
  by destruct (Z.ltb_spec 50000 (Z.of_nat (String.length (trim text)))); [|lia].
Qed.

(** *** The handler around the text branch *)

Lemma body_started ev tab lang p :
  is_Some (loading_hidden (ctl p)) -> is_Some (outputText (out p)) ->
  summarizeBtn.body ev tab lang p
  = (if bool_decide (tab = "text") then summarizeBtn.text_branch ev lang
     else summarizeBtn.file_branch ev) (started p).
Proof.
  intros [b Hb] [el Hel]. unfold summarizeBtn.body, started.
  unfold bind, set_loading_hidden, set_summarizeBtn_disabled, set_innerHTML, set_outputText,
    modify. rewrite Hb. cbn. rewrite Hel. done.
Qed.

Lemma at_last_finished p :
  is_Some (loading_hidden (ctl p)) -> summarizeBtn.at_last p = (Normal tt, finished p).
Proof.
  intros [b Hb]. unfold summarizeBtn.at_last, finished.
  unfold bind, set_loading_hidden, set_summarizeBtn_disabled, modify. by rewrite Hb.
Qed.

Lemma on_error_shown (e : exn) p :
  is_Some (errorContainer (surf p)) -> has_dropZone (inp p) = true -> message e <> "" ->
  summarizeBtn.on_error e p = (Normal tt, with_error (message e) p).
Proof.
  intros [nodes Hn] Hd Hm. unfold summarizeBtn.on_error, with_error.
  destruct (decide (message e = "")); [done|]. rewrite Hn.
  by apply showError_shown.
Qed.

(** The text branch up to the settlement of its call. *)
Lemma text_branch_valid ev lang p :
  lang <> "" ->
  50 <= Z.of_nat (String.length (trim (inputText_value (inp p)))) <= 50000 ->
  summarizeBtn.text_branch ev lang p
  = (fun q =>
       match reply ev SUMMARIZE with
       | Rejects e => throw e
       | Response status None => throw not_json
       | Response status (Some data) =>
           (if ok status then ret tt
            else throw (Error (summarizeBtn.errorMessage status data))) ;;;
           match summary data with
           | None => throw (Error "No summary was generated. Please try again.")
           | Some s =>
               if decide (s = "")
               then throw (Error "No summary was generated. Please try again.")
               else
                 set_innerHTML (SummaryContent s) ;;;
                 reveal ;;;
                 match original_length data, summary_length data with
                 | Some o, Some l =>
                     if truthy_number o && truthy_number l then updateStats (Num o) (Num l)
                     else updateStats
                            (Num (number (String.length (inputText_value (inp p)))))
                            (Num (number (String.length s)))
                 | _, _ => updateStats
                             (Num (number (String.length (inputText_value (inp p)))))
                             (Num (number (String.length s)))
                 end
           end
       end q)
    (awaited ev SUMMARIZE
       {| file := None; text := Some (trim (inputText_value (inp p)));
          target_language := lang; max_length := 150; min_length := 50;
          preserve_formatting := Some (match preserveFormatting (inp p) with
                                       | Some true => true
                                       | _ => false
                                       end) |} 0 p).
Proof.
  intros Hlang Hn. unfold summarizeBtn.text_branch. unfold bind at 1, get.
  unfold bind at 1. rewrite (validateInput_valid _ p Hn).
  unfold bind at 1.
  rewrite (bool_decide_eq_false_2 (trim (inputText_value (inp p)) = "")).
  2:{ intros He. rewrite He in Hn. cbn in Hn. lia. }
  rewrite trim_idem, bool_decide_eq_false_2 by lia. cbn [orb]. unfold ret at 1.
  destruct (decide (lang = "")); [done|].
  unfold bind at 1, fetch, modify. unfold bind at 1, await_call.
  unfold bind at 1, modify. unfold ret at 1. unfold awaited.
  by destruct (reply ev SUMMARIZE) as [e|status [data|]].
Qed.

Lemma on_error_shown_message (e : exn) p :
  is_Some (errorContainer (surf p)) -> has_dropZone (inp p) = true ->
  summarizeBtn.on_error e p = (Normal tt, with_error (shown_message e) p).
Proof.
  intros [nodes Hn] Hd. unfold summarizeBtn.on_error, with_error, shown_message. rewrite Hn.
  by apply showError_shown.
Qed.

Lemma updateStats_normal a b p :
  (updateStats a b p).1 = Normal tt
  /\ ctl (updateStats a b p).2 = ctl p /\ surf (updateStats a b p).2 = surf p
  /\ network (updateStats a b p).2 = network p /\ inp (updateStats a b p).2 = inp p
  /\ reg (updateStats a b p).2 = reg p /\ doc (updateStats a b p).2 = doc p
  /\ outputText (out (updateStats a b p).2) = outputText (out p).
Proof.
  unfold updateStats, animateNumber. unfold_M.
  destruct (wordCount (out p)); cbn; destruct (summaryRatio (out p)); cbn;
    try destruct (0 <? as_length a)%float; done.
Qed.

(** The handler on the text tab, once the input has passed the first check. *)
Lemma text_click_run ev p :
  activeTab (inp p) = Some "text" -> targetLanguage_value (inp p) <> "" ->
  summarize_ready p -> trim (inputText_value (inp p)) <> "" ->
  summarizeBtn.click ev p
  = match summarizeBtn.text_branch ev (targetLanguage_value (inp p)) (started p) with
    | (Normal _, q) => summarizeBtn.at_last q
    | (Throw e, q) =>
        match summarizeBtn.on_error e q with
        | (c, q') => match summarizeBtn.at_last q' with
                     | (Normal _, q'') => (c, q'')
                     | (Throw e', q'') => (Throw e', q'')
                     end
        end
    end.
Proof.
  intros Htab Hlang (Hl & Ho & _ & _) Hne.
  rewrite (summarizeBtn_click_try ev p "text") by done.
  unfold try_finally, try_catch. rewrite body_started by done.
  rewrite bool_decide_eq_true_2 by done.
  destruct (summarizeBtn.text_branch _ _ _) as [[[]|e] q]; [|done].
  by destruct (summarizeBtn.at_last q) as [[[]|e] q'].
Qed.

Lemma with_error_keeps msg p :
  ctl (with_error msg p) = ctl p /\ network (with_error msg p) = network p
  /\ out (with_error msg p) = out p /\ inp (with_error msg p) = inp p.
Proof. unfold with_error. by destruct (errorContainer (surf p)). Qed.

Lemma removals_keep_rest rs q :
  ctl (foldl (fun q r => remove_item r q) q rs) = ctl q
  /\ surf (foldl (fun q r => remove_item r q) q rs) = surf q
  /\ out (foldl (fun q r => remove_item r q) q rs) = out q
  /\ inp (foldl (fun q r => remove_item r q) q rs) = inp q.
Proof.
  revert q. induction rs as [|r rs IH]; intros q; cbn; [done|].
  destruct (IH (remove_item r q)) as (-> & -> & -> & ->). done.
Qed.

Lemma awaited_keeps ev c f i p :
  ctl (awaited ev c f i p) = ctl p /\ surf (awaited ev c f i p) = surf p
  /\ out (awaited ev c f i p) = out p /\ inp (awaited ev c f i p) = inp p
  /\ network (awaited ev c f i p) = network p ++ [Dispatch c f; Settle c].
Proof.
  unfold awaited. cbn.
  destruct (removals_keep_rest (removals ev i) (record_event (Dispatch c f) p))
    as (-> & -> & -> & ->).
  rewrite removals_network. cbn. by rewrite <- app_assoc.
Qed.

(** A valid text: the call is made, and the handler ends after its
    settlement, with the message of the failure or with the summary. *)
Lemma text_click_valid ev p :
  activeTab (inp p) = Some "text" -> targetLanguage_value (inp p) <> "" ->
  summarize_ready p ->
  50 <= Z.of_nat (String.length (trim (inputText_value (inp p)))) <= 50000 ->
  (forall e, text_error (reply ev SUMMARIZE) = Some e ->
     summarizeBtn.click ev p
     = (Normal tt,
        finished (with_error (shown_message e)
                    (awaited ev SUMMARIZE (text_request p) 0 (started p)))))
  /\ (forall status data s,
        reply ev SUMMARIZE = Response status (Some data) -> ok status = true ->
        summary data = Some s -> s <> "" ->
        summarizeBtn.click ev p
        = (Normal tt,
           finished
             (updateStats (Num (text_stats (inputText_value (inp p)) data s).1)
                          (Num (text_stats (inputText_value (inp p)) data s).2)
                (show_summary s (awaited ev SUMMARIZE (text_request p) 0 (started p)))).2)).
Proof.
  intros Htab Hlang Hready Hn.
  pose proof Hready as (Hl & Ho & Hc & Hd).
  assert (Hne : trim (inputText_value (inp p)) <> "").
  { intros He. rewrite He in Hn. cbn in Hn. lia. }
  rewrite (text_click_run ev p Htab Hlang Hready Hne).
  rewrite (text_branch_valid ev _ (started p)) by done.
  change (inp (started p)) with (inp p).
  fold (text_request p).
  destruct (awaited_keeps ev SUMMARIZE (text_request p) 0 (started p))
    as (Hctl & Hsurf & Hout & Hinp & _).
  set (aw := awaited ev SUMMARIZE (text_request p) 0 (started p)) in *.
  assert (Hfail : forall e, (summarizeBtn.on_error e aw)
                            = (Normal tt, with_error (shown_message e) aw)).
  { intros e. apply on_error_shown_message; [by rewrite Hsurf|by rewrite Hinp]. }
  assert (Hlast : forall q, ctl q = ctl aw -> summarizeBtn.at_last q = (Normal tt, finished q)).
  { intros q Hq. apply at_last_finished. rewrite Hq, Hctl. by eexists. }
  assert (Hlast' : forall e, summarizeBtn.at_last (with_error (shown_message e) aw)
                             = (Normal tt, finished (with_error (shown_message e) aw))).
  { intros e. apply Hlast. by destruct (with_error_keeps (shown_message e) aw) as (-> & _). }
  split.
  - intros e He. unfold text_error in He.
    destruct (reply ev SUMMARIZE) as [e'|status [data|]].
    + injection He as <-. unfold throw. by rewrite Hfail, Hlast'.
    + destruct (ok status) eqn:Eok.
      * unfold bind at 1, ret at 1.
        destruct (summary data) as [s|].
        -- destruct (decide (s = "")); [|done]. injection He as <-.
           unfold throw. by rewrite Hfail, Hlast'.
        -- injection He as <-. unfold throw. by rewrite Hfail, Hlast'.
      * injection He as <-. unfold bind at 1, throw at 1. by rewrite Hfail, Hlast'.
    + injection He as <-. unfold throw. by rewrite Hfail, Hlast'.
  - intros status data s -> Hok Hs Hnes. rewrite Hok, Hs.
    unfold bind at 1, ret at 1. destruct (decide (s = "")); [done|].
    assert (Hshow : (set_innerHTML (SummaryContent s) ;;; reveal) aw
                    = (Normal tt, show_summary s aw)).
    { unfold bind, set_innerHTML, reveal, set_outputText, show_summary. rewrite Hout.
      destruct Ho as [el Hel]. cbn. rewrite Hel. cbn. done. }
    assert (Hrun : forall m : M unit,
              (set_innerHTML (SummaryContent s) ;;; reveal ;;; m) aw = m (show_summary s aw)).
    { intros m. unfold bind in *. unfold set_innerHTML, reveal, set_outputText, show_summary
        in *. rewrite Hout in *. destruct Ho as [el Hel]. cbn in *. rewrite Hel in *.
      cbn in *. done. }
    rewrite Hrun. unfold text_stats.
    assert (Hend : forall a b,
              match updateStats a b (show_summary s aw) with
              | (Normal _, q) => summarizeBtn.at_last q
              | (Throw e, q) =>
                  let (c, q') := summarizeBtn.on_error e q in
                  match summarizeBtn.at_last q' with
                  | (Normal _, q'') => (c, q'')
                  | (Throw e', q'') => (Throw e', q'')
                  end
              end = (Normal tt, finished (updateStats a b (show_summary s aw)).2)).
    { intros a b. destruct (updateStats_normal a b (show_summary s aw)) as (Hn1 & Hc1 & _).
      destruct (updateStats a b (show_summary s aw)) as [c q]. cbn in Hn1, Hc1. subst c.
      cbn [snd]. by apply Hlast. }
    destruct (original_length data) as [o|], (summary_length data) as [l|];
      try destruct (truthy_number o && truthy_number l); apply Hend.
Qed.

(** X7.  On the text tab, with a language chosen, a text is checked before
    anything is sent.  A text that is empty once trimmed is answered at
    once, and the page is otherwise left as it is.  A trimmed text of fewer
    than 50 or more than 50,000 characters makes the handler clear the
    output, show the reason, and restore the controls.  In all three cases
    no call is dispatched and the handler returns normally. *)
Theorem text_checked_before_sending (ev : env) (p : page) :
  activeTab (inp p) = Some "text" -> targetLanguage_value (inp p) <> "" ->
  summarize_ready p ->
  (trim (inputText_value (inp p)) = "" ->
     summarizeBtn.click ev p
     = (Normal tt, with_error "Please enter some text to summarize" p))
  /\ (0 < Z.of_nat (String.length (trim (inputText_value (inp p)))) < 50 ->
      summarizeBtn.click ev p
      = (Normal tt,
         finished (with_error "Text is too short. Please enter at least 50 characters"
                     (started p))))
  /\ (50000 < Z.of_nat (String.length (trim (inputText_value (inp p)))) ->
      summarizeBtn.click ev p
      = (Normal tt,
         finished (with_error "Text is too long. Please enter less than 50,000 characters"
                     (started p))))
  /\ (Z.of_nat (String.length (trim (inputText_value (inp p)))) < 50
      \/ 50000 < Z.of_nat (String.length (trim (inputText_value (inp p)))) ->
      network (summarizeBtn.click ev p).2 = network p).
Proof.
  intros Htab Hlang Hready. pose proof Hready as (Hl & Ho & [nodes Hc] & Hd).
  assert (Hblank : trim (inputText_value (inp p)) = "" ->
            summarizeBtn.click ev p
            = (Normal tt, with_error "Please enter some text to summarize" p)).
  { intros Hb. unfold summarizeBtn.click. unfold bind at 1, get. rewrite Htab.
    rewrite (bool_decide_eq_false_2 _ Hlang), !bool_decide_eq_true_2 by done. cbn [andb].
    unfold with_error. rewrite Hc. by apply showError_shown. }
  assert (Hthrown : forall e,
            trim (inputText_value (inp p)) <> "" ->
            validateInput (inputText_value (inp p)) (started p) = (Throw e, started p) ->
            summarizeBtn.click ev p
            = (Normal tt, finished (with_error (shown_message e) (started p)))).
  { intros e Hne Hv. rewrite (text_click_run ev p Htab Hlang Hready Hne).
    unfold summarizeBtn.text_branch. unfold bind at 1, get. unfold bind at 1.
    change (inp (started p)) with (inp p). rewrite Hv.
    rewrite on_error_shown_message by (by rewrite ?Hc).
    rewrite at_last_finished; [done|].
    destruct (with_error_keeps (shown_message e) (started p)) as (-> & _). by eexists. }
  assert (Hshort : 0 < Z.of_nat (String.length (trim (inputText_value (inp p)))) < 50 ->
            summarizeBtn.click ev p
            = (Normal tt,
               finished (with_error "Text is too short. Please enter at least 50 characters"
                           (started p)))).
  { intros Hn.
    apply (Hthrown (Error "Text is too short. Please enter at least 50 characters"));
      [|by apply validateInput_short].
    intros He. rewrite He in Hn. cbn in Hn. lia. }
  assert (Hlong : 50000 < Z.of_nat (String.length (trim (inputText_value (inp p)))) ->
            summarizeBtn.click ev p
            = (Normal tt,
               finished (with_error "Text is too long. Please enter less than 50,000 characters"
                           (started p)))).
  { intros Hn.
    apply (Hthrown (Error "Text is too long. Please enter less than 50,000 characters"));
      [|by apply validateInput_long].
    intros He. rewrite He in Hn. cbn in Hn. lia. }
  split; [done|]. split; [done|]. split; [done|].
  intros Hn.
  destruct (decide (trim (inputText_value (inp p)) = "")) as [Hb|Hne].
  { rewrite (Hblank Hb). cbn [snd].
    by destruct (with_error_keeps "Please enter some text to summarize" p) as (_ & -> & _). }
  assert (0 < Z.of_nat (String.length (trim (inputText_value (inp p))))).
  { destruct (trim (inputText_value (inp p))); [done|]. cbn. lia. }
  destruct Hn as [Hn|Hn].
  - rewrite Hshort by lia. unfold finished. cbn [snd network set_ctl].
    by destruct (with_error_keeps "Text is too short. Please enter at least 50 characters"
                   (started p)) as (_ & -> & _).
  - rewrite Hlong by lia. unfold finished. cbn [snd network set_ctl].
    by destruct (with_error_keeps "Text is too long. Please enter less than 50,000 characters"
                   (started p)) as (_ & -> & _).
Qed.

Lemma text_checked_before_sending_witness :
  errorContainer
    (surf (summarizeBtn.click (Demo.service [])
             (with_input " a short text " (Demo.page_of "text" false [] []))).2)
  = Some ["Text is too short. Please enter at least 50 characters"]
  /\ network (summarizeBtn.click (Demo.service [])
                (with_input " a short text " (Demo.page_of "text" false [] []))).2 = [].
Proof.
  destruct (text_checked_before_sending (Demo.service [])
              (with_input " a short text " (Demo.page_of "text" false [] [])))
    as (_ & Hshort & _ & Hnet).
  - reflexivity.
  - discriminate.
  - repeat split; try (eexists; reflexivity).
  - split; [rewrite Hshort by (vm_compute; split; reflexivity); reflexivity|].
    rewrite Hnet; [reflexivity|]. left. vm_compute. reflexivity.
Defined.

Lemma text_error_None r :
  text_error r = None ->
  exists status data s,
    r = Response status (Some data) /\ ok status = true /\ summary data = Some s /\ s <> "".
Proof.
  unfold text_error. destruct r as [e|status [data|]]; try done.
  destruct (ok status) eqn:Hok; [|done]. destruct (summary data) as [s|] eqn:Hs; [|done].
  destruct (decide (s = "")) as [|Hne]; [done|]. intros _. by exists status, data, s.
Qed.

(** X8.  A text that passes the check is sent exactly once: whatever the
    service answers, the handler returns normally and the log has grown by
    one call to the summarize endpoint and its settlement.  The request
    carries the trimmed text, the chosen language, the bounds 150 and 50,
    and the formatting flag as a boolean. *)
Theorem text_sent_once (ev : env) (p : page) :
  activeTab (inp p) = Some "text" -> targetLanguage_value (inp p) <> "" ->
  summarize_ready p ->
  50 <= Z.of_nat (String.length (trim (inputText_value (inp p)))) <= 50000 ->
  (summarizeBtn.click ev p).1 = Normal tt
  /\ network (summarizeBtn.click ev p).2
     = network p ++ [Dispatch SUMMARIZE (text_request p); Settle SUMMARIZE].
Proof.
  intros Htab Hlang Hready Hn.
  destruct (text_click_valid ev p Htab Hlang Hready Hn) as [Hfail Hok].
  destruct (awaited_keeps ev SUMMARIZE (text_request p) 0 (started p)) as (_ & _ & _ & _ & Hnet).
  destruct (text_error (reply ev SUMMARIZE)) as [e|] eqn:Ee.
  - rewrite (Hfail e eq_refl). split; [done|]. unfold finished. cbn [snd network set_ctl].
    by destruct (with_error_keeps (shown_message e)
                   (awaited ev SUMMARIZE (text_request p) 0 (started p))) as (_ & -> & _).
  - destruct (text_error_None _ Ee) as (status & data & s & Hr & Hs & Hsum & Hne).
    rewrite (Hok status data s Hr Hs Hsum Hne). split; [done|].
    unfold finished. cbn [snd network set_ctl].
    by destruct (updateStats_normal
                   (Num (text_stats (inputText_value (inp p)) data s).1)
                   (Num (text_stats (inputText_value (inp p)) data s).2)
                   (show_summary s (awaited ev SUMMARIZE (text_request p) 0 (started p))))
      as (_ & _ & _ & -> & _).
Qed.

Lemma text_sent_once_witness :
  network (summarizeBtn.click (Demo.service [])
             (with_input sample_text (Demo.page_of "text" false [] []))).2
  = [Dispatch SUMMARIZE
       {| file := None;
          text := Some "The quick brown fox jumps over the lazy dog, twice a day.";
          target_language := "hi"; max_length := 150; min_length := 50;
          preserve_formatting := Some false |};
     Settle SUMMARIZE].
Proof.
  destruct (text_sent_once (Demo.service []) (with_input sample_text (Demo.page_of "text" false [] [])))
    as [_ Hnet].
  - reflexivity.
  - discriminate.
  - repeat split; try (eexists; reflexivity).
  - vm_compute. split; discriminate.
  - rewrite Hnet. reflexivity.
Defined.

(** X9.  When the call of the text tab gives a summary, the handler shows
    it in the output, revealed, shows no error, starts the statistics and
    restores the controls.  The statistics are those of the two lengths the
    service reports when both are there and not zero; otherwise they are
    computed from the numbers of characters, not of words, of the input as
    typed and of the summary. *)
Theorem text_summary_shown (ev : env) (p : page) (status : Z) (data : json) (s : string) :
  activeTab (inp p) = Some "text" -> targetLanguage_value (inp p) <> "" ->
  summarize_ready p ->
  50 <= Z.of_nat (String.length (trim (inputText_value (inp p)))) <= 50000 ->
  reply ev SUMMARIZE = Response status (Some data) -> ok status = true ->
  summary data = Some s -> s <> "" ->
  summarizeBtn.click ev p
  = (Normal tt,
     finished
       (updateStats (Num (text_stats (inputText_value (inp p)) data s).1)
                    (Num (text_stats (inputText_value (inp p)) data s).2)
          (show_summary s (awaited ev SUMMARIZE (text_request p) 0 (started p)))).2)
  /\ outputText (out (summarizeBtn.click ev p).2)
     = (fun _ => {| innerHTML := SummaryContent s; revealed := true |}) <$> outputText (out p)
  /\ surf (summarizeBtn.click ev p).2 = surf p
  /\ (original_length data = None \/ summary_length data = None ->
      text_stats (inputText_value (inp p)) data s
      = (number (String.length (inputText_value (inp p))), number (String.length s))).
Proof.
  intros Htab Hlang Hready Hn Hr Hok Hs Hne.
  destruct (text_click_valid ev p Htab Hlang Hready Hn) as [_ Hrun].
  rewrite (Hrun status data s Hr Hok Hs Hne).
  destruct (updateStats_normal
              (Num (text_stats (inputText_value (inp p)) data s).1)
              (Num (text_stats (inputText_value (inp p)) data s).2)
              (show_summary s (awaited ev SUMMARIZE (text_request p) 0 (started p))))
    as (_ & _ & Hsurf & _ & _ & _ & _ & Hout).
  destruct (awaited_keeps ev SUMMARIZE (text_request p) 0 (started p))
    as (_ & Hsurf' & Hout' & _).
  split; [done|]. unfold finished. cbn [snd out surf set_ctl]. split; [|split].
  - rewrite Hout. unfold show_summary. cbn [out set_out outputText]. rewrite Hout'.
    unfold started. cbn [out set_out set_ctl outputText].
    by destruct (outputText (out p)).
  - rewrite Hsurf. unfold show_summary. cbn [surf set_out]. by rewrite Hsurf'.
  - unfold text_stats. intros [->| ->]; [done|]. by destruct (original_length data).
Qed.

Lemma text_summary_shown_witness :
  outputText (out (summarizeBtn.click (Demo.service [])
                     (with_input sample_text (Demo.page_of "text" false [] []))).2)
  = Some {| innerHTML := SummaryContent "summary of report0.txt"; revealed := true |}
  /\ anim_to <$> animations
                   (out (summarizeBtn.click (Demo.service [])
                           (with_input sample_text (Demo.page_of "text" false [] []))).2)
     = [62%float; 65%float].
Proof.
  destruct (text_summary_shown (Demo.service [])
              (with_input sample_text (Demo.page_of "text" false [] []))
              200 (Demo.summary_of 0) "summary of report0.txt")
    as (Hrun & Hout & _).
  - reflexivity.
  - discriminate.
  - repeat split; try (eexists; reflexivity).
  - vm_compute. split; discriminate.
  - reflexivity.
  - reflexivity.
  - reflexivity.
  - discriminate.
  - split; [rewrite Hout; reflexivity|]. rewrite Hrun. vm_compute. reflexivity.
Defined.

(** X10.  When the call of the text tab fails, the handler leaves the output
    cleared, shows one message and restores the controls, and throws
    nothing.  The failure is a rejected fetch, a body that is not JSON, a
    status that is not ok, or an ok answer without a summary.  For status
    422 a list of validation messages is shown joined by commas; the text of
    an error without a message is replaced by a general one. *)
Theorem text_failure_shown (ev : env) (p : page) (e : exn) :
  activeTab (inp p) = Some "text" -> targetLanguage_value (inp p) <> "" ->
  summarize_ready p ->
  50 <= Z.of_nat (String.length (trim (inputText_value (inp p)))) <= 50000 ->
  text_error (reply ev SUMMARIZE) = Some e ->
  summarizeBtn.click ev p
  = (Normal tt,
     finished (with_error (shown_message e)
                 (awaited ev SUMMARIZE (text_request p) 0 (started p))))
  /\ (forall nodes, errorContainer (surf p) = Some nodes ->
        errorContainer (surf (summarizeBtn.click ev p).2)
        = Some (tail nodes ++ [shown_message e]))
  /\ innerHTML <$> outputText (out (summarizeBtn.click ev p).2) = Some Blank
  /\ (forall msgs data,
        reply ev SUMMARIZE = Response 422 (Some data) -> detail data = DetailList msgs ->
        message e = String.concat ", " msgs).
Proof.
  intros Htab Hlang Hready Hn He.
  destruct (text_click_valid ev p Htab Hlang Hready Hn) as [Hrun _].
  rewrite (Hrun e He).
  destruct (awaited_keeps ev SUMMARIZE (text_request p) 0 (started p))
    as (_ & Hsurf & Hout & _).
  split; [done|]. unfold finished. cbn [snd out surf set_ctl]. split; [|split].
  - intros nodes Hc. unfold with_error. rewrite Hsurf.
    unfold started at 1. cbn [surf set_out set_ctl]. rewrite Hc.
    unfold set_container. cbn [surf set_surf errorContainer]. done.
  - destruct (with_error_keeps (shown_message e)
                (awaited ev SUMMARIZE (text_request p) 0 (started p))) as (_ & _ & -> & _).
    rewrite Hout. unfold started. cbn [out set_out set_ctl outputText].
    destruct Hready as (_ & [el ->] & _). done.
  - intros msgs data Hr Hd. rewrite Hr in He. cbn in He. injection He as <-.
    unfold summarizeBtn.errorMessage. rewrite Hd. done.
Qed.

Lemma text_failure_shown_witness :
  errorContainer
    (surf (summarizeBtn.click (answering (Response 422 (Some unprocessable)))
             (with_input sample_text (Demo.page_of "text" false [] []))).2)
  = Some ["text too short, language unknown"].
Proof.
  destruct (text_failure_shown (answering (Response 422 (Some unprocessable)))
              (with_input sample_text (Demo.page_of "text" false [] []))
              (Error "text too short, language unknown"))
    as (_ & Hshown & _).
  - reflexivity.
  - discriminate.
  - repeat split; try (eexists; reflexivity).
  - vm_compute. split; discriminate.
  - reflexivity.
  - rewrite (Hshown [] eq_refl). reflexivity.
Defined.


(** ** The files one by one *)

Lemma processFile_resume_network h r p :
  network (processFile_resume h r p).2 = network p.
Proof. apply (resume_net (Callback := summarizeBtn_callback) h r p). Qed.

(** The [try] block of one turn logs nothing, or a call and its settlement. *)
Lemma turn_block_log ev i h file (k : json -> list (option string * option string)) p :
  exists pushed q,
    try_catch
      (processFile_start file h ;;;
       let! r := await_call ev (UPLOAD h) i in
       let! result := processFile_resume h r in
       ret (k result))
      (fun error => ret []) p = (Normal pushed, q)
    /\ (network q = network p
        \/ exists f, network q = network p ++ [Dispatch (UPLOAD h) f; Settle (UPLOAD h)]).
Proof.
  unfold try_catch. unfold bind at 1.
  pose proof (processFile_start_net file h p) as Hstart.
  destruct (processFile_start file h p) as [[[]|e] p1]; cbn [fst snd] in Hstart.
  2:{ eexists _, _. split; [reflexivity|]. by left. }
  destruct Hstart as [f Hf]. unfold bind at 1, await_call. unfold bind at 1, modify, ret at 1.
  set (p2 := record_event _ _).
  assert (Hp2 : network p2 = network p ++ [Dispatch (UPLOAD h) f; Settle (UPLOAD h)]).
  { unfold p2. cbn. rewrite removals_network, Hf, <- app_assoc. done. }
  unfold bind. pose proof (processFile_resume_network h (reply ev (UPLOAD h)) p2) as Hres.
  destruct (processFile_resume h (reply ev (UPLOAD h)) p2) as [[data|e] p3];
    cbn [fst snd] in *; eexists _, _; (split; [reflexivity|]); right; exists f; congruence.
Qed.

(** X11.  The loop over the files one by one never has two calls under
    way: whatever the page, the service and the user do, what it adds to the
    log is a sequence of calls each followed at once by its own settlement,
    the calls being for items of the list in the order of the list; so at
    every instant at most one call is in flight. *)
Theorem one_at_a_time (ev : env) (i : nat) (fileItems : list handle)
    (summaries : list (option string * option string)) (p : page) :
  exists turns,
    network (summarizeBtn.each_in_turn ev i fileItems summaries p).2 = network p ++ concat turns
    /\ Forall call_and_settlement turns
    /\ dispatched (concat turns) `sublist_of` (UPLOAD <$> fileItems)
    /\ (forall before after, concat turns = before ++ after ->
          (length (in_flight before) <= 1)%nat).
Proof.
  assert (Hlog : exists turns,
    network (summarizeBtn.each_in_turn ev i fileItems summaries p).2 = network p ++ concat turns
    /\ Forall call_and_settlement turns
    /\ dispatched (concat turns) `sublist_of` (UPLOAD <$> fileItems)).
  { revert i summaries p. induction fileItems as [|h rest IH]; intros i summaries p.
    { exists []. cbn. by rewrite app_nil_r. }
    cbn [summarizeBtn.each_in_turn]. unfold bind at 1, get.
    destruct (getFileFromItem h (reg p)) as [file|].
    - unfold bind at 1.
      destruct (turn_block_log ev i h file
                  (fun result => [(Some (File.name file), summary result)]) p)
        as (pushed & q & -> & Hnet).
      destruct (IH (S i) (summaries ++ pushed) q) as (turns & Hrest & Hall & Hsub).
      destruct Hnet as [Hq|[f Hq]].
      + exists turns. rewrite Hrest, Hq. split; [done|]. split; [done|].
        rewrite fmap_cons. by apply sublist_cons.
      + exists ([Dispatch (UPLOAD h) f; Settle (UPLOAD h)] :: turns).
        split; [|split; [constructor; [by exists h, f|done]|]].
        * rewrite Hrest, Hq. cbn [concat]. by rewrite <- app_assoc.
        * rewrite fmap_cons. cbn [concat]. rewrite dispatched_app.
          cbn. by apply sublist_skip.
    - unfold bind at 1.
      pose proof (updateFileStatus_network h "Error: No file found" (Some 0) p) as Hu.
      destruct (updateFileStatus h "Error: No file found" (Some 0) p) as [[[]|e] q];
        cbn [fst snd] in Hu.
      + destruct (IH (S i) summaries q) as (turns & Hrest & Hall & Hsub).
        exists turns. rewrite Hrest, Hu. split; [done|]. split; [done|].
        rewrite fmap_cons. by apply sublist_cons.
      + exists []. cbn. rewrite app_nil_r. split; [done|]. split; [done|].
        apply sublist_nil_l. }
  destruct Hlog as (turns & Hnet & Hall & Hsub). exists turns.
  split; [done|]. split; [done|]. split; [done|].
  clear Hnet Hsub. induction Hall as [|turn turns (h & f & ->) Hall IH]; intros before after Heq.
  { symmetry in Heq. apply app_eq_nil in Heq as [-> _]. cbn. lia. }
  cbn [concat app] in Heq.
  destruct before as [|e1 [|e2 before]].
  - cbn. lia.
  - injection Heq as <- _. cbn. lia.
  - injection Heq as <- <- Heq. unfold in_flight. cbn [foldl in_flight_step app remove_first].
    destruct (decide (UPLOAD h = UPLOAD h)); [|done].
    by apply (IH before after).
Qed.


Lemma removals_lookup rs x p :
  (forall r, r ∈ rs -> removed r <> x) ->
  getFileFromItem x (reg (foldl (fun q r => remove_item r q) p rs)) = getFileFromItem x (reg p).
Proof.
  revert p. induction rs as [|r rs IH]; intros p Hrs; cbn; [done|].
  rewrite IH by (intros r' Hr'; apply Hrs; by right).
  apply getFileFromItem_remove_other, Hrs. by left.
Qed.

Lemma processFile_form_inp file p q : inp q = inp p -> processFile_form file q = processFile_form file p.
Proof. intros H. unfold processFile_form, lang_or_en. by rewrite H. Qed.

Lemma turn_status_twice found r el :
  turn_status found r (turn_status found r el) = turn_status found r el.
Proof. unfold turn_status. destruct found; [destruct (processFile_error r)|]; done. Qed.

Lemma has_status_turn_status found r el : has_status (turn_status found r el).
Proof.
  unfold turn_status. destruct found; [destruct (processFile_error r)|];
    apply has_status_with_status.
Qed.

(** One turn for a file that is found. *)
Lemma turn_found ev i h file p :
  has_status (item_of p h) ->
  exists q,
    try_catch
      (processFile_start file h ;;;
       let! r := await_call ev (UPLOAD h) i in
       let! result := processFile_resume h r in
       ret [(Some (File.name file), summary result)])
      (fun error => ret []) p
    = (Normal (option_list (turn_summary (Some file) (reply ev (UPLOAD h)))), q)
    /\ (forall x, item_of q x
                  = if decide (x = h)
                    then turn_status (Some file) (reply ev (UPLOAD h)) (item_of p h)
                    else item_of p x)
    /\ (forall x, (forall r, r ∈ removals ev i -> removed r <> x) ->
                  getFileFromItem x (reg q) = getFileFromItem x (reg p))
    /\ inp q = inp p /\ surf q = surf p /\ ctl q = ctl p /\ out q = out p
    /\ network q = network p ++ [Dispatch (UPLOAD h) (processFile_form file p); Settle (UPLOAD h)].
Proof.
  intros Hs. unfold try_catch. unfold bind at 1.
  unfold processFile_start at 1. unfold bind at 1, get. unfold try_catch at 1. unfold bind at 1.
  rewrite (updateFileStatus_ok _ _ _ _ Hs). unfold fetch, modify.
  fold (processFile_form file p).
  set (p1 := set_item h _ p).
  unfold bind at 1, await_call. unfold bind at 1, modify, ret at 1.
  fold (awaited ev (UPLOAD h) (processFile_form file p) i p1).
  set (p2 := awaited _ _ _ _ _).
  assert (Hitem : forall x, item_of p2 x
                            = if decide (x = h) then with_status "Processing..." 50 (item_of p h)
                              else item_of p x).
  { intros x. unfold p2, awaited. rewrite item_of_record_event.
    rewrite (proj2 (removals_frame _ _ x)), item_of_record_event. unfold p1.
    rewrite item_of_set_item. destruct (decide (h = x)), (decide (x = h)); congruence. }
  assert (Hreg : forall x, (forall r, r ∈ removals ev i -> removed r <> x) ->
                           getFileFromItem x (reg p2) = getFileFromItem x (reg p)).
  { intros x Hx. unfold p2, awaited. cbn. by rewrite removals_lookup. }
  destruct (awaited_keeps ev (UPLOAD h) (processFile_form file p) i p1)
    as (Hctl & Hsurf & Hout & Hinp & Hnet). fold p2 in Hctl, Hsurf, Hout, Hinp, Hnet.
  assert (Hs2 : has_status (item_of p2 h)).
  { rewrite Hitem, decide_True by done. apply has_status_with_status. }
  unfold bind at 1. rewrite (processFile_resume_ok _ _ _ Hs2).
  unfold turn_summary, turn_status.
  pose proof (proj2 (error_or_payload (reply ev (UPLOAD h)))) as Hep.
  destruct (processFile_error (reply ev (UPLOAD h))) as [e|] eqn:Ee.
  - destruct (payload (reply ev (UPLOAD h))) as [data|] eqn:Ep.
    { destruct Hep as [_ Hep]. by specialize (Hep (mk_is_Some _ _ eq_refl)). }
    eexists. split; [reflexivity|]. cbn [fst snd].
    split; [|by repeat split].
    intros x. rewrite item_of_set_item, !Hitem.
    destruct (decide (h = x)) as [<-|]; [by rewrite !decide_True|].
    destruct (decide (x = h)); congruence.
  - destruct (payload (reply ev (UPLOAD h))) as [data|] eqn:Ep.
    2:{ destruct Hep as [Hep _]. by destruct (Hep eq_refl). }
    eexists. split; [reflexivity|]. cbn [fst snd].
    split; [|by repeat split].
    intros x. rewrite item_of_set_item, !Hitem.
    destruct (decide (h = x)) as [<-|]; [by rewrite !decide_True|].
    destruct (decide (x = h)); congruence.
Qed.

(** The files one by one, when every item has its status line and none of
    them is removed meanwhile. *)
Lemma each_in_turn_run ev fileItems :
  forall i summaries p,
    (forall h, h ∈ fileItems -> has_status (item_of p h)) ->
    (forall j r, r ∈ removals ev j -> removed r ∉ fileItems) ->
    exists q,
      summarizeBtn.each_in_turn ev i fileItems summaries p
      = (Normal (summaries
                 ++ omap (fun h => turn_summary (getFileFromItem h (reg p)) (reply ev (UPLOAD h)))
                      fileItems), q)
      /\ (forall h, item_of q h
                    = if decide (h ∈ fileItems)
                      then turn_status (getFileFromItem h (reg p)) (reply ev (UPLOAD h))
                             (item_of p h)
                      else item_of p h)
      /\ (forall x, (forall j r, r ∈ removals ev j -> removed r <> x) ->
                    getFileFromItem x (reg q) = getFileFromItem x (reg p))
      /\ inp q = inp p /\ surf q = surf p /\ ctl q = ctl p /\ out q = out p
      /\ network q
         = network p
           ++ (fileItems ≫= fun h =>
                 match getFileFromItem h (reg p) with
                 | Some file => [Dispatch (UPLOAD h) (processFile_form file p); Settle (UPLOAD h)]
                 | None => []
                 end).
Proof.
  induction fileItems as [|h rest IH]; intros i summaries p Hstat Hrem.
  { exists p. cbn. rewrite !app_nil_r. repeat split; try done. }
  assert (Hh : forall j r, r ∈ removals ev j -> removed r <> h).
  { intros j r Hr He. apply (Hrem j r Hr). rewrite He. by left. }
  assert (Hrest : forall j r, r ∈ removals ev j -> removed r ∉ rest).
  { intros j r Hr Hin. apply (Hrem j r Hr). by right. }
  assert (Hstep : exists q1 pushed,
    (forall x, item_of q1 x
               = if decide (x = h)
                 then turn_status (getFileFromItem h (reg p)) (reply ev (UPLOAD h)) (item_of p h)
                 else item_of p x)
    /\ (forall x, (forall r, r ∈ removals ev i -> removed r <> x) ->
                  getFileFromItem x (reg q1) = getFileFromItem x (reg p))
    /\ inp q1 = inp p /\ surf q1 = surf p /\ ctl q1 = ctl p /\ out q1 = out p
    /\ network q1
       = network p ++ match getFileFromItem h (reg p) with
                      | Some file => [Dispatch (UPLOAD h) (processFile_form file p);
                                      Settle (UPLOAD h)]
                      | None => []
                      end
    /\ pushed = option_list (turn_summary (getFileFromItem h (reg p)) (reply ev (UPLOAD h)))
    /\ match getFileFromItem h (reg p) with
       | Some file =>
           (let! pushed :=
              try_catch
                (processFile_start file h ;;;
                 let! r := await_call ev (UPLOAD h) i in
                 let! result := processFile_resume h r in
                 ret [(Some (File.name file), summary result)])
                (fun error => ret []) in
            summarizeBtn.each_in_turn ev (S i) rest (summaries ++ pushed)) p
       | None =>
           (updateFileStatus h "Error: No file found" (Some 0) ;;;
            summarizeBtn.each_in_turn ev (S i) rest summaries) p
       end = summarizeBtn.each_in_turn ev (S i) rest (summaries ++ pushed) q1).
  { destruct (getFileFromItem h (reg p)) as [file|] eqn:Ef.
    - destruct (turn_found ev i h file p (Hstat h ltac:(by left)))
        as (q1 & Hrun & Hit & Hreg & Hinp & Hsurf & Hctl & Hout & Hnet).
      exists q1, (option_list (turn_summary (Some file) (reply ev (UPLOAD h)))).
      repeat (split; [done|]). unfold bind at 1. by rewrite Hrun.
    - exists (set_item h (with_status "Error: No file found" 0 (item_of p h)) p), [].
      split.
      { intros x. rewrite item_of_set_item.
        destruct (decide (h = x)), (decide (x = h)); congruence || done. }
      repeat (split; [try done; cbn; by rewrite ?app_nil_r|]).
      unfold bind at 1. rewrite (updateFileStatus_ok _ _ _ _ (Hstat h ltac:(by left))).
      by rewrite app_nil_r. }
  destruct Hstep as (q1 & pushed & Hit & Hreg & Hinp & Hsurf & Hctl & Hout & Hnet & -> & Hrun).
  assert (Hgo : summarizeBtn.each_in_turn ev i (h :: rest) summaries p
                = summarizeBtn.each_in_turn ev (S i) rest
                    (summaries
                     ++ option_list (turn_summary (getFileFromItem h (reg p))
                                       (reply ev (UPLOAD h)))) q1).
  { cbn [summarizeBtn.each_in_turn]. unfold bind at 1, get.
    destruct (getFileFromItem h (reg p)); exact Hrun. }
  clear Hrun.
  destruct (IH (S i) (summaries ++ option_list (turn_summary (getFileFromItem h (reg p))
                                                  (reply ev (UPLOAD h)))) q1)
    as (q & Hq & Hit' & Hreg' & Hinp' & Hsurf' & Hctl' & Hout' & Hnet'); [|done|].
  { intros x Hx. rewrite Hit. destruct (decide (x = h)); [apply has_status_turn_status|].
    apply Hstat. by right. }
  assert (Hsame : forall x, x ∈ rest -> getFileFromItem x (reg q1) = getFileFromItem x (reg p)).
  { intros x Hx. apply Hreg. intros r Hr He. apply (Hrest i r Hr). by rewrite He. }
  exists q. split.
  { rewrite Hgo, Hq. f_equal. rewrite <- app_assoc. f_equal.
    cbn [omap]. unfold option_list.
    assert (Hom : omap (fun h0 => turn_summary (getFileFromItem h0 (reg q1)) (reply ev (UPLOAD h0))) rest
                  = omap (fun h0 => turn_summary (getFileFromItem h0 (reg p)) (reply ev (UPLOAD h0))) rest).
    { clear -Hsame. induction rest as [|x rest IH]; [done|]. cbn.
      rewrite (Hsame x) by (by left). rewrite IH; [done|]. intros y Hy. apply Hsame. by right. }
    rewrite Hom. f_equal. cbn.
    by destruct (turn_summary (getFileFromItem h (reg p)) (reply ev (UPLOAD h))). }
  split.
  { intros x. rewrite Hit', Hit.
    destruct (decide (x ∈ rest)) as [Hx|Hx].
    - rewrite (Hsame x Hx).
      destruct (decide (x ∈ h :: rest)) as [_|Hn]; [|destruct Hn; by right].
      destruct (decide (x = h)) as [->|]; [|done]. apply turn_status_twice.
    - destruct (decide (x = h)) as [->|Hne].
      + destruct (decide (h ∈ h :: rest)) as [_|Hn]; [done|]. destruct Hn. by left.
      + destruct (decide (x ∈ h :: rest)) as [[?|?]%elem_of_cons|_]; done. }
  split.
  { intros x Hx. rewrite Hreg' by done. apply Hreg. intros r Hr. by apply (Hx i). }
  repeat (split; [congruence|]).
  rewrite Hnet', Hnet, <- app_assoc. f_equal. cbn [mbind list_bind]. f_equal.
  clear -Hsame Hinp. induction rest as [|x rest IH]; [done|]. cbn.
  rewrite (Hsame x) by (by left). rewrite IH by (intros y Hy; apply Hsame; by right).
  f_equal. destruct (getFileFromItem x (reg p)); [|done]. by rewrite (processFile_form_inp _ p q1).
Qed.


(** X12.  The summarize button on the file tab with 'process in batch'
    unticked, when every listed item has its status line and none is removed
    meanwhile.  The click returns normally; every listed item, ticked or not,
    has its turn: it ends "Completed" at 100, or "Error: " and the message of
    its failure at 0, or "Error: No file found" at 0 without a call when no
    map has a file under it.  The output lists the summaries of the files
    that succeeded, in the order of the list, each under the name of the
    file as registered in the page; when there is none the output stays
    blank and the error container gets 'No files were successfully
    processed' ('Please upload at least one file to summarize' for an empty
    list).  The button is enabled again and the loading indicator hidden. *)
Theorem files_one_by_one (ev : env) (p : page) (tab : string) (nodes : list string) :
  activeTab (inp p) = Some tab -> tab <> "text" ->
  targetLanguage_value (inp p) <> "" ->
  processInBatch (inp p) <> Some true ->
  summarize_ready p -> errorContainer (surf p) = Some nodes ->
  (forall h, h ∈ fileList (doc p) -> has_status (item_of p h)) ->
  (forall j r, r ∈ removals ev j -> removed r ∉ fileList (doc p)) ->
  exists q,
    summarizeBtn.click ev p = (Normal tt, q)
    /\ (forall h, h ∈ fileList (doc p) ->
          item_of q h
          = turn_status (getFileFromItem h (reg p)) (reply ev (UPLOAD h)) (item_of p h))
    /\ (forall h, h ∉ fileList (doc p) -> item_of q h = item_of p h)
    /\ innerHTML <$> outputText (out q)
       = Some (if bool_decide (summaries_of ev p = []) then Blank
               else SummaryItems (summaries_of ev p))
    /\ errorContainer (surf q)
       = match file_tab_message (fileList (doc p)) (summaries_of ev p) with
         | Some msg => Some (tail nodes ++ [msg])
         | None => Some nodes
         end
    /\ summarizeBtn_disabled (ctl q) = false /\ loading_hidden (ctl q) = Some true
    /\ network q = network p ++ turns_of p (fileList (doc p)).
Proof.
  intros Htab Hfile Hlang Hbatch Hready Hnodes Hstat Hrem.
  pose proof Hready as (Hl & Ho & He & Hd). destruct Ho as [el Hel].
  rewrite (summarizeBtn_click_try ev p tab) by done.
  unfold try_finally, try_catch. rewrite body_started by done.
  rewrite bool_decide_eq_false_2 by done.
  unfold summarizeBtn.file_branch. unfold bind at 1, get.
  change (fileList (doc (started p))) with (fileList (doc p)).
  change (processInBatch (inp (started p))) with (processInBatch (inp p)).
  unfold file_tab_message, summaries_of, turns_of.
  destruct (bool_decide (fileList (doc p) = [])) eqn:Eempty.
  { apply bool_decide_eq_true in Eempty. rewrite Eempty.
    rewrite (showError_shown _ ErrorContainer (started p) nodes) by done.
    rewrite at_last_finished by done.
    eexists. split; [reflexivity|]. cbn. rewrite Hel. cbn.
    repeat split; try done; [by intros h ?%elem_of_nil|by rewrite app_nil_r]. }
  assert (Hone : match processInBatch (inp p) with
                 | Some true => summarizeBtn.in_batch ev (fileList (doc p))
                 | _ => summarizeBtn.one_by_one ev (fileList (doc p))
                 end = summarizeBtn.one_by_one ev (fileList (doc p))).
  { by destruct (processInBatch (inp p)) as [[]|]. }
  rewrite Hone. clear Hone. unfold summarizeBtn.one_by_one. unfold bind at 1.
  destruct (each_in_turn_run ev (fileList (doc p)) 0 [] (started p))
    as (q & Hq & Hit & _ & Hinp & Hsurf & Hctl & Hout & Hnet); [done|done|].
  rewrite Hq. cbn [app].
  change (reg (started p)) with (reg p).
  assert (Hforms : (fileList (doc p) ≫= fun h =>
                      match getFileFromItem h (reg (started p)) with
                      | Some file => [Dispatch (UPLOAD h) (processFile_form file (started p));
                                      Settle (UPLOAD h)]
                      | None => []
                      end)
                   = (fileList (doc p) ≫= fun h =>
                      match getFileFromItem h (reg p) with
                      | Some file => [Dispatch (UPLOAD h) (processFile_form file p);
                                      Settle (UPLOAD h)]
                      | None => []
                      end)) by reflexivity.
  rewrite Hforms in Hnet. clear Hforms.
  assert (Hitems : (forall h, h ∈ fileList (doc p) ->
                      item_of q h = turn_status (getFileFromItem h (reg p))
                                      (reply ev (UPLOAD h)) (item_of p h))
                   /\ (forall h, h ∉ fileList (doc p) -> item_of q h = item_of p h)).
  { split; intros h Hh; rewrite Hit.
    - by rewrite decide_True.
    - by rewrite decide_False. }
  destruct Hitems as [Hin Hnotin].
  destruct (bool_decide (omap _ (fileList (doc p)) = [])) eqn:Enone.
  - unfold throw. rewrite (on_error_shown (Error "No files were successfully processed") q).
    2:{ rewrite Hsurf. exact He. }
    2:{ by rewrite Hinp. }
    2:{ done. }
    rewrite at_last_finished.
    2:{ unfold with_error. rewrite Hsurf. cbn. rewrite Hnodes. cbn. rewrite Hctl. by eexists. }
    eexists. split; [reflexivity|].
    unfold with_error. rewrite Hsurf. cbn [started surf set_out set_ctl]. rewrite Hnodes.
    cbn. rewrite Hout. cbn. rewrite Hel. cbn.
    repeat split; try done.
  - unfold set_innerHTML, set_outputText. rewrite Hout. cbn [started out set_out outputText].
    rewrite Hel. cbn [fmap option_fmap option_map].
    rewrite at_last_finished.
    2:{ cbn. rewrite Hctl. by eexists. }
    eexists. split; [reflexivity|]. cbn. rewrite Hsurf. cbn.
    repeat split; try done.
Qed.

(** The page of the example with 'process in batch' unticked; item 3 is in no map. *)
Lemma files_one_by_one_witness :
  exists q,
    summarizeBtn.click (Demo.service [2]%nat)
      (set_item 3 Demo.ready (set_doc {| fileList := [1; 2; 3]%nat;
                 file_items := file_items (doc (Demo.page_of "file" false [1; 2]%nat []));
                 template := Some Demo.ready; next_handle := 4 |}
         (Demo.page_of "file" false [1; 2]%nat [])))
    = (Normal tt, q)
    /\ item_of q 1 = with_status "Completed" 100 Demo.ready
    /\ item_of q 2 = with_status "Error: Unsupported language" 0 Demo.ready
    /\ item_of q 3 = with_status "Error: No file found" 0 Demo.ready
    /\ innerHTML <$> outputText (out q)
       = Some (SummaryItems [(Some "report1.txt", Some "summary of report1.txt")])
    /\ (fun e => (is_dispatch e, call_of e)) <$> network q
       = [(true, UPLOAD 1); (false, UPLOAD 1); (true, UPLOAD 2); (false, UPLOAD 2)]%nat.
Proof.
  set (p := set_item 3 Demo.ready _).
  destruct (files_one_by_one (Demo.service [2]%nat) p "file" []) as
    (q & Hq & Hin & _ & Hout & _ & _ & _ & Hnet).
  - reflexivity.
  - discriminate.
  - discriminate.
  - discriminate.
  - repeat split; by eexists.
  - reflexivity.
  - intros h Hh. apply list_elem_of_In in Hh. cbn in Hh.
    repeat (destruct Hh as [<-|Hh]; [split; eexists; vm_compute; reflexivity|]).
    destruct Hh.
  - intros j r Hr. cbn in Hr. by apply elem_of_nil in Hr.
  - exists q. split; [exact Hq|].
    split; [rewrite (Hin 1%nat) by (apply list_elem_of_In; cbn; tauto); vm_compute; reflexivity|].
    split; [rewrite (Hin 2%nat) by (apply list_elem_of_In; cbn; tauto); vm_compute; reflexivity|].
    split; [rewrite (Hin 3%nat) by (apply list_elem_of_In; cbn; tauto); vm_compute; reflexivity|].
    split; [rewrite Hout; vm_compute; reflexivity|].
    rewrite Hnet. vm_compute. reflexivity.
Defined.

(** ** No item is sent twice *)

Lemma rounds_dispatched (items : list handle) (rs : list (list event)) (k : nat) :
  (forall j r, rs !! j = Some r -> round (group (k + j) items) r) ->
  dispatched (concat rs) ⊆+ UPLOAD <$> drop (3 * k) items.
Proof.
  revert k. induction rs as [|r rs IH]; intros k Hrounds; [apply submseteq_nil_l|].
  cbn [concat]. rewrite dispatched_app, (drop_groups k), fmap_app.
  apply submseteq_app.
  - destruct (Hrounds 0%nat r eq_refl) as (ds & ss & -> & Hd & Hs & Hsub & _).
    rewrite Nat.add_0_r in Hsub.
    by rewrite dispatched_app, (dispatched_dispatches _ Hd), (dispatched_settles _ Hs), app_nil_r.
  - apply IH. intros j r' Hj. replace (S k + j)%nat with (k + S j)%nat by lia.
    by apply (Hrounds (S j)).
Qed.

Section Once.
Context {A : Type} {source : handle -> registries -> option File.t}.
Context {start : handle -> M (progress A)} {resume : handle -> fetch_result -> M A}.
Context `{!Callback source start resume}.

Lemma run_groups_once ev fail_fast items p :
  NoDup items ->
  NoDup (dispatched
           (history_since p (run_groups start resume ev fail_fast (length items) 0 items p).2)).
Proof.
  intros Hnd.
  destruct (run_groups_rounds ev fail_fast (length items) 0 items p) as (rs & Hrs & Hrounds & _).
  change (3 * 0)%nat with 0%nat in Hrs. rewrite Hrs.
  assert (Hsub : dispatched (concat rs) ⊆+ UPLOAD <$> items).
  { pose proof (rounds_dispatched items rs 0) as Hr. change (3 * 0)%nat with 0%nat in Hr.
    rewrite drop_0 in Hr. apply Hr. intros j r Hj. by destruct (Hrounds j r Hj). }
  apply submseteq_sublist_r in Hsub as (l & Hperm & Hsub). rewrite Hperm.
  apply (sublist_NoDup _ (UPLOAD <$> items)); [|done].
  apply NoDup_fmap_2; [|exact Hnd]. by intros x y [=].
Qed.
End Once.


(** ** The process button, from the click to the message *)

Lemma upload_status_alone ev h q p :
  has_status (item_of q h) -> item_of q h = item_of p h ->
  getFileFromItem h (reg q) = getFileFromItem h (reg p) ->
  alone processBtn.start processBtn.resume ev h q
  = (Fulfilled (if uploaded (getFileFromItem h (reg p)) (reply ev (UPLOAD h)) then 1 else 0)%nat,
     upload_status (getFileFromItem h (reg p)) (reply ev (UPLOAD h)) (item_of p h)).
Proof.
  intros Hs Hit Hreg. rewrite (processBtn_alone ev h q Hs), Hreg, Hit.
  unfold uploaded, upload_status. destruct (getFileFromItem h (reg p)); [|done].
  pose proof (proj1 (error_or_payload (reply ev (UPLOAD h)))) as Hep.
  destruct (uploadFile_error (reply ev (UPLOAD h))); [done|].
  destruct (payload (reply ev (UPLOAD h))); [done|].
  destruct Hep as [Hep _]. by destruct (Hep eq_refl).
Qed.

(** The slot and the element of every item of the run. *)
Lemma processBtn_slot ev items p j h :
  NoDup items -> (forall x, x ∈ items -> has_status (item_of p x)) ->
  (forall i r, r ∈ removals ev i -> removed r ∉ items) ->
  items !! j = Some h ->
  (run_groups processBtn.start processBtn.resume ev true (length items) 0 items p).1 !! j
  = Some (h, Fulfilled (if uploaded (getFileFromItem h (reg p)) (reply ev (UPLOAD h))
                        then 1 else 0)%nat)
  /\ item_of (run_groups processBtn.start processBtn.resume ev true (length items) 0 items p).2 h
     = upload_status (getFileFromItem h (reg p)) (reply ev (UPLOAD h)) (item_of p h).
Proof.
  intros Hnd Hst Hrem Hj.
  assert (Hin : h ∈ items) by exact (list_elem_of_lookup_2 _ _ _ Hj).
  destruct (proj1 (elem_of_group items h) Hin) as [k Hk].
  pose proof (processBtn_never_rejects ev items p Hnd Hst) as Hrej.
  destruct (run_groups_item (start := processBtn.start) (resume := processBtn.resume)
              ev true k items p h Hnd Hk (fun _ => Hrej)) as ([_ Hit] & Hsrc & _ & _).
  destruct (run_groups_outcome (start := processBtn.start) (resume := processBtn.resume)
              ev true k items p h Hnd Hk (fun _ => Hrej)) as (j' & pr & Hj' & Hslot & Hout).
  assert (j' = j) as -> by exact (NoDup_lookup _ _ _ _ Hnd Hj' Hj).
  rewrite (upload_status_alone ev h _ p) in Hout.
  - injection Hout as -> ->. by rewrite Hslot.
  - rewrite Hit. by apply Hst.
  - exact Hit.
  - apply Hsrc. left. intros i r Hr He. apply (Hrem i r Hr). by rewrite He.
Qed.

Lemma sum_list_successes (f : handle -> bool) (items : list handle) :
  sum_list ((fun h => if f h then 1 else 0)%nat <$> items) = length (List.filter f items).
Proof.
  induction items as [|h items IH]; [done|]. cbn. rewrite IH. by destruct (f h).
Qed.

(** The loop of the process button counts the uploads that succeed. *)
Lemma processBtn_batches_count ev items p :
  NoDup items -> (forall x, x ∈ items -> has_status (item_of p x)) ->
  (forall i r, r ∈ removals ev i -> removed r ∉ items) ->
  (processBtn.batches ev items p).1
  = Normal (length (List.filter
                      (fun h => uploaded (getFileFromItem h (reg p)) (reply ev (UPLOAD h)))
                      items)).
Proof.
  intros Hnd Hst Hrem. rewrite processBtn_batches_run.
  pose proof (processBtn_never_rejects ev items p Hnd Hst) as Hrej. rewrite Hrej. cbn [fst].
  destruct (run_groups_complete (start := processBtn.start) (resume := processBtn.resume)
              ev true (length items) 0 items p) as [Hfst _]; [lia|by intros _|].
  change (3 * 0)%nat with 0%nat in Hfst. rewrite drop_0 in Hfst.
  set (slots := (run_groups processBtn.start processBtn.resume ev true (length items) 0 items p).1)
    in *.
  assert (Hslots : slots
                   = (fun h => (h, Fulfilled (if uploaded (getFileFromItem h (reg p))
                                                    (reply ev (UPLOAD h))
                                              then 1 else 0)%nat)) <$> items).
  { apply list_eq. intros j. rewrite list_lookup_fmap.
    destruct (items !! j) as [h|] eqn:Ej; cbn.
    - by destruct (processBtn_slot ev items p j h Hnd Hst Hrem Ej) as [Hs _].
    - apply lookup_ge_None. apply lookup_ge_None in Ej.
      by rewrite <- (length_fmap fst), Hfst. }
  rewrite Hslots. f_equal. rewrite <- sum_list_successes. f_equal.
  clear. induction items as [|h items IH]; [done|]. cbn. by rewrite IH.
Qed.

(** The loop takes nothing into the list of files. *)
Lemma processBtn_batches_list ev items p :
  fileList (doc (processBtn.batches ev items p).2) ⊆ fileList (doc p).
Proof.
  pose (R := fun p q : page => fileList (doc q) ⊆ fileList (doc p)).
  assert (Hpre : PreOrder R).
  { split; [intros x y Hy; exact Hy|]. intros x y z Hxy Hyz h Hh. apply Hxy, Hyz, Hh. }
  assert (Hitem : forall h x y, item_footprint h x y -> R x y).
  { intros h x y (_ & _ & _ & _ & _ & Hl & _). unfold R. rewrite Hl. intros z Hz; exact Hz. }
  apply (preserves_for_groups R).
  intros i batch acc. apply preserves_bind; [done| |intros added; by apply preserves_ret].
  apply Promise_all_keeps; [done|..].
  - intros h q. apply (Hitem h). apply processBtn_start_item.
  - intros h r q. apply (Hitem h). apply processBtn_resume_item.
  - intros e q z Hz. exact Hz.
  - intros r q. unfold R. cbn. intros x Hx. apply list_elem_of_filter in Hx. tauto.
Qed.


Lemma elem_of_filter_bool {X} (f : X -> bool) (l : list X) (x : X) :
  x ∈ List.filter f l <-> f x = true /\ x ∈ l.
Proof. rewrite !list_elem_of_In, filter_In. tauto. Qed.

(** The click on the process button, with a selection whose items have
    their status line and are not removed meanwhile. *)
Lemma process_click_run ev p nodes :
  NoDup (processBtn.selectedItems p) ->
  (forall h, h ∈ processBtn.selectedItems p -> has_status (item_of p h)) ->
  (forall i r, r ∈ removals ev i -> removed r ∉ processBtn.selectedItems p) ->
  processing_options (surf p) = Some nodes -> has_dropZone (inp p) = true ->
  processBtn.selectedItems p <> [] ->
  exists q,
    processBtn.click ev p = (Normal tt, q)
    /\ (forall h, h ∈ processBtn.selectedItems p ->
          item_of q h
          = upload_status (getFileFromItem h (reg p)) (reply ev (UPLOAD h)) (item_of p h))
    /\ (forall h, h ∉ processBtn.selectedItems p -> item_of q h = item_of p h)
    /\ fileList (doc q) ⊆ fileList (doc p)
    /\ processing_options (surf q)
       = Some (if (0 <? length (successes ev p))%nat
               then tail nodes ++ [processBtn.success_message (length (successes ev p))]
               else nodes)
    /\ errorContainer (surf q) = errorContainer (surf p)
    /\ processBtn_disabled (ctl q) = false
    /\ out q = out p /\ inp q = inp p
    /\ (forall h, UPLOAD h ∈ dispatched (history_since p q)
                  <-> h ∈ processBtn.selectedItems p /\ is_Some (getFileFromItem h (reg p)))
    /\ network q
       = network (processBtn.batches ev (processBtn.selectedItems p) (processing p)).2
    /\ NoDup (dispatched (history_since p q)).
Proof.
  intros Hnd Hst Hrem Hopt Hdrop Hsel.
  set (items := processBtn.selectedItems p) in *.
  unfold processBtn.click. unfold bind at 1, get. fold items.
  rewrite bool_decide_eq_false_2 by done.
  unfold bind at 1, set_processBtn_disabled at 1, modify. fold (processing p).
  unfold try_finally, try_catch. unfold bind at 1.
  pose proof (processBtn_batches_count ev items (processing p) Hnd Hst Hrem) as Hcount.
  change (reg (processing p)) with (reg p) in Hcount. fold items in Hcount.
  pose proof (processBtn_batches_footprint ev items (processing p)) as (Hsurf & Hctl & Hout).
  pose proof (processBtn_batches_list ev items (processing p)) as Hlist.
  assert (Hinp : inp (processBtn.batches ev items (processing p)).2 = inp p).
  { rewrite processBtn_batches_run. cbn [snd]. change (inp p) with (inp (processing p)).
    apply (run_groups_inp (start := processBtn.start) (resume := processBtn.resume)). }
  assert (Hitems : forall h, h ∈ items ->
            item_of (processBtn.batches ev items (processing p)).2 h
            = upload_status (getFileFromItem h (reg p)) (reply ev (UPLOAD h)) (item_of p h)).
  { intros h Hh. apply list_elem_of_lookup in Hh as [j Hj]. rewrite processBtn_batches_run.
    cbn [snd]. by destruct (processBtn_slot ev items (processing p) j h Hnd Hst Hrem Hj). }
  assert (Hothers : forall h, h ∉ items ->
            item_of (processBtn.batches ev items (processing p)).2 h = item_of p h).
  { intros h Hh. rewrite processBtn_batches_run. cbn [snd].
    change (item_of p h) with (item_of (processing p) h).
    apply (run_groups_other (start := processBtn.start) (resume := processBtn.resume)
             ev true (length items) 0 items (processing p) h).
    by rewrite drop_0. }
  assert (Hcalls : forall h,
            UPLOAD h ∈ dispatched (history_since (processing p)
                                     (processBtn.batches ev items (processing p)).2)
            <-> h ∈ items /\ is_Some (getFileFromItem h (reg p))).
  { intros h. split.
    - intros Hd.
      assert (Hh : h ∈ items).
      { rewrite processBtn_batches_run in Hd. cbn [snd] in Hd.
        apply (run_groups_dispatched_in (start := processBtn.start)
                 (resume := processBtn.resume) ev true (length items) 0 items (processing p) h)
          in Hd; [by rewrite drop_0 in Hd|by rewrite drop_0]. }
      split; [done|].
      destruct (proj1 (elem_of_group items h) Hh) as [k Hk].
      destruct (processBtn_item ev items (processing p) k h Hnd Hst Hk) as (_ & Hsrc & _ & Hiff).
      apply Hiff in Hd. rewrite Hsrc in Hd; [done|].
      intros i r Hr He. apply (Hrem i r Hr). by rewrite He.
    - intros [Hh Hf].
      destruct (proj1 (elem_of_group items h) Hh) as [k Hk].
      destruct (processBtn_item ev items (processing p) k h Hnd Hst Hk) as (_ & Hsrc & _ & Hiff).
      apply Hiff. rewrite Hsrc; [done|].
      intros i r Hr He. apply (Hrem i r Hr). by rewrite He. }
  assert (Honce : NoDup (dispatched (history_since (processing p)
                                       (processBtn.batches ev items (processing p)).2))).
  { rewrite processBtn_batches_run. cbn [snd].
    by apply (run_groups_once (start := processBtn.start) (resume := processBtn.resume)). }
  destruct (processBtn.batches ev items (processing p)) as [c qb]. cbn [fst snd] in *.
  subst c. unfold successes. fold items.
  unfold set_processBtn_disabled, modify.
  destruct (0 <? length (List.filter _ items))%nat eqn:Epos.
  - rewrite (showError_shown _ ProcessingOptions qb nodes).
    2:{ cbn. by rewrite Hsurf. }
    2:{ by rewrite Hinp. }
    eexists. split; [reflexivity|]. cbn. rewrite Hsurf, Hout, Hinp.
    repeat (split; [done|]). done.
  - eexists. split; [reflexivity|]. cbn. rewrite Hsurf, Hout, Hinp.
    repeat (split; [done|]). done.
Qed.

(** X13.  A click on the process button, when the selected items (ticked and
    not yet completed) have their status line and none of them is removed
    meanwhile.  The click returns normally.  Every selected item ends
    "Completed" at 100, or "Error: " and the message of its failure at 0, or
    "Error: File not found" at 0 when no map has a file under it; the other
    items are left as they were.  The message 'Successfully processed N
    file(s)' is shown in the options panel, N being exactly the number of
    items that end completed; when none does, no message at all is shown,
    neither there nor in the error container.  The button is enabled again. *)
Theorem process_click_reports (ev : env) (p : page) (nodes : list string) :
  NoDup (processBtn.selectedItems p) ->
  (forall h, h ∈ processBtn.selectedItems p -> has_status (item_of p h)) ->
  (forall i r, r ∈ removals ev i -> removed r ∉ processBtn.selectedItems p) ->
  processing_options (surf p) = Some nodes -> has_dropZone (inp p) = true ->
  processBtn.selectedItems p <> [] ->
  exists q,
    processBtn.click ev p = (Normal tt, q)
    /\ (forall h, h ∈ processBtn.selectedItems p ->
          item_of q h
          = upload_status (getFileFromItem h (reg p)) (reply ev (UPLOAD h)) (item_of p h))
    /\ (forall h, h ∉ processBtn.selectedItems p -> item_of q h = item_of p h)
    /\ (forall h, h ∈ successes ev p
                  <-> h ∈ processBtn.selectedItems p
                      /\ file_status (item_of q h) = Some "Completed")
    /\ processing_options (surf q)
       = Some (if (0 <? length (successes ev p))%nat
               then tail nodes ++ [processBtn.success_message (length (successes ev p))]
               else nodes)
    /\ errorContainer (surf q) = errorContainer (surf p)
    /\ processBtn_disabled (ctl q) = false.
Proof.
  intros Hnd Hst Hrem Hopt Hdrop Hsel.
  destruct (process_click_run ev p nodes Hnd Hst Hrem Hopt Hdrop Hsel)
    as (q & Hq & Hin & Hout & _ & Hmsg & Herr & Hbtn & _).
  exists q. repeat (split; [done|]). split; [|done].
  intros h. unfold successes. rewrite elem_of_filter_bool. split.
  - intros [Hu Hh]. split; [done|]. rewrite (Hin h Hh). unfold upload_status, uploaded in *.
    destruct (getFileFromItem h (reg p)); [|done].
    by destruct (uploadFile_error (reply ev (UPLOAD h))).
  - intros [Hh Hc]. split; [|done]. rewrite (Hin h Hh) in Hc. unfold upload_status, uploaded in *.
    destruct (getFileFromItem h (reg p)); [|done].
    by destruct (uploadFile_error (reply ev (UPLOAD h))).
Qed.

Lemma process_click_reports_witness :
  exists q,
    processBtn.click (Demo.service [2]%nat) (Demo.page_of "file" true [1; 2; 3; 4]%nat [])
    = (Normal tt, q)
    /\ item_of q 1 = with_status "Completed" 100 Demo.ready
    /\ item_of q 2 = with_status "Error: Unsupported language" 0 Demo.ready
    /\ processing_options (surf q) = Some ["Successfully processed 3 file(s)"].
Proof.
  set (p := Demo.page_of "file" true [1; 2; 3; 4]%nat []).
  assert (Hsel : processBtn.selectedItems p = [1; 2; 3; 4]%nat) by (vm_compute; reflexivity).
  destruct (process_click_reports (Demo.service [2]%nat) p []) as
    (q & Hq & Hin & _ & _ & Hmsg & _).
  - rewrite Hsel. apply (bool_decide_unpack _). vm_compute. exact I.
  - rewrite Hsel. intros h Hh. apply list_elem_of_In in Hh. cbn in Hh.
    repeat (destruct Hh as [<-|Hh]; [split; eexists; vm_compute; reflexivity|]).
    destruct Hh.
  - intros i r Hr. cbn in Hr. by apply elem_of_nil in Hr.
  - reflexivity.
  - reflexivity.
  - by rewrite Hsel.
  - exists q. split; [exact Hq|].
    split; [rewrite (Hin 1%nat) by (rewrite Hsel; apply list_elem_of_In; cbn; tauto);
            vm_compute; reflexivity|].
    split; [rewrite (Hin 2%nat) by (rewrite Hsel; apply list_elem_of_In; cbn; tauto);
            vm_compute; reflexivity|].
    rewrite Hmsg. vm_compute. reflexivity.
Defined.

(** X14.  The process button uploads the selected items that a map has a
    file for, each once, and nothing else: an item that is not ticked, or
    that already shows "Completed", is never sent; and after the click the
    selection of the next click is what is left of the items that failed, so
    a second click sends no file that was uploaded by the first. *)
Theorem process_click_sends_selection (ev : env) (p : page) (nodes : list string) :
  NoDup (processBtn.selectedItems p) ->
  (forall h, h ∈ processBtn.selectedItems p -> has_status (item_of p h)) ->
  (forall i r, r ∈ removals ev i -> removed r ∉ processBtn.selectedItems p) ->
  processing_options (surf p) = Some nodes -> has_dropZone (inp p) = true ->
  processBtn.selectedItems p <> [] ->
  let q := (processBtn.click ev p).2 in
  (forall h, UPLOAD h ∈ dispatched (history_since p q)
             <-> h ∈ fileList (doc p)
                 /\ file_select (item_of p h) = Some true
                 /\ file_status (item_of p h) <> Some "Completed"
                 /\ is_Some (getFileFromItem h (reg p)))
  /\ NoDup (dispatched (history_since p q))
  /\ (forall h, h ∈ processBtn.selectedItems q
                <-> h ∈ fileList (doc q)
                    /\ h ∈ processBtn.selectedItems p /\ h ∉ successes ev p).
Proof.
  intros Hnd Hst Hrem Hopt Hdrop Hsel q.
  destruct (process_click_run ev p nodes Hnd Hst Hrem Hopt Hdrop Hsel)
    as (q' & Hq & Hin & Hout & Hlist & _ & _ & _ & _ & _ & Hcalls & _ & Honce).
  assert (q = q') as <- by (unfold q; by rewrite Hq). clear Hq.
  assert (Hselected : forall x, x ∈ processBtn.selectedItems p
            <-> x ∈ fileList (doc p) /\ file_select (item_of p x) = Some true
                /\ file_status (item_of p x) <> Some "Completed").
  { intros x. unfold processBtn.selectedItems, processBtn.selected.
    rewrite elem_of_filter_bool. destruct (file_select (item_of p x)) as [[]|].
    - rewrite bool_decide_eq_true. tauto.
    - split; [by intros []|]. by intros (_ & ? & _).
    - split; [by intros []|]. by intros (_ & ? & _). }
  split; [|split; [exact Honce|]].
  - intros h. rewrite Hcalls, Hselected. tauto.
  - intros h. unfold processBtn.selectedItems at 1. rewrite elem_of_filter_bool.
    destruct (decide (h ∈ processBtn.selectedItems p)) as [Hh|Hh].
    + rewrite (Hin h Hh). unfold successes. rewrite elem_of_filter_bool.
      apply Hselected in Hh as Hparts. destruct Hparts as (_ & Hsel1 & _).
      unfold upload_status, uploaded, processBtn.selected.
      destruct (getFileFromItem h (reg p)); cbn; rewrite ?Hsel1.
      * destruct (uploadFile_error (reply ev (UPLOAD h))); cbn; rewrite ?Hsel1.
        -- rewrite bool_decide_eq_true_2 by (unfold Failed; by intros [=]).
           split; [intros [_ Hl]; split; [done|]; split; [done|]; by intros [? _]|].
           by intros (Hl & _).
        -- rewrite bool_decide_eq_false_2 by (by intros []). split; [by intros []|].
           intros (_ & _ & Hn). destruct Hn. by split.
      * rewrite bool_decide_eq_true_2 by (unfold Failed; by intros [=]).
        split; [intros [_ Hl]; split; [done|]; split; [done|]; by intros [? _]|].
        by intros (Hl & _).
    + rewrite (Hout h Hh). split; [|tauto]. intros [Hs Hl]. destruct Hh.
      unfold processBtn.selectedItems. apply elem_of_filter_bool. split; [done|].
      by apply Hlist.
Qed.

Lemma process_click_sends_selection_witness :
  processBtn.selectedItems
    (processBtn.click (Demo.service [2]%nat) (Demo.page_of "file" true [1; 2; 3; 4]%nat [])).2
  = [2%nat]
  /\ forall h, h ∈ processBtn.selectedItems
                    (processBtn.click (Demo.service [2]%nat)
                       (Demo.page_of "file" true [1; 2; 3; 4]%nat [])).2
               -> h ∉ successes (Demo.service [2]%nat)
                        (Demo.page_of "file" true [1; 2; 3; 4]%nat []).
Proof.
  split; [vm_compute; reflexivity|].
  set (p := Demo.page_of "file" true [1; 2; 3; 4]%nat []).
  assert (Hsel : processBtn.selectedItems p = [1; 2; 3; 4]%nat) by (vm_compute; reflexivity).
  intros h Hh.
  refine (proj2 (proj2 (proj1 (proj2 (proj2 (process_click_sends_selection (Demo.service [2]%nat) p []
                          _ _ _ _ _ _)) h) Hh))).
  - rewrite Hsel. apply (bool_decide_unpack _). vm_compute. exact I.
  - rewrite Hsel. intros x Hx. apply list_elem_of_In in Hx. cbn in Hx.
    repeat (destruct Hx as [<-|Hx]; [split; eexists; vm_compute; reflexivity|]).
    destruct Hx.
  - intros i r Hr. cbn in Hr. by apply elem_of_nil in Hr.
  - reflexivity.
  - reflexivity.
  - by rewrite Hsel.
Defined.


(** ** What the batch loops send *)

Section Requests.
Context {A : Type} {source : handle -> registries -> option File.t}.
Context {start : handle -> M (progress A)} {resume : handle -> fetch_result -> M A}.
Context `{!Callback source start resume}.
Context (ev : env) (form_of : File.t -> page -> form).
Hypothesis form_of_inp : forall file p q, inp q = inp p -> form_of file q = form_of file p.
Hypothesis start_sends : forall h p,
  network (start h p).2 = network p
  \/ exists file, source h (reg p) = Some file
       /\ network (start h p).2 = network p ++ [Dispatch (UPLOAD h) (form_of file p)].

Lemma same_sources_refl p : same_sources source ev p p.
Proof. by split. Qed.

Lemma same_sources_trans p q r :
  same_sources source ev p q -> same_sources source ev q r -> same_sources source ev p r.
Proof.
  intros [Hi Hs] [Hi' Hs']. split; [congruence|]. intros h Hh. by rewrite Hs', Hs.
Qed.

Lemma map_async_wanted batch p0 p :
  same_sources source ev p0 p ->
  same_sources source ev p0 (map_async start batch p).2
  /\ exists ds, network (map_async start batch p).2 = network p ++ ds
       /\ Forall (as_wanted source form_of ev p0) ds.
Proof.
  revert p. induction batch as [|h batch IH]; intros p Hsame; cbn.
  { split; [done|]. exists []. by rewrite app_nil_r. }
  destruct (start_frame (start := start) h p) as (Hinp & Hreg & _).
  pose proof (start_sends h p) as Hnet.
  destruct (start h p) as [c p1]. cbn [fst snd] in *.
  assert (Hsame1 : same_sources source ev p0 p1).
  { destruct Hsame as [Hi Hs]. split; [congruence|]. intros x Hx. rewrite Hreg. by apply Hs. }
  destruct (IH p1 Hsame1) as (Hsame2 & ds & Hds & Hall).
  destruct (map_async start batch p1) as [slots p2]. cbn [fst snd] in *.
  split; [done|].
  destruct Hnet as [Hnet|(file & Hfile & Hnet)].
  - exists ds. by rewrite Hds, Hnet.
  - exists (Dispatch (UPLOAD h) (form_of file p) :: ds). rewrite Hds, Hnet, <- app_assoc.
    split; [done|]. constructor; [|done]. exists h. split; [done|]. intros Hh.
    destruct Hsame as [Hi Hs]. exists file. rewrite <- (Hs h Hh). split; [done|].
    by apply form_of_inp.
Qed.

Lemma settle_loop_sources fail_fast fuel slots p :
  same_sources source ev p (settle_loop resume ev fail_fast fuel slots p).2.
Proof.
  assert (Hpre : PreOrder (fun p q : page => inp q = inp p /\ reg q = reg p)).
  { split; [done|]. intros x y z [? ?] [? ?]. split; congruence. }
  destruct (settle_loop_keeps (fun p q : page => inp q = inp p /\ reg q = reg p)
              resume ev (fun _ => True) (fun h r _ q => conj (proj1 (resume_frame h r q))
                                                    (proj1 (proj2 (resume_frame h r q))))
              (fun e q => conj eq_refl eq_refl) fail_fast fuel slots p)
    as [Hi Hr]; [by apply Forall_forall|].
  split; [done|]. intros h _. by rewrite Hr.
Qed.

Lemma removals_sources i rs p :
  rs ⊆ removals ev i -> same_sources source ev p (foldl (fun q r => remove_item r q) p rs).
Proof.
  revert p. induction rs as [|r rs IH]; intros p Hsub; cbn; [done|].
  eapply same_sources_trans; [|apply IH; intros x Hx; apply Hsub; by right].
  split; [by destruct r as [? []]|]. intros h Hh. apply source_remove_other.
  apply (Hh i). apply Hsub. by left.
Qed.

Lemma run_group_wanted fail_fast i batch p0 p :
  same_sources source ev p0 p ->
  same_sources source ev p0 (run_group start resume ev fail_fast i batch p).2
  /\ exists history, network (run_group start resume ev fail_fast i batch p).2
                     = network p ++ history
       /\ Forall (as_wanted source form_of ev p0) history.
Proof.
  intros Hsame. unfold run_group.
  destruct (map_async_wanted batch p0 p Hsame) as (Hsame1 & ds & Hds & Hall).
  destruct (map_async start batch p) as [slots p1]. cbn [fst snd] in *.
  set (p1' := while_suspended ev fail_fast i slots p1).
  assert (Hsame1' : same_sources source ev p1 p1' /\ network p1' = network p1).
  { unfold p1', while_suspended. destruct (decided fail_fast slots); [done|].
    split; [by apply (removals_sources i)|apply removals_network]. }
  destruct Hsame1' as [Hsame1' Hnet1'].
  pose proof (settle_loop_sources fail_fast (length batch) slots p1') as Hsame2.
  destruct (settle_loop_trace (start := start) ev fail_fast (length batch) slots p1')
    as (ss & Hss & Hsettle & _).
  destruct (settle_loop resume ev fail_fast (length batch) slots p1') as [slots' q].
  cbn [fst snd] in *. split.
  { eapply same_sources_trans; [exact Hsame1|].
    eapply same_sources_trans; [exact Hsame1'|exact Hsame2]. }
  exists (ds ++ ss). rewrite Hss, Hnet1', Hds, <- app_assoc. split; [done|].
  apply Forall_app. split; [done|].
  eapply Forall_impl; [exact Hsettle|]. intros [c f|c]; [done|by intros _].
Qed.

Lemma run_groups_wanted fail_fast fuel i items p0 p :
  same_sources source ev p0 p ->
  exists history, network (run_groups start resume ev fail_fast fuel i items p).2
                  = network p ++ history
    /\ Forall (as_wanted source form_of ev p0) history.
Proof.
  revert i p. induction fuel as [|fuel IH]; intros i p Hsame; cbn [run_groups].
  { exists []. by rewrite app_nil_r. }
  destruct (i <? length items)%nat; [|exists []; by rewrite app_nil_r].
  destruct (run_group_wanted fail_fast i (slice i (i + 3) items) p0 p Hsame)
    as (Hsame1 & hist & Hnet & Hall).
  destruct (run_group start resume ev fail_fast i (slice i (i + 3) items) p) as [slots q].
  cbn [fst snd] in *.
  destruct (fail_fast && bool_decide (is_Some (first_rejected slots))); [by exists hist|].
  destruct (IH (i + 3)%nat q Hsame1) as (rest & Hnet' & Hall').
  destruct (run_groups start resume ev fail_fast fuel (i + 3) items q) as [slots' q'].
  cbn [fst snd] in *. exists (hist ++ rest). rewrite Hnet', Hnet, <- app_assoc.
  split; [done|]. by apply Forall_app.
Qed.

Lemma run_groups_requests fail_fast fuel items p h f :
  never_removed ev h ->
  Dispatch (UPLOAD h) f
    ∈ history_since p (run_groups start resume ev fail_fast fuel 0 items p).2 ->
  exists file, source h (reg p) = Some file /\ f = form_of file p.
Proof.
  intros Hh Hin.
  destruct (run_groups_wanted fail_fast fuel 0 items p p (same_sources_refl p))
    as (hist & Hnet & Hall).
  rewrite (history_since_app _ _ _ Hnet) in Hin.
  destruct (proj1 (Forall_forall _ _) Hall _ Hin) as (h' & [= <-] & Hgood). by apply Hgood.
Qed.
End Requests.

Lemma uploadFile_form_inp file p q : inp q = inp p -> uploadFile_form file q = uploadFile_form file p.
Proof. intros H. unfold uploadFile_form, lang_or_en. by rewrite H. Qed.

Lemma processBtn_start_sends h p :
  network (processBtn.start h p).2 = network p
  \/ exists file, getFileFromItem h (reg p) = Some file
       /\ network (processBtn.start h p).2
          = network p ++ [Dispatch (UPLOAD h) (uploadFile_form file p)].
Proof.
  unfold processBtn.start, processBtn.on_error, uploadFile_start, uploadFile_catch,
    uploadFile_form, fetch.
  unfold_M.
  destruct (getFileFromItem h (reg p)) as [file|].
  - pose proof (updateFileStatus_network h "Uploading..." (Some 30) p) as H1.
    destruct (updateFileStatus h "Uploading..." (Some 30) p) as [[[]|e] p1]; cbn [fst snd] in *.
    + right. exists file. split; [done|]. cbn. by rewrite H1.
    + left.
      pose proof (updateFileStatus_network h ("Error: " +:+ message e) (Some 0) p1) as H2.
      destruct (updateFileStatus h _ (Some 0) p1) as [[[]|e'] p2]; cbn [fst snd] in *.
      * pose proof (updateFileStatus_network h ("Error: " +:+ message e) (Some 0) p2) as H3.
        destruct (updateFileStatus h _ (Some 0) p2) as [[[]|e''] p3]; cbn in *; congruence.
      * pose proof (updateFileStatus_network h ("Error: " +:+ message e') (Some 0) p2) as H3.
        destruct (updateFileStatus h _ (Some 0) p2) as [[[]|e''] p3]; cbn in *; congruence.
  - left.
    pose proof (updateFileStatus_network h ("Error: " +:+ message (Error "File not found"))
                  (Some 0) p) as H1.
    destruct (updateFileStatus h _ (Some 0) p) as [[[]|e] p1]; cbn in *; congruence.
Qed.

Lemma summarizeBtn_start_sends h p :
  network (summarizeBtn.start h p).2 = network p
  \/ exists file, fileMap (reg p) !! h = Some file
       /\ network (summarizeBtn.start h p).2
          = network p ++ [Dispatch (UPLOAD h) (processFile_form file p)].
Proof.
  unfold summarizeBtn.start, processFile_start, processFile_catch, processFile_form, fetch.
  unfold_M.
  destruct (fileMap (reg p) !! h) as [file|].
  - pose proof (updateFileStatus_network h "Processing..." (Some 50) p) as H1.
    destruct (updateFileStatus h "Processing..." (Some 50) p) as [[[]|e] p1]; cbn [fst snd] in *.
    + right. exists file. split; [done|]. cbn. by rewrite H1.
    + left.
      pose proof (updateFileStatus_network h ("Error: " +:+ message e) (Some 0) p1) as H2.
      destruct (updateFileStatus h _ (Some 0) p1) as [[[]|e'] p2]; cbn in *; congruence.
  - left.
    pose proof (updateFileStatus_network h "Error: No file found" (Some 0) p) as H1.
    destruct (updateFileStatus h _ (Some 0) p) as [[[]|e] p1]; cbn in *; congruence.
Qed.

(** X15.  Each request of the batch loops is for its own item: a request
    sent for an item that is never removed carries the file registered
    under that very item when the loop started (found by [getFileFromItem]
    under the process button, in the map of script.js under the summarize
    button), the language chosen on the page, 'en' when none is chosen, a
    maximum length of 150 and a minimum length of 50.  This holds whatever
    the state of the page, in whatever order the calls settle. *)
Theorem batch_requests (ev : env) (items : list handle) (p : page) (h : handle) (f : form) :
  never_removed ev h ->
  (Dispatch (UPLOAD h) f ∈ history_since p (processBtn.batches ev items p).2 ->
   exists file, getFileFromItem h (reg p) = Some file
     /\ f = uploadFile_form file p)
  /\ (Dispatch (UPLOAD h) f ∈ history_since p (summarizeBtn.batches ev items p).2 ->
      exists file, fileMap (reg p) !! h = Some file
        /\ f = processFile_form file p)
  /\ (forall sent, f = uploadFile_form sent p \/ f = processFile_form sent p ->
        target_language f = (if decide (targetLanguage_value (inp p) = "") then "en"
                             else targetLanguage_value (inp p))
        /\ max_length f = 150 /\ min_length f = 50 /\ file f = Some sent /\ text f = None).
Proof.
  intros Hh. split; [|split].
  - rewrite processBtn_batches_run. cbn [snd].
    intros Hin.
    exact (run_groups_requests (source := getFileFromItem)
             (start := processBtn.start) (resume := processBtn.resume)
             ev uploadFile_form uploadFile_form_inp processBtn_start_sends
             true (length items) items p h f Hh Hin).
  - rewrite summarizeBtn_batches_run. cbn [snd].
    intros Hin.
    exact (run_groups_requests (source := fun h r => fileMap r !! h)
             (start := summarizeBtn.start) (resume := summarizeBtn.resume)
             ev processFile_form processFile_form_inp summarizeBtn_start_sends
             false (length items) items p h f Hh Hin).
  - by intros sent [-> | ->].
Qed.

Lemma batch_requests_witness :
  exists file,
    getFileFromItem 2 (reg (Demo.page_of "file" true [1; 2; 3; 4]%nat [])) = Some file
    /\ uploadFile_form (Demo.report 2) (Demo.page_of "file" true [1; 2; 3; 4]%nat [])
       = uploadFile_form file (Demo.page_of "file" true [1; 2; 3; 4]%nat []).
Proof.
  refine (proj1 (batch_requests (Demo.service_with_removal 4) [1; 2; 3; 4]%nat
                   (Demo.page_of "file" true [1; 2; 3; 4]%nat []) 2
                   (uploadFile_form (Demo.report 2)
                      (Demo.page_of "file" true [1; 2; 3; 4]%nat [])) _) _).
  - intros i r Hr. cbn in Hr. destruct (bool_decide (i = 0%nat)).
    + apply list_elem_of_In in Hr. cbn in Hr. destruct Hr as [<-|[]]. cbn. lia.
    + by apply elem_of_nil in Hr.
  - apply list_elem_of_In. vm_compute. tauto.
Defined.


(** ** The summaries in batch, from the click to the output *)

Lemma turn_status_alone ev h q p :
  has_status (item_of q h) -> item_of q h = item_of p h ->
  fileMap (reg q) !! h = fileMap (reg p) !! h ->
  alone summarizeBtn.start summarizeBtn.resume ev h q
  = (match fileMap (reg p) !! h, processFile_error (reply ev (UPLOAD h)),
           payload (reply ev (UPLOAD h)) with
     | None, _, _ => Rejected (Error "No file found")
     | Some _, Some e, _ => Rejected e
     | Some _, None, Some data => Fulfilled data
     | Some _, None, None => Rejected not_json
     end,
     turn_status (fileMap (reg p) !! h) (reply ev (UPLOAD h)) (item_of p h)).
Proof.
  intros Hs Hit Hreg. rewrite (summarizeBtn_alone ev h q Hs), Hreg, Hit.
  unfold turn_status. destruct (fileMap (reg p) !! h); [|done].
  pose proof (proj2 (error_or_payload (reply ev (UPLOAD h)))) as Hep.
  destruct (processFile_error (reply ev (UPLOAD h))); [done|].
  destruct (payload (reply ev (UPLOAD h))); [done|].
  destruct Hep as [Hep _]. by destruct (Hep eq_refl).
Qed.

(** The result and the element of every item of the run. *)
Lemma summarizeBtn_slot ev items p j h :
  NoDup items -> (forall x, x ∈ items -> has_status (item_of p x)) ->
  (forall i r, r ∈ removals ev i -> removed r ∉ items) ->
  items !! j = Some h ->
  (exists pr,
     (run_groups summarizeBtn.start summarizeBtn.resume ev false (length items) 0 items p).1 !! j
     = Some (h, pr)
     /\ (fun data => (filename data, summary data)) <$> fulfilment pr
        = batch_summary (fileMap (reg p) !! h) (reply ev (UPLOAD h)))
  /\ item_of (run_groups summarizeBtn.start summarizeBtn.resume ev false (length items) 0 items p).2
       h
     = turn_status (fileMap (reg p) !! h) (reply ev (UPLOAD h)) (item_of p h).
Proof.
  intros Hnd Hst Hrem Hj.
  assert (Hin : h ∈ items) by exact (list_elem_of_lookup_2 _ _ _ Hj).
  destruct (proj1 (elem_of_group items h) Hin) as [k Hk].
  assert (Hrej : false = true ->
            first_rejected (run_groups summarizeBtn.start summarizeBtn.resume ev false
                              (length items) 0 items p).1 = None) by done.
  destruct (run_groups_item (start := summarizeBtn.start) (resume := summarizeBtn.resume)
              ev false k items p h Hnd Hk Hrej) as ([_ Hit] & Hsrc & _ & _).
  destruct (run_groups_outcome (start := summarizeBtn.start) (resume := summarizeBtn.resume)
              ev false k items p h Hnd Hk Hrej) as (j' & pr & Hj' & Hslot & Hout).
  assert (j' = j) as -> by exact (NoDup_lookup _ _ _ _ Hnd Hj' Hj).
  rewrite (turn_status_alone ev h _ p) in Hout.
  - injection Hout as Hpr Hel. split; [|done]. exists pr. split; [done|]. rewrite Hpr.
    unfold batch_summary. destruct (fileMap (reg p) !! h); [|done].
    pose proof (proj2 (error_or_payload (reply ev (UPLOAD h)))) as Hep.
    destruct (processFile_error (reply ev (UPLOAD h))) as [e|].
    + destruct (payload (reply ev (UPLOAD h))); [|done].
      destruct Hep as [_ Hep]. by specialize (Hep (mk_is_Some _ _ eq_refl)).
    + by destruct (payload (reply ev (UPLOAD h))).
  - rewrite Hit. by apply Hst.
  - exact Hit.
  - apply Hsrc. left. intros i r Hr He. apply (Hrem i r Hr). by rewrite He.
Qed.

(** What the loop of the batch branch gives to the output. *)
Lemma summarizeBtn_batches_summaries ev items p :
  NoDup items -> (forall x, x ∈ items -> has_status (item_of p x)) ->
  (forall i r, r ∈ removals ev i -> removed r ∉ items) ->
  exists results,
    (summarizeBtn.batches ev items p).1 = Normal results
    /\ (fun data => (filename data, summary data)) <$> omap fulfilment results
       = omap (fun h => batch_summary (fileMap (reg p) !! h) (reply ev (UPLOAD h))) items.
Proof.
  intros Hnd Hst Hrem. rewrite summarizeBtn_batches_run. eexists. split; [reflexivity|].
  destruct (run_groups_complete (start := summarizeBtn.start) (resume := summarizeBtn.resume)
              ev false (length items) 0 items p) as [Hfst _]; [lia|done|].
  change (3 * 0)%nat with 0%nat in Hfst. rewrite drop_0 in Hfst.
  pose proof (fun j h => summarizeBtn_slot ev items p j h Hnd Hst Hrem) as Hslot.
  revert Hfst Hslot.
  generalize (run_groups summarizeBtn.start summarizeBtn.resume ev false (length items) 0 items p).1.
  generalize (run_groups summarizeBtn.start summarizeBtn.resume ev false (length items) 0 items p).2.
  intros q slots Hfst Hslot.
  assert (Hall : Forall2 (fun h (s : handle * promise json) =>
                            (fun data => (filename data, summary data)) <$> fulfilment s.2
                            = batch_summary (fileMap (reg p) !! h) (reply ev (UPLOAD h)))
                   items slots).
  { apply Forall2_same_length_lookup. split.
    { by rewrite <- Hfst, length_fmap. }
    intros j h s Hj Hs. destruct (Hslot j h Hj) as [(pr & Hpr & Heq) _].
    rewrite Hs in Hpr. by injection Hpr as ->. }
  clear Hfst Hslot Hnd Hst Hrem. induction Hall as [|h s items slots Hhead Hall IH]; [done|].
  cbn. rewrite <- Hhead. destruct (fulfilment s.2); cbn; [f_equal|]; exact IH.
Qed.


(** X16.  The summarize button on the file tab with 'process in batch'
    ticked, when the listed items are distinct, have their status line and
    none is removed meanwhile.  The click returns normally.  Every listed
    item ends "Completed" at 100, or "Error: " and the message of its
    failure at 0, or "Error: No file found" at 0 without a call when the map
    of script.js has no file under it (the map of file-handler.js is not
    consulted here); no item is sent twice.  The output lists the summaries of the files that
    succeeded, in the order of the list whatever the order in which the
    calls settled, each under the file name that the service returned; when
    there is none the output stays blank and the error container gets 'No
    files were successfully processed'.  The button is enabled again and
    the loading indicator hidden. *)
Theorem files_in_batch (ev : env) (p : page) (tab : string) (nodes : list string) :
  activeTab (inp p) = Some tab -> tab <> "text" ->
  targetLanguage_value (inp p) <> "" ->
  processInBatch (inp p) = Some true ->
  summarize_ready p -> errorContainer (surf p) = Some nodes ->
  NoDup (fileList (doc p)) ->
  (forall h, h ∈ fileList (doc p) -> has_status (item_of p h)) ->
  (forall j r, r ∈ removals ev j -> removed r ∉ fileList (doc p)) ->
  exists q,
    summarizeBtn.click ev p = (Normal tt, q)
    /\ (forall h, h ∈ fileList (doc p) ->
          item_of q h
          = turn_status (fileMap (reg p) !! h) (reply ev (UPLOAD h)) (item_of p h))
    /\ (forall h, h ∉ fileList (doc p) -> item_of q h = item_of p h)
    /\ innerHTML <$> outputText (out q)
       = Some (if bool_decide (batch_summaries_of ev p = []) then Blank
               else SummaryItems (batch_summaries_of ev p))
    /\ errorContainer (surf q)
       = match file_tab_message (fileList (doc p)) (batch_summaries_of ev p) with
         | Some msg => Some (tail nodes ++ [msg])
         | None => Some nodes
         end
    /\ summarizeBtn_disabled (ctl q) = false /\ loading_hidden (ctl q) = Some true
    /\ (forall h, UPLOAD h ∈ dispatched (history_since p q)
                  <-> h ∈ fileList (doc p) /\ is_Some (fileMap (reg p) !! h))
    /\ NoDup (dispatched (history_since p q)).
Proof.
  intros Htab Hfile Hlang Hbatch Hready Hnodes Hnd Hstat Hrem.
  pose proof Hready as (Hl & Ho & He & Hd). destruct Ho as [el Hel].
  rewrite (summarizeBtn_click_try ev p tab) by done.
  unfold try_finally, try_catch. rewrite body_started by done.
  rewrite bool_decide_eq_false_2 by done.
  unfold summarizeBtn.file_branch. unfold bind at 1, get.
  change (fileList (doc (started p))) with (fileList (doc p)).
  change (processInBatch (inp (started p))) with (processInBatch (inp p)).
  rewrite Hbatch. unfold file_tab_message, batch_summaries_of.
  set (items := fileList (doc p)) in *.
  destruct (bool_decide (items = [])) eqn:Eempty.
  { apply bool_decide_eq_true in Eempty. rewrite Eempty.
    rewrite (showError_shown _ ErrorContainer (started p) nodes) by done.
    rewrite at_last_finished by done.
    eexists. split; [reflexivity|]. cbn. rewrite Hel. cbn.
    repeat (split; [done || by intros h ?%elem_of_nil|]).
    unfold history_since. cbn. rewrite drop_all. cbn. split; [|apply NoDup_nil_2].
    intros h. split; [by intros ?%elem_of_nil|]. by intros [?%elem_of_nil _]. }
  unfold summarizeBtn.in_batch. unfold bind at 1.
  destruct (summarizeBtn_batches_summaries ev items (started p) Hnd Hstat Hrem)
    as (results & Hres & Hsum).
  change (reg (started p)) with (reg p) in Hsum.
  pose proof (summarizeBtn_batches_footprint ev items (started p)) as (Hsurf & Hctl & Hout).
  assert (Hinp : inp (summarizeBtn.batches ev items (started p)).2 = inp p).
  { rewrite summarizeBtn_batches_run. cbn [snd]. change (inp p) with (inp (started p)).
    apply (run_groups_inp (start := summarizeBtn.start) (resume := summarizeBtn.resume)). }
  assert (Hitems : forall h, h ∈ items ->
            item_of (summarizeBtn.batches ev items (started p)).2 h
            = turn_status (fileMap (reg p) !! h) (reply ev (UPLOAD h)) (item_of p h)).
  { intros h Hh. apply list_elem_of_lookup in Hh as [j Hj]. rewrite summarizeBtn_batches_run.
    cbn [snd]. by destruct (summarizeBtn_slot ev items (started p) j h Hnd Hstat Hrem Hj). }
  assert (Hothers : forall h, h ∉ items ->
            item_of (summarizeBtn.batches ev items (started p)).2 h = item_of p h).
  { intros h Hh. rewrite summarizeBtn_batches_run. cbn [snd].
    change (item_of p h) with (item_of (started p) h).
    apply (run_groups_other (start := summarizeBtn.start) (resume := summarizeBtn.resume)
             ev false (length items) 0 items (started p) h).
    by rewrite drop_0. }
  assert (Hcalls : forall h,
            UPLOAD h ∈ dispatched (history_since (started p)
                                     (summarizeBtn.batches ev items (started p)).2)
            <-> h ∈ items /\ is_Some (fileMap (reg p) !! h)).
  { intros h. split.
    - intros Hdisp.
      assert (Hh : h ∈ items).
      { rewrite summarizeBtn_batches_run in Hdisp. cbn [snd] in Hdisp.
        apply (run_groups_dispatched_in (start := summarizeBtn.start)
                 (resume := summarizeBtn.resume) ev false (length items) 0 items (started p) h)
          in Hdisp; [by rewrite drop_0 in Hdisp|by rewrite drop_0]. }
      split; [done|].
      destruct (proj1 (elem_of_group items h) Hh) as [k Hk].
      destruct (summarizeBtn_item ev items (started p) k h Hnd Hk (Hstat h Hh))
        as (_ & Hsrc & _ & Hiff).
      apply Hiff in Hdisp. rewrite Hsrc in Hdisp; [done|].
      intros i r Hr Heq. apply (Hrem i r Hr). by rewrite Heq.
    - intros [Hh Hf].
      destruct (proj1 (elem_of_group items h) Hh) as [k Hk].
      destruct (summarizeBtn_item ev items (started p) k h Hnd Hk (Hstat h Hh))
        as (_ & Hsrc & _ & Hiff).
      apply Hiff. rewrite Hsrc; [done|].
      intros i r Hr Heq. apply (Hrem i r Hr). by rewrite Heq. }
  assert (Honce : NoDup (dispatched (history_since (started p)
                                       (summarizeBtn.batches ev items (started p)).2))).
  { rewrite summarizeBtn_batches_run. cbn [snd].
    by apply (run_groups_once (start := summarizeBtn.start) (resume := summarizeBtn.resume)). }
  destruct (summarizeBtn.batches ev items (started p)) as [c qb]. cbn [fst snd] in *.
  subst c. rewrite <- Hsum.
  destruct (omap fulfilment results) as [|data successful] eqn:Esucc.
  - rewrite bool_decide_eq_true_2 by done. cbn [fmap list_fmap].
    rewrite bool_decide_eq_true_2 by done.
    unfold throw. rewrite (on_error_shown (Error "No files were successfully processed") qb).
    2:{ rewrite Hsurf. exact He. }
    2:{ by rewrite Hinp. }
    2:{ done. }
    rewrite at_last_finished.
    2:{ unfold with_error. rewrite Hsurf. cbn. rewrite Hnodes. cbn. rewrite Hctl. by eexists. }
    eexists. split; [reflexivity|].
    unfold with_error. rewrite Hsurf. cbn [started surf set_out set_ctl]. rewrite Hnodes.
    cbn. rewrite Hout. cbn. rewrite Hel. cbn.
    repeat (split; [done|]). exact Honce.
  - rewrite bool_decide_eq_false_2 by done. cbn [fmap list_fmap].
    rewrite bool_decide_eq_false_2 by done.
    unfold set_innerHTML, set_outputText. rewrite Hout. cbn [started out set_out outputText].
    rewrite Hel. cbn [fmap option_fmap option_map].
    rewrite at_last_finished.
    2:{ cbn. rewrite Hctl. by eexists. }
    eexists. split; [reflexivity|]. cbn. rewrite Hsurf. cbn.
    repeat (split; [done|]). exact Honce.
Qed.

(** Item 2 fails; item 3 was taken in by file-handler.js. *)
Lemma files_in_batch_witness :
  exists q,
    summarizeBtn.click (Demo.service [2]%nat) (Demo.page_of "file" true [1; 2]%nat [3%nat])
    = (Normal tt, q)
    /\ item_of q 1 = with_status "Completed" 100 Demo.ready
    /\ item_of q 2 = with_status "Error: Unsupported language" 0 Demo.ready
    /\ item_of q 3 = with_status "Error: No file found" 0 Demo.ready
    /\ innerHTML <$> outputText (out q)
       = Some (SummaryItems [(Some "report1.txt", Some "summary of report1.txt")]).
Proof.
  set (p := Demo.page_of "file" true [1; 2]%nat [3%nat]).
  destruct (files_in_batch (Demo.service [2]%nat) p "file" []) as
    (q & Hq & Hin & _ & Hout & _).
  - reflexivity.
  - discriminate.
  - discriminate.
  - reflexivity.
  - repeat split; by eexists.
  - reflexivity.
  - apply (bool_decide_unpack _). vm_compute. exact I.
  - intros h Hh. apply list_elem_of_In in Hh. cbn in Hh.
    repeat (destruct Hh as [<-|Hh]; [split; eexists; vm_compute; reflexivity|]).
    destruct Hh.
  - intros j r Hr. cbn in Hr. by apply elem_of_nil in Hr.
  - exists q. split; [exact Hq|].
    split; [rewrite (Hin 1%nat) by (apply list_elem_of_In; cbn; tauto); vm_compute; reflexivity|].
    split; [rewrite (Hin 2%nat) by (apply list_elem_of_In; cbn; tauto); vm_compute; reflexivity|].
    split; [rewrite (Hin 3%nat) by (apply list_elem_of_In; cbn; tauto); vm_compute; reflexivity|].
    rewrite Hout. vm_compute. reflexivity.
Defined.


(** ** From the intake to the upload *)

Lemma elem_of_dispatched c history :
  c ∈ dispatched history <-> exists f, Dispatch c f ∈ history.
Proof.
  unfold dispatched. rewrite list_elem_of_omap. split.
  - intros ([c' f|c'] & Hin & Heq); [|done]. injection Heq as ->. by exists f.
  - intros [f Hin]. by exists (Dispatch c f).
Qed.

Lemma filter_bool_all {X} (f : X -> bool) (l : list X) :
  (forall x, x ∈ l -> f x = true) -> List.filter f l = l.
Proof.
  induction l as [|x l IH]; intros Hall; [done|]. cbn.
  rewrite (Hall x) by (by left). rewrite IH; [done|]. intros y Hy. apply Hall. by right.
Qed.

(** X17.  From the intake to the upload, on a page whose list is empty:
    after [handleFiles] has taken a list of files in, a click on the process
    button sends one request for every file that [validateFile] accepted
    (size within the limit; type one of the nine allowed or the name of a
    property inherited from [Object.prototype]) and no other request; the
    request for the k-th accepted file is sent under the handle of the item
    created for it and carries that very file, with the language of the
    page.  The files that [validateFile] rejected are never sent. *)
Theorem taken_in_then_uploaded (ev : env) (files : list File.t) (t : item_el)
    (nodes opts : list string) (p : page) :
  template (doc p) = Some t -> has_status t -> is_Some (file_select t) ->
  errorContainer (surf p) = Some nodes -> processing_options (surf p) = Some opts ->
  has_dropZone (inp p) = true -> fileList (doc p) = [] ->
  (forall i r, r ∈ removals ev i -> (removed r < next_handle (doc p))%nat) ->
  let q := (handleFiles true files p).2 in
  (forall c f,
     Dispatch c f ∈ history_since q (processBtn.click ev q).2
     <-> exists k file,
           List.filter accepted files !! k = Some file
           /\ c = UPLOAD (next_handle (doc p) + k)
           /\ f = uploadFile_form file p)
  /\ NoDup (dispatched (history_since q (processBtn.click ev q).2)).
Proof.
  intros Ht Hst Hsel Hc Hopt Hd Hlist Hrem q. subst q. unfold handleFiles.
  destruct (forEach_takeIn files t nodes p Ht Hst Hc Hd)
    as (q & -> & Hinp & _ & _ & _ & _ & _ & _ & Hpo & _ & Hnext & Hfl & Hmap & Hitems).
  cbn [snd]. rewrite Hlist in Hfl. cbn [app] in Hfl.
  set (n := length (List.filter accepted files)) in *.
  set (first := next_handle (doc p)) in *.
  assert (Hfound : forall h, (first <= h < first + n)%nat ->
            getFileFromItem h (reg q) = List.filter accepted files !! (h - first)%nat
            /\ item_of q h = ready_item t).
  { intros h Hh. unfold getFileFromItem, item_of. rewrite Hmap, Hitems, Hnext.
    rewrite !bool_decide_eq_true_2 by lia. split; [|done].
    destruct (List.filter accepted files !! (h - first)%nat) eqn:Ek; [done|].
    apply lookup_ge_None in Ek. fold n in Ek. lia. }
  assert (Hitems' : processBtn.selectedItems q = seq first n).
  { unfold processBtn.selectedItems. rewrite Hfl. apply filter_bool_all.
    intros h Hh%elem_of_seq. rewrite (proj2 (Hfound h Hh)).
    unfold processBtn.selected, ready_item. cbn. destruct Hsel as [b ->]. cbn.
    by apply bool_decide_eq_true. }
  destruct (decide (n = 0%nat)) as [Hzero|Hpos].
  { assert (Hclick : processBtn.click ev q
                     = showError "Please select files to process" ErrorContainer q).
    { unfold processBtn.click. unfold bind at 1, get. rewrite Hitems', Hzero. cbn [seq].
      by rewrite bool_decide_eq_true_2 by done. }
    rewrite Hclick.
    assert (Hsame : network (showError "Please select files to process" ErrorContainer q).2
                    = network q).
    { unfold showError. destruct (container_nodes ErrorContainer (surf q)); [|done].
      by destruct (has_dropZone (inp q)). }
    unfold history_since. rewrite Hsame, drop_all. split; [|apply NoDup_nil_2].
    intros c f. split; [by intros ?%elem_of_nil|].
    intros (k & file & Hk & _). apply lookup_lt_Some in Hk. fold n in Hk. lia. }
  assert (Hnever : forall h, h ∈ seq first n -> never_removed ev h).
  { intros h Hh%elem_of_seq i r Hr He. specialize (Hrem i r Hr). fold first in Hrem. lia. }
  destruct (process_click_run ev q opts)
    as (r & Hr & _ & _ & _ & _ & _ & _ & _ & _ & Hcalls & Hnet & Honce).
  { rewrite Hitems'. apply NoDup_seq. }
  { rewrite Hitems'. intros h Hh%elem_of_seq. rewrite (proj2 (Hfound h Hh)).
    split; by eexists. }
  { rewrite Hitems'. intros i r Hr Hin%elem_of_seq. specialize (Hrem i r Hr).
    fold first in Hrem. lia. }
  { by rewrite Hpo. }
  { by rewrite Hinp. }
  { rewrite Hitems'. destruct n; [done|]. done. }
  rewrite Hr. cbn [snd]. rewrite Hitems' in Hcalls, Hnet.
  rewrite processBtn_batches_run in Hnet. cbn [snd] in Hnet.
  destruct (run_groups_wanted (source := getFileFromItem) (start := processBtn.start)
              (resume := processBtn.resume) ev uploadFile_form uploadFile_form_inp
              processBtn_start_sends true (length (seq first n)) 0 (seq first n)
              (processing q) (processing q) (same_sources_refl ev (processing q)))
    as (history & Hhist & Hall).
  rewrite Hhist in Hnet. change (network (processing q)) with (network q) in Hnet.
  rewrite (history_since_app _ _ _ Hnet). rewrite (history_since_app _ _ _ Hnet) in Hcalls, Honce.
  split; [|exact Honce].
  assert (Hsent : forall c f, Dispatch c f ∈ history ->
            exists k file, List.filter accepted files !! k = Some file
              /\ c = UPLOAD (first + k) /\ f = uploadFile_form file p).
  { intros c f Hin.
    destruct (proj1 (Forall_forall _ _) Hall _ Hin) as (h & -> & Hgood).
    assert (Hh : h ∈ seq first n).
    { apply (proj1 (Hcalls h)). apply elem_of_dispatched. by exists f. }
    destruct (Hgood (Hnever h Hh)) as (file & Hfile & ->).
    change (reg (processing q)) with (reg q) in Hfile.
    apply elem_of_seq in Hh. rewrite (proj1 (Hfound h Hh)) in Hfile.
    exists (h - first)%nat, file. split; [done|]. split; [f_equal; lia|].
    apply uploadFile_form_inp. exact Hinp. }
  intros c f. split; [apply Hsent|].
  intros (k & file & Hk & -> & ->).
  pose proof (lookup_lt_Some _ _ _ Hk) as Hlt. fold n in Hlt.
  assert (Hh : (first <= first + k < first + n)%nat) by lia.
  assert (Hin : UPLOAD (first + k) ∈ dispatched history).
  { apply Hcalls. split; [by apply elem_of_seq|]. rewrite (proj1 (Hfound _ Hh)).
    replace (first + k - first)%nat with k by lia. by rewrite Hk. }
  apply elem_of_dispatched in Hin as [f' Hin].
  destruct (Hsent _ _ Hin) as (k' & file' & Hk' & [= Heq] & ->).
  assert (k' = k) as -> by lia. by assert (file' = file) as -> by congruence.
Qed.

Lemma taken_in_then_uploaded_witness :
  Dispatch (UPLOAD 2) (uploadFile_form (Demo.report 9) (Demo.page_of "file" true [] []))
  ∈ history_since
      (handleFiles true [Demo.report 7; Demo.archive; Demo.report 9]
         (Demo.page_of "file" true [] [])).2
      (processBtn.click (Demo.service [])
         (handleFiles true [Demo.report 7; Demo.archive; Demo.report 9]
            (Demo.page_of "file" true [] [])).2).2.
Proof.
  apply (proj2 (proj1 (taken_in_then_uploaded (Demo.service [])
                  [Demo.report 7; Demo.archive; Demo.report 9] Demo.ready [] []
                  (Demo.page_of "file" true [] [])
                  eq_refl (conj (mk_is_Some _ _ eq_refl) (mk_is_Some _ _ eq_refl))
                  (mk_is_Some _ _ eq_refl) eq_refl eq_refl eq_refl eq_refl
                  (fun i r Hr => match proj1 (elem_of_nil r) Hr with end))
                  (UPLOAD 2)
                  (uploadFile_form (Demo.report 9) (Demo.page_of "file" true [] [])))).
  exists 1%nat, (Demo.report 9). split; [vm_compute; reflexivity|]. split; reflexivity.
Defined.
